(** * web-panel: subscription lifecycle, reconciliation and pricing

  A shallow embedding of [src/app.js] (an Express application that sells
  time-limited Pterodactyl hosting accounts) and the properties of its
  specification, settled against the code.

  Conventions of the embedding.
  - Instants ([Date.now()], parsed ISO strings) are integers, milliseconds
    since the epoch, in [Z].  A field that JavaScript may leave [undefined],
    or a number that may be [NaN], is an [option].  A number handed on
    without being read ([order.amount], [panel_data.days]) is [None] also
    when it is an infinity.
  - Prices go through JavaScript's doubles: they are computed with the
    IEEE-754 binary64 operations of [SpecFloat].
  - The remote collaborators (GitHub document store, hosting control plane,
    payment gateway) are a [World]: for each kind of request, the reply as a
    function of the requests issued so far.  Handlers run in a state monad
    that threads the process state and the log of requests.
  - A JavaScript exception is a value [Throw msg]; [try]/[catch] is a
    pattern match on it. *)

From Stdlib Require Import ZArith NArith List String Bool Lia Ascii
  DecimalString.
From Corelib Require Import SpecFloat.
Import ListNotations.
Local Open Scope string_scope.
Local Open Scope list_scope.
Local Open Scope Z_scope.

Set Implicit Arguments.

(** ** JavaScript values and operators used by the source *)

Module JS.

(** [24 * 60 * 60 * 1000] *)
Definition DAY : Z := 24 * 60 * 60 * 1000.

(** [Math.floor(x / d)] and [Math.ceil(x / d)] on integers, [0 < d]. *)
Definition floor_div (x d : Z) : Z := x / d.
Definition ceil_div (x d : Z) : Z := - ((- x) / d).

(** [v || dflt] on a number that may be [undefined] or [NaN]: [0] is
    falsy as well. *)
Definition num_or (v : option Z) (dflt : Z) : Z :=
  match v with
  | Some 0 | None => dflt
  | Some n => n
  end.

(** Truthiness of an optional number. *)
Definition truthy_num (v : option Z) : bool :=
  match v with
  | Some 0 | None => false
  | Some _ => true
  end.

(** [a == b] on identifiers that may be [undefined]. *)
Definition loose_eq (a b : option Z) : bool :=
  match a, b with
  | Some x, Some y => x =? y
  | None, None => true
  | _, _ => false
  end.

(** [a === b] on such identifiers coincides with [==] when both sides are
    numbers. *)
Definition strict_eq (a b : option Z) : bool := loose_eq a b.

(** Truthiness of a string that may be [undefined]. *)
Definition truthy_str (s : option string) : bool :=
  match s with
  | Some (String _ _) => true
  | _ => false
  end.

(** [s === lit] for a string literal. *)
Definition str_is (s : option string) (lit : string) : bool :=
  match s with
  | Some x => String.eqb x lit
  | None => false
  end.

(** [a === b] on strings that may be [undefined]. *)
Definition str_eq (a b : option string) : bool :=
  match a, b with
  | Some x, Some y => String.eqb x y
  | None, None => true
  | _, _ => false
  end.

(** [`${n}`] for an integer. *)
Definition Z_to_string (z : Z) : string := NilZero.string_of_int (Z.to_int z).

(** [hay.includes(needle)] *)
Fixpoint includes (needle hay : string) : bool :=
  if String.prefix needle hay then true
  else match hay with
       | EmptyString => false
       | String _ rest => includes needle rest
       end.

(** [array.findIndex(p)], [None] for [-1]. *)
Fixpoint findIndex {A} (p : A -> bool) (l : list A) : option nat :=
  match l with
  | [] => None
  | x :: rest =>
      if p x then Some O
      else match findIndex p rest with
           | Some i => Some (S i)
           | None => None
           end
  end.

(** [array.splice(i, 1)] *)
Fixpoint splice1 {A} (i : nat) (l : list A) : list A :=
  match l, i with
  | [], _ => []
  | _ :: rest, O => rest
  | x :: rest, S j => x :: splice1 j rest
  end.

(** [array[i] = v] for [i] inside the array. *)
Fixpoint set_nth {A} (i : nat) (v : A) (l : list A) : list A :=
  match l, i with
  | [], _ => []
  | _ :: rest, O => v :: rest
  | x :: rest, S j => x :: set_nth j v rest
  end.

(** *** Doubles *)

Definition double := spec_float.
Definition prec : Z := 53.
Definition emax : Z := 1024.

(** The double nearest to an integer. *)
Definition of_Z (z : Z) : double := binary_normalize prec emax z 0 false.

Definition fdiv (x y : double) : double := SFdiv prec emax x y.
Definition fmul (x y : double) : double := SFmul prec emax x y.

(** [Math.ceil] of a finite double, as an integer; [None] for [NaN] and the
    infinities. *)
Definition Math_ceil (x : double) : option Z :=
  match x with
  | S754_zero _ => Some 0
  | S754_finite s m e =>
      let q := if 0 <=? e then Z.pos m * 2 ^ e else Z.pos m / 2 ^ (- e) in
      let exact := if 0 <=? e then true else Z.pos m mod 2 ^ (- e) =? 0 in
      Some (if s then - q else if exact then q else q + 1)
  | S754_infinity _ | S754_nan => None
  end.

(** The integer a finite double at or beyond 2^53 holds. *)
Definition to_Z (x : double) : Z :=
  match x with
  | S754_finite s m e =>
      let q := if 0 <=? e then Z.pos m * 2 ^ e else Z.pos m / 2 ^ (- e) in
      if s then - q else q
  | _ => 0
  end.

(** The double that an integer result is stored as: itself up to 2^53, the
    nearest double (ties to even) beyond. *)
Definition round (z : Z) : Z :=
  if Z.abs z <=? 2 ^ 53 then z else to_Z (of_Z z).

(** [x + y] and [x - y] on integers held as doubles, finite results. *)
Definition add (x y : Z) : Z := round (x + y).
Definition sub (x y : Z) : Z := round (x - y).

(** *** [parseInt] of a number *)

(** The first decimal digit of [z >= 1], and the power of ten it stands
    at. *)
Fixpoint leading (fuel : nat) (z p : Z) : Z * Z :=
  match fuel with
  | O => (z, p)
  | S fuel' => if z <? 10 then (z, p) else leading fuel' (z / 10) (p * 10)
  end.

(** The first digit of [String(v)] for a double [v >= 1e21], which is
    written in the exponent form [d.ddde+N] with the fewest digits that read
    back as [v]: the first digit of [v], or the one after it when the round
    figure above [v] reads back as [v] (the double nearest to 1e23 is
    99999999999999991611392, written [1e+23]). *)
Definition first_digit (v : Z) : Z :=
  let (d, p) := leading (Z.to_nat (Z.log2 v)) v 1 in
  if SFeqb (of_Z ((d + 1) * p)) (of_Z v)
  then (if d =? 9 then 1 else d + 1)
  else d.

(** [parseInt(x)] for a number [x] that is an integer.  [parseInt] reads the
    digits at the head of [String(x)]: all of them below 1e21, the first one
    from there on. *)
Definition parseInt (x : Z) : Z :=
  if Z.abs x <? 10 ^ 21 then x else Z.sgn x * first_digit (Z.abs x).

(** [parseInt(v) || dflt] on a number that may be [undefined]. *)
Definition parseInt_or (v : option Z) (dflt : Z) : Z :=
  num_or (option_map parseInt v) dflt.

(** *** Dates *)

(** The instants a [Date] holds: 8.64e15 ms on either side of the epoch. *)
Definition MAX_TIME : Z := 8640000000000000.

(** [new Date(t).toISOString()], kept as the instant; [None] is the
    [RangeError] for an instant out of range. *)
Definition toISOString (t : Z) : option Z :=
  if Z.abs t <=? MAX_TIME then Some t else None.

(** *** Object literals used as tables *)

(** The property names of [Object.prototype]: what [obj[key]] finds on an
    object literal [obj] that has no own property [key]. *)
Definition Object_prototype_keys : list string :=
  ["constructor"; "__defineGetter__"; "__defineSetter__"; "hasOwnProperty";
   "__lookupGetter__"; "__lookupSetter__"; "isPrototypeOf";
   "propertyIsEnumerable"; "toString"; "valueOf"; "__proto__";
   "toLocaleString"].

Definition inherited (key : string) : bool :=
  existsb (String.eqb key) Object_prototype_keys.

End JS.

(** ** Data model *)

Module Model.

(** Values of the [specs] object.  The template strings the source builds
    are kept structured: [GB n] is [`${n / 1000}GB`], [MB n] is [`${n}MB`],
    [Pct n] is [`${n}%`]; [Str] holds every other string. *)
Inductive jsv :=
| Undef
| Num (z : Z)
| Str (s : string)
| GB (n : Z)
| MB (n : Z)
| Pct (n : Z).

Definition truthy (v : jsv) : bool :=
  match v with
  | Undef | Num 0 | Str EmptyString => false
  | _ => true
  end.

Definition jsv_eqb (a b : jsv) : bool :=
  match a, b with
  | Undef, Undef => true
  | Num x, Num y | GB x, GB y | MB x, MB y | Pct x, Pct y => x =? y
  | Str x, Str y => String.eqb x y
  | _, _ => false
  end.

Record Specs := {
  ram : jsv; cpu : jsv; disk : jsv;
  ram_raw : jsv; disk_raw : jsv; cpu_raw : jsv
}.

(** [suspend_by]: ['admin'], ['auto'], or absent ([null], deleted). *)
Inductive Suspender := admin | auto.

Definition is_admin (s : option Suspender) : bool :=
  match s with Some admin => true | _ => false end.
Definition is_auto (s : option Suspender) : bool :=
  match s with Some auto => true | _ => false end.

(** [panel_data]: the record a provisioning returns, the one a renewal
    returns, and the one the reconciler synthesizes, as one object with
    optional fields.  The source reads [expires_at] in two ways:
    [pd_expires_at] is the instant [new Date(expires_at).getTime()], [None]
    for [NaN], and [pd_has_expires_at] is the truthiness of the field (a
    string that does not parse is truthy and has no instant). *)
Record PanelData := {
  pd_username : option string;
  pd_password : option string;
  pd_email : option string;
  pd_panel_url : option string;
  pd_server_id : option Z;
  pd_server_name : option string;
  pd_owner_id : option Z;
  pd_owner_email : option string;
  pd_created_at : option Z;
  pd_expires_at : option Z;
  pd_has_expires_at : bool;
  pd_days : option Z;
  pd_specs : option Specs;
  pd_raw_data : option string;
  pd_new_expiry : option Z;
  pd_added_days : option Z;
  pd_total_days : option Z;
  pd_product_id : option string
}.

Definition no_panel_data : PanelData :=
  {| pd_username := None; pd_password := None; pd_email := None;
     pd_panel_url := None; pd_server_id := None; pd_server_name := None;
     pd_owner_id := None; pd_owner_email := None; pd_created_at := None;
     pd_expires_at := None; pd_has_expires_at := false;
     pd_days := None; pd_specs := None;
     pd_raw_data := None; pd_new_expiry := None; pd_added_days := None;
     pd_total_days := None; pd_product_id := None |}.

Record PriceMap := {
  PANEL_1GB : option Z; PANEL_2GB : option Z; PANEL_3GB : option Z;
  PANEL_4GB : option Z; PANEL_5GB : option Z; PANEL_6GB : option Z;
  PANEL_7GB : option Z; PANEL_PREMIUM : option Z
}.

Record Settings := {
  WEBSITE_LOGO : option string;
  WEBSITE_BANNER : option string;
  PRICES : option PriceMap;
  ANNOUNCEMENT : option (string * bool);
  MAINTENANCE_MODE : bool
}.

(** An entry of the persisted document: a subscription, or the entry whose
    [id] is ['_SETTINGS_']. *)
Record Item := {
  id : string;
  username : option string;
  product_name : option string;
  days : option Z;
  password : option string;
  created_at : option Z;
  status : option string;
  suspend_by : option Suspender;
  panel_data : option PanelData;
  settings : option Settings
}.

Definition SETTINGS_ID : string := "_SETTINGS_".

Record Transaction := { tx_status : option string; tx_raw : string }.

(** A value of [panelsStorage]. *)
Record Order := {
  o_order_id : option string;
  o_username : option string;
  o_product_id : option string;
  o_product_name : option string;
  o_basePrice : option Z;
  o_calculatedPrice : option Z;
  o_days : option Z;
  o_amount : option Z;
  o_status : option string;
  o_created_at : option Z;
  o_panel_data : option PanelData;
  o_payment_data : option string;
  o_type : option string;
  o_completed_at : option Z;
  o_transaction : option Transaction;
  o_panel_error : option string;
  o_server_id : option Z;
  o_password : option string
}.

(** A server as the control plane lists it ([server.attributes]). *)
Record RemoteServer := {
  rs_id : Z;
  rs_name : string;
  rs_node : Z;
  rs_suspended : bool;
  rs_memory : Z; rs_cpu : Z; rs_disk : Z;
  rs_user : Z;
  rs_owner : option (string * string);   (* relationships.user: username, email *)
  rs_created_at : Z                      (* [new Date(created_at).getTime()] *)
}.

(** [require('./settings')]: the module is not part of the sources; the
    fields the modelled code reads are parameters of the world. *)
Record Config := {
  cfg_WEBSITE_LOGO : option string;
  cfg_WEBSITE_BANNER : option string;
  cfg_PRICES : option PriceMap;
  cfg_AUTO_DELETE_AFTER_DAYS : option Z;
  cfg_PANEL_DOMAIN : option string
}.

End Model.
Import Model.

(** ** Collaborators and the handler monad *)

Module Proc.

(** Requests sent to the collaborators. *)
Inductive Call :=
| GithubGet
| GithubSha
| GithubPut (doc : list Item) (sha : option string)
| ListServers
| GetServer (sid : option Z)
| DeleteServer (sid : option Z)
| SuspendServer (sid : option Z)
| UnsuspendServer (sid : option Z)
| GetUser (uid : Z)
| DeleteUser (uid : Z)
| FindUser (name : string)
| CreateUser (name email first_name pass : string)
| GetEgg
| CreateServer (name : string) (user : Z) (startup : string)
               (memory disk cpu : option Z)   (* [None] is [NaN], sent as [null] *)
| TransactionDetail (amount : option Z) (order_id : string).

Record UserInfo := { root_admin : bool; user_servers : list Z }.

(** [axios.delete] on a server: a response with its status, or a rejection
    carrying [error.response?.status] and [error.message]. *)
Inductive DeleteReply :=
| Deleted (status : Z)
| DeleteFailed (status : option Z) (message : string).

(** The parsed content of the stored file.  The documents considered are
    the arrays of objects, the entries, and the JSON values that are no
    array, on which [find], [findIndex] and [filter] are a [TypeError]. *)
Inductive Document :=
| Entries (items : list Item)
| NotArray.

(** A reply that may carry [data.errors]. *)
Inductive Reply (A : Type) :=
| Rejected (msg : string)
| Errors (msg : string)
| Ok (a : A).
Arguments Rejected {A} msg.
Arguments Errors {A} msg.
Arguments Ok {A} a.

Record RemoteUser := { ru_id : Z; ru_username : string; ru_email : string }.
Record CreatedServer := { cs_id : Z; cs_name : string }.

(** The world: the configuration, the clock, and each collaborator's reply
    as a function of the requests issued so far (the last one being the
    request answered).  [None] stands for a rejected promise. *)
Record World := {
  config : Config;
  clock : list Call -> Z;
  github_get : list Call -> option Document;
  github_sha : list Call -> option (option string);
  github_put : list Call -> bool;
  list_servers : list Call -> option (list RemoteServer);
  get_server : list Call -> option (option Z);
  delete_server : list Call -> DeleteReply;
  suspend_server : list Call -> bool;
  unsuspend_server : list Call -> bool;
  get_user : list Call -> option UserInfo;
  delete_user : list Call -> bool;
  find_user : list Call -> option (list string);
  create_user : list Call -> Reply RemoteUser;
  get_egg : list Call -> Reply (option string);
  create_server : list Call -> Reply CreatedServer;
  transaction_detail : list Call -> option (option Transaction);
  generated_password : list Call -> string   (* [generatePassword()] *)
}.

(** Process-lifetime state: the order cache and the settings cache. *)
Record State := {
  panelsStorage : list (string * Order);
  settingsCache : option Settings;
  settingsLastFetch : Z;
  log : list Call
}.

Definition M (A : Type) : Type := World -> State -> A * State.

Definition ret {A} (a : A) : M A := fun _ st => (a, st).
Definition bind {A B} (c : M A) (k : A -> M B) : M B :=
  fun w st => let (a, st') := c w st in k a w st'.

Declare Scope proc_scope.
Delimit Scope proc_scope with proc.
Notation "x <- c ;; k" := (bind c (fun x => k))
  (at level 100, c at next level, right associativity) : proc_scope.
Notation "c ;;; k" := (bind c (fun _ => k))
  (at level 100, right associativity) : proc_scope.
Local Open Scope proc_scope.

(** Issue a request and read the collaborator's reply. *)
Definition ask {R} (c : Call) (reply : World -> list Call -> R) : M R :=
  fun w st =>
    let h := log st ++ [c] in
    (reply w h,
     {| panelsStorage := panelsStorage st; settingsCache := settingsCache st;
        settingsLastFetch := settingsLastFetch st; log := h |}).

(** [Date.now()] *)
Definition Date_now : M Z := fun w st => (clock w (log st), st).

Definition the_config : M Config := fun w st => (config w, st).
Definition get_state : M State := fun _ st => (st, st).

Definition set_settings_cache (s : Settings) (t : Z) : M unit :=
  fun _ st =>
    (tt, {| panelsStorage := panelsStorage st; settingsCache := Some s;
            settingsLastFetch := t; log := log st |}).

Definition set_orders (os : list (string * Order)) : M unit :=
  fun _ st =>
    (tt, {| panelsStorage := os; settingsCache := settingsCache st;
            settingsLastFetch := settingsLastFetch st; log := log st |}).

(** The requests a computation adds to the log. *)
Definition issued {A} (c : M A) (w : World) (st : State) : list Call :=
  skipn (List.length (log st)) (log (snd (c w st))).

(** The documents of the PUT requests in a log. *)
Definition puts (calls : list Call) : list (list Item) :=
  flat_map (fun c => match c with GithubPut doc _ => [doc] | _ => [] end) calls.

(** The servers a log asks the control plane to suspend, to unsuspend and
    to delete. *)
Definition suspends (calls : list Call) : list (option Z) :=
  flat_map (fun c => match c with SuspendServer s => [s] | _ => [] end) calls.

Definition unsuspends (calls : list Call) : list (option Z) :=
  flat_map (fun c => match c with UnsuspendServer s => [s] | _ => [] end) calls.

Definition deletions (calls : list Call) : list (option Z) :=
  flat_map (fun c => match c with DeleteServer s => [s] | _ => [] end) calls.

(** The requests to the document store. *)
Definition is_github (c : Call) : bool :=
  match c with
  | GithubGet | GithubSha | GithubPut _ _ => true
  | _ => false
  end.

Definition store_only (calls : list Call) : Prop :=
  Forall (fun c => is_github c = true) calls.

(** [st'] is [st] after the requests [l]. *)
Definition grows (st st' : State) (l : list Call) : Prop :=
  log st' = log st ++ l.

(** A thrown exception, or a returned value. *)
Inductive Result (A : Type) :=
| Throw (msg : string)
| Return (a : A).
Arguments Throw {A} msg.
Arguments Return {A} a.

End Proc.
Import Proc.
Local Open Scope proc_scope.

(** ** Persistent store adapter and settings cache *)

Module Store.

(** [fetchData] *)
Definition fetchData : M Document :=
  r <- ask GithubGet github_get ;;
  ret (match r with Some d => d | None => Entries [] end).

(** [updateData]: reads the current [sha], then PUTs the whole document.
    Every failure is swallowed. *)
Definition updateData (newData : list Item) : M unit :=
  current <- ask GithubSha github_sha ;;
  match current with
  | None => ret tt
  | Some sha => ask (GithubPut newData sha) github_put ;;; ret tt
  end.

Definition is_settings (it : Item) : bool := String.eqb (id it) SETTINGS_ID.

Definition default_settings (c : Config) : Settings :=
  {| WEBSITE_LOGO := cfg_WEBSITE_LOGO c;
     WEBSITE_BANNER := cfg_WEBSITE_BANNER c;
     PRICES := cfg_PRICES c;
     ANNOUNCEMENT := Some (EmptyString, false);
     MAINTENANCE_MODE := false |}.

(** The [try] block of [loadSettings]; the [TypeError] of [find] on a
    document that is no array is caught, and the defaults are returned. *)
Definition read_settings (now : Z) (c : Config) : M Settings :=
  githubData <- fetchData ;;
  match githubData with
  | Entries items =>
      match find is_settings items with
      | Some {| settings := Some s' |} => set_settings_cache s' now ;;; ret s'
      | _ => ret (default_settings c)
      end
  | NotArray => ret (default_settings c)
  end.

(** [loadSettings] *)
Definition loadSettings : M Settings :=
  now <- Date_now ;;
  st <- get_state ;;
  c <- the_config ;;
  match settingsCache st with
  | Some s =>
      if now - settingsLastFetch st <? 60000 then ret s
      else read_settings now c
  | None => read_settings now c
  end.

(** [loadServerDatabase]; the [TypeError] of [filter] on a document that is
    no array is caught, and [[]] is returned. *)
Definition loadServerDatabase : M (list Item) :=
  data <- fetchData ;;
  ret (match data with
       | Entries items => filter (fun it => negb (is_settings it)) items
       | NotArray => []
       end).

Definition settings_item (s : Settings) : Item :=
  {| id := SETTINGS_ID; username := None; product_name := None; days := None;
     password := None; created_at := None; status := None;
     suspend_by := None; panel_data := None; settings := Some s |}.

(** [saveServerDatabase] *)
Definition saveServerDatabase (data : list Item) : M unit :=
  currentSettings <- loadSettings ;;
  updateData (data ++ [settings_item currentSettings]).

End Store.
Import Store.

(** ** Price calculator ([validatePrice]) *)

Module Price.

(** The fields of [req.body] the validator reads. *)
Record Body := {
  product_id : option string;
  days : option Z;        (* [parseInt(req.body.days)], [None] for [NaN] *)
  amount : option Z       (* [req.body.amount], a JSON number (an integer)
                             when present *)
}.

(** The [if]/[else if] chain over [req.body.product_id]. *)
Definition basePrice_of (pid : option string) (priceMap : PriceMap) : Z :=
  if JS.str_is pid "panel-1gb" then JS.num_or (PANEL_1GB priceMap) 3000
  else if JS.str_is pid "panel-2gb" then JS.num_or (PANEL_2GB priceMap) 5000
  else if JS.str_is pid "panel-3gb" then JS.num_or (PANEL_3GB priceMap) 7000
  else if JS.str_is pid "panel-4gb" then JS.num_or (PANEL_4GB priceMap) 9000
  else if JS.str_is pid "panel-5gb" then JS.num_or (PANEL_5GB priceMap) 11000
  else if JS.str_is pid "panel-6gb" then JS.num_or (PANEL_6GB priceMap) 14000
  else if JS.str_is pid "panel-7gb" then JS.num_or (PANEL_7GB priceMap) 18000
  else if JS.str_is pid "panel-premium" then JS.num_or (PANEL_PREMIUM priceMap) 30000
  else 0.

(** [basePrice / 30] *)
Definition pricePerDay (basePrice : Z) : JS.double :=
  JS.fdiv (JS.of_Z basePrice) (JS.of_Z 30).

(** [Math.ceil(pricePerDay * days)] *)
Definition calculatedPrice (basePrice days : Z) : option Z :=
  JS.Math_ceil (JS.fmul (pricePerDay basePrice) (JS.of_Z days)).

Inductive Outcome :=
| Invalid (expected : option Z) (received : Z) (base_price days : Z)
          (price_per_day : JS.double)             (* status 400 *)
| Next (calculated : option (option Z * Z * JS.double)).
                   (* [req.calculatedPrice], [req.basePrice], [req.pricePerDay] *)

Definition opt_Z_eqb (a b : option Z) : bool :=
  match a, b with
  | Some x, Some y => x =? y
  | None, None => true
  | _, _ => false
  end.

(** The body of the [then] callback. *)
Definition check_price (st : Settings) (c : Config) (body : Body) : Outcome :=
  let priceMap := match PRICES st with Some m => Some m | None => cfg_PRICES c end in
  match priceMap with
  | Some pm =>
      if JS.truthy_str (product_id body) then
        let basePrice := basePrice_of (product_id body) pm in
        let d := JS.num_or (days body) 30 in
        let calc := calculatedPrice basePrice d in
        match amount body with
        | Some a =>
            if JS.truthy_num (Some a)
               && negb (opt_Z_eqb (Some (JS.parseInt a)) calc)
            then Invalid calc (JS.parseInt a) basePrice d (pricePerDay basePrice)
            else Next (Some (calc, basePrice, pricePerDay basePrice))
        | None => Next (Some (calc, basePrice, pricePerDay basePrice))
        end
      else Next None
  | None => Next None
  end.

(** [validatePrice] *)
Definition validatePrice (body : Body) : M Outcome :=
  st <- loadSettings ;;
  c <- the_config ;;
  ret (check_price st c body).

(** The static fallback prices of the chain. *)
Definition fallback_prices : list Z :=
  [3000; 5000; 7000; 9000; 11000; 14000; 18000; 30000].

Definition no_prices : PriceMap :=
  {| PANEL_1GB := None; PANEL_2GB := None; PANEL_3GB := None;
     PANEL_4GB := None; PANEL_5GB := None; PANEL_6GB := None;
     PANEL_7GB := None; PANEL_PREMIUM := None |}.

Definition settings_with (pm : PriceMap) : Settings :=
  {| WEBSITE_LOGO := None; WEBSITE_BANNER := None; PRICES := Some pm;
     ANNOUNCEMENT := None; MAINTENANCE_MODE := false |}.

Definition empty_config : Config :=
  {| cfg_WEBSITE_LOGO := None; cfg_WEBSITE_BANNER := None; cfg_PRICES := None;
     cfg_AUTO_DELETE_AFTER_DAYS := None; cfg_PANEL_DOMAIN := None |}.

End Price.

(** ** Reconciler ([app.get('/admin')]) *)

Module Reconciler.

Inductive StatusCode := admin_locked | suspended | expired_running | active.

Record Stats := { total : Z; n_active : Z; n_suspended : Z; n_expired : Z }.

Record Row := {
  serverId : Z;
  name : string;
  user : string;
  node : Z;
  activeDays : Z;
  daysLeft : option Z;
  expiresAt : option Z;
  statusCode : StatusCode;
  statusColor : string;
  statusText : string;
  row_specs : Specs
}.

Definition ramDisplay (memory : Z) : jsv :=
  if memory =? 0 then Str "Unlimited"
  else if memory >=? 1000 then GB memory else MB memory.

Definition cpuDisplay (cpu : Z) : jsv :=
  if cpu =? 0 then Str "Unlimited" else Pct cpu.

Definition ownerUsername (attr : RemoteServer) : string :=
  match rs_owner attr with
  | Some (u, _) => u
  | None => ("User_" ++ JS.Z_to_string (rs_user attr))%string
  end.

Definition ownerEmail (attr : RemoteServer) : string :=
  match rs_owner attr with
  | Some (_, e) => e
  | None => "No Email"
  end.

(** [storedPanels.find(p => p.panel_data && p.panel_data.server_id === serverId)],
    together with the [panel_data] the predicate has seen. *)
Fixpoint find_stored (sid : Z) (l : list Item) : option (Item * PanelData) :=
  match l with
  | [] => None
  | p :: rest =>
      match panel_data p with
      | Some pd =>
          if JS.strict_eq (pd_server_id pd) (Some sid) then Some (p, pd)
          else find_stored sid rest
      | None => find_stored sid rest
      end
  end.

Definition defaultDays : Z := 30.

Definition imported_specs (attr : RemoteServer) : Specs :=
  {| ram := ramDisplay (rs_memory attr); cpu := cpuDisplay (rs_cpu attr);
     disk := Num (rs_disk attr);
     ram_raw := Undef; disk_raw := Undef; cpu_raw := Undef |}.

Definition imported_panel_data (attr : RemoteServer) : PanelData :=
  {| pd_username := Some (ownerUsername attr);
     pd_password := Some "N/A";
     pd_email := None;
     pd_panel_url := None;
     pd_server_id := Some (rs_id attr);
     pd_server_name := Some (rs_name attr);
     pd_owner_id := Some (rs_user attr);
     pd_owner_email := Some (ownerEmail attr);
     pd_created_at := None;
     pd_expires_at := Some (rs_created_at attr + defaultDays * JS.DAY);
     pd_has_expires_at := true;
     pd_days := None;
     pd_specs := Some (imported_specs attr);
     pd_raw_data := None; pd_new_expiry := None; pd_added_days := None;
     pd_total_days := None; pd_product_id := None |}.

(** [newServerEntry] *)
Definition newServerEntry (attr : RemoteServer) : Item :=
  {| id := ("AUTO-" ++ JS.Z_to_string (rs_id attr))%string;
     username := Some (ownerUsername attr);
     product_name := Some "Imported Server";
     days := Some defaultDays;
     password := Some "N/A (External)";
     created_at := Some (rs_created_at attr);
     status := Some "active";
     suspend_by := None;
     panel_data := Some (imported_panel_data attr);
     settings := None |}.

(** [expiresAt]: the instant of the stored [expires_at] when the field is
    truthy, else [createdTime + days]; [None] is [NaN]. *)
Definition expiresAt_of (storedPanel : Item) (pd : PanelData) (createdTime : Z)
  : option Z :=
  if pd_has_expires_at pd then pd_expires_at pd
  else
    match days storedPanel with
    | Some d => Some (createdTime + d * JS.DAY)
    | None => None
    end.

(** [Math.ceil((expiresAt - now) / (1000 * 60 * 60 * 24))] *)
Definition daysLeft_of (expiresAt : option Z) (now : Z) : option Z :=
  match expiresAt with
  | Some e => Some (JS.ceil_div (e - now) JS.DAY)
  | None => None
  end.

(** [daysLeft <= 0], false on [NaN]. *)
Definition expired (daysLeft : option Z) : bool :=
  match daysLeft with
  | Some d => d <=? 0
  | None => false
  end.

(** The status block: code, colour, text, and the counter it bumps. *)
Definition derive_status (isRealSuspended : bool)
  (localSuspendBy : option Suspender) (daysLeft : option Z) (st : Stats)
  : StatusCode * string * string * Stats :=
  if isRealSuspended then
    if is_admin localSuspendBy then
      (admin_locked, "red", "LOCKED BY ADMIN",
       {| total := total st; n_active := n_active st;
          n_suspended := n_suspended st + 1; n_expired := n_expired st |})
    else
      (suspended, "yellow", "SUSPENDED",
       {| total := total st; n_active := n_active st;
          n_suspended := n_suspended st + 1; n_expired := n_expired st |})
  else
    if expired daysLeft then
      (expired_running, "red", "EXPIRED (Running)",
       {| total := total st; n_active := n_active st;
          n_suspended := n_suspended st; n_expired := n_expired st + 1 |})
    else
      (active, "green", "RUNNING",
       {| total := total st; n_active := n_active st + 1;
          n_suspended := n_suspended st; n_expired := n_expired st |}).

(** What the [map] callback reads and updates outside itself. *)
Record Acc := {
  storedPanels : list Item;
  isDatabaseUpdated : bool;
  stats : Stats
}.

(** The [map] callback, for one remote server. *)
Definition enrich (now : Z) (attr : RemoteServer) (acc : Acc) : Row * Acc :=
  let createdTime := rs_created_at attr in
  let '(storedPanel, pd, panels, updated) :=
    match find_stored (rs_id attr) (storedPanels acc) with
    | Some (p, pd) => (p, pd, storedPanels acc, isDatabaseUpdated acc)
    | None =>
        (newServerEntry attr, imported_panel_data attr,
         storedPanels acc ++ [newServerEntry attr], true)
    end in
  let expiresAt := expiresAt_of storedPanel pd createdTime in
  let dl := daysLeft_of expiresAt now in
  let '(code, color, text, st') :=
    derive_status (rs_suspended attr) (suspend_by storedPanel) dl (stats acc) in
  ({| serverId := rs_id attr;
      name := rs_name attr;
      user := ownerUsername attr;
      node := rs_node attr;
      activeDays := JS.floor_div (now - createdTime) JS.DAY;
      daysLeft := dl;
      expiresAt := pd_expires_at pd;
      statusCode := code;
      statusColor := color;
      statusText := text;
      row_specs :=
        match pd_specs pd with
        | Some s => s
        | None =>
            {| ram := ramDisplay (rs_memory attr); cpu := cpuDisplay (rs_cpu attr);
               disk := Undef; ram_raw := Undef; disk_raw := Undef;
               cpu_raw := Undef |}
        end |},
   {| storedPanels := panels; isDatabaseUpdated := updated; stats := st' |}).



Definition zero_stats : Stats :=
  {| total := 0; n_active := 0; n_suspended := 0; n_expired := 0 |}.


(** The status table as the specification words it. *)
Definition status_spec (remote_suspended : bool) (sb : option Suspender)
  (expires_at now : Z) : StatusCode :=
  if remote_suspended && is_admin sb then admin_locked
  else if remote_suspended then suspended
  else if JS.ceil_div (expires_at - now) JS.DAY <=? 0 then expired_running
  else active.

(** The entry the [map] callback displays for a remote server: the stored
    entry that tracks it, or the one it synthesizes. *)
Definition displayed (attr : RemoteServer) (known : list Item)
  : Item * PanelData :=
  match find_stored (rs_id attr) known with
  | Some found => found
  | None => (newServerEntry attr, imported_panel_data attr)
  end.

(** The status table over an expiry that may be missing ([NaN]): an entry
    without an expiry never counts as expired. *)
Definition status_table (remote_suspended : bool) (sb : option Suspender)
  (expiry : option Z) (now : Z) : StatusCode :=
  match expiry with
  | Some e => status_spec remote_suspended sb e now
  | None =>
      if remote_suspended && is_admin sb then admin_locked
      else if remote_suspended then suspended
      else active
  end.

(** The status code of what [derive_status] returns. *)
Definition code_of (r : StatusCode * string * string * Stats) : StatusCode :=
  fst (fst (fst r)).

(** A status that counts towards [stats.suspended]. *)
Definition counts_suspended (c : StatusCode) : bool :=
  match c with
  | admin_locked | suspended => true
  | _ => false
  end.



End Reconciler.

(** ** Deprovisioning ([deleteExpiredPanel], [POST /admin/api/panels/delete/:serverId]) *)

Module Deprovision.

(** [panel.panel_data && panel.panel_data.server_id == serverId] *)
Definition order_tracks (serverId : option Z) (o : Order) : bool :=
  match o_panel_data o with
  | Some pd => JS.loose_eq (pd_server_id pd) serverId
  | None => false
  end.

(** The array index a key stands for, if any: the canonical decimal of a
    number below [2^32 - 1]. *)
Definition index_of_key (key : string) : option N :=
  match NilEmpty.uint_of_string key with
  | Some u =>
      let n := N.of_uint u in
      if String.eqb (NilZero.string_of_uint (N.to_uint n)) key
         && (n <? 4294967295)%N
      then Some n else None
  | None => None
  end.

(** The entries whose key is an array index, in ascending order of the
    index. *)
Fixpoint insert_indexed (n : N) (kv : string * Order)
  (l : list (N * (string * Order))) : list (N * (string * Order)) :=
  match l with
  | [] => [(n, kv)]
  | (m, kv') :: rest =>
      if (n <? m)%N then (n, kv) :: l else (m, kv') :: insert_indexed n kv rest
  end.

Fixpoint indexed (os : list (string * Order)) : list (N * (string * Order)) :=
  match os with
  | [] => []
  | kv :: rest =>
      match index_of_key (fst kv) with
      | Some n => insert_indexed n kv (indexed rest)
      | None => indexed rest
      end
  end.

(** [Object.entries(panelsStorage)]: the own properties, those whose key is
    an array index first, in ascending order, then the others in the order
    of their creation.  The prototype, which the cache holds under
    ['__proto__'] once an order has been assigned to that name, is none. *)
Definition entries (os : list (string * Order)) : list (string * Order) :=
  map snd (indexed os)
  ++ filter (fun kv => match index_of_key (fst kv) with
                       | Some _ => false
                       | None => negb (String.eqb (fst kv) "__proto__")
                       end) os.

(** The [for ... of Object.entries(panelsStorage)] loop: the first order that
    tracks the server is deleted. *)
Definition forget_order (serverId : option Z) (os : list (string * Order))
  : list (string * Order) :=
  match find (fun kv => order_tracks serverId (snd kv)) (entries os) with
  | Some (key, _) => filter (fun kv => negb (String.eqb (fst kv) key)) os
  | None => os
  end.

Definition forget_tracked_order (serverId : option Z) : M unit :=
  st <- get_state ;;
  set_orders (forget_order serverId (panelsStorage st)).

(** [userServers.filter(s => s.attributes.id != serverId)] *)
Definition remainingServers (serverId : option Z) (ua : UserInfo) : list Z :=
  filter (fun s => negb (JS.loose_eq (Some s) serverId)) (user_servers ua).

(** [deleteExpiredPanel] *)
Definition deleteExpiredPanel (serverId : option Z) (username : option string)
  : M bool :=
  info <- ask (GetServer serverId) get_server ;;
  let ownerId := match info with Some u => u | None => None end in
  (match ownerId with
   | Some uid =>
       if JS.truthy_num ownerId then
         ask (DeleteServer serverId) delete_server ;;;
         userCheck <- ask (GetUser uid) get_user ;;
         match userCheck with
         | Some userAttr =>
             if negb (root_admin userAttr)
                && (List.length (remainingServers serverId userAttr) =? 0)%nat
             then ask (DeleteUser uid) delete_user ;;; ret tt
             else ret tt
         | None => ret tt
         end
       else ret tt
   | None => ret tt
   end) ;;;
  forget_tracked_order serverId ;;;
  ret true.

(** [p.panel_data && p.panel_data.server_id == serverId] *)
Definition tracks_loose (serverId : option Z) (p : Item) : bool :=
  match panel_data p with
  | Some pd => JS.loose_eq (pd_server_id pd) serverId
  | None => false
  end.

Record DeleteResponse := {
  success : bool;
  api_message : string;
  owner_status : string;
  local_db_deleted : bool
}.

(** The outcome of the remote deletion: [apiSuccess] and [apiMessage]. *)
Definition api_outcome (r : DeleteReply) : bool * string :=
  match r with
  | Deleted st =>
      if st =? 204 then (true, "Server berhasil dihapus dari Pterodactyl")
      else (false, EmptyString)
  | DeleteFailed (Some 404) _ =>
      (true, "Server tidak ditemukan di Pterodactyl (mungkin sudah dihapus)")
  | DeleteFailed _ message =>
      (false, ("Gagal menghapus dari Pterodactyl: " ++ message)%string)
  end.

(** The owner's id when the lookup of the server is rejected: the local
    record's [owner_id], when it is truthy. *)
Definition local_owner (serverId : option Z) (db : list Item) : option Z :=
  match find (tracks_loose serverId) db with
  | Some {| panel_data := Some pd |} =>
      if JS.truthy_num (pd_owner_id pd) then pd_owner_id pd else None
  | _ => None
  end.

(** The first [try] of the handler: the owner's id, from the control plane
    or, when that lookup is rejected, from the local record. *)
Definition lookup_owner (serverId : option Z) : M (option Z) :=
  info <- ask (GetServer serverId) get_server ;;
  match info with
  | Some u => ret u
  | None => currentDb <- loadServerDatabase ;;
            ret (local_owner serverId currentDb)
  end.

(** The [if (ownerId && apiSuccess)] block: the owner is deleted when no
    other server is left to a user who is no administrator. *)
Definition cleanup_owner (serverId ownerId : option Z) (apiSuccess : bool)
  : M string :=
  match ownerId with
  | Some uid =>
      if JS.truthy_num ownerId && apiSuccess then
        userCheck <- ask (GetUser uid) get_user ;;
        match userCheck with
        | Some userAttr =>
            if root_admin userAttr then ret "Owner adalah Admin (tidak dihapus)."
            else if (List.length (remainingServers serverId userAttr) =? 0)%nat
            then deleted <- ask (DeleteUser uid) delete_user ;;
                 ret (if deleted : bool
                      then "Owner tidak memiliki server lagi & telah dihapus."
                      else "Gagal memproses pembersihan owner.")
            else ret "Owner masih memiliki server lain."
        | None => ret "Gagal memproses pembersihan owner."
        end
      else ret "Owner masih memiliki server lain."
  | None => ret "Owner masih memiliki server lain."
  end.

(** The removal of the local record: [localDeleted]. *)
Definition delete_local (serverId : option Z) : M bool :=
  currentDb <- loadServerDatabase ;;
  match JS.findIndex (tracks_loose serverId) currentDb with
  | Some serverIndex =>
      saveServerDatabase (JS.splice1 serverIndex currentDb) ;;; ret true
  | None => ret false
  end.

(** The handler of [POST /admin/api/panels/delete/:serverId]. *)
Definition admin_delete_panel (sid : Z) : M DeleteResponse :=
  let serverId := Some sid in
  ownerId <- lookup_owner serverId ;;
  deleteResponse <- ask (DeleteServer serverId) delete_server ;;
  let (apiSuccess, apiMessage) := api_outcome deleteResponse in
  ownerMessage <- cleanup_owner serverId ownerId apiSuccess ;;
  localDeleted <- delete_local serverId ;;
  forget_tracked_order serverId ;;;
  ret {| success := true; api_message := apiMessage;
         owner_status := ownerMessage; local_db_deleted := localDeleted |}.

(** The remote deletion succeeded, or the server was already absent. *)
Definition remote_gone (r : DeleteReply) : bool := fst (api_outcome r).

(** The requests of the owner's cleanup. *)
Definition is_cleanup (c : Call) : bool :=
  match c with
  | GetUser _ | DeleteUser _ => true
  | _ => false
  end.

End Deprovision.

(** ** Expiration sweeper ([setInterval]) *)

Module Sweeper.

Record Queued := {
  index : nat;
  q_serverId : option Z;
  q_username : option string
}.

Definition with_suspend_by (srv : Item) (s : option Suspender) : Item :=
  {| id := id srv; username := username srv; product_name := product_name srv;
     days := days srv; password := password srv; created_at := created_at srv;
     status := status srv; suspend_by := s; panel_data := panel_data srv;
     settings := settings srv |}.

(** [expireTime < now], false on [NaN]. *)
Definition past (expireTime : option Z) (now : Z) : bool :=
  match expireTime with
  | Some e => e <? now
  | None => false
  end.

(** [daysExpired >= AUTO_DELETE_AFTER_DAYS], false on [NaN]. *)
Definition beyond_grace (expireTime : option Z) (now grace : Z) : bool :=
  match expireTime with
  | Some e => JS.floor_div (now - e) JS.DAY >=? grace
  | None => false
  end.

(** The body of the first loop for [db[i]]: the entry as the iteration leaves
    it, whether it changed, and what it queues.  [Throw] is the [TypeError]
    of reading [expires_at] of a missing [panel_data]. *)
Definition sweep_entry (now grace : Z) (i : nat) (srv : Item)
  : M (Result (Item * bool * option Queued)) :=
  if is_admin (suspend_by srv) then ret (Return (srv, false, None))
  else
    match panel_data srv with
    | None => ret (Throw "TypeError")
    | Some pd =>
        let expireTime := pd_expires_at pd in
        r <- (if past expireTime now && negb (is_auto (suspend_by srv)) then
                ok <- ask (SuspendServer (pd_server_id pd)) suspend_server ;;
                ret (if ok : bool then (with_suspend_by srv (Some auto), true)
                     else (srv, false))
              else ret (srv, false)) ;;
        let queued :=
          if past expireTime now && beyond_grace expireTime now grace
          then Some {| index := i; q_serverId := pd_server_id pd;
                       q_username := username srv |}
          else None in
        ret (Return (fst r, snd r, queued))
    end.

(** The first loop, from index [i] on. *)
Fixpoint sweep_loop (now grace : Z) (i : nat) (todo : list Item)
  : M (Result (list Item * bool * list Queued)) :=
  match todo with
  | [] => ret (Return ([], false, []))
  | srv :: rest =>
      r <- sweep_entry now grace i srv ;;
      match r with
      | Throw e => ret (Throw e)
      | Return (srv', changed, queued) =>
          rs <- sweep_loop now grace (S i) rest ;;
          match rs with
          | Throw e => ret (Throw e)
          | Return (rest', changed', queue) =>
              ret (Return (srv' :: rest', changed || changed',
                           match queued with
                           | Some q => q :: queue
                           | None => queue
                           end))
          end
      end
  end.

(** The second loop, over [panelsToDelete.reverse()]. *)
Fixpoint delete_pass (queue : list Queued) (db : list Item) (dbChanged : bool)
  : M (list Item * bool) :=
  match queue with
  | [] => ret (db, dbChanged)
  | panel :: rest =>
      ok <- Deprovision.deleteExpiredPanel (q_serverId panel) (q_username panel) ;;
      if ok : bool then delete_pass rest (JS.splice1 (index panel) db) true
      else delete_pass rest db dbChanged
  end.

(** [config.AUTO_DELETE_AFTER_DAYS || 7] *)
Definition AUTO_DELETE_AFTER_DAYS (c : Config) : Z :=
  JS.num_or (cfg_AUTO_DELETE_AFTER_DAYS c) 7.

(** One tick of the sweeper.  The result is the database as the tick leaves
    it in memory, or the exception its outer [catch] swallows. *)
Definition tick : M (Result (list Item)) :=
  db <- loadServerDatabase ;;
  now <- Date_now ;;
  c <- the_config ;;
  r <- sweep_loop now (AUTO_DELETE_AFTER_DAYS c) O db ;;
  match r with
  | Throw e => ret (Throw e)
  | Return (db1, dbChanged, panelsToDelete) =>
      r2 <- delete_pass (rev panelsToDelete) db1 dbChanged ;;
      (if snd r2 : bool then saveServerDatabase (fst r2) else ret tt) ;;;
      ret (Return (fst r2))
  end.

(** An entry under the administrator's lock. *)
Definition locked (srv : Item) : bool := is_admin (suspend_by srv).

(** The server to suspend for an entry: that of an entry past its expiry
    that neither the administrator nor the sweeper has suspended. *)
Definition due (now : Z) (srv : Item) : list (option Z) :=
  if locked srv then []
  else match panel_data srv with
       | Some pd =>
           if past (pd_expires_at pd) now && negb (is_auto (suspend_by srv))
           then [pd_server_id pd] else []
       | None => []
       end.

(** The database as the claim has the suspend pass leave it, the log being
    [h] when the pass starts: an entry that is due gets its suspend request,
    and [suspend_by = 'auto'] when the control plane accepts it; every other
    entry, and a due entry whose request fails, stays as it is. *)
Fixpoint suspend_pass (w : World) (h : list Call) (now : Z) (todo : list Item)
  : list Item :=
  match todo with
  | [] => []
  | srv :: rest =>
      match due now srv with
      | sid :: _ =>
          (if suspend_server w (h ++ [SuspendServer sid])
           then with_suspend_by srv (Some auto) else srv)
          :: suspend_pass w (h ++ [SuspendServer sid]) now rest
      | [] => srv :: suspend_pass w h now rest
      end
  end.

(** An entry the tick queues for deletion: not under the administrator's
    lock, past its expiry, the grace elapsed. *)
Definition doomed (now grace : Z) (srv : Item) : bool :=
  negb (locked srv)
  && match panel_data srv with
     | Some pd =>
         past (pd_expires_at pd) now && beyond_grace (pd_expires_at pd) now grace
     | None => false
     end.

(** The positions of the entries the tick queues, those of [todo] counted
    from [i]. *)
Fixpoint doomed_indices (now grace : Z) (i : nat) (todo : list Item) : list nat :=
  match todo with
  | [] => []
  | srv :: rest =>
      (if doomed now grace srv then [i] else [])
      ++ doomed_indices now grace (S i) rest
  end.

(** An entry the first loop can read: under the lock, where the loop reads
    nothing else, or with a [panel_data]. *)
Definition readable (srv : Item) : bool :=
  locked srv || match panel_data srv with Some _ => true | None => false end.

(** The entries leave the first loop with their lock as it was, and a locked
    entry leaves it unchanged. *)
Definition lock_kept (a b : Item) : Prop :=
  locked b = locked a /\ (locked a = true -> b = a).

(** Lists of indices in ascending and in descending order. *)
Fixpoint ascending (l : list nat) : Prop :=
  match l with
  | [] => True
  | x :: rest => Forall (fun y => (x < y)%nat) rest /\ ascending rest
  end.

Fixpoint descending (l : list nat) : Prop :=
  match l with
  | [] => True
  | x :: rest => Forall (fun y => (y < x)%nat) rest /\ descending rest
  end.

End Sweeper.

(** ** Renewal workflow ([renewPanel]) *)

Module Renewal.

Definition with_server_id (o : Order) (sid : option Z) : Order :=
  {| o_order_id := o_order_id o; o_username := o_username o;
     o_product_id := o_product_id o; o_product_name := o_product_name o;
     o_basePrice := o_basePrice o; o_calculatedPrice := o_calculatedPrice o;
     o_days := o_days o; o_amount := o_amount o; o_status := o_status o;
     o_created_at := o_created_at o; o_panel_data := o_panel_data o;
     o_payment_data := o_payment_data o; o_type := o_type o;
     o_completed_at := o_completed_at o; o_transaction := o_transaction o;
     o_panel_error := o_panel_error o; o_server_id := sid;
     o_password := o_password o |}.

Definition with_basePrice (o : Order) (b : Z) : Order :=
  {| o_order_id := o_order_id o; o_username := o_username o;
     o_product_id := o_product_id o; o_product_name := o_product_name o;
     o_basePrice := Some b; o_calculatedPrice := o_calculatedPrice o;
     o_days := o_days o; o_amount := o_amount o; o_status := o_status o;
     o_created_at := o_created_at o; o_panel_data := o_panel_data o;
     o_payment_data := o_payment_data o; o_type := o_type o;
     o_completed_at := o_completed_at o; o_transaction := o_transaction o;
     o_panel_error := o_panel_error o; o_server_id := o_server_id o;
     o_password := o_password o |}.

Definition with_expires_at (pd : PanelData) (e : Z) : PanelData :=
  {| pd_username := pd_username pd; pd_password := pd_password pd;
     pd_email := pd_email pd; pd_panel_url := pd_panel_url pd;
     pd_server_id := pd_server_id pd; pd_server_name := pd_server_name pd;
     pd_owner_id := pd_owner_id pd; pd_owner_email := pd_owner_email pd;
     pd_created_at := pd_created_at pd; pd_expires_at := Some e;
     pd_has_expires_at := true;
     pd_days := pd_days pd; pd_specs := pd_specs pd;
     pd_raw_data := pd_raw_data pd; pd_new_expiry := pd_new_expiry pd;
     pd_added_days := pd_added_days pd; pd_total_days := pd_total_days pd;
     pd_product_id := pd_product_id pd |}.

(** [p.username === u || (p.panel_data && p.panel_data.username === u)] *)
Definition has_username (u : option string) (p : Item) : bool :=
  JS.str_eq (username p) u
  || match panel_data p with
     | Some pd => JS.str_eq (pd_username pd) u
     | None => false
     end.

Definition no_specs : Specs :=
  {| ram := Undef; cpu := Undef; disk := Undef;
     ram_raw := Undef; disk_raw := Undef; cpu_raw := Undef |}.

(** The chain that infers [productId] from the stored [specs]; the
    [TypeError] is [includes] on a missing [product_name]. *)
Definition infer_productId (server : Item) (pd : PanelData) : Result string :=
  let specs := match pd_specs pd with Some s => s | None => no_specs end in
  let r := if truthy (ram_raw specs) then ram_raw specs else ram specs in
  let ram_is v := jsv_eqb r v in
  let shown v := jsv_eqb (ram specs) v in
  let unlimited :=
    if ram_is (Num 0) || shown (Str "Unlimited") then Return true
    else match product_name server with
         | Some pn => Return (JS.includes "Unlimited" pn)
         | None => Throw "TypeError"
         end in
  match unlimited with
  | Throw e => Throw e
  | Return true => Return "panel-premium"
  | Return false =>
      Return
        (if ram_is (Num 1500) || ram_is (Str "1500") || shown (GB 1500) then "panel-1gb"
         else if ram_is (Num 3500) || ram_is (Str "3500") || shown (GB 3500) then "panel-2gb"
         else if ram_is (Num 4000) || ram_is (Str "4000") || shown (GB 4000) then "panel-3gb"
         else if ram_is (Num 5000) || ram_is (Str "5000") then "panel-4gb"
         else if ram_is (Num 6000) || ram_is (Str "6000") || shown (GB 6000) then "panel-5gb"
         else if ram_is (Num 7000) || ram_is (Str "7000") then "panel-6gb"
         else if ram_is (Num 8000) || ram_is (Str "8000") || shown (GB 8000) then "panel-7gb"
         else "panel-1gb")
  end.

(** The chain that prices [productId]. *)
Definition renewal_basePrice (productId : string) (priceMap : PriceMap) : Z :=
  let pid_is lit := String.eqb productId lit in
  if pid_is "panel-1gb" then JS.num_or (PANEL_1GB priceMap) 3000
  else if pid_is "panel-2gb" then JS.num_or (PANEL_2GB priceMap) 5000
  else if pid_is "panel-3gb" then JS.num_or (PANEL_3GB priceMap) 7000
  else if pid_is "panel-4gb" then JS.num_or (PANEL_4GB priceMap) 9000
  else if pid_is "panel-5gb" then JS.num_or (PANEL_5GB priceMap) 11000
  else if pid_is "panel-6gb" then JS.num_or (PANEL_6GB priceMap) 14000
  else if pid_is "panel-7gb" then JS.num_or (PANEL_7GB priceMap) 18000
  else if pid_is "panel-premium" then JS.num_or (PANEL_PREMIUM priceMap) 30000
  else 3000.

(** [addDays = parseInt(orderData.days) || 30] *)
Definition addDays_of (o : Order) : Z := JS.parseInt_or (o_days o) 30.

(** The new expiry: [currentExpire], replaced by [Date.now()] when it is
    before [Date.now()], plus [addDays] days. *)
Definition newExpire (currentExpire now addDays : Z) : Z :=
  (if currentExpire <? now then now else currentExpire) + addDays * JS.DAY.

(** The update of [server]: the new [expires_at] and [days], [suspend_by]
    deleted.  [None] is the [RangeError] of [toISOString] on an invalid
    date: the stored [expires_at] does not parse, or the new expiry is out
    of the range of [Date]. *)
Definition renew_entry (now addDays : Z) (server : Item) (pd : PanelData)
  : option Item :=
  match pd_expires_at pd with
  | None => None
  | Some currentExpire =>
      match JS.toISOString (newExpire currentExpire now addDays) with
      | None => None
      | Some expires_at =>
          Some {| id := id server; username := username server;
                  product_name := product_name server;
                  days := Some (JS.add (JS.parseInt_or (days server) 0) addDays);
                  password := password server; created_at := created_at server;
                  status := status server;
                  suspend_by := None;
                  panel_data := Some (with_expires_at pd expires_at);
                  settings := settings server |}
      end
  end.

(** What a renewal returns. *)
Definition renewal_result (server : Item) (o : Order) (e addDays : Z)
  (productId : string) : PanelData :=
  {| pd_username := username server; pd_password := None; pd_email := None;
     pd_panel_url := None; pd_server_id := o_server_id o;
     pd_server_name := None; pd_owner_id := None; pd_owner_email := None;
     pd_created_at := None; pd_expires_at := None;
     pd_has_expires_at := false; pd_days := None;
     pd_specs := None; pd_raw_data := None;
     pd_new_expiry := Some e; pd_added_days := Some addDays;
     pd_total_days := days server; pd_product_id := Some productId |}.

Definition wrap (msg : string) : string :=
  ("Gagal memperpanjang server: " ++ msg)%string.

(** [renewPanel] once the entry [db[serverIndex]] is found. *)
Definition renew_found (db : list Item) (serverIndex : nat) (server : Item)
  (pd : PanelData) (orderData : Order) : M (Result PanelData * Order) :=
  match infer_productId server pd with
  | Throw e => ret (Throw (wrap e), orderData)
  | Return productId =>
      st <- loadSettings ;;
      c <- the_config ;;
      match (match PRICES st with Some m => Some m | None => cfg_PRICES c end) with
      | None => ret (Throw (wrap "TypeError"), orderData)
      | Some priceMap =>
          let orderData := with_basePrice orderData
                             (renewal_basePrice productId priceMap) in
          now <- Date_now ;;
          let addDays := addDays_of orderData in
          match renew_entry now addDays server pd, pd_expires_at pd with
          | Some server', Some currentExpire =>
              saveServerDatabase (JS.set_nth serverIndex server' db) ;;;
              ask (UnsuspendServer (o_server_id orderData)) unsuspend_server ;;;
              ret (Return (renewal_result server' orderData
                             (newExpire currentExpire now addDays) addDays
                             productId),
                   orderData)
          | _, _ => ret (Throw (wrap "Invalid time value"), orderData)
          end
      end
  end.

(** [db.findIndex(p => p.panel_data && p.panel_data.server_id == id)], with
    the entry found and the [panel_data] the predicate has seen. *)
Fixpoint find_server (sid : option Z) (i : nat) (l : list Item)
  : option (nat * Item * PanelData) :=
  match l with
  | [] => None
  | p :: rest =>
      match panel_data p with
      | Some pd =>
          if JS.loose_eq (pd_server_id pd) sid then Some (i, p, pd)
          else find_server sid (S i) rest
      | None => find_server sid (S i) rest
      end
  end.

(** [renewPanel].  The function calls itself after it has resolved the
    server by username, and returns the promise of that call as it is: what
    the inner call throws does not pass through the outer [catch].  [fuel]
    bounds the depth of these calls, and [None] is a run that needs more. *)
Fixpoint renewPanel (fuel : nat) (orderData : Order)
  : M (option (Result PanelData * Order)) :=
  match fuel with
  | O => ret None
  | S fuel' =>
      db <- loadServerDatabase ;;
      match find_server (o_server_id orderData) O db with
      | Some (serverIndex, server, pd) =>
          r <- renew_found db serverIndex server pd orderData ;;
          ret (Some r)
      | None =>
          if JS.truthy_str (o_username orderData) then
            match find (has_username (o_username orderData)) db with
            | Some p =>
                match panel_data p with
                | Some pd' =>
                    renewPanel fuel' (with_server_id orderData (pd_server_id pd'))
                | None => ret (Some (Throw (wrap "TypeError"), orderData))
                end
            | None =>
                ret (Some (Throw (wrap "Server tidak ditemukan di database"),
                           orderData))
            end
          else
            ret (Some (Throw (wrap "Server tidak ditemukan di database"),
                       orderData))
      end
  end.

(** The store has refused a write of the log: a PUT that [github_put]
    answers with a failure. *)
Definition write_refused (w : World) (calls : list Call) : Prop :=
  exists pre doc sha post,
    calls = pre ++ GithubPut doc sha :: post
    /\ github_put w (pre ++ [GithubPut doc sha]) = false.

End Renewal.

(** ** Provisioning and the order cache *)

Module Orders.

Definition upper (c : ascii) : ascii :=
  let n := nat_of_ascii c in
  if ((97 <=? n) && (n <=? 122))%nat then ascii_of_nat (n - 32) else c.

(** [s.charAt(0).toUpperCase() + s.slice(1)] *)
Definition capitalize (s : string) : string :=
  match s with
  | EmptyString => EmptyString
  | String c rest => String (upper c) rest
  end.

(** [specs[specKey] || specs['Panel 1GB RAM']] behind the chain over
    [product_name]: [ram], [disk], [cpu].  A product name that no branch of
    the chain takes is the key itself; when it is a property name of
    [Object.prototype], the table yields that member, which is truthy and has
    no [ram], [disk] or [cpu]: [None]. *)
Definition spec_of (product_name : string) : option (Z * Z * Z) :=
  let has lit := JS.includes lit product_name in
  if has "1GB" then Some (1500, 3000, 100)
  else if has "2GB" then Some (3500, 6000, 190)
  else if has "3GB" then Some (4000, 7000, 250)
  else if has "4GB" then Some (5000, 9000, 290)
  else if has "5GB" then Some (6000, 13000, 330)
  else if has "6GB" then Some (7000, 15000, 450)
  else if has "7GB" then Some (8000, 17000, 500)
  else if has "UNLIMITED" || has "UNLI" then Some (0, 0, 0)
  else if JS.inherited product_name then None
  else Some (1500, 3000, 100).

Definition shown_GB (n : Z) : jsv := if n =? 0 then Str "Unlimited" else GB n.
Definition shown_Pct (n : Z) : jsv := if n =? 0 then Str "Unlimited" else Pct n.

(** The [specs] of the returned record; without [ram], [disk] and [cpu] the
    template strings read ['NaNGB'] and ['undefined%']. *)
Definition specs_of (spec : option (Z * Z * Z)) : Specs :=
  match spec with
  | Some (ram, disknya, cpu) =>
      {| ram := shown_GB ram;
         disk := shown_GB disknya;
         cpu := shown_Pct cpu;
         ram_raw := Str (JS.Z_to_string ram);
         disk_raw := Str (JS.Z_to_string disknya);
         cpu_raw := Str (JS.Z_to_string cpu) |}
  | None =>
      {| ram := Str "NaNGB"; disk := Str "NaNGB"; cpu := Str "undefined%";
         ram_raw := Undef; disk_raw := Undef; cpu_raw := Undef |}
  end.

(** [createRealPterodactylPanel] *)
Definition createRealPterodactylPanel (orderData : Order) : M (Result PanelData) :=
  generated <- (fun w st => (generated_password w (log st), st)) ;;
  let password :=
    if JS.truthy_str (o_password orderData)
    then match o_password orderData with Some p => p | None => generated end
    else generated in
  match o_username orderData, o_product_name orderData with
  | Some username, Some product_name =>
      let days := match o_days orderData with Some d => d | None => 30 end in
      let email := (username ++ "@gmail.com")%string in
      let name := (capitalize username ++ " Server")%string in
      let spec := spec_of product_name in
      let ram := option_map (fun s => fst (fst s)) spec in
      let disknya := option_map (fun s => snd (fst s)) spec in
      let cpu := option_map (fun s => snd s) spec in
      checkUserRes <- ask (FindUser username) find_user ;;
      match checkUserRes with
      | None => ret (Throw "Request failed")
      | Some (existing :: _) =>
          ret (Throw ("Username " ++ existing ++ " sudah terdaftar.")%string)
      | Some [] =>
          userRes <- ask (CreateUser username email name password) create_user ;;
          match userRes with
          | Rejected e => ret (Throw e)
          | Errors e => ret (Throw ("Gagal membuat user: " ++ e)%string)
          | Ok user =>
              eggRes <- ask GetEgg get_egg ;;
              match eggRes with
              | Rejected e => ret (Throw e)
              | Errors e =>
                  ret (Throw ("Gagal mengambil egg details: " ++ e)%string)
              | Ok startup =>
                  let startupCmd :=
                    if JS.truthy_str startup
                    then match startup with Some c => c | None => "npm start" end
                    else "npm start" in
                  serverRes <- ask (CreateServer name (ru_id user) startupCmd
                                      ram disknya cpu) create_server ;;
                  match serverRes with
                  | Rejected e => ret (Throw e)
                  | Errors e =>
                      ret (Throw ("Gagal membuat server: " ++ e)%string)
                  | Ok server =>
                      now <- Date_now ;;
                      c <- the_config ;;
                      match JS.toISOString (now + days * JS.DAY) with
                      | None => ret (Throw "Invalid time value")
                      | Some expires_at =>
                          ret (Return
                            {| pd_username := Some (ru_username user);
                               pd_password := Some password;
                               pd_email := Some (ru_email user);
                               pd_panel_url := cfg_PANEL_DOMAIN c;
                               pd_server_id := Some (cs_id server);
                               pd_server_name := Some (cs_name server);
                               pd_owner_id := None; pd_owner_email := None;
                               pd_created_at := Some now;
                               pd_expires_at := Some expires_at;
                               pd_has_expires_at := true;
                               pd_days := Some days;
                               pd_specs := Some (specs_of spec);
                               pd_raw_data := Some "user, server";
                               pd_new_expiry := None; pd_added_days := None;
                               pd_total_days := None; pd_product_id := None |})
                      end
                  end
              end
          end
      end
  | _, _ => ret (Throw "TypeError")
  end.

(** [panelsStorage[order_id]], for an [order_id] that the cache holds as an
    own property or that is no property name of [Object.prototype].  The
    cache is an object literal: for an [order_id] among
    [JS.Object_prototype_keys] that is no own property the source reads the
    inherited member, and an assignment to ['__proto__'] replaces the
    prototype instead of adding a property.  The statements on the cache
    that these readings would break say so in their hypotheses. *)
Fixpoint lookup (order_id : string) (os : list (string * Order)) : option Order :=
  match os with
  | [] => None
  | (k, o) :: rest => if String.eqb k order_id then Some o else lookup order_id rest
  end.

(** The order object is shared with the cache: its mutations are written
    back under its key. *)
Fixpoint store (order_id : string) (o : Order) (os : list (string * Order))
  : list (string * Order) :=
  match os with
  | [] => []
  | (k, o') :: rest =>
      if String.eqb k order_id then (k, o) :: rest
      else (k, o') :: store order_id o rest
  end.

Definition write_back (order_id : string) (o : Order) : M unit :=
  st <- get_state ;;
  set_orders (store order_id o (panelsStorage st)).

(** [orderData.panel_data = panelData; status = 'completed'; ...] *)
Definition completed (o : Order) (panelData : PanelData) (now : Z)
  (transaction : option Transaction) : Order :=
  {| o_order_id := o_order_id o; o_username := o_username o;
     o_product_id := o_product_id o; o_product_name := o_product_name o;
     o_basePrice := o_basePrice o; o_calculatedPrice := o_calculatedPrice o;
     o_days := o_days o; o_amount := o_amount o;
     o_status := Some "completed";
     o_created_at := o_created_at o;
     o_panel_data := Some panelData;
     o_payment_data := o_payment_data o; o_type := o_type o;
     o_completed_at := Some now;
     o_transaction := transaction;
     o_panel_error := o_panel_error o; o_server_id := o_server_id o;
     o_password := o_password o |}.

(** [orderData.status = 'completed'; ...; panel_error = panelError.message] *)
Definition failed (o : Order) (msg : string) (now : Z)
  (transaction : option Transaction) : Order :=
  {| o_order_id := o_order_id o; o_username := o_username o;
     o_product_id := o_product_id o; o_product_name := o_product_name o;
     o_basePrice := o_basePrice o; o_calculatedPrice := o_calculatedPrice o;
     o_days := o_days o; o_amount := o_amount o;
     o_status := Some "completed";
     o_created_at := o_created_at o;
     o_panel_data := o_panel_data o;
     o_payment_data := o_payment_data o; o_type := o_type o;
     o_completed_at := Some now;
     o_transaction := transaction;
     o_panel_error := Some msg; o_server_id := o_server_id o;
     o_password := o_password o |}.

(** The workflow a completed payment starts: renewal or provisioning.
    [None] is a renewal that needs more fuel. *)
Definition provision (fuel : nat) (orderData : Order)
  : M (option (Result PanelData * Order)) :=
  if JS.str_is (o_type orderData) "renewal" then Renewal.renewPanel fuel orderData
  else r <- createRealPterodactylPanel orderData ;; ret (Some (r, orderData)).

(** The entry [check-payment] adds for a new panel. *)
Definition order_entry (order_id : string) (orderData : Order)
  (panelData : PanelData) : Item :=
  {| id := ("ORDER-" ++ order_id)%string;
     username := pd_username panelData;
     product_name := o_product_name orderData;
     days := Some (JS.parseInt_or (o_days orderData) 30);
     password := pd_password panelData;
     created_at := pd_created_at panelData;
     status := Some "active";
     suspend_by := None;
     panel_data := Some panelData;
     settings := None |}.

(** The update [check-payment] applies to the renewed entry. *)
Definition renewed_entry (p : Item) (orderData : Order) (panelData : PanelData)
  : Item :=
  {| id := id p; username := username p; product_name := product_name p;
     days := match o_days orderData with
             | Some d => Some (JS.add (JS.parseInt_or (days p) 0) d)
             | None => None
             end;
     password := password p; created_at := created_at p; status := status p;
     suspend_by := suspend_by p;
     panel_data :=
       match panel_data p with
       | Some pd =>
           Some {| pd_username := pd_username pd; pd_password := pd_password pd;
                   pd_email := pd_email pd; pd_panel_url := pd_panel_url pd;
                   pd_server_id := pd_server_id pd;
                   pd_server_name := pd_server_name pd;
                   pd_owner_id := pd_owner_id pd;
                   pd_owner_email := pd_owner_email pd;
                   pd_created_at := pd_created_at pd;
                   pd_expires_at := pd_new_expiry panelData;
                   pd_has_expires_at :=
                     match pd_new_expiry panelData with
                     | Some _ => true
                     | None => false
                     end;
                   pd_days := pd_days pd; pd_specs := pd_specs pd;
                   pd_raw_data := pd_raw_data pd;
                   pd_new_expiry := pd_new_expiry pd;
                   pd_added_days := pd_added_days pd;
                   pd_total_days := pd_total_days pd;
                   pd_product_id := pd_product_id pd |}
       | None => None
       end;
     settings := settings p |}.

(** The inner [try] of [check-payment] that records the result in the
    persisted document. *)
Definition record_result (order_id : string) (orderData : Order)
  (panelData : PanelData) : M unit :=
  currentDb <- loadServerDatabase ;;
  if JS.str_is (o_type orderData) "renewal" then
    match Renewal.find_server (o_server_id orderData) O currentDb with
    | Some (existingIdx, p, _) =>
        saveServerDatabase
          (JS.set_nth existingIdx (renewed_entry p orderData panelData) currentDb)
    | None => saveServerDatabase currentDb
    end
  else saveServerDatabase (currentDb ++ [order_entry order_id orderData panelData]).

Inductive PaymentResponse :=
| BadRequest                                            (* 400 *)
| OrderNotFound                                         (* 404 *)
| Checked (transaction : option Transaction) (panel_data : option PanelData)
          (order_status : option string)
| ProvisionFailed (transaction : option Transaction) (panel_error : string)
| AssumedCompleted (panel_data : option PanelData)      (* the outer [catch] *)
| CheckFailed.                                          (* 500 *)

Definition tx_completed (t : option Transaction) : bool :=
  match t with
  | Some tx => JS.str_is (tx_status tx) "completed"
  | None => false
  end.

(** The outer [catch] of both payment checks. *)
Definition on_gateway_error (orderData : Order) : PaymentResponse :=
  if JS.str_is (o_status orderData) "completed"
  then AssumedCompleted (o_panel_data orderData)
  else CheckFailed.

(** The handler of [GET /api/check-payment]. *)
Definition check_payment (fuel : nat) (order_id : string)
  : M (option PaymentResponse) :=
  if negb (JS.truthy_str (Some order_id)) then ret (Some BadRequest)
  else
    st <- get_state ;;
    match lookup order_id (panelsStorage st) with
    | None => ret (Some OrderNotFound)
    | Some orderData =>
        response <- ask (TransactionDetail (o_amount orderData) order_id)
                        transaction_detail ;;
        match response with
        | None => ret (Some (on_gateway_error orderData))
        | Some transaction =>
            match o_panel_data orderData with
            | None =>
                if tx_completed transaction then
                  r <- provision fuel orderData ;;
                  match r with
                  | None => ret None
                  | Some (Return panelData, orderData1) =>
                      now <- Date_now ;;
                      let orderData2 :=
                        completed orderData1 panelData now transaction in
                      write_back order_id orderData2 ;;;
                      record_result order_id orderData2 panelData ;;;
                      ret (Some (Checked transaction (Some panelData)
                                   (o_status orderData2)))
                  | Some (Throw msg, orderData1) =>
                      now <- Date_now ;;
                      write_back order_id (failed orderData1 msg now transaction) ;;;
                      ret (Some (ProvisionFailed transaction msg))
                  end
                else ret (Some (Checked transaction None (o_status orderData)))
            | Some stored =>
                ret (Some (Checked transaction (Some stored) (o_status orderData)))
            end
        end
    end.

(** The handler of [POST /api/manual-check]. *)
Definition manual_check (fuel : nat) (order_id : string)
  : M (option PaymentResponse) :=
  if negb (JS.truthy_str (Some order_id)) then ret (Some BadRequest)
  else
    st <- get_state ;;
    match lookup order_id (panelsStorage st) with
    | None => ret (Some OrderNotFound)
    | Some orderData =>
        response <- ask (TransactionDetail (o_amount orderData) order_id)
                        transaction_detail ;;
        match response with
        | None => ret (Some (on_gateway_error orderData))
        | Some transaction =>
            if tx_completed transaction then
              match o_panel_data orderData with
              | None =>
                  r <- provision fuel orderData ;;
                  match r with
                  | None => ret None
                  | Some (Return panelData, orderData1) =>
                      now <- Date_now ;;
                      let orderData2 :=
                        completed orderData1 panelData now transaction in
                      write_back order_id orderData2 ;;;
                      ret (Some (Checked transaction (Some panelData)
                                   (o_status orderData2)))
                  | Some (Throw msg, orderData1) =>
                      now <- Date_now ;;
                      write_back order_id (failed orderData1 msg now transaction) ;;;
                      ret (Some (ProvisionFailed transaction msg))
                  end
              | Some stored =>
                  ret (Some (Checked transaction (Some stored)
                               (o_status orderData)))
              end
            else ret (Some (Checked transaction None (o_status orderData)))
        end
    end.

(** The handler of [POST /api/force-create-panel]. *)
Record ForceBody := {
  f_order_id : string;
  f_username : option string;
  f_password : option string;
  f_product_name : option string;
  f_days : option Z
}.

Definition blank_order : Order :=
  {| o_order_id := None; o_username := None; o_product_id := None;
     o_product_name := None; o_basePrice := None; o_calculatedPrice := None;
     o_days := None; o_amount := None; o_status := None; o_created_at := None;
     o_panel_data := None; o_payment_data := None; o_type := None;
     o_completed_at := None; o_transaction := None; o_panel_error := None;
     o_server_id := None; o_password := None |}.

Definition with_panel (o : Order) (panelData : PanelData) (now : Z) : Order :=
  {| o_order_id := o_order_id o; o_username := o_username o;
     o_product_id := o_product_id o; o_product_name := o_product_name o;
     o_basePrice := o_basePrice o; o_calculatedPrice := o_calculatedPrice o;
     o_days := o_days o; o_amount := o_amount o;
     o_status := Some "completed";
     o_created_at := o_created_at o;
     o_panel_data := Some panelData;
     o_payment_data := o_payment_data o; o_type := o_type o;
     o_completed_at := Some now;
     o_transaction := o_transaction o;
     o_panel_error := o_panel_error o; o_server_id := o_server_id o;
     o_password := o_password o |}.

Inductive ForceResponse :=
| ForceBadRequest
| ForceCreated (panel_data : PanelData)
| ForceFailed (error : string).

Definition force_create_panel (body : ForceBody) : M ForceResponse :=
  if negb (JS.truthy_str (f_username body))
     || negb (JS.truthy_str (f_product_name body))
  then ret ForceBadRequest
  else
    st <- get_state ;;
    generated <- (fun w st => (generated_password w (log st), st)) ;;
    let known := lookup (f_order_id body) (panelsStorage st) in
    let orderData :=
      match known with
      | Some o => o
      | None =>
          {| o_order_id := None; o_username := f_username body;
             o_product_id := None; o_product_name := f_product_name body;
             o_basePrice := None; o_calculatedPrice := None;
             o_days := Some (JS.num_or (f_days body) 30);
             o_amount := None; o_status := None; o_created_at := None;
             o_panel_data := None; o_payment_data := None; o_type := None;
             o_completed_at := None; o_transaction := None;
             o_panel_error := None; o_server_id := None;
             o_password := if JS.truthy_str (f_password body)
                           then f_password body else Some generated |}
      end in
    r <- createRealPterodactylPanel orderData ;;
    match r with
    | Throw e => ret (ForceFailed ("Gagal membuat panel: " ++ e)%string)
    | Return panelData =>
        now <- Date_now ;;
        st' <- get_state ;;
        match known with
        | Some o =>
            set_orders (store (f_order_id body) (with_panel o panelData now)
                          (panelsStorage st'))
        | None =>
            set_orders
              (panelsStorage st' ++
               [(f_order_id body,
                 {| o_order_id := Some (f_order_id body);
                    o_username := f_username body; o_product_id := None;
                    o_product_name := f_product_name body;
                    o_basePrice := None; o_calculatedPrice := None;
                    o_days := None; o_amount := None;
                    o_status := Some "completed"; o_created_at := None;
                    o_panel_data := Some panelData; o_payment_data := None;
                    o_type := None; o_completed_at := Some now;
                    o_transaction := None; o_panel_error := None;
                    o_server_id := None; o_password := None |})])
        end ;;;
        ret (ForceCreated panelData)
    end.

(** *** The public view of an order ([GET /api/order/:order_id]) *)

(** The argument of [res.json]. *)
#[warnings="-register-all"]
Inductive json :=
| JUndefined
| JNull
| JBool (b : bool)
| JNum (z : Z)
| JStr (s : string)
| JSpecs (s : Specs)
| JObj (fields : list (string * json)).

Definition jstr (s : option string) : json :=
  match s with Some x => JStr x | None => JUndefined end.
Definition jnum (z : option Z) : json :=
  match z with Some x => JNum x | None => JUndefined end.

(** [safePanelData] *)
Definition safePanelData (o : Order) : json :=
  match o_panel_data o with
  | None => JNull
  | Some pd =>
      JObj [ ("username", jstr (pd_username pd));
             ("server_id", jnum (pd_server_id pd));
             ("server_name", jstr (pd_server_name pd));
             ("expires_at", jnum (pd_expires_at pd));
             ("specs", match pd_specs pd with
                       | Some s => JSpecs s
                       | None => JUndefined
                       end) ]
  end.

Definition order_view (o : Order) : json :=
  JObj [ ("success", JBool true);
         ("order",
          JObj [ ("order_id", jstr (o_order_id o));
                 ("username", jstr (o_username o));
                 ("product_name", jstr (o_product_name o));
                 ("amount", jnum (o_amount o));
                 ("status", jstr (o_status o));
                 ("created_at", jnum (o_created_at o));
                 ("completed_at", jnum (o_completed_at o));
                 ("panel_data", safePanelData o);
                 ("panel_error", jstr (o_panel_error o)) ]) ].

Inductive OrderResponse :=
| OrderMissing                    (* 404 *)
| OrderFound (body : json).

(** The handler of [GET /api/order/:order_id]. *)
Definition get_order (order_id : string) : M OrderResponse :=
  st <- get_state ;;
  match lookup order_id (panelsStorage st) with
  | None => ret OrderMissing
  | Some orderData => ret (OrderFound (order_view orderData))
  end.

(** The field names of an object, at every depth. *)
Fixpoint keys (j : json) : list string :=
  match j with
  | JObj fields =>
      (fix go (l : list (string * json)) : list string :=
         match l with
         | [] => []
         | (k, v) :: rest => k :: keys v ++ go rest
         end) fields
  | _ => []
  end.

(** The same order with other credentials: [password] and
    [panel_data.password]. *)
Definition with_passwords (o : Order) (p q : option string) : Order :=
  {| o_order_id := o_order_id o; o_username := o_username o;
     o_product_id := o_product_id o; o_product_name := o_product_name o;
     o_basePrice := o_basePrice o; o_calculatedPrice := o_calculatedPrice o;
     o_days := o_days o; o_amount := o_amount o; o_status := o_status o;
     o_created_at := o_created_at o;
     o_panel_data :=
       match o_panel_data o with
       | Some pd =>
           Some {| pd_username := pd_username pd; pd_password := q;
                   pd_email := pd_email pd; pd_panel_url := pd_panel_url pd;
                   pd_server_id := pd_server_id pd;
                   pd_server_name := pd_server_name pd;
                   pd_owner_id := pd_owner_id pd;
                   pd_owner_email := pd_owner_email pd;
                   pd_created_at := pd_created_at pd;
                   pd_expires_at := pd_expires_at pd;
                   pd_has_expires_at := pd_has_expires_at pd;
                   pd_days := pd_days pd; pd_specs := pd_specs pd;
                   pd_raw_data := pd_raw_data pd;
                   pd_new_expiry := pd_new_expiry pd;
                   pd_added_days := pd_added_days pd;
                   pd_total_days := pd_total_days pd;
                   pd_product_id := pd_product_id pd |}
       | None => None
       end;
     o_payment_data := o_payment_data o; o_type := o_type o;
     o_completed_at := o_completed_at o; o_transaction := o_transaction o;
     o_panel_error := o_panel_error o; o_server_id := o_server_id o;
     o_password := p |}.

End Orders.

(** ** Sample worlds and records, for the concrete instances below *)

Module Samples.

(** A world in which every collaborator is down and the clock shows [t]. *)
Definition offline (t : Z) : World :=
  {| config := Price.empty_config;
     clock := fun _ => t;
     github_get := fun _ => None;
     github_sha := fun _ => None;
     github_put := fun _ => false;
     list_servers := fun _ => None;
     get_server := fun _ => None;
     delete_server := fun _ => DeleteFailed None "connect ECONNREFUSED";
     suspend_server := fun _ => false;
     unsuspend_server := fun _ => false;
     get_user := fun _ => None;
     delete_user := fun _ => false;
     find_user := fun _ => None;
     create_user := fun _ => Rejected "offline";
     get_egg := fun _ => Rejected "offline";
     create_server := fun _ => Rejected "offline";
     transaction_detail := fun _ => None;
     generated_password := fun _ => "a1b2c3d4" |}.

(** A configuration that has a price table, every price left to its
    fallback. *)
Definition shop_config : Config :=
  {| cfg_WEBSITE_LOGO := None; cfg_WEBSITE_BANNER := None;
     cfg_PRICES := Some Price.no_prices;
     cfg_AUTO_DELETE_AFTER_DAYS := None; cfg_PANEL_DOMAIN := None |}.

(** A process that has just started. *)
Definition fresh : State :=
  {| panelsStorage := []; settingsCache := None; settingsLastFetch := 0;
     log := [] |}.

Definition with_orders (os : list (string * Order)) : State :=
  {| panelsStorage := os; settingsCache := None; settingsLastFetch := 0;
     log := [] |}.

(** A panel as a provisioning returns it. *)
Definition panel_of_bob : PanelData :=
  {| pd_username := Some "bob"; pd_password := Some "s3cret";
     pd_email := Some "bob@gmail.com"; pd_panel_url := None;
     pd_server_id := Some 7; pd_server_name := Some "Bob Server";
     pd_owner_id := None; pd_owner_email := None;
     pd_created_at := Some 1000; pd_expires_at := Some (1000 + 30 * JS.DAY);
     pd_has_expires_at := true;
     pd_days := Some 30; pd_specs := None; pd_raw_data := Some "user, server";
     pd_new_expiry := None; pd_added_days := None; pd_total_days := None;
     pd_product_id := None |}.

(** A completed order of [bob]. *)
Definition order_of_bob : Order :=
  {| o_order_id := Some "INV-1"; o_username := Some "bob";
     o_product_id := Some "panel-1gb"; o_product_name := Some "Panel 1GB RAM";
     o_basePrice := Some 3000; o_calculatedPrice := Some 3000;
     o_days := Some 30; o_amount := Some 3000; o_status := Some "completed";
     o_created_at := Some 900; o_panel_data := Some panel_of_bob;
     o_payment_data := None; o_type := Some "new";
     o_completed_at := Some 1000; o_transaction := None;
     o_panel_error := None; o_server_id := None; o_password := Some "hunter2" |}.

(** A persisted subscription of [bob], tracking server 7. *)
Definition entry_of_bob (sb : option Suspender) (expires : Z) : Item :=
  {| id := "ORDER-INV-1"; username := Some "bob";
     product_name := Some "Panel 1GB RAM"; days := Some 30;
     password := Some "s3cret"; created_at := Some 1000;
     status := Some "active"; suspend_by := sb;
     panel_data :=
       Some (Renewal.with_expires_at panel_of_bob expires);
     settings := None |}.

(** A subscription of [bob] as an older release has stored it: it tracks
    the server 7 and carries [days], but no [expires_at]. *)
Definition legacy_entry (d : Z) : Item :=
  {| id := "OLD-7"; username := Some "bob";
     product_name := Some "Panel 1GB RAM"; days := Some d;
     password := Some "s3cret"; created_at := Some 1000;
     status := Some "active"; suspend_by := None;
     panel_data :=
       Some {| pd_username := Some "bob"; pd_password := Some "s3cret";
               pd_email := None; pd_panel_url := None;
               pd_server_id := Some 7; pd_server_name := Some "Bob Server";
               pd_owner_id := None; pd_owner_email := None;
               pd_created_at := None; pd_expires_at := None;
               pd_has_expires_at := false;
               pd_days := None; pd_specs := None; pd_raw_data := None;
               pd_new_expiry := None; pd_added_days := None;
               pd_total_days := None; pd_product_id := None |};
     settings := None |}.

(** A server as the control plane lists it. *)
Definition server7 (is_suspended : bool) : RemoteServer :=
  {| rs_id := 7; rs_name := "Bob Server"; rs_node := 1;
     rs_suspended := is_suspended; rs_memory := 1500; rs_cpu := 100;
     rs_disk := 3000; rs_user := 12; rs_owner := Some ("bob", "bob@gmail.com");
     rs_created_at := 1000 |}.

(** A world whose document store holds [doc] and accepts every write, and
    whose control plane lists [servers]; everything else is down. *)
Definition online (t : Z) (doc : list Item) (servers : list RemoteServer)
  : World :=
  {| config := shop_config;
     clock := fun _ => t;
     github_get := fun _ => Some (Entries doc);
     github_sha := fun _ => Some (Some "4b825dc");
     github_put := fun _ => true;
     list_servers := fun _ => Some servers;
     get_server := fun _ => None;
     delete_server := fun _ => DeleteFailed None "connect ECONNREFUSED";
     suspend_server := fun _ => false;
     unsuspend_server := fun _ => false;
     get_user := fun _ => None;
     delete_user := fun _ => false;
     find_user := fun _ => None;
     create_user := fun _ => Rejected "offline";
     get_egg := fun _ => Rejected "offline";
     create_server := fun _ => Rejected "offline";
     transaction_detail := fun _ => None;
     generated_password := fun _ => "a1b2c3d4" |}.

(** A world in which every collaborator answers: the store holds [doc], the
    control plane lists [servers], the owner of every server is the user 12,
    who is no administrator and owns the server 7 only, and every request
    succeeds. *)
Definition healthy (t : Z) (doc : list Item) (servers : list RemoteServer)
  : World :=
  {| config := shop_config;
     clock := fun _ => t;
     github_get := fun _ => Some (Entries doc);
     github_sha := fun _ => Some (Some "4b825dc");
     github_put := fun _ => true;
     list_servers := fun _ => Some servers;
     get_server := fun _ => Some (Some 12);
     delete_server := fun _ => Deleted 204;
     suspend_server := fun _ => true;
     unsuspend_server := fun _ => true;
     get_user := fun _ => Some {| root_admin := false; user_servers := [7] |};
     delete_user := fun _ => true;
     find_user := fun _ => Some [];
     create_user := fun _ =>
       Ok {| ru_id := 12; ru_username := "bob"; ru_email := "bob@gmail.com" |};
     get_egg := fun _ => Ok (Some "npm start");
     create_server := fun _ => Ok {| cs_id := 7; cs_name := "Bob Server" |};
     transaction_detail := fun _ =>
       Some (Some {| tx_status := Some "completed"; tx_raw := "" |});
     generated_password := fun _ => "a1b2c3d4" |}.

(** The healthy world, but for a store that refuses every write. *)
Definition refusing (t : Z) (doc : list Item) : World :=
  {| config := config (healthy t doc []);
     clock := clock (healthy t doc []);
     github_get := github_get (healthy t doc []);
     github_sha := github_sha (healthy t doc []);
     github_put := fun _ => false;
     list_servers := list_servers (healthy t doc []);
     get_server := get_server (healthy t doc []);
     delete_server := delete_server (healthy t doc []);
     suspend_server := suspend_server (healthy t doc []);
     unsuspend_server := unsuspend_server (healthy t doc []);
     get_user := get_user (healthy t doc []);
     delete_user := delete_user (healthy t doc []);
     find_user := find_user (healthy t doc []);
     create_user := create_user (healthy t doc []);
     get_egg := get_egg (healthy t doc []);
     create_server := create_server (healthy t doc []);
     transaction_detail := transaction_detail (healthy t doc []);
     generated_password := generated_password (healthy t doc []) |}.

(** A paid order of [bob] that renews the server 7 for [d] days. *)
Definition renewal_of_bob (d : Z) : Order :=
  {| o_order_id := Some "INV-2"; o_username := Some "bob";
     o_product_id := Some "panel-1gb"; o_product_name := Some "Panel 1GB RAM";
     o_basePrice := Some 3000; o_calculatedPrice := Some 3000;
     o_days := Some d; o_amount := Some 3000; o_status := Some "pending";
     o_created_at := Some 900; o_panel_data := None;
     o_payment_data := None; o_type := Some "renewal";
     o_completed_at := None; o_transaction := None;
     o_panel_error := None; o_server_id := Some 7; o_password := None |}.

(** The healthy world, but for a gateway that reports the payment as
    pending. *)
Definition unpaid (t : Z) : World :=
  {| config := config (healthy t [] []);
     clock := clock (healthy t [] []);
     github_get := github_get (healthy t [] []);
     github_sha := github_sha (healthy t [] []);
     github_put := github_put (healthy t [] []);
     list_servers := list_servers (healthy t [] []);
     get_server := get_server (healthy t [] []);
     delete_server := delete_server (healthy t [] []);
     suspend_server := suspend_server (healthy t [] []);
     unsuspend_server := unsuspend_server (healthy t [] []);
     get_user := get_user (healthy t [] []);
     delete_user := delete_user (healthy t [] []);
     find_user := find_user (healthy t [] []);
     create_user := create_user (healthy t [] []);
     get_egg := get_egg (healthy t [] []);
     create_server := create_server (healthy t [] []);
     transaction_detail := fun _ =>
       Some (Some {| tx_status := Some "pending"; tx_raw := "" |});
     generated_password := generated_password (healthy t [] []) |}.

(** The order of [bob] as [create-qris] records it, not yet paid. *)
Definition pending_order_of_bob : Order :=
  {| o_order_id := Some "INV-3"; o_username := Some "bob";
     o_product_id := Some "panel-1gb"; o_product_name := Some "Panel 1GB RAM";
     o_basePrice := Some 3000; o_calculatedPrice := Some 3000;
     o_days := Some 30; o_amount := Some 3000; o_status := Some "pending";
     o_created_at := Some 900; o_panel_data := None;
     o_payment_data := None; o_type := Some "new";
     o_completed_at := None; o_transaction := None;
     o_panel_error := None; o_server_id := None; o_password := None |}.

(** The administrator's request to create the panel of that order. *)
Definition force_body_of_bob : Orders.ForceBody :=
  {| Orders.f_order_id := "INV-3"; Orders.f_username := Some "bob";
     Orders.f_password := None;
     Orders.f_product_name := Some "Panel 1GB RAM";
     Orders.f_days := Some 30 |}.

(** The same renewal as [create-qris] records it: the order names the user,
    not the server. *)
Definition renewal_by_name (d : Z) : Order :=
  Renewal.with_server_id (renewal_of_bob d) None.

End Samples.

(** ** Request throttle (the first middleware) *)

Module Throttle.

Definition REQUEST_LIMIT : nat := 15.
Definition TIME_WINDOW : Z := 60000.
Definition BLOCK_DURATION : Z := 600000.

(** The state of the middleware: [ipRequests] (a key that is absent reads as
    the empty array the code puts there), [blockedIPs], and the callbacks
    handed to [setTimeout], each with the address it unblocks and the instant
    at which its delay ends. *)
Record Limiter := {
  ipRequests : string -> list Z;
  blockedIPs : list string;
  timers : list (string * Z)
}.

(** The state at start-up. *)
Definition start : Limiter :=
  {| ipRequests := fun _ => []; blockedIPs := []; timers := [] |}.

(** [blockedIPs.has], [blockedIPs.add], [blockedIPs.delete] *)
Definition has (ip : string) (s : list string) : bool :=
  existsb (String.eqb ip) s.
Definition add (ip : string) (s : list string) : list string :=
  if has ip s then s else s ++ [ip].
Definition delete (ip : string) (s : list string) : list string :=
  filter (fun x => negb (String.eqb ip x)) s.

(** [ipRequests[ip] = v] *)
Definition assign (ip : string) (v : list Z) (m : string -> list Z)
  : string -> list Z :=
  fun k => if String.eqb k ip then v else m k.

Inductive Verdict :=
| Denied      (* 403 *)
| TooMany     (* 429 *)
| Passed.     (* [next()] *)

(** The middleware, for a request of [clientIp] at [now = Date.now()]. *)
Definition middleware (clientIp : string) (now : Z) (s : Limiter)
  : Verdict * Limiter :=
  if has clientIp (blockedIPs s) then (Denied, s)
  else
    let recent := filter (fun timestamp => now - timestamp <? TIME_WINDOW)
                    (ipRequests s clientIp) in
    if (REQUEST_LIMIT <=? List.length recent)%nat then
      (TooMany,
       {| ipRequests := assign clientIp recent (ipRequests s);
          blockedIPs := add clientIp (blockedIPs s);
          timers := timers s ++ [(clientIp, now + BLOCK_DURATION)] |})
    else
      (Passed,
       {| ipRequests := assign clientIp (recent ++ [now]) (ipRequests s);
          blockedIPs := blockedIPs s;
          timers := timers s |}).

(** The timers phase of the event loop at [now]: the callbacks whose delay
    has ended run, in the order in which they were set; each is
    [blockedIPs.delete(clientIp)]. *)
Definition run_timers (now : Z) (s : Limiter) : Limiter :=
  {| ipRequests := ipRequests s;
     blockedIPs :=
       fold_left (fun b t => if snd t <=? now then delete (fst t) b else b)
         (timers s) (blockedIPs s);
     timers := filter (fun t => negb (snd t <=? now)) (timers s) |}.

(** What happens to the middleware: a request arrives, or the event loop
    runs its timers. *)
Inductive Event :=
| Request (clientIp : string) (now : Z)
| Timers (now : Z).

Definition step (s : Limiter) (e : Event) : Limiter :=
  match e with
  | Request clientIp now => snd (middleware clientIp now s)
  | Timers now => run_timers now s
  end.

Definition run (evs : list Event) (s : Limiter) : Limiter :=
  fold_left step evs s.

(** The events that concern [ip]: its own requests, and the timers. *)
Definition concerns (ip : string) (e : Event) : bool :=
  match e with
  | Request clientIp _ => String.eqb clientIp ip
  | Timers _ => true
  end.

(** What the middleware holds about [ip]. *)
Definition view (ip : string) (s : Limiter) : list Z * bool * list (string * Z) :=
  (ipRequests s ip, has ip (blockedIPs s),
   filter (fun t => String.eqb (fst t) ip) (timers s)).

(** The timers phase never runs at an instant in [evs] from [bound] on. *)
Definition timers_before (bound : Z) (evs : list Event) : Prop :=
  forall v, In (Timers v) evs -> v < bound.

(** A timestamp inside the window that ends at [now], as the filter of the
    middleware decides it; and inside the window [(T - 60 s, T]]. *)
Definition recent_at (now t : Z) : bool := now - t <? TIME_WINDOW.
Definition within (T t : Z) : bool := (T - t <? TIME_WINDOW) && (t <=? T).

(** The instant of an event, and the traces whose instants do not go back. *)
Definition time_of (e : Event) : Z :=
  match e with
  | Request _ now => now
  | Timers now => now
  end.

Fixpoint chronological (clk : Z) (evs : list Event) : Prop :=
  match evs with
  | [] => True
  | e :: rest => clk <= time_of e /\ chronological (time_of e) rest
  end.

(** The instants of the requests of [ip] that the middleware lets through,
    in a run of [evs] from [s]. *)
Fixpoint admitted (ip : string) (evs : list Event) (s : Limiter) : list Z :=
  match evs with
  | [] => []
  | e :: rest =>
      match e with
      | Request clientIp now =>
          if String.eqb clientIp ip then
            match fst (middleware clientIp now s) with
            | Passed => [now]
            | _ => []
            end
          else []
      | Timers _ => []
      end ++ admitted ip rest (step s e)
  end.

(** The timers keep the invariant of the block list: an address with a
    pending callback is blocked, and no address has two callbacks. *)
Definition timers_ok (s : Limiter) : Prop :=
  (forall ip due, In (ip, due) (timers s) -> has ip (blockedIPs s) = true)
  /\ NoDup (map fst (timers s)).

End Throttle.

(** ** Administrator's access ([adminAuth]) *)

Module Access.

(** [adminAuth]: [true] is [next()], [false] the 403 page. *)
Definition adminAuth (ADMIN_PASSWORD : string) (cookie : option string) : bool :=
  match cookie with
  | Some c =>
      JS.truthy_str cookie && JS.includes ("admin_token=" ++ ADMIN_PASSWORD) c
  | None => false
  end.

End Access.

(** ** The settings document ([saveSettings], [POST /admin/api/save-settings]) *)

Module SettingsOps.

Definition with_settings (item : Item) (s : Settings) : Item :=
  {| id := id item; username := username item;
     product_name := product_name item; days := days item;
     password := password item; created_at := created_at item;
     status := status item; suspend_by := suspend_by item;
     panel_data := panel_data item; settings := Some s |}.

(** [githubData[settingsIndex].settings = newSettings] for the first entry
    whose [id] is ['_SETTINGS_'], the [push] of a new entry when there is
    none. *)
Fixpoint put_settings (newSettings : Settings) (githubData : list Item)
  : list Item :=
  match githubData with
  | [] => [settings_item newSettings]
  | item :: rest =>
      if is_settings item then with_settings item newSettings :: rest
      else item :: put_settings newSettings rest
  end.

(** [saveSettings]; [false] is the [catch], reached by the [TypeError] of
    [findIndex] on a document that is no array. *)
Definition saveSettings (newSettings : Settings) : M bool :=
  githubData <- fetchData ;;
  match githubData with
  | Entries items =>
      updateData (put_settings newSettings items) ;;;
      now <- Date_now ;;
      set_settings_cache newSettings now ;;;
      ret true
  | NotArray => ret false
  end.

(** The fields of the body; [sb_announcementActive] and [sb_maintenanceMode]
    are [x === 'true' || x === true]. *)
Record SettingsBody := {
  sb_logo : option string;
  sb_banner : option string;
  sb_announcement : option string;
  sb_announcementActive : bool;
  sb_maintenanceMode : bool;
  sb_prices : option PriceMap
}.

(** [a || b] on strings *)
Definition or_else (a b : option string) : option string :=
  if JS.truthy_str a then a else b.

Definition new_settings (body : SettingsBody) (currentSettings : Settings)
  (c : Config) : Settings :=
  {| WEBSITE_LOGO :=
       or_else (sb_logo body)
         (or_else (WEBSITE_LOGO currentSettings) (cfg_WEBSITE_LOGO c));
     WEBSITE_BANNER :=
       or_else (sb_banner body)
         (or_else (WEBSITE_BANNER currentSettings) (cfg_WEBSITE_BANNER c));
     PRICES :=
       match sb_prices body with
       | Some p => Some p
       | None => match PRICES currentSettings with
                 | Some p => Some p
                 | None => cfg_PRICES c
                 end
       end;
     ANNOUNCEMENT :=
       Some (match or_else (sb_announcement body) (Some EmptyString) with
             | Some text => text
             | None => EmptyString
             end,
             sb_announcementActive body);
     MAINTENANCE_MODE := sb_maintenanceMode body |}.

(** The handler of [POST /admin/api/save-settings]: [true] is the answer
    [success: true], [false] the status 500. *)
Definition save_settings (body : SettingsBody) : M bool :=
  currentSettings <- loadSettings ;;
  c <- the_config ;;
  saveSettings (new_settings body currentSettings c).

End SettingsOps.

(** ** The administrator's operations on a subscription *)

Module AdminOps.

Inductive TimeResponse :=
| TimeBadRequest                  (* 400 *)
| TimeNotFound                    (* 404 *)
| TimeChanged (new_expiry : Z)
| TimeFailed.                     (* 500: the [catch] *)

(** The handler of [POST /admin/addtime]; [addDays] is [parseInt(days)],
    [None] for [NaN], and [idserver] a JSON number when present. *)
Definition addtime (idserver addDays : option Z) : M TimeResponse :=
  match addDays with
  | None => ret TimeBadRequest
  | Some d =>
      if negb (JS.truthy_num idserver) then ret TimeBadRequest
      else
        db <- loadServerDatabase ;;
        match Renewal.find_server idserver O db with
        | None => ret TimeNotFound
        | Some (idx, srv, pd) =>
            now <- Date_now ;;
            match Renewal.renew_entry now d srv pd, pd_expires_at pd with
            | Some srv', Some currentExpire =>
                saveServerDatabase (JS.set_nth idx srv' db) ;;;
                ask (UnsuspendServer idserver) unsuspend_server ;;;
                ret (TimeChanged (Renewal.newExpire currentExpire now d))
            | _, _ => ret TimeFailed
            end
        end
  end.

(** The update [deltime] applies to [srv]: the expiry moved back, the
    cumulative [days] reduced but never below [0].  [None] is the
    [RangeError] of [toISOString] on an invalid date: the stored
    [expires_at] does not parse, or the new expiry is out of the range of
    [Date]. *)
Definition reduce_entry (delDays : Z) (srv : Item) (pd : PanelData)
  : option Item :=
  match pd_expires_at pd with
  | None => None
  | Some currentExpire =>
      match JS.toISOString (currentExpire - delDays * JS.DAY) with
      | None => None
      | Some expires_at =>
          let newTotal := JS.sub (JS.parseInt_or (days srv) 0) delDays in
          Some {| id := id srv; username := username srv;
                  product_name := product_name srv;
                  days := Some (if newTotal >? 0 then newTotal else 0);
                  password := password srv; created_at := created_at srv;
                  status := status srv;
                  suspend_by := suspend_by srv;
                  panel_data := Some (Renewal.with_expires_at pd expires_at);
                  settings := settings srv |}
      end
  end.

(** The handler of [POST /admin/deltime]. *)
Definition deltime (idserver delDays : option Z) : M TimeResponse :=
  match delDays with
  | None => ret TimeBadRequest
  | Some d =>
      if negb (JS.truthy_num idserver) then ret TimeBadRequest
      else
        db <- loadServerDatabase ;;
        match Renewal.find_server idserver O db with
        | None => ret TimeNotFound
        | Some (idx, srv, pd) =>
            match reduce_entry d srv pd, pd_expires_at pd with
            | Some srv', Some currentExpire =>
                saveServerDatabase (JS.set_nth idx srv' db) ;;;
                ret (TimeChanged (currentExpire - d * JS.DAY))
            | _, _ => ret TimeFailed
            end
        end
  end.

Inductive LockResponse :=
| LockBadRequest                  (* 400 *)
| LockDone                        (* success: true *)
| LockFailed.                     (* 500 *)

(** The handler of [POST /admin/suspend]. *)
Definition suspend (idserver : option Z) : M LockResponse :=
  if negb (JS.truthy_num idserver) then ret LockBadRequest
  else
    ok <- ask (SuspendServer idserver) suspend_server ;;
    if ok : bool then
      db <- loadServerDatabase ;;
      match Renewal.find_server idserver O db with
      | Some (idx, srv, _) =>
          saveServerDatabase
            (JS.set_nth idx (Sweeper.with_suspend_by srv (Some admin)) db) ;;;
          ret LockDone
      | None => ret LockDone
      end
    else ret LockFailed.

(** The handler of [POST /admin/unsuspend]. *)
Definition unsuspend (idserver : option Z) : M LockResponse :=
  if negb (JS.truthy_num idserver) then ret LockBadRequest
  else
    ok <- ask (UnsuspendServer idserver) unsuspend_server ;;
    if ok : bool then
      db <- loadServerDatabase ;;
      match Renewal.find_server idserver O db with
      | Some (idx, srv, _) =>
          saveServerDatabase
            (JS.set_nth idx (Sweeper.with_suspend_by srv None) db) ;;;
          ret LockDone
      | None => ret LockDone
      end
    else ret LockFailed.

Inductive DbResponse :=
| PanelNotFound                   (* 404 *)
| PanelDeleted.

(** [panel.id !== panelId] *)
Definition other_id (panelId : string) (panel : Item) : bool :=
  negb (String.eqb (id panel) panelId).

(** The handler of [DELETE /admin/api/database-panel/:panelId]. *)
Definition delete_database_panel (panelId : string) : M DbResponse :=
  db <- loadServerDatabase ;;
  let filteredDb := filter (other_id panelId) db in
  if (List.length filteredDb =? List.length db)%nat then ret PanelNotFound
  else saveServerDatabase filteredDb ;;; ret PanelDeleted.

(** [panelsStorage[order_id] = o] *)
Definition assign (order_id : string) (o : Order) (os : list (string * Order))
  : list (string * Order) :=
  match Orders.lookup order_id os with
  | Some _ => Orders.store order_id o os
  | None => os ++ [(order_id, o)]
  end.

Record PanelBody := {
  cp_username : option string;
  cp_product : option string;
  cp_days : option Z;             (* [parseInt(days)] *)
  cp_password : option string
}.

Inductive CreateResponse :=
| PanelCreated (panel_data : PanelData)
| PanelFailed (error : string).   (* 500 *)

(** The argument the handler passes to [createRealPterodactylPanel]. *)
Definition panel_request (body : PanelBody) (generatedPassword : option string)
  : Order :=
  {| o_order_id := None; o_username := cp_username body;
     o_product_id := None; o_product_name := cp_product body;
     o_basePrice := None; o_calculatedPrice := None;
     o_days := Some (JS.num_or (cp_days body) 30);
     o_amount := None; o_status := None; o_created_at := None;
     o_panel_data := None; o_payment_data := None; o_type := None;
     o_completed_at := None; o_transaction := None; o_panel_error := None;
     o_server_id := None; o_password := generatedPassword |}.

(** [newServerData], as an entry of the document ... *)
Definition new_server_data (orderId : string) (body : PanelBody)
  (generatedPassword : option string) (panelData : PanelData)
  (now expires_at : Z) : Item :=
  {| id := orderId;
     username := cp_username body;
     product_name := cp_product body;
     days := Some (JS.num_or (cp_days body) 30);
     password := generatedPassword;
     created_at := Some now;
     status := Some "active";
     suspend_by := None;
     panel_data := Some (Renewal.with_expires_at panelData expires_at);
     settings := None |}.

(** ... and as a value of [panelsStorage]: the same object. *)
Definition cached_server_data (it : Item) : Order :=
  {| o_order_id := None; o_username := username it;
     o_product_id := None; o_product_name := product_name it;
     o_basePrice := None; o_calculatedPrice := None;
     o_days := days it; o_amount := None; o_status := status it;
     o_created_at := created_at it; o_panel_data := panel_data it;
     o_payment_data := None; o_type := None; o_completed_at := None;
     o_transaction := None; o_panel_error := None; o_server_id := None;
     o_password := password it |}.

(** The handler of [POST /admin/create-panel]. *)
Definition create_panel (body : PanelBody) : M CreateResponse :=
  if negb (JS.truthy_str (cp_username body))
     || negb (JS.truthy_str (cp_product body))
  then ret (PanelFailed "Username dan product diperlukan")
  else
    stamp <- Date_now ;;
    let orderId := ("ADMIN-" ++ JS.Z_to_string stamp)%string in
    generated <- (fun w st => (generated_password w (log st), st)) ;;
    let generatedPassword :=
      if JS.truthy_str (cp_password body) then cp_password body
      else Some generated in
    r <- Orders.createRealPterodactylPanel (panel_request body generatedPassword) ;;
    match r with
    | Throw e => ret (PanelFailed e)
    | Return panelData =>
        now <- Date_now ;;
        match JS.toISOString (now + JS.num_or (cp_days body) 30 * JS.DAY) with
        | None => ret (PanelFailed "Invalid time value")
        | Some expires_at =>
            let newServerData :=
              new_server_data orderId body generatedPassword panelData now
                expires_at in
            currentDatabase <- loadServerDatabase ;;
            saveServerDatabase (currentDatabase ++ [newServerData]) ;;;
            st <- get_state ;;
            set_orders (assign orderId (cached_server_data newServerData)
                          (panelsStorage st)) ;;;
            ret (PanelCreated panelData)
        end
    end.

End AdminOps.

(** ** The storefront: orders, quotes and user names *)

Module Shop.

(** The fields of the body of [POST /api/create-qris]. *)
Record QrisBody := {
  q_order_id : option string;
  q_username : option string;
  q_product_name : option string;
  q_days : option Z;              (* [parseInt(days)], [None] for [NaN] *)
  q_product_id : option string;
  q_type : option string;
  q_amount : option Z             (* a JSON number when present *)
}.

(** The payment gateway's [transactioncreate/qris]: given the requests issued
    so far, the [order_id] and the [amount] of the payload, the
    [response.data.payment] of the reply; [None] is a rejected promise. *)
Definition CreateGateway : Type :=
  list Call -> string -> option Z -> option (option string).

Inductive QrisResponse :=
| QrisPriceRefused (expected : option Z) (received : Z)       (* 400 *)
| QrisBadRequest                                              (* 400 *)
| QrisCreated (payment : option string) (order_id : string) (amount : option Z)
| QrisFailed.                                                 (* 500 *)

(** What [validatePrice] reads of the body. *)
Definition price_body (body : QrisBody) : Price.Body :=
  {| Price.product_id := q_product_id body;
     Price.days := q_days body;
     Price.amount := q_amount body |}.

(** [req.calculatedPrice || req.basePrice].  A calculated price that is no
    finite number is [NaN], which is falsy, when the price per day is zero
    (zero times an infinite number of days), and an infinity, which is
    truthy, otherwise; the infinity is handed on as [None]. *)
Definition amount_of (priced : option (option Z * Z * JS.double)) : option Z :=
  match priced with
  | Some (Some calculated, basePrice, _) =>
      if JS.truthy_num (Some calculated) then Some calculated else Some basePrice
  | Some (None, basePrice, S754_zero _) => Some basePrice
  | Some (None, _, _) => None
  | None => None
  end.

(** The order the handler records. *)
Definition pending_order (order_id : string) (body : QrisBody)
  (priced : option (option Z * Z * JS.double)) (payment : option string)
  (now : Z) : Order :=
  {| o_order_id := Some order_id;
     o_username := q_username body;
     o_product_id := q_product_id body;
     o_product_name :=
       if JS.truthy_str (q_product_name body) then q_product_name body
       else q_product_id body;
     o_basePrice := match priced with
                    | Some (_, basePrice, _) => Some basePrice
                    | None => None
                    end;
     o_calculatedPrice := amount_of priced;
     o_days := Some (JS.num_or (q_days body) 30);
     o_amount := amount_of priced;
     o_status := Some "pending";
     o_created_at := Some now;
     o_panel_data := None;
     o_payment_data := payment;
     o_type := match q_type body with Some t => Some t | None => Some "new" end;
     o_completed_at := None; o_transaction := None; o_panel_error := None;
     o_server_id := None; o_password := None |}.

(** The handler of [POST /api/create-qris], after [validatePrice] has
    called [next()].  The QR image of the answer is left out. *)
Definition create_qris_handler (gateway : CreateGateway) (body : QrisBody)
  (priced : option (option Z * Z * JS.double)) : M QrisResponse :=
  match q_order_id body with
  | Some order_id =>
      if negb (JS.truthy_str (q_order_id body))
         || negb (JS.truthy_str (q_product_id body))
         || negb (JS.truthy_str (q_username body))
      then ret QrisBadRequest
      else
        let amount := amount_of priced in
        st <- get_state ;;
        match gateway (log st) order_id amount with
        | None => ret QrisFailed
        | Some payment =>
            now <- Date_now ;;
            set_orders (AdminOps.assign order_id
                          (pending_order order_id body priced payment now)
                          (panelsStorage st)) ;;;
            ret (QrisCreated payment order_id amount)
        end
  | None => ret QrisBadRequest
  end.

(** The route: [validatePrice], then the handler. *)
Definition create_qris (gateway : CreateGateway) (body : QrisBody)
  : M QrisResponse :=
  v <- Price.validatePrice (price_body body) ;;
  match v with
  | Price.Invalid expected received _ _ _ =>
      ret (QrisPriceRefused expected received)
  | Price.Next priced => create_qris_handler gateway body priced
  end.

(** [delete panelsStorage[order_id]]: it removes an own property; the
    prototype, which the cache holds under ['__proto__'] once an order has
    been assigned to that name, is none. *)
Definition remove (order_id : string) (os : list (string * Order))
  : list (string * Order) :=
  if String.eqb order_id "__proto__" then os
  else filter (fun kv => negb (String.eqb (fst kv) order_id)) os.

Inductive CancelResponse :=
| CancelBadRequest                (* 400 *)
| Cancelled (order_id : string).

(** The handler of [POST /api/cancel-payment]. *)
Definition cancel_payment (order_id : option string) : M CancelResponse :=
  match order_id with
  | Some key =>
      if negb (JS.truthy_str order_id) then ret CancelBadRequest
      else
        st <- get_state ;;
        (match Orders.lookup key (panelsStorage st) with
         | Some _ => set_orders (remove key (panelsStorage st))
         | None => ret tt
         end) ;;;
        ret (Cancelled key)
  | None => ret CancelBadRequest
  end.

(** The chain of [POST /api/renew-panel] that infers [productId] and
    [productDisplayName] from the stored [specs]; the [TypeError] is
    [includes] on a missing [product_name]. *)
Definition quote_product (server : Item) (pd : PanelData)
  : Result (string * string) :=
  let specs := match pd_specs pd with
               | Some s => s
               | None => Renewal.no_specs
               end in
  let r := if truthy (ram_raw specs) then ram_raw specs else ram specs in
  let ram_is v := jsv_eqb r v in
  let shown v := jsv_eqb (ram specs) v in
  let unlimited :=
    if ram_is (Num 0) || shown (Str "Unlimited") then Return true
    else match product_name server with
         | Some pn => Return (JS.includes "Unlimited" pn)
         | None => Throw "TypeError"
         end in
  match unlimited with
  | Throw e => Throw e
  | Return true => Return ("panel-premium", "NODE UNLIMITED")
  | Return false =>
      Return
        (if ram_is (Num 1500) || ram_is (Str "1500") || shown (GB 1500)
         then ("panel-1gb", "NODE 1GB")
         else if ram_is (Num 3500) || ram_is (Str "3500") || shown (GB 3500)
         then ("panel-2gb", "NODE 2GB")
         else if ram_is (Num 4000) || ram_is (Str "4000") || shown (GB 4000)
         then ("panel-3gb", "NODE 3GB")
         else if ram_is (Num 5000) || ram_is (Str "5000")
         then ("panel-4gb", "NODE 4GB")
         else if ram_is (Num 6000) || ram_is (Str "6000") || shown (GB 6000)
         then ("panel-5gb", "NODE 5GB")
         else if ram_is (Num 7000) || ram_is (Str "7000")
         then ("panel-6gb", "NODE 6GB")
         else if ram_is (Num 8000) || ram_is (Str "8000") || shown (GB 8000)
         then ("panel-7gb", "NODE 7GB")
         else ("panel-1gb", "NODE 1GB"))
  end.





(** [/^[a-z0-9]{3,20}$/.test(username)] *)
Definition lower_alnum (c : ascii) : bool :=
  let n := nat_of_ascii c in
  (((97 <=? n) && (n <=? 122)) || ((48 <=? n) && (n <=? 57)))%nat.

Definition valid_username (username : string) : bool :=
  ((3 <=? String.length username) && (String.length username <=? 20))%nat
  && forallb lower_alnum (list_ascii_of_string username).

Inductive UsernameResponse :=
| UsernameInvalid                     (* available: false *)
| UsernameChecked (available : bool)
| UsernameFailed.                     (* 500 *)

(** The handler of [GET /api/check-username/:username]. *)
Definition check_username (username : string) : M UsernameResponse :=
  if negb (valid_username username) then ret UsernameInvalid
  else
    response <- ask (FindUser username) find_user ;;
    match response with
    | None => ret UsernameFailed
    | Some found => ret (UsernameChecked (List.length found =? 0)%nat)
    end.

End Shop.

(** ** Notions used to state the properties *)

Module Notions.

(** The [specs] object [createRealPterodactylPanel] returns for a product
    name. *)
Definition provisioned_specs (product_name : string) : Specs :=
  Orders.specs_of (Orders.spec_of product_name).

(** The product ids of the price chain. *)
Definition catalogue : list string :=
  ["panel-1gb"; "panel-2gb"; "panel-3gb"; "panel-4gb"; "panel-5gb";
   "panel-6gb"; "panel-7gb"; "panel-premium"].

(** The four requests of a provisioning, in their order. *)
Definition provisioning_requests (username email name password : string)
  (user : Z) (startup : string) (ram disk cpu : option Z) : list Call :=
  [FindUser username; CreateUser username email name password; GetEgg;
   CreateServer name user startup ram disk cpu].

(** A request that removes something from the control plane. *)
Definition is_removal (c : Call) : bool :=
  match c with
  | DeleteUser _ | DeleteServer _ => true
  | _ => false
  end.

(** An entry the sweeper has nothing to do for at [now]: it is under the
    administrator's lock, or it is not past its expiry. *)
Definition not_due (now : Z) (srv : Item) : bool :=
  Sweeper.locked srv
  || match panel_data srv with
     | Some pd => negb (Sweeper.past (pd_expires_at pd) now)
     | None => false
     end.

End Notions.

(** ** More sample worlds and records *)

Module MoreSamples.

(** A world whose document store cannot be read but accepts writes; every
    other collaborator is down. *)
Definition unreadable (t : Z) : World :=
  {| config := config (Samples.offline t);
     clock := clock (Samples.offline t);
     github_get := fun _ => None;
     github_sha := fun _ => Some (Some "4b825dc");
     github_put := fun _ => true;
     list_servers := list_servers (Samples.offline t);
     get_server := get_server (Samples.offline t);
     delete_server := delete_server (Samples.offline t);
     suspend_server := suspend_server (Samples.offline t);
     unsuspend_server := unsuspend_server (Samples.offline t);
     get_user := get_user (Samples.offline t);
     delete_user := delete_user (Samples.offline t);
     find_user := find_user (Samples.offline t);
     create_user := create_user (Samples.offline t);
     get_egg := get_egg (Samples.offline t);
     create_server := create_server (Samples.offline t);
     transaction_detail := transaction_detail (Samples.offline t);
     generated_password := generated_password (Samples.offline t) |}.


(** The healthy world, but for a control plane on which the user name
    [bob] is taken. *)
Definition taken (t : Z) : World :=
  {| config := config (Samples.healthy t [] []);
     clock := clock (Samples.healthy t [] []);
     github_get := github_get (Samples.healthy t [] []);
     github_sha := github_sha (Samples.healthy t [] []);
     github_put := github_put (Samples.healthy t [] []);
     list_servers := list_servers (Samples.healthy t [] []);
     get_server := get_server (Samples.healthy t [] []);
     delete_server := delete_server (Samples.healthy t [] []);
     suspend_server := suspend_server (Samples.healthy t [] []);
     unsuspend_server := unsuspend_server (Samples.healthy t [] []);
     get_user := get_user (Samples.healthy t [] []);
     delete_user := delete_user (Samples.healthy t [] []);
     find_user := fun _ => Some ["bob"];
     create_user := create_user (Samples.healthy t [] []);
     get_egg := get_egg (Samples.healthy t [] []);
     create_server := create_server (Samples.healthy t [] []);
     transaction_detail := transaction_detail (Samples.healthy t [] []);
     generated_password := generated_password (Samples.healthy t [] []) |}.

(** Settings that put the site under maintenance. *)
Definition closed_shop : Settings :=
  {| WEBSITE_LOGO := None; WEBSITE_BANNER := None;
     PRICES := Some Price.no_prices;
     ANNOUNCEMENT := Some ("Back soon", true);
     MAINTENANCE_MODE := true |}.

(** A world whose stored file parses to a value that is no array; the store
    accepts writes, and every other collaborator is down. *)
Definition garbled (t : Z) : World :=
  {| config := config (unreadable t);
     clock := clock (unreadable t);
     github_get := fun _ => Some NotArray;
     github_sha := github_sha (unreadable t);
     github_put := github_put (unreadable t);
     list_servers := list_servers (unreadable t);
     get_server := get_server (unreadable t);
     delete_server := delete_server (unreadable t);
     suspend_server := suspend_server (unreadable t);
     unsuspend_server := unsuspend_server (unreadable t);
     get_user := get_user (unreadable t);
     delete_user := delete_user (unreadable t);
     find_user := find_user (unreadable t);
     create_user := create_user (unreadable t);
     get_egg := get_egg (unreadable t);
     create_server := create_server (unreadable t);
     transaction_detail := transaction_detail (unreadable t);
     generated_password := generated_password (unreadable t) |}.

(** A process that holds [s] in its settings cache since [t]. *)
Definition caching (s : Settings) (t : Z) : State :=
  {| panelsStorage := []; settingsCache := Some s; settingsLastFetch := t;
     log := [] |}.

End MoreSamples.

(** * Properties *)

Unset Implicit Arguments.

(** ** The handler monad *)

Module ProcFacts.

Lemma skipn_app_exact : forall A (l k : list A),
  skipn (List.length l) (l ++ k) = k.
Proof. induction l; simpl; auto. Qed.

Lemma grows_refl : forall st, grows st st [].
Proof. intros st. unfold grows. now rewrite app_nil_r. Qed.

Lemma grows_trans : forall st1 st2 st3 l1 l2,
  grows st1 st2 l1 -> grows st2 st3 l2 -> grows st1 st3 (l1 ++ l2).
Proof.
  unfold grows. intros st1 st2 st3 l1 l2 H1 H2.
  now rewrite H2, H1, app_assoc.
Qed.

Lemma grows_issued : forall A (c : M A) w st l,
  grows st (snd (c w st)) l -> issued c w st = l.
Proof.
  intros A c w st l H. unfold issued. rewrite H. apply skipn_app_exact.
Qed.

Lemma puts_app : forall a b, puts (a ++ b) = puts a ++ puts b.
Proof. intros a b. unfold puts. apply flat_map_app. Qed.

Lemma suspends_app : forall a b, suspends (a ++ b) = suspends a ++ suspends b.
Proof. intros a b. unfold suspends. apply flat_map_app. Qed.

Lemma unsuspends_app : forall a b,
  unsuspends (a ++ b) = unsuspends a ++ unsuspends b.
Proof. intros a b. unfold unsuspends. apply flat_map_app. Qed.

Lemma deletions_app : forall a b, deletions (a ++ b) = deletions a ++ deletions b.
Proof. intros a b. unfold deletions. apply flat_map_app. Qed.

(** Requests to the store suspend, unsuspend and delete nothing. *)
Lemma store_only_quiet : forall l,
  store_only l -> suspends l = [] /\ unsuspends l = [] /\ deletions l = [].
Proof.
  induction 1 as [|c l Hc _ (IH1 & IH2 & IH3)]; [repeat split|].
  destruct c; try discriminate Hc; simpl; auto.
Qed.

Lemma fetchData_run : forall w st,
  grows st (snd (fetchData w st)) [GithubGet]
  /\ fst (fetchData w st)
     = match github_get w (log st ++ [GithubGet]) with
       | Some d => d
       | None => Entries []
       end.
Proof. intros w st. split; reflexivity. Qed.

Lemma loadServerDatabase_run : forall w st,
  grows st (snd (loadServerDatabase w st)) [GithubGet].
Proof. intros w st. reflexivity. Qed.

(** What [loadServerDatabase] returns: the entries of the document the store
    answers with, the settings entry left out; nothing when the read fails
    or the document is no array. *)
Lemma loadServerDatabase_value : forall w st,
  fst (loadServerDatabase w st)
  = match github_get w (log st ++ [GithubGet]) with
    | Some (Entries items) => filter (fun it => negb (is_settings it)) items
    | _ => []
    end.
Proof.
  intros w st. unfold loadServerDatabase, fetchData, bind, ask, ret.
  cbn [fst snd]. destruct (github_get w _) as [[items|]|]; reflexivity.
Qed.

Lemma grows_unique : forall st st' l l',
  grows st st' l -> grows st st' l' -> l = l'.
Proof.
  unfold grows. intros st st' l l' H H'. rewrite H in H'.
  now apply app_inv_head in H'.
Qed.

(** [loadSettings] only reads: it fetches the document, or nothing. *)
Lemma loadSettings_run : forall w st,
  exists l,
    grows st (snd (loadSettings w st)) l
    /\ puts l = [] /\ unsuspends l = [] /\ store_only l /\ ~ In GithubSha l.
Proof.
  intros w st. unfold loadSettings, bind, Date_now, get_state, the_config.
  assert (Hfetch : forall st0 now c,
    exists l,
      grows st0 (snd (read_settings now c w st0)) l
      /\ puts l = [] /\ unsuspends l = [] /\ store_only l /\ ~ In GithubSha l).
  { intros st0 now c. exists [GithubGet]. split; [|repeat split].
    - unfold read_settings, bind, fetchData, ask, ret; simpl.
      destruct (github_get w _) as [[items|]|]; try reflexivity;
        destruct (find is_settings _) as [[? ? ? ? ? ? ? ? ? [s'|]]|];
        reflexivity.
    - repeat constructor.
    - intros [H|[]]. discriminate. }
  destruct (settingsCache st) as [s|].
  - destruct (clock w (log st) - settingsLastFetch st <? 60000).
    + exists []. split; [apply grows_refl|]. repeat split; [constructor|].
      intros [].
    + apply Hfetch.
  - apply Hfetch.
Qed.

(** [saveServerDatabase] attempts one write: it reads the [sha] and, when
    that read answers, PUTs the entries it is given followed by the settings
    entry.  It sends nothing but requests to the store. *)
Lemma saveServerDatabase_run : forall data w st,
  exists l,
    grows st (snd (saveServerDatabase data w st)) l
    /\ (puts l = [] \/
        puts l = [data ++ [settings_item (fst (loadSettings w st))]])
    /\ ((forall h, github_sha w h <> None) ->
        puts l = [data ++ [settings_item (fst (loadSettings w st))]])
    /\ In GithubSha l /\ unsuspends l = [] /\ store_only l.
Proof.
  intros data w st. unfold saveServerDatabase, bind.
  destruct (loadSettings_run w st) as (l1 & Hg1 & Hp1 & Hu1 & Hs1 & _).
  destruct (loadSettings w st) as [cur st1]. cbn [fst snd] in *.
  unfold updateData, bind, ask, ret; simpl.
  destruct (github_sha w (log st1 ++ [GithubSha])) as [sha|] eqn:Esha.
  - exists (l1 ++ [GithubSha; GithubPut (data ++ [settings_item cur]) sha]).
    split; [|repeat split].
    + unfold grows in *; simpl. rewrite Hg1, <- !app_assoc. reflexivity.
    + right. rewrite puts_app, Hp1. reflexivity.
    + intros _. rewrite puts_app, Hp1. reflexivity.
    + apply in_or_app. right. now left.
    + rewrite unsuspends_app, Hu1. reflexivity.
    + apply Forall_app. split; auto; repeat constructor.
  - exists (l1 ++ [GithubSha]). split; [|repeat split].
    + unfold grows in *; simpl. rewrite Hg1, <- !app_assoc. reflexivity.
    + left. rewrite puts_app, Hp1. reflexivity.
    + intros Hsha. exfalso. eapply Hsha; eauto.
    + apply in_or_app. right. now left.
    + rewrite unsuspends_app, Hu1. reflexivity.
    + apply Forall_app. split; auto; repeat constructor.
Qed.

End ProcFacts.

(** ** JavaScript operators *)

Module JSFacts.

(** Below 1e21 [parseInt] reads a number back as it is. *)
Lemma parseInt_small : forall x, Z.abs x < 10 ^ 21 -> JS.parseInt x = x.
Proof.
  intros x H. unfold JS.parseInt.
  destruct (Z.ltb_spec (Z.abs x) (10 ^ 21)); [reflexivity | lia].
Qed.

Lemma leading_pos : forall fuel z p, 1 <= z -> 1 <= fst (JS.leading fuel z p).
Proof.
  induction fuel as [|fuel IH]; intros z p Hz; simpl; [exact Hz|].
  destruct (Z.ltb_spec z 10); [exact Hz|].
  apply IH. apply Z.div_le_lower_bound; lia.
Qed.

Lemma first_digit_pos : forall v, 1 <= v -> 1 <= JS.first_digit v.
Proof.
  intros v Hv. unfold JS.first_digit.
  pose proof (leading_pos (Z.to_nat (Z.log2 v)) v 1 Hv) as H.
  destruct (JS.leading (Z.to_nat (Z.log2 v)) v 1) as [d p]. cbn [fst] in H.
  destruct (SFeqb _ _); [|exact H].
  destruct (Z.eqb_spec d 9); lia.
Qed.

(** [parseInt] reads zero from zero only. *)
Lemma parseInt_zero : forall x, JS.parseInt x = 0 <-> x = 0.
Proof.
  intros x. unfold JS.parseInt.
  destruct (Z.ltb_spec (Z.abs x) (10 ^ 21)) as [_|Hbig]; [reflexivity|].
  assert (Hpow : 10 ^ 21 = 1000000000000000000000) by reflexivity.
  pose proof (first_digit_pos (Z.abs x) ltac:(lia)) as Hd.
  split; intros H; [|subst x; rewrite Hpow in Hbig; simpl in Hbig; lia].
  destruct x as [|q|q]; [reflexivity| |]; simpl Z.sgn in H; lia.
Qed.





Lemma toISOString_valid : forall t,
  Z.abs t <= JS.MAX_TIME -> JS.toISOString t = Some t.
Proof.
  intros t H. unfold JS.toISOString.
  destruct (Z.leb_spec (Z.abs t) JS.MAX_TIME); [reflexivity | lia].
Qed.

Lemma toISOString_some : forall t e,
  JS.toISOString t = Some e -> e = t /\ Z.abs t <= JS.MAX_TIME.
Proof.
  intros t e. unfold JS.toISOString.
  destruct (Z.leb_spec (Z.abs t) JS.MAX_TIME) as [Hle|Hgt]; [|discriminate].
  intros He. injection He as <-. auto.
Qed.

Lemma toISOString_none : forall t,
  JS.toISOString t = None <-> JS.MAX_TIME < Z.abs t.
Proof.
  intros t. unfold JS.toISOString.
  destruct (Z.leb_spec (Z.abs t) JS.MAX_TIME); split; intros; try discriminate;
    try reflexivity; lia.
Qed.

Lemma round_small : forall z, Z.abs z <= 2 ^ 53 -> JS.round z = z.
Proof.
  intros z H. unfold JS.round. apply Z.leb_le in H. now rewrite H.
Qed.

Lemma add_small : forall x y, Z.abs (x + y) <= 2 ^ 53 -> JS.add x y = x + y.
Proof. intros x y H. now apply round_small. Qed.

Lemma sub_small : forall x y, Z.abs (x - y) <= 2 ^ 53 -> JS.sub x y = x - y.
Proof. intros x y H. now apply round_small. Qed.

Lemma parseInt_or_small : forall v dflt,
  (forall x, v = Some x -> Z.abs x < 10 ^ 21) ->
  JS.parseInt_or v dflt = JS.num_or v dflt.
Proof.
  intros [x|] dflt H; [|reflexivity].
  unfold JS.parseInt_or. cbn [option_map]. now rewrite parseInt_small by auto.
Qed.

End JSFacts.

(** ** Price calculator *)

Module PriceFacts.
Import Price.

(** The fallback prices are charged exactly for thirty days. *)
Lemma fallback_prices_exact_for_30_days :
  Forall (fun B => calculatedPrice B 30 = Some B) fallback_prices.
Proof. repeat (constructor; [vm_compute; reflexivity|]). constructor. Qed.

(** A mismatching amount is refused, and the answer carries the computed
    price. *)
Lemma mismatch_is_refused : forall st c body pm a,
  match PRICES st with Some m => Some m | None => cfg_PRICES c end = Some pm ->
  JS.truthy_str (product_id body) = true ->
  amount body = Some a -> a <> 0 ->
  calculatedPrice (basePrice_of (product_id body) pm) (JS.num_or (days body) 30)
    <> Some (JS.parseInt a) ->
  check_price st c body =
    Invalid (calculatedPrice (basePrice_of (product_id body) pm)
               (JS.num_or (days body) 30))
            (JS.parseInt a) (basePrice_of (product_id body) pm)
            (JS.num_or (days body) 30)
            (pricePerDay (basePrice_of (product_id body) pm)).
Proof.
  intros st c body pm a Hpm Hpid Ha Hnz Hneq.
  unfold check_price. rewrite Hpm, Hpid, Ha.
  assert (Ht : JS.truthy_num (Some a) = true) by (destruct a; simpl; congruence).
  rewrite Ht.
  destruct (calculatedPrice _ _) as [x|] eqn:E; cbn [opt_Z_eqb andb negb].
  - destruct (Z.eqb_spec (JS.parseInt a) x) as [Heq|]; [|reflexivity].
    exfalso. apply Hneq. now rewrite Heq.
  - reflexivity.
Qed.

(** The matching amount passes, with the computed price attached. *)
Lemma match_passes : forall st c body pm a,
  match PRICES st with Some m => Some m | None => cfg_PRICES c end = Some pm ->
  JS.truthy_str (product_id body) = true ->
  amount body = Some a ->
  calculatedPrice (basePrice_of (product_id body) pm) (JS.num_or (days body) 30)
    = Some (JS.parseInt a) ->
  check_price st c body =
    Next (Some (Some (JS.parseInt a), basePrice_of (product_id body) pm,
                pricePerDay (basePrice_of (product_id body) pm))).
Proof.
  intros st c body pm a Hpm Hpid Ha Heq.
  unfold check_price. rewrite Hpm, Hpid, Ha, Heq. cbn [opt_Z_eqb].
  rewrite Z.eqb_refl, andb_false_r. reflexivity.
Qed.

(** The scenario of the specification: 4999 for thirty days of [panel-1gb]
    at the base price 3000 is refused, with 3000 expected. *)
Lemma amount_4999_is_refused_expecting_3000 :
  check_price (settings_with no_prices) empty_config
    {| product_id := Some "panel-1gb"; days := Some 30; amount := Some 4999 |}
  = Invalid (Some 3000) 4999 3000 30 (pricePerDay 3000).
Proof. vm_compute; reflexivity. Qed.

(** C4, at the failing input: with the base price of [panel-1gb] set to 1000
    in the price table, the validator computes 1001 for thirty days, not the
    base price: the caller who sends the amount 1000 is refused and told to
    pay 1001.  In doubles [1000 / 30 * 30] is [1000.0000000000001], and
    [Math.ceil] takes it to 1001. *)
Theorem thirty_days_at_base_1000_cost_1001 :
  Price.calculatedPrice 1000 30 = Some 1001 /\
  Price.check_price
    (Price.settings_with
       {| PANEL_1GB := Some 1000; PANEL_2GB := None; PANEL_3GB := None;
          PANEL_4GB := None; PANEL_5GB := None; PANEL_6GB := None;
          PANEL_7GB := None; PANEL_PREMIUM := None |})
    Price.empty_config
    {| Price.product_id := Some "panel-1gb"; Price.days := Some 30;
       Price.amount := Some 1000 |}
  = Price.Invalid (Some 1001) 1000 1000 30 (Price.pricePerDay 1000).
Proof. split; vm_compute; reflexivity. Qed.

End PriceFacts.

(** ** The public view of an order *)

Module OrderViewFacts.
Import Orders.

Lemma order_view_ignores_passwords : forall o p q,
  order_view (with_passwords o p q) = order_view o.
Proof.
  intros o p q. unfold order_view, safePanelData, with_passwords; simpl.
  destruct (o_panel_data o); reflexivity.
Qed.

Lemma keys_jstr : forall s, keys (jstr s) = [].
Proof. destruct s; reflexivity. Qed.

Lemma keys_jnum : forall z, keys (jnum z) = [].
Proof. destruct z; reflexivity. Qed.

Lemma keys_safePanelData : forall o,
  incl (keys (safePanelData o))
       ["username"; "server_id"; "server_name"; "expires_at"; "specs"].
Proof.
  intros o. unfold safePanelData.
  destruct (o_panel_data o) as [pd|]; [|intros k []].
  cbn [keys]. rewrite !keys_jstr, !keys_jnum.
  destruct (pd_specs pd); cbn [keys app]; apply incl_refl.
Qed.

Lemma order_view_keys : forall o k,
  In k (keys (order_view o)) ->
  In k ["success"; "order"; "order_id"; "username"; "product_name"; "amount";
        "status"; "created_at"; "completed_at"; "panel_data"; "panel_error"]
  \/ In k ["username"; "server_id"; "server_name"; "expires_at"; "specs"].
Proof.
  intros o k. unfold order_view.
  cbn [keys]. rewrite !keys_jstr, !keys_jnum. cbn [app].
  intros Hin.
  repeat (destruct Hin as [<-|Hin]; [left; simpl; tauto|]).
  rewrite app_nil_r in Hin.
  apply in_app_or in Hin. destruct Hin as [Hin|Hin].
  - right. exact (keys_safePanelData o k Hin).
  - left. simpl in Hin. simpl. tauto.
Qed.

(** C10: the answer of [GET /api/order/:order_id] does not depend on the
    stored credentials.  Two caches that hold, under the requested id, orders
    equal but for [password] and [panel_data.password] get the same answer;
    no field of the answer is named [password]; and the [panel_data] of the
    answer has exactly the fields [username], [server_id], [server_name],
    [expires_at] and [specs]. *)
Theorem order_endpoint_hides_credentials :
  forall (w : World) (st st' : State) (order_id : string) (o : Order)
         (p q : option string),
    Orders.lookup order_id (panelsStorage st) = Some o ->
    Orders.lookup order_id (panelsStorage st')
      = Some (Orders.with_passwords o p q) ->
    fst (Orders.get_order order_id w st) = fst (Orders.get_order order_id w st')
    /\ fst (Orders.get_order order_id w st) = Orders.OrderFound (Orders.order_view o)
    /\ ~ In "password" (Orders.keys (Orders.order_view o))
    /\ (forall pd, o_panel_data o = Some pd ->
        exists a b c d e,
          Orders.safePanelData o =
            Orders.JObj [("username", a); ("server_id", b); ("server_name", c);
                         ("expires_at", d); ("specs", e)]).
Proof.
  intros w st st' oid o p q H1 H2.
  unfold get_order, bind, get_state, ret; simpl.
  rewrite H1, H2; simpl.
  rewrite order_view_ignores_passwords.
  repeat split.
  - intro Hin. apply order_view_keys in Hin. simpl in Hin.
    repeat (destruct Hin as [Hin|Hin]; try discriminate Hin); exact Hin.
  - intros pd Hpd. unfold safePanelData. rewrite Hpd. repeat eexists.
Qed.

(** The instance of C10 at the order of [bob], whose credentials are replaced
    by others. *)
Lemma order_endpoint_hides_credentials_witness :
  fst (Orders.get_order "INV-1" (Samples.offline 0)
         (Samples.with_orders [("INV-1", Samples.order_of_bob)]))
  = fst (Orders.get_order "INV-1" (Samples.offline 0)
           (Samples.with_orders
              [("INV-1", Orders.with_passwords Samples.order_of_bob
                           (Some "other") (Some "another"))])).
Proof.
  exact (proj1 (order_endpoint_hides_credentials (Samples.offline 0)
                  (Samples.with_orders [("INV-1", Samples.order_of_bob)])
                  (Samples.with_orders
                     [("INV-1", Orders.with_passwords Samples.order_of_bob
                                  (Some "other") (Some "another"))])
                  "INV-1" Samples.order_of_bob (Some "other") (Some "another")
                  eq_refl eq_refl)).
Defined.

End OrderViewFacts.

(** ** Reconciler: the display status *)

Module StatusFacts.
Import Reconciler.

Lemma derive_status_code : forall flag sb e now st,
  code_of (derive_status flag sb (daysLeft_of (Some e) now) st)
  = status_spec flag sb e now.
Proof.
  intros flag sb e now st. unfold derive_status, status_spec, code_of.
  destruct flag; simpl.
  - destruct (is_admin sb); reflexivity.
  - destruct (JS.ceil_div (e - now) JS.DAY <=? 0); reflexivity.
Qed.

Lemma enrich_code : forall now attr acc,
  statusCode (fst (enrich now attr acc)) =
  match find_stored (rs_id attr) (storedPanels acc) with
  | Some (p, pd) =>
      code_of (derive_status (rs_suspended attr) (suspend_by p)
                 (daysLeft_of (expiresAt_of p pd (rs_created_at attr)) now)
                 (stats acc))
  | None =>
      code_of (derive_status (rs_suspended attr) None
                 (daysLeft_of (Some (rs_created_at attr + defaultDays * JS.DAY)) now)
                 (stats acc))
  end.
Proof.
  intros now attr acc. unfold enrich, code_of.
  destruct (find_stored (rs_id attr) (storedPanels acc)) as [[p pd]|].
  - destruct (derive_status _ _ _ _) as [[[c col] txt] st']. reflexivity.
  - unfold expiresAt_of; simpl.
    destruct (derive_status _ _ _ _) as [[[c col] txt] st']. reflexivity.
Qed.

(** Suspendedness is the remote flag, whatever [suspend_by] says. *)
Lemma suspendedness_is_the_remote_flag : forall flag sb dl st,
  counts_suspended (code_of (derive_status flag sb dl st)) = flag
  /\ n_suspended (snd (derive_status flag sb dl st))
     = n_suspended st + (if flag then 1 else 0).
Proof.
  intros flag sb dl st. unfold derive_status, code_of.
  destruct flag; [destruct (is_admin sb) | destruct (expired dl)]; simpl;
    split; auto; lia.
Qed.

(** The expiry test is a comparison of instants: the number of days left is
    at most zero exactly when the expiry is not after now. *)
Lemma ceil_div_nonpos : forall x, JS.ceil_div x JS.DAY <= 0 <-> x <= 0.
Proof.
  intros x. unfold JS.ceil_div, JS.DAY.
  change (24 * 60 * 60 * 1000) with 86400000.
  split; intros H.
  - assert (0 <= (- x) / 86400000) by lia.
    destruct (Z.le_gt_cases x 0) as [|Hpos]; auto.
    assert ((- x) / 86400000 < 0) by (apply Z.div_lt_upper_bound; lia). lia.
  - assert (0 <= (- x) / 86400000) by (apply Z.div_pos; lia). lia.
Qed.

(** The status block computes the table over the expiry it is given. *)
Lemma derive_status_table : forall flag sb expiry now st,
  code_of (derive_status flag sb (daysLeft_of expiry now) st)
  = status_table flag sb expiry now.
Proof.
  intros flag sb [e|] now st; [apply derive_status_code|].
  unfold derive_status, status_table, code_of, daysLeft_of, expired.
  destruct flag; simpl; [destruct (is_admin sb)|]; reflexivity.
Qed.

Lemma enrich_displayed : forall now attr acc,
  statusCode (fst (enrich now attr acc))
  = status_table (rs_suspended attr)
      (suspend_by (fst (displayed attr (storedPanels acc))))
      (expiresAt_of (fst (displayed attr (storedPanels acc)))
         (snd (displayed attr (storedPanels acc))) (rs_created_at attr))
      now.
Proof.
  intros now attr acc. rewrite enrich_code. unfold displayed.
  destruct (find_stored (rs_id attr) (storedPanels acc)) as [[p pd]|];
    cbn [fst snd]; apply derive_status_table.
Qed.

Lemma status_table_expired : forall flag sb expiry now,
  status_table flag sb expiry now = expired_running
  <-> flag = false /\ exists e, expiry = Some e /\ e <= now.
Proof.
  intros flag sb expiry now. unfold status_table, status_spec.
  destruct expiry as [e|].
  - destruct flag; cbn [andb].
    + destruct (is_admin sb); split; intros H; try discriminate;
        destruct H; discriminate.
    + destruct (Z.leb_spec (JS.ceil_div (e - now) JS.DAY) 0) as [Hle|Hgt].
      * apply (proj1 (ceil_div_nonpos _)) in Hle.
        split; intros _; [split; [reflexivity|exists e; split; [reflexivity|lia]]
                         |reflexivity].
      * split; [discriminate|]. intros [_ (e' & He' & Hle)].
        injection He' as <-.
        assert (JS.ceil_div (e - now) JS.DAY <= 0)
          by (apply (proj2 (ceil_div_nonpos _)); lia).
        lia.
  - destruct flag; cbn [andb]; [destruct (is_admin sb)|]; split; intros H;
      try discriminate; destruct H as [H1 (e & He & _)]; discriminate.
Qed.

(** C1, as the code has it: the status of a displayed subscription -- one
    found in the local list, or one the reconciler has just synthesized -- is
    the priority table of the specification applied to the remote suspend
    flag, the local [suspend_by], now and the expiry the handler works with.
    That expiry is the instant of [expires_at] when the entry carries the
    field, and the remote [created_at] plus the entry's [days] when it does
    not; with an [expires_at] that parses, the status is the table of the
    claim on [expires_at] itself, and with one that does not parse, or with
    neither [expires_at] nor [days], the subscription never counts as
    expired.  Replacing [suspend_by] by any other value leaves the counters
    and the suspendedness as they are: a subscription counts as suspended
    exactly when the remote flag is set. *)
Theorem status_is_the_table_on_the_expiry_in_use :
  forall (now : Z) (attr : RemoteServer) (acc : Reconciler.Acc),
    let p := fst (Reconciler.displayed attr (Reconciler.storedPanels acc)) in
    let pd := snd (Reconciler.displayed attr (Reconciler.storedPanels acc)) in
    let expiry := Reconciler.expiresAt_of p pd (rs_created_at attr) in
    let code := Reconciler.statusCode (fst (Reconciler.enrich now attr acc)) in
    code = Reconciler.status_table (rs_suspended attr) (suspend_by p) expiry now
    /\ (forall e, pd_has_expires_at pd = true -> pd_expires_at pd = Some e ->
          code = Reconciler.status_spec (rs_suspended attr) (suspend_by p) e now)
    /\ (pd_has_expires_at pd = true -> pd_expires_at pd = None ->
          code <> Reconciler.expired_running)
    /\ (pd_has_expires_at pd = false ->
          expiry = option_map (fun d => rs_created_at attr + d * JS.DAY) (days p))
    /\ (code = Reconciler.expired_running
        <-> rs_suspended attr = false /\ exists e, expiry = Some e /\ e <= now)
    /\ forall (sb sb' : option Suspender) (dl : option Z) (st : Reconciler.Stats),
         snd (Reconciler.derive_status (rs_suspended attr) sb dl st)
           = snd (Reconciler.derive_status (rs_suspended attr) sb' dl st)
         /\ Reconciler.counts_suspended
              (code_of (Reconciler.derive_status (rs_suspended attr) sb dl st))
            = rs_suspended attr
         /\ Reconciler.counts_suspended
              (code_of (Reconciler.derive_status (rs_suspended attr) sb' dl st))
            = rs_suspended attr.
Proof.
  intros now attr acc p pd expiry code.
  assert (Hcode : code = status_table (rs_suspended attr) (suspend_by p) expiry now)
    by apply enrich_displayed.
  split; [exact Hcode|]. split; [|split; [|split; [|split]]].
  - intros e Hhas He. rewrite Hcode. unfold expiry, expiresAt_of.
    rewrite Hhas, He. reflexivity.
  - intros Hhas He. rewrite Hcode. unfold expiry, expiresAt_of.
    rewrite Hhas, He. unfold status_table.
    destruct (rs_suspended attr); cbn [andb];
      [destruct (is_admin (suspend_by p))|]; discriminate.
  - intros Hhas. unfold expiry, expiresAt_of. rewrite Hhas.
    destruct (days p); reflexivity.
  - rewrite Hcode. apply status_table_expired.
  - intros sb sb' dl st.
    destruct (suspendedness_is_the_remote_flag (rs_suspended attr) sb dl st) as [H1 _].
    destruct (suspendedness_is_the_remote_flag (rs_suspended attr) sb' dl st) as [H2 _].
    repeat split; auto.
    unfold derive_status.
    destruct (rs_suspended attr); [destruct (is_admin sb), (is_admin sb') | destruct (expired dl)];
      reflexivity.
Qed.

(** C1, as it is stated, fails for an entry without [expires_at].  The
    server 7 runs, and its entry carries neither [suspend_by] nor
    [expires_at]; thirty days after the creation of the server the entry is
    displayed as expired when its [days] are 1, and as active when they are
    60: no function of the remote flag, [suspend_by], [expires_at] and now
    gives the status. *)
Lemma status_without_expires_at_depends_on_days :
  let now := 1000 + 30 * JS.DAY in
  let view d :=
    fst (Reconciler.enrich now (Samples.server7 false)
           {| Reconciler.storedPanels := [Samples.legacy_entry d];
              Reconciler.isDatabaseUpdated := false;
              Reconciler.stats := Reconciler.zero_stats |}) in
  Reconciler.statusCode (view 1) = Reconciler.expired_running
  /\ Reconciler.statusCode (view 60) = Reconciler.active
  /\ ~ exists f : bool -> option Suspender -> option Z -> Z -> Reconciler.StatusCode,
         forall d,
           Reconciler.statusCode (view d)
           = f (rs_suspended (Samples.server7 false))
               (suspend_by (Samples.legacy_entry d))
               (match panel_data (Samples.legacy_entry d) with
                | Some pd => pd_expires_at pd
                | None => None
                end)
               now.
Proof.
  cbv zeta. split; [vm_compute; reflexivity|]. split; [vm_compute; reflexivity|].
  intros [f Hf].
  pose proof (Hf 1) as H1. pose proof (Hf 60) as H60.
  cbn [Samples.legacy_entry suspend_by panel_data pd_expires_at
       Samples.server7 rs_suspended] in H1, H60.
  rewrite <- H1 in H60. vm_compute in H60. discriminate H60.
Qed.

End StatusFacts.

(** ** Reconciler: the import of unknown servers *)

Module ImportFacts.
Import Reconciler ProcFacts.













End ImportFacts.

(** ** Expiration sweeper *)

Module SweeperFacts.
Import Sweeper ProcFacts.

Section Splice.
Variable A : Type.
Variable f : A -> bool.

Lemma splice1_nth_lt : forall (l : list A) i j,
  (j < i)%nat -> nth_error (JS.splice1 i l) j = nth_error l j.
Proof.
  induction l as [|x l IH]; intros i j Hlt; simpl.
  - destruct i; reflexivity.
  - destruct i as [|i]; [lia|]. destruct j as [|j]; simpl; auto.
    apply IH. lia.
Qed.

Lemma splice1_filter : forall (l : list A) i,
  (forall x, nth_error l i = Some x -> f x = false) ->
  filter f (JS.splice1 i l) = filter f l.
Proof.
  induction l as [|x l IH]; intros i H; simpl.
  { destruct i; reflexivity. }
  destruct i as [|i]; simpl.
  - rewrite (H x eq_refl). reflexivity.
  - rewrite IH; auto.
Qed.

End Splice.

Lemma descending_snoc : forall l x,
  descending l -> Forall (fun y => (x < y)%nat) l -> descending (l ++ [x]).
Proof.
  induction l as [|y l IH]; intros x Hd Hall; simpl.
  - split; constructor.
  - destruct Hd as [Hy Hd]. inversion Hall as [|? ? Hxy Hall']; subst. split.
    + apply Forall_app. split; auto.
    + apply IH; auto.
Qed.

Lemma ascending_rev : forall l, ascending l -> descending (rev l).
Proof.
  induction l as [|x l IH]; intros Ha; simpl; auto.
  destruct Ha as [Hx Ha]. apply descending_snoc; auto.
  now apply Forall_rev.
Qed.

(** An entry under lock is left alone: no request, no change, nothing
    queued. *)
Lemma sweep_entry_locked : forall now grace i srv w st,
  locked srv = true ->
  sweep_entry now grace i srv w st = (Return (srv, false, None), st).
Proof.
  intros now grace i srv w st H. unfold sweep_entry, locked in *.
  rewrite H. reflexivity.
Qed.

Lemma locked_with_auto : forall srv, locked (with_suspend_by srv (Some auto)) = false.
Proof. reflexivity. Qed.

(** One iteration on an entry that is not locked. *)
Lemma sweep_entry_run : forall now grace i srv w st,
  locked srv = false ->
  (exists l,
     grows st (snd (sweep_entry now grace i srv w st)) l
     /\ puts l = []
     /\ forall sid, In sid (suspends l) ->
          exists pd, panel_data srv = Some pd /\ pd_server_id pd = sid)
  /\ forall srv' changed queued,
       fst (sweep_entry now grace i srv w st) = Return (srv', changed, queued) ->
       locked srv' = false
       /\ forall q, queued = Some q -> index q = i.
Proof.
  intros now grace i srv w st Hl. unfold sweep_entry. unfold locked in Hl.
  rewrite Hl. destruct (panel_data srv) as [pd|] eqn:Epd.
  - unfold bind.
    destruct (past (pd_expires_at pd) now && negb (is_auto (suspend_by srv))).
    + unfold ask, ret; simpl. split.
      * exists [SuspendServer (pd_server_id pd)]. repeat split.
        intros sid [<-|[]]. eauto.
      * intros srv' changed queued H. injection H as <- <- <-. split.
        -- destruct (suspend_server w _); simpl; auto.
        -- intros q Hq.
           destruct (past _ _ && beyond_grace _ _ _); [|discriminate].
           injection Hq as <-. reflexivity.
    + unfold ret; simpl. split.
      * exists []. split; [apply grows_refl|]. split; [reflexivity|].
        intros sid [].
      * intros srv' changed queued H. injection H as <- <- <-. split; auto.
        intros q Hq.
        destruct (past _ _ && beyond_grace _ _ _); [|discriminate].
        injection Hq as <-. reflexivity.
  - unfold ret; simpl. split.
    + exists []. split; [apply grows_refl|]. split; [reflexivity|].
      intros sid [].
    + intros ? ? ? H. discriminate.
Qed.

Lemma lock_kept_filter : forall l l',
  Forall2 lock_kept l l' -> filter locked l' = filter locked l.
Proof.
  induction 1 as [|a b l l' [H1 H2] _ IH]; simpl; auto.
  rewrite H1. destruct (locked a) eqn:E; [rewrite H2, IH | rewrite IH]; auto.
Qed.

Lemma lock_kept_nth : forall l l', Forall2 lock_kept l l' ->
  forall j a b, nth_error l j = Some a -> nth_error l' j = Some b ->
  lock_kept a b.
Proof.
  induction 1 as [|a0 b0 l l' H0 _ IH]; intros [|j] a b Ha Hb; simpl in *;
    try discriminate.
  - injection Ha as <-. injection Hb as <-. exact H0.
  - eapply IH; eauto.
Qed.

(** The first loop: it writes nothing; each suspend request names the server
    of an entry that is not locked; the queue is in ascending order of index
    and holds no locked entry. *)
Lemma sweep_loop_run : forall now grace todo i w st,
  (exists l,
     grows st (snd (sweep_loop now grace i todo w st)) l
     /\ puts l = []
     /\ forall sid, In sid (suspends l) ->
          exists srv pd, In srv todo /\ locked srv = false
                         /\ panel_data srv = Some pd /\ pd_server_id pd = sid)
  /\ forall db1 changed queue,
       fst (sweep_loop now grace i todo w st) = Return (db1, changed, queue) ->
       Forall2 lock_kept todo db1
       /\ ascending (map index queue)
       /\ forall q, In q queue ->
            (i <= index q)%nat
            /\ exists srv, nth_error todo (index q - i) = Some srv
                           /\ locked srv = false.
Proof.
  intros now grace todo. induction todo as [|srv rest IH]; intros i w st.
  - simpl. split.
    + exists []. split; [apply grows_refl|]. split; [reflexivity|]. intros ? [].
    + intros db1 changed queue H. injection H as <- <- <-.
      split; [constructor|]. split; [exact I|]. intros q [].
  - destruct (sweep_loop now grace i (srv :: rest) w st) as [res stF] eqn:E.
    cbn [sweep_loop] in E. unfold bind at 1 in E. cbn [fst snd].
    destruct (locked srv) eqn:El.
    + rewrite (sweep_entry_locked now grace i srv w st El) in E.
      unfold bind at 1 in E.
      destruct (IH (S i) w st) as [(l & Hg & Hp & Hs) Hret].
      destruct (sweep_loop now grace (S i) rest w st)
        as [[e|[[rest' ch'] queue']] st1]; simpl in *; injection E as <- <-.
      * split; [|intros ? ? ? H; discriminate].
        exists l. split; auto. split; auto.
        intros sid Hsid. destruct (Hs sid Hsid) as (s & pd & ? & ?).
        exists s, pd. tauto.
      * split.
        { exists l. split; auto. split; auto.
          intros sid Hsid. destruct (Hs sid Hsid) as (s & pd & ? & ?).
          exists s, pd. tauto. }
        intros db1 changed queue H. injection H as <- <- <-.
        destruct (Hret rest' ch' queue' eq_refl) as (HF & Hasc & Hq).
        split; [constructor; auto; split; auto|]. split; auto.
        intros q Hin. destruct (Hq q Hin) as (Hle & s & Hn & Hs').
        split; [lia|]. exists s. split; auto.
        replace (index q - i)%nat with (S (index q - S i)) by lia. exact Hn.
    + destruct (sweep_entry_run now grace i srv w st El)
        as [(l0 & Hg0 & Hp0 & Hs0) Hret0].
      destruct (sweep_entry now grace i srv w st)
        as [[e|[[srv' ch0] queued]] st0].
      * simpl in *. injection E as <- <-.
        split; [|intros ? ? ? H; discriminate].
        exists l0. split; auto. split; auto.
        intros sid Hsid. destruct (Hs0 sid Hsid) as (pd & ? & ?).
        exists srv, pd. tauto.
      * unfold bind at 1 in E.
        destruct (IH (S i) w st0) as [(l & Hg & Hp & Hs) Hret].
        assert (Hcalls : exists l1,
                  grows st stF l1 /\ puts l1 = []
                  /\ forall sid, In sid (suspends l1) ->
                       exists s pd, In s (srv :: rest) /\ locked s = false
                                    /\ panel_data s = Some pd
                                    /\ pd_server_id pd = sid).
        { exists (l0 ++ l).
          assert (stF = snd (sweep_loop now grace (S i) rest w st0)) as ->.
          { destruct (sweep_loop now grace (S i) rest w st0)
              as [[e|[[rest' ch'] queue']] st1]; simpl in *;
              injection E as _ <-; reflexivity. }
          split; [eapply grows_trans; eauto|].
          split; [rewrite puts_app, Hp0, Hp; reflexivity|].
          intros sid Hsid. rewrite suspends_app in Hsid.
          apply in_app_or in Hsid. destruct Hsid as [Hsid|Hsid].
          - destruct (Hs0 sid Hsid) as (pd & ? & ?). exists srv, pd.
            simpl. tauto.
          - destruct (Hs sid Hsid) as (s & pd & ? & ?). exists s, pd.
            simpl. tauto. }
        split; [exact Hcalls|]. clear Hcalls.
        destruct (sweep_loop now grace (S i) rest w st0)
          as [[e|[[rest' ch'] queue']] st1]; simpl in *; injection E as <- <-.
        { intros ? ? ? H; discriminate. }
        intros db1 changed queue H. injection H as <- <- <-.
        destruct (Hret rest' ch' queue' eq_refl) as (HF & Hasc & Hq).
        destruct (Hret0 srv' ch0 queued eq_refl) as (Hl' & Hidx).
        split.
        { constructor; auto. split; [congruence|]. intros; congruence. }
        assert (Hrest : forall q, In q queue' ->
                  (i <= index q)%nat
                  /\ exists s, nth_error (srv :: rest) (index q - i) = Some s
                               /\ locked s = false).
        { intros q Hin. destruct (Hq q Hin) as (Hle & s & Hn & Hs').
          split; [lia|]. exists s. split; auto.
          replace (index q - i)%nat with (S (index q - S i)) by lia. exact Hn. }
        destruct queued as [q0|]; [|split; auto].
        specialize (Hidx q0 eq_refl). split.
        { simpl. split; auto. apply Forall_forall. intros y Hy.
          apply in_map_iff in Hy. destruct Hy as (q & <- & Hin).
          destruct (Hq q Hin) as [Hle _]. lia. }
        intros q [<-|Hin]; [|auto].
        split; [lia|]. exists srv. rewrite Hidx, Nat.sub_diag. auto.
Qed.

Lemma lock_kept_nth_ex : forall l l', Forall2 lock_kept l l' ->
  forall j a, nth_error l j = Some a ->
  exists b, nth_error l' j = Some b /\ lock_kept a b.
Proof.
  induction 1 as [|a0 b0 l l' H0 _ IH]; intros [|j] a Ha; simpl in *;
    try discriminate.
  - injection Ha as <-. eauto.
  - eapply IH; eauto.
Qed.

(** [deleteExpiredPanel] writes nothing to the store and returns [true]. *)
Lemma deleteExpiredPanel_run : forall sid u w st,
  fst (Deprovision.deleteExpiredPanel sid u w st) = true
  /\ exists l,
       grows st (snd (Deprovision.deleteExpiredPanel sid u w st)) l
       /\ puts l = [].
Proof.
  intros sid u w st.
  unfold Deprovision.deleteExpiredPanel, Deprovision.forget_tracked_order,
    bind, ask, ret, get_state, set_orders; simpl.
  destruct (get_server w (log st ++ [GetServer sid])) as [[uid|]|];
    try (split; [reflexivity|]; exists [GetServer sid]; split; reflexivity).
  destruct (JS.truthy_num (Some uid));
    try (split; [reflexivity|]; exists [GetServer sid]; split; reflexivity).
  simpl.
  destruct (get_user w _) as [ua|]; simpl.
  - destruct (negb (root_admin ua) && _); simpl; (split; [reflexivity|]).
    + exists [GetServer sid; DeleteServer sid; GetUser uid; DeleteUser uid].
      split; [|reflexivity]. unfold grows; simpl.
      now rewrite <- !app_assoc.
    + exists [GetServer sid; DeleteServer sid; GetUser uid].
      split; [|reflexivity]. unfold grows; simpl.
      now rewrite <- !app_assoc.
  - split; [reflexivity|].
    exists [GetServer sid; DeleteServer sid; GetUser uid].
    split; [|reflexivity]. unfold grows; simpl.
    now rewrite <- !app_assoc.
Qed.

(** The second loop removes queued entries only: with the queue in
    descending order of index and no queued index under lock, the locked
    entries are all kept, in their order. *)
Lemma delete_pass_run : forall queue db changed w st,
  descending (map index queue) ->
  (forall q, In q queue ->
     forall x, nth_error db (index q) = Some x -> locked x = false) ->
  filter locked (fst (fst (delete_pass queue db changed w st)))
    = filter locked db
  /\ exists l,
       grows st (snd (delete_pass queue db changed w st)) l /\ puts l = [].
Proof.
  induction queue as [|q queue IH]; intros db changed w st Hdesc Hq.
  - simpl. split; auto. exists []. split; [apply grows_refl | reflexivity].
  - cbn [delete_pass]. unfold bind.
    destruct (deleteExpiredPanel_run (q_serverId q) (q_username q) w st)
      as (Hok & l0 & Hg0 & Hp0).
    destruct (Deprovision.deleteExpiredPanel (q_serverId q) (q_username q) w st)
      as [ok st0]. simpl in Hok, Hg0. subst ok.
    destruct Hdesc as [Hlt Hdesc].
    assert (Hq' : forall q', In q' queue ->
              forall x, nth_error (JS.splice1 (index q) db) (index q') = Some x ->
                        locked x = false).
    { intros q' Hin x Hx. rewrite splice1_nth_lt in Hx.
      - eapply Hq; [right; exact Hin | exact Hx].
      - rewrite Forall_forall in Hlt. apply Hlt. now apply in_map. }
    destruct (IH (JS.splice1 (index q) db) true w st0 Hdesc Hq')
      as (Hf & l & Hg & Hp).
    split.
    + rewrite Hf. apply splice1_filter. intros x Hx.
      eapply Hq; [left; reflexivity | exact Hx].
    + exists (l0 ++ l). split; [eapply grows_trans; eauto|].
      rewrite puts_app, Hp0, Hp. reflexivity.
Qed.

Lemma locked_settings_item : forall cur, locked (Store.settings_item cur) = false.
Proof. reflexivity. Qed.

(** One tick keeps every locked entry: in the list it leaves in memory, and
    in every document it writes. *)
Lemma tick_keeps_locked : forall w st,
  (forall doc, In doc (puts (issued tick w st)) ->
     filter locked doc = filter locked (fst (Store.loadServerDatabase w st)))
  /\ (forall db', fst (tick w st) = Return db' ->
     filter locked db' = filter locked (fst (Store.loadServerDatabase w st))).
Proof.
  intros w st.
  destruct (tick w st) as [res stF] eqn:E.
  unfold issued. rewrite E. cbn [fst snd].
  unfold tick in E. unfold bind at 1 in E.
  pose proof (loadServerDatabase_run w st) as Hg0.
  destruct (Store.loadServerDatabase w st) as [db st1]. cbn [fst snd] in *.
  unfold bind at 1 in E. unfold Date_now at 1 in E.
  unfold bind at 1 in E. unfold the_config at 1 in E.
  unfold bind at 1 in E.
  destruct (sweep_loop_run (clock w (log st1))
              (AUTO_DELETE_AFTER_DAYS (config w)) db O w st1)
    as [(l1 & Hg1 & Hp1 & _) Hret].
  destruct (sweep_loop (clock w (log st1)) (AUTO_DELETE_AFTER_DAYS (config w))
              O db w st1) as [[e|[[db1 ch] queue]] st2]; cbn [fst snd] in *.
  - unfold ret in E. injection E as <- <-.
    rewrite (grows_trans _ _ _ _ _ Hg0 Hg1), skipn_app_exact, puts_app, Hp1.
    split; [intros doc []|intros db' H; discriminate].
  - destruct (Hret db1 ch queue eq_refl) as (HF & Hasc & Hq).
    unfold bind at 1 in E.
    assert (Hdesc : descending (map index (rev queue))).
    { rewrite map_rev. now apply ascending_rev. }
    assert (Hq1 : forall q, In q (rev queue) ->
              forall x, nth_error db1 (index q) = Some x -> locked x = false).
    { intros q Hin x Hx. apply in_rev in Hin.
      destruct (Hq q Hin) as (_ & s & Hs & Hls).
      rewrite Nat.sub_0_r in Hs.
      destruct (lock_kept_nth _ _ HF _ _ _ Hs Hx) as [Hk _]. congruence. }
    destruct (delete_pass_run (rev queue) db1 ch w st2 Hdesc Hq1)
      as (Hf & l2 & Hg2 & Hp2).
    destruct (delete_pass (rev queue) db1 ch w st2) as [[db2 ch2] st3].
    cbn [fst snd] in *.
    rewrite (lock_kept_filter _ _ HF) in Hf.
    unfold bind at 1 in E.
    destruct ch2.
    + destruct (saveServerDatabase_run db2 w st3) as (l3 & Hg3 & Hp3 & _).
      destruct (Store.saveServerDatabase db2 w st3) as [[] st4].
      cbn [fst snd] in *. unfold ret in E. injection E as <- <-.
      rewrite (grows_trans _ _ _ _ _
                 (grows_trans _ _ _ _ _ (grows_trans _ _ _ _ _ Hg0 Hg1) Hg2) Hg3).
      rewrite skipn_app_exact, !puts_app, Hp1, Hp2. simpl.
      split; [|intros db' H; injection H as <-; exact Hf].
      intros doc Hdoc. destruct Hp3 as [Hp3|Hp3]; rewrite Hp3 in Hdoc.
      * contradiction.
      * destruct Hdoc as [<-|[]].
        rewrite filter_app. simpl. rewrite app_nil_r. exact Hf.
    + unfold ret in E. injection E as <- <-.
      rewrite (grows_trans _ _ _ _ _ (grows_trans _ _ _ _ _ Hg0 Hg1) Hg2).
      rewrite skipn_app_exact, !puts_app, Hp1, Hp2. simpl.
      split; [intros doc []|intros db' H; injection H as <-; exact Hf].
Qed.

Lemma in_filter_locked : forall srv l l',
  locked srv = true -> filter locked l' = filter locked l -> In srv l -> In srv l'.
Proof.
  intros srv l l' Hl Heq Hin.
  assert (H : In srv (filter locked l)) by (apply filter_In; auto).
  rewrite <- Heq in H. apply filter_In in H. tauto.
Qed.

(** C2: an entry with [suspend_by = 'admin'] is out of the sweeper's reach,
    however long ago it expired.  Its iteration of the first loop issues no
    request (so no suspend call), leaves the entry -- and with it
    [suspend_by] -- as it is, and queues nothing; no entry of the deletion
    queue points at it; and it is in the list the tick leaves in memory and
    in every document the tick writes, among the same locked entries the
    tick has loaded. *)
Theorem admin_lock_is_out_of_reach :
  forall (w : World) (st : State) (srv : Item),
    suspend_by srv = Some admin ->
    (forall now grace i w' st',
       Sweeper.sweep_entry now grace i srv w' st'
       = (Return (srv, false, None), st'))
    /\ (forall now grace db i j w' st' db1 changed queue,
        fst (Sweeper.sweep_loop now grace i db w' st')
          = Return (db1, changed, queue) ->
        nth_error db j = Some srv ->
        nth_error db1 j = Some srv
        /\ ~ In (i + j)%nat (map Sweeper.index queue))
    /\ (In srv (fst (Store.loadServerDatabase w st)) ->
        (forall doc, In doc (puts (issued Sweeper.tick w st)) ->
           In srv doc
           /\ filter Sweeper.locked doc
              = filter Sweeper.locked (fst (Store.loadServerDatabase w st)))
        /\ (forall db', fst (Sweeper.tick w st) = Return db' ->
           In srv db'
           /\ filter Sweeper.locked db'
              = filter Sweeper.locked (fst (Store.loadServerDatabase w st)))).
Proof.
  intros w st srv Hadm.
  assert (Hl : locked srv = true) by (unfold locked; rewrite Hadm; reflexivity).
  split; [|split].
  - intros. now apply sweep_entry_locked.
  - intros now grace db i j w' st' db1 changed queue Hrun Hj.
    destruct (sweep_loop_run now grace db i w' st') as [_ Hret].
    destruct (Hret db1 changed queue Hrun) as (HF & _ & Hq).
    split.
    + destruct (lock_kept_nth_ex _ _ HF _ _ Hj) as (b & Hb & _ & Hsame).
      rewrite Hb. f_equal. now apply Hsame.
    + intros Hin. apply in_map_iff in Hin. destruct Hin as (q & Hidx & Hin).
      destruct (Hq q Hin) as (_ & s & Hs & Hls).
      rewrite Hidx in Hs. replace (i + j - i)%nat with j in Hs by lia.
      congruence.
  - intros Hin. destruct (tick_keeps_locked w st) as [Hdocs Hdb]. split.
    + intros doc Hdoc. specialize (Hdocs doc Hdoc). split; auto.
      eapply in_filter_locked; eauto.
    + intros db' Hrun. specialize (Hdb db' Hrun). split; auto.
      eapply in_filter_locked; eauto.
Qed.

(** The instance of C2 at the entry of [bob], locked by the administrator
    and expired since the epoch, swept a thousand days later. *)
Lemma admin_lock_is_out_of_reach_witness :
  Sweeper.sweep_entry (1000 * JS.DAY) 7 0
    (Samples.entry_of_bob (Some admin) 0)
    (Samples.online (1000 * JS.DAY) [Samples.entry_of_bob (Some admin) 0] [])
    Samples.fresh
  = (Return (Samples.entry_of_bob (Some admin) 0, false, None), Samples.fresh).
Proof.
  exact (proj1 (admin_lock_is_out_of_reach
                  (Samples.online (1000 * JS.DAY)
                     [Samples.entry_of_bob (Some admin) 0] [])
                  Samples.fresh (Samples.entry_of_bob (Some admin) 0) eq_refl)
               (1000 * JS.DAY) 7 0%nat
               (Samples.online (1000 * JS.DAY)
                  [Samples.entry_of_bob (Some admin) 0] [])
               Samples.fresh).
Defined.

(** An entry the sweeper has suspended is not suspended again. *)
Lemma sweep_entry_auto : forall now grace i srv w st,
  suspend_by srv = Some auto ->
  snd (sweep_entry now grace i srv w st) = st
  /\ forall srv' changed queued,
       fst (sweep_entry now grace i srv w st) = Return (srv', changed, queued) ->
       srv' = srv /\ changed = false.
Proof.
  intros now grace i srv w st Hauto. unfold sweep_entry. rewrite Hauto.
  cbn [is_admin is_auto negb].
  destruct (panel_data srv) as [pd|].
  - rewrite andb_false_r. unfold bind, ret; simpl.
    split; auto. intros ? ? ? H. injection H as <- <- _. auto.
  - split; auto. intros ? ? ? H. discriminate.
Qed.

(** The suspend requests of one iteration: one for an entry that is due,
    none otherwise. *)
Lemma sweep_entry_suspends : forall now grace i srv w st,
  exists l,
    grows st (snd (sweep_entry now grace i srv w st)) l
    /\ suspends l = due now srv.
Proof.
  intros now grace i srv w st. unfold sweep_entry, due, locked.
  destruct (is_admin (suspend_by srv)).
  { exists []. split; [apply grows_refl | reflexivity]. }
  destruct (panel_data srv) as [pd|].
  - unfold bind.
    destruct (past (pd_expires_at pd) now && negb (is_auto (suspend_by srv))).
    + exists [SuspendServer (pd_server_id pd)]. split; reflexivity.
    + exists []. split; [apply grows_refl | reflexivity].
  - exists []. split; [apply grows_refl | reflexivity].
Qed.

(** A first loop that completes has sent one suspend request per entry that
    is due, in the order of the list, and no other. *)
Lemma sweep_loop_suspends : forall now grace todo i w st r,
  fst (sweep_loop now grace i todo w st) = Return r ->
  suspends (issued (sweep_loop now grace i todo) w st)
    = flat_map (due now) todo.
Proof.
  intros now grace todo. induction todo as [|srv rest IH]; intros i w st r Hr.
  - unfold issued. simpl. rewrite <- (app_nil_r (log st)) at 2.
    now rewrite skipn_app_exact.
  - destruct (sweep_loop now grace i (srv :: rest) w st) as [res stF] eqn:E.
    unfold issued. rewrite E. cbn [fst snd] in *. subst res.
    cbn [sweep_loop] in E. unfold bind at 1 in E.
    destruct (sweep_entry_suspends now grace i srv w st) as (l0 & Hg0 & Hs0).
    destruct (sweep_entry now grace i srv w st)
      as [[e|[[srv' ch0] queued]] st0]; cbn [fst snd] in *.
    { unfold ret in E. discriminate E. }
    unfold bind at 1 in E.
    destruct (sweep_loop now grace (S i) rest w st0) as [rs st1] eqn:E1.
    destruct rs as [e|[[rest' ch'] queue']].
    { unfold ret in E. discriminate E. }
    unfold ret in E. injection E as _ <-.
    specialize (IH (S i) w st0 (rest', ch', queue')).
    rewrite E1 in IH. specialize (IH eq_refl).
    unfold issued in IH. rewrite E1 in IH. cbn [snd] in IH.
    unfold grows in Hg0.
    assert (Hlen : log st1 = (log st ++ l0) ++ skipn (List.length (log st0)) (log st1)).
    { destruct (sweep_loop_run now grace rest (S i) w st0) as [(l & Hg & _) _].
      rewrite E1 in Hg. cbn [snd] in Hg. unfold grows in Hg.
      rewrite Hg, skipn_app_exact, Hg0. reflexivity. }
    rewrite Hlen, <- app_assoc, skipn_app_exact, suspends_app, Hs0, IH.
    reflexivity.
Qed.

(** One iteration on an entry the loop can read. *)
Lemma sweep_entry_marks : forall now grace i srv w st,
  readable srv = true ->
  exists queued,
    match queued with Some q => index q = i | None => True end
    /\ (match queued with Some _ => true | None => false end)
       = doomed now grace srv
    /\ match due now srv with
       | [] =>
           sweep_entry now grace i srv w st = (Return (srv, false, queued), st)
       | sid :: _ =>
           sweep_entry now grace i srv w st
           = (Return
                (if suspend_server w (log st ++ [SuspendServer sid])
                 then with_suspend_by srv (Some auto) else srv,
                 suspend_server w (log st ++ [SuspendServer sid]), queued),
              snd (ask (SuspendServer sid) suspend_server w st))
       end.
Proof.
  intros now grace i srv w st Hread.
  unfold sweep_entry, due, doomed, readable, locked in *.
  destruct (is_admin (suspend_by srv)).
  { exists None. repeat split. }
  destruct (panel_data srv) as [pd|]; [|discriminate Hread].
  cbn [negb andb].
  destruct (past (pd_expires_at pd) now && beyond_grace (pd_expires_at pd) now grace).
  - exists (Some {| index := i; q_serverId := pd_server_id pd;
                    q_username := username srv |}).
    split; [reflexivity|]. split; [reflexivity|].
    destruct (past (pd_expires_at pd) now && negb (is_auto (suspend_by srv))).
    + unfold bind, ask, ret. cbn [fst snd].
      destruct (suspend_server w _); reflexivity.
    + reflexivity.
  - exists None. split; [exact I|]. split; [reflexivity|].
    destruct (past (pd_expires_at pd) now && negb (is_auto (suspend_by srv))).
    + unfold bind, ask, ret. cbn [fst snd].
      destruct (suspend_server w _); reflexivity.
    + reflexivity.
Qed.

(** The first loop on a database it can read: it leaves the database as
    [suspend_pass] describes, its requests are the suspend requests of the
    entries that are due, and it queues the positions of the doomed
    entries. *)
Lemma sweep_loop_marks : forall now grace todo i w st,
  forallb readable todo = true ->
  exists changed queue,
    fst (sweep_loop now grace i todo w st)
    = Return (suspend_pass w (log st) now todo, changed, queue)
    /\ grows st (snd (sweep_loop now grace i todo w st))
         (map SuspendServer (flat_map (due now) todo))
    /\ map index queue = doomed_indices now grace i todo
    /\ (changed = false -> suspend_pass w (log st) now todo = todo).
Proof.
  intros now grace todo. induction todo as [|srv rest IH]; intros i w st Hread.
  - exists false, []. cbn. repeat split. apply grows_refl.
  - cbn [forallb] in Hread. apply andb_prop in Hread. destruct Hread as [Hsrv Hrest].
    destruct (sweep_loop now grace i (srv :: rest) w st) as [res stF] eqn:E.
    cbn [sweep_loop] in E. unfold bind at 1 in E.
    cbn [fst snd suspend_pass flat_map doomed_indices].
    destruct (sweep_entry_marks now grace i srv w st Hsrv) as (queued & Hidx & Hdoom & Hrun).
    destruct (due now srv) as [|sid more] eqn:Edue.
    + rewrite Hrun in E. unfold bind at 1 in E.
      destruct (IH (S i) w st Hrest) as (ch & q & Hr & Hg & Hq & Hch).
      destruct (sweep_loop now grace (S i) rest w st) as [r st1].
      cbn [fst snd] in *. subst r. unfold ret in E. injection E as <- <-.
      cbn [orb app].
      eexists. eexists. split; [reflexivity|]. split; [exact Hg|]. split.
      { rewrite <- Hdoom. destruct queued as [q0|]; cbn [map app]; rewrite Hq;
          [now rewrite Hidx | reflexivity]. }
      intros Hc. now rewrite (Hch Hc).
    + rewrite Hrun in E. unfold bind at 1 in E.
      set (st0 := snd (ask (SuspendServer sid) suspend_server w st)) in *.
      destruct (IH (S i) w st0 Hrest) as (ch & q & Hr & Hg & Hq & Hch).
      change (log st0) with (log st ++ [SuspendServer sid]) in Hr, Hch.
      destruct (sweep_loop now grace (S i) rest w st0) as [r st1].
      cbn [fst snd] in *. subst r. unfold ret in E. injection E as <- <-.
      eexists. eexists. split; [reflexivity|]. split.
      { unfold grows in *. rewrite Hg. cbn [map app].
        change (log st0) with (log st ++ [SuspendServer sid]).
        rewrite <- app_assoc. cbn [app].
        assert (Hmore : more = []).
        { unfold due in Edue. destruct (locked srv); [discriminate|].
          destruct (panel_data srv); [|discriminate].
          destruct (_ && _); [|discriminate]. now injection Edue. }
        subst more. reflexivity. }
      split.
      { rewrite <- Hdoom. destruct queued as [q0|]; cbn [map app]; rewrite Hq;
          [now rewrite Hidx | reflexivity]. }
      destruct (suspend_server w (log st ++ [SuspendServer sid])); cbn [orb].
      * discriminate.
      * intros Hc. now rewrite (Hch Hc).
Qed.

(** The suspend pass changes [suspend_by] only: an entry keeps its [id], its
    lock, its [panel_data] and with them whether it is doomed and whether
    the loop can read it. *)
Lemma suspend_pass_keeps : forall w now todo h,
  Forall2 (fun a b => id b = id a /\ locked b = locked a
                      /\ panel_data b = panel_data a)
          todo (suspend_pass w h now todo).
Proof.
  intros w now todo. induction todo as [|srv rest IH]; intros h; cbn [suspend_pass].
  - constructor.
  - destruct (due now srv) as [|sid more] eqn:Edue.
    + constructor; [repeat split | apply IH].
    + constructor; [|apply IH].
      destruct (suspend_server w _); [|repeat split].
      split; [reflexivity|]. split; [|reflexivity].
      unfold due in Edue. unfold locked in *.
      destruct (is_admin (suspend_by srv)); [discriminate Edue | reflexivity].
Qed.

(** What the suspend pass does to an entry: nothing, or, for an entry that
    is due, the mark of the sweeper. *)
Lemma suspend_pass_shape : forall w now todo h,
  Forall2 (fun a b => b = a
                      \/ (due now a <> [] /\ b = with_suspend_by a (Some auto)))
          todo (suspend_pass w h now todo).
Proof.
  intros w now todo. induction todo as [|srv rest IH]; intros h; cbn [suspend_pass].
  - constructor.
  - destruct (due now srv) as [|sid more] eqn:Edue.
    + constructor; [now left | apply IH].
    + constructor; [|apply IH].
      destruct (suspend_server w _); [right | now left].
      split; [rewrite Edue; discriminate | reflexivity].
Qed.

(** A control plane that refuses every suspend request leaves the database
    as it is. *)
Lemma suspend_pass_refused : forall w now todo h,
  (forall h', suspend_server w h' = false) ->
  suspend_pass w h now todo = todo.
Proof.
  intros w now todo. induction todo as [|srv rest IH]; intros h Hno;
    cbn [suspend_pass]; [reflexivity|].
  destruct (due now srv) as [|sid more].
  - now rewrite IH.
  - now rewrite Hno, IH.
Qed.

Lemma splice1_app_length : forall A (pre : list A) x l,
  JS.splice1 (List.length pre) (pre ++ x :: l) = pre ++ l.
Proof.
  induction pre as [|a pre IH]; intros x l; simpl; [reflexivity|].
  now rewrite IH.
Qed.

(** Removing the queued positions, the highest first, leaves the entries
    that are not doomed. *)
Lemma splice_doomed : forall now grace l l1 pre,
  Forall2 (fun a b => doomed now grace b = doomed now grace a) l l1 ->
  fold_left (fun d k => JS.splice1 k d)
    (rev (doomed_indices now grace (List.length pre) l)) (pre ++ l1)
  = pre ++ filter (fun srv => negb (doomed now grace srv)) l1.
Proof.
  intros now grace l l1 pre H. revert pre.
  induction H as [|a b l l1 Hab _ IH]; intros pre.
  - reflexivity.
  - cbn [doomed_indices filter]. rewrite rev_app_distr, fold_left_app.
    replace (pre ++ b :: l1) with ((pre ++ [b]) ++ l1)
      by (now rewrite <- app_assoc).
    replace (S (List.length pre)) with (List.length (pre ++ [b]))
      by (rewrite length_app; simpl; lia).
    rewrite IH, Hab.
    destruct (doomed now grace a); cbn [negb rev app fold_left].
    + rewrite <- app_assoc. cbn [app]. apply splice1_app_length.
    + now rewrite <- app_assoc.
Qed.

(** [deleteExpiredPanel] suspends nothing. *)
Lemma deleteExpiredPanel_no_suspend : forall sid u w st l,
  grows st (snd (Deprovision.deleteExpiredPanel sid u w st)) l ->
  suspends l = [].
Proof.
  intros sid u w st l Hg.
  assert (H : exists l', grows st (snd (Deprovision.deleteExpiredPanel sid u w st)) l'
                         /\ suspends l' = []).
  { unfold Deprovision.deleteExpiredPanel, Deprovision.forget_tracked_order,
      bind, ask, ret, get_state, set_orders; simpl.
    destruct (get_server w (log st ++ [GetServer sid])) as [[uid|]|];
      try (exists [GetServer sid]; split; reflexivity).
    destruct (JS.truthy_num (Some uid));
      try (exists [GetServer sid]; split; reflexivity).
    simpl.
    destruct (get_user w _) as [ua|]; simpl.
    - destruct (negb (root_admin ua) && _); simpl.
      + exists [GetServer sid; DeleteServer sid; GetUser uid; DeleteUser uid].
        split; [|reflexivity]. unfold grows; simpl. now rewrite <- !app_assoc.
      + exists [GetServer sid; DeleteServer sid; GetUser uid].
        split; [|reflexivity]. unfold grows; simpl. now rewrite <- !app_assoc.
    - exists [GetServer sid; DeleteServer sid; GetUser uid].
      split; [|reflexivity]. unfold grows; simpl. now rewrite <- !app_assoc. }
  destruct H as (l' & Hg' & Hs). now rewrite (grows_unique _ _ _ _ Hg Hg').
Qed.

(** The second loop: every queued position is removed, nothing is written
    and nothing suspended, and the database counts as changed once the queue
    is not empty. *)
Lemma delete_pass_removes : forall queue db changed w st,
  fst (delete_pass queue db changed w st)
  = (fold_left (fun d k => JS.splice1 k d) (map index queue) db,
     changed || negb (match queue with [] => true | _ => false end))
  /\ exists l,
       grows st (snd (delete_pass queue db changed w st)) l
       /\ puts l = [] /\ suspends l = [].
Proof.
  induction queue as [|q queue IH]; intros db changed w st.
  - cbn. rewrite orb_false_r. split; [reflexivity|].
    exists []. split; [apply grows_refl | split; reflexivity].
  - cbn [delete_pass map fold_left]. unfold bind.
    destruct (deleteExpiredPanel_run (q_serverId q) (q_username q) w st)
      as (Hok & l0 & Hg0 & Hp0).
    pose proof (deleteExpiredPanel_no_suspend _ _ _ _ _ Hg0) as Hs0.
    destruct (Deprovision.deleteExpiredPanel (q_serverId q) (q_username q) w st)
      as [ok st0]. cbn [fst snd] in *. subst ok.
    destruct (IH (JS.splice1 (index q) db) true w st0) as (Hr & l & Hg & Hp & Hs).
    rewrite Hr. cbn [orb negb]. rewrite orb_true_r. split; [reflexivity|].
    exists (l0 ++ l). split; [eapply grows_trans; eauto|].
    rewrite puts_app, suspends_app, Hp0, Hp, Hs0, Hs. split; reflexivity.
Qed.

Lemma suspends_map : forall l, suspends (map SuspendServer l) = l.
Proof. induction l as [|x l IH]; simpl; [reflexivity | now rewrite IH]. Qed.

Lemma puts_map_suspend : forall l, puts (map SuspendServer l) = [].
Proof. induction l as [|x l IH]; simpl; auto. Qed.

(** One tick on a database it can read, as a whole. *)
Lemma tick_run : forall w st,
  let db := fst (Store.loadServerDatabase w st) in
  let h := log st ++ [GithubGet] in
  let now := clock w h in
  let grace := AUTO_DELETE_AFTER_DAYS (config w) in
  let marked := suspend_pass w h now db in
  let kept := filter (fun srv => negb (doomed now grace srv)) marked in
  forallb readable db = true ->
  fst (tick w st) = Return kept
  /\ suspends (issued tick w st) = flat_map (due now) db
  /\ exists s,
       (puts (issued tick w st) = [] \/
        puts (issued tick w st) = [kept ++ [Store.settings_item s]])
       /\ (marked <> db \/ existsb (doomed now grace) db = true ->
           In GithubSha (issued tick w st)
           /\ ((forall h', github_sha w h' <> None) ->
               puts (issued tick w st) = [kept ++ [Store.settings_item s]])).
Proof.
  intros w st db h now grace marked kept Hread.
  subst db h now grace marked kept.
  destruct (tick w st) as [res stF] eqn:E.
  unfold issued. rewrite E. cbn [fst snd].
  unfold tick in E. unfold bind at 1 in E.
  pose proof (loadServerDatabase_run w st) as Hg0.
  destruct (Store.loadServerDatabase w st) as [db st1]. cbn [fst snd] in *.
  assert (Hlog1 : log st1 = log st ++ [GithubGet]) by exact Hg0.
  rewrite <- Hlog1.
  unfold bind at 1 in E. unfold Date_now at 1 in E.
  unfold bind at 1 in E. unfold the_config at 1 in E.
  unfold bind at 1 in E.
  set (now := clock w (log st1)) in *.
  set (grace := AUTO_DELETE_AFTER_DAYS (config w)) in *.
  destruct (sweep_loop_marks now grace db O w st1 Hread)
    as (ch & queue & Hr & Hg1 & Hq & Hch).
  destruct (sweep_loop now grace O db w st1) as [r st2]. cbn [fst snd] in *.
  subst r. unfold bind at 1 in E.
  destruct (delete_pass_removes (rev queue) (suspend_pass w (log st1) now db) ch w st2)
    as (Hr2 & l2 & Hg2 & Hp2 & Hs2).
  destruct (delete_pass (rev queue) (suspend_pass w (log st1) now db) ch w st2)
    as [r2 st3]. cbn [fst snd] in *. subst r2. cbn [fst snd] in E.
  assert (Hkept : fold_left (fun d k => JS.splice1 k d) (map index (rev queue))
                    (suspend_pass w (log st1) now db)
                  = filter (fun srv => negb (doomed now grace srv))
                      (suspend_pass w (log st1) now db)).
  { rewrite map_rev, Hq.
    apply (splice_doomed now grace db (suspend_pass w (log st1) now db) []).
    eapply Forall2_impl; [|exact (suspend_pass_keeps w now db (log st1))].
    intros a b (_ & Hl & Hpd). unfold doomed. now rewrite Hl, Hpd. }
  rewrite Hkept in E.
  pose proof (suspends_map (flat_map (due now) db)) as Hsusp.
  pose proof (puts_map_suspend (flat_map (due now) db)) as Hputs1.
  unfold bind at 1 in E.
  destruct (ch || negb match rev queue with [] => true | _ => false end) eqn:Echg.
  - destruct (saveServerDatabase_run
                (filter (fun srv => negb (doomed now grace srv))
                   (suspend_pass w (log st1) now db)) w st3)
      as (l3 & Hg3 & Hp3 & Hp3' & Hsha & _ & Hso).
    destruct (Store.saveServerDatabase _ w st3) as [[] st4].
    cbn [fst snd] in *. unfold ret in E. injection E as <- <-.
    rewrite (grows_trans _ _ _ _ _
               (grows_trans _ _ _ _ _ (grows_trans _ _ _ _ _ Hg0 Hg1) Hg2) Hg3).
    rewrite skipn_app_exact.
    destruct (store_only_quiet _ Hso) as (Hs3 & _ & _).
    split; [reflexivity|]. split.
    { rewrite !suspends_app, Hsusp, Hs2, Hs3. cbn. now rewrite !app_nil_r. }
    exists (fst (Store.loadSettings w st3)).
    rewrite (grows_trans _ _ _ _ _
               (grows_trans _ _ _ _ _ (grows_trans _ _ _ _ _ Hg0 Hg1) Hg2) Hg3).
    rewrite skipn_app_exact.
    rewrite !puts_app, Hputs1, Hp2. cbn [puts flat_map app].
    split; [exact Hp3|]. intros _. split.
    { right. apply in_or_app. right. exact Hsha. }
    exact Hp3'.
  - unfold ret in E. injection E as <- <-.
    rewrite (grows_trans _ _ _ _ _ (grows_trans _ _ _ _ _ Hg0 Hg1) Hg2).
    rewrite skipn_app_exact.
    split; [reflexivity|]. split.
    { rewrite !suspends_app, Hsusp, Hs2. cbn. now rewrite !app_nil_r. }
    exists (fst (Store.loadSettings w st3)).
    rewrite (grows_trans _ _ _ _ _ (grows_trans _ _ _ _ _ Hg0 Hg1) Hg2).
    rewrite skipn_app_exact.
    rewrite !puts_app, Hputs1, Hp2. cbn [puts flat_map app].
    split; [left; reflexivity|]. intros Hchanged. exfalso.
    apply orb_false_iff in Echg. destruct Echg as [Hch0 Hq0].
    destruct Hchanged as [Hm|Hd].
    + apply Hm. now apply Hch.
    + apply negb_false_iff in Hq0.
      assert (Hnil : doomed_indices now grace O db = []).
      { rewrite <- Hq. destruct queue as [|q0 queue']; [reflexivity|].
        simpl in Hq0. destruct (rev queue' ++ [q0]) eqn:Er; [|discriminate].
        now apply app_eq_nil in Er as [_ Er]. }
      clear - Hd Hnil. revert Hnil. generalize O.
      induction db as [|x db IH]; intros n Hnil; [discriminate|].
      cbn [existsb doomed_indices] in *.
      destruct (doomed now grace x); [discriminate|].
      apply (IH Hd (S n) Hnil).
Qed.

(** What the tick keeps reads back from the document it writes: no kept
    entry is the settings entry, and the loop can read them all. *)
Lemma kept_reads_back : forall w st h now grace s,
  let kept := filter (fun srv => negb (doomed now grace srv))
                (suspend_pass w h now (fst (Store.loadServerDatabase w st))) in
  forallb readable (fst (Store.loadServerDatabase w st)) = true ->
  filter (fun it => negb (Store.is_settings it)) (kept ++ [Store.settings_item s])
  = kept
  /\ forallb readable kept = true.
Proof.
  intros w st h now grace s kept Hread. subst kept.
  rewrite loadServerDatabase_value in *.
  set (db := match github_get w (log st ++ [GithubGet]) with
             | Some (Entries items) =>
                 filter (fun it => negb (Store.is_settings it)) items
             | _ => []
             end) in *.
  assert (Hdb : Forall (fun it => negb (Store.is_settings it) = true) db).
  { subst db. destruct (github_get w _) as [[items|]|]; try constructor.
    apply Forall_forall. intros x Hx. apply filter_In in Hx. tauto. }
  pose proof (suspend_pass_keeps w now db h) as HF.
  assert (Hmarked : Forall (fun it => negb (Store.is_settings it) = true
                                      /\ readable it = true)
                      (suspend_pass w h now db)).
  { rewrite forallb_forall in Hread. rewrite Forall_forall in Hdb.
    induction HF as [|a b l l' (Hid & Hl & Hpd) _ IH']; constructor.
    - split.
      + unfold Store.is_settings. rewrite Hid. apply (Hdb a). now left.
      + unfold readable. rewrite Hl, Hpd. apply (Hread a). now left.
    - apply IH'; intros x Hx; [apply Hread | apply Hdb]; now right. }
  clear HF. split.
  - rewrite filter_app. cbn [filter Store.settings_item Store.is_settings id].
    cbn. rewrite app_nil_r.
    induction Hmarked as [|x l [Hx _] _ IH']; [reflexivity|].
    cbn [filter]. destruct (negb (doomed now grace x)); [|exact IH'].
    cbn [filter]. rewrite Hx. now rewrite IH'.
  - induction Hmarked as [|x l [_ Hx] _ IH']; [reflexivity|].
    cbn [filter]. destruct (negb (doomed now grace x)); [|exact IH'].
    cbn [forallb]. now rewrite Hx, IH'.
Qed.

(** C5, as the code has it: the sweeper suspends a subscription once per
    expiry, once its mark has reached the store.  On a database the tick can
    read, its suspend requests are one for each entry that is
    due -- past its expiry, [suspend_by] neither ['admin'] nor ['auto'] --
    in the order of the database, and no other.  The database it leaves, in
    memory and in the one document it may write, is that of the suspend
    pass, less the entries whose grace has elapsed: the pass changes an
    entry only in that it sets [suspend_by] to ['auto'] on a due entry whose
    request the control plane has accepted, and changes none when the
    control plane accepts no request, so that a request that fails is sent
    again by the next tick.  When an entry has been marked or removed the write is
    attempted, and it is made when the store answers.  A later tick that
    reads a document this tick has written sends its suspend requests for
    the due entries of that document, of which an entry with
    [suspend_by = 'auto'] is none, at any time.  The iteration on one entry
    behaves accordingly. *)
Theorem sweeper_suspends_once :
  forall (w : World) (st : State),
    let db := fst (Store.loadServerDatabase w st) in
    let h := log st ++ [GithubGet] in
    let now := clock w h in
    let grace := Sweeper.AUTO_DELETE_AFTER_DAYS (config w) in
    let marked := Sweeper.suspend_pass w h now db in
    let kept := filter (fun srv => negb (Sweeper.doomed now grace srv)) marked in
    forallb Sweeper.readable db = true ->
    suspends (issued Sweeper.tick w st) = flat_map (Sweeper.due now) db
    /\ fst (Sweeper.tick w st) = Return kept
    /\ Forall2 (fun a b =>
                  b = a
                  \/ (Sweeper.due now a <> []
                      /\ b = Sweeper.with_suspend_by a (Some auto)))
               db marked
    /\ ((forall h', suspend_server w h' = false) -> marked = db)
    /\ (exists s,
          (puts (issued Sweeper.tick w st) = [] \/
           puts (issued Sweeper.tick w st) = [kept ++ [Store.settings_item s]])
          /\ (marked <> db \/ existsb (Sweeper.doomed now grace) db = true ->
              In GithubSha (issued Sweeper.tick w st)
              /\ ((forall h', github_sha w h' <> None) ->
                  puts (issued Sweeper.tick w st)
                  = [kept ++ [Store.settings_item s]])))
    /\ (forall doc w' st',
          In doc (puts (issued Sweeper.tick w st)) ->
          github_get w' (log st' ++ [GithubGet]) = Some (Entries doc) ->
          fst (Store.loadServerDatabase w' st') = kept
          /\ suspends (issued Sweeper.tick w' st')
             = flat_map (Sweeper.due (clock w' (log st' ++ [GithubGet]))) kept)
    /\ (forall srv now', suspend_by srv = Some auto -> Sweeper.due now' srv = [])
    /\ (forall srv pd e now0 grace0 i w0 st0,
          panel_data srv = Some pd ->
          pd_expires_at pd = Some e ->
          e < now0 ->
          suspend_by srv = None ->
          let ok :=
            suspend_server w0 (log st0 ++ [SuspendServer (pd_server_id pd)]) in
          Sweeper.due now0 srv = [pd_server_id pd]
          /\ issued (Sweeper.sweep_entry now0 grace0 i srv) w0 st0
             = [SuspendServer (pd_server_id pd)]
          /\ exists queued,
               fst (Sweeper.sweep_entry now0 grace0 i srv w0 st0)
               = Return (if ok then Sweeper.with_suspend_by srv (Some auto)
                         else srv,
                         ok, queued)).
Proof.
  intros w st db h now grace marked kept Hread.
  destruct (tick_run w st Hread) as (Hres & Hsusp & s & Hp & Hwrite).
  fold db h now grace marked kept in Hres, Hsusp, Hp, Hwrite.
  split; [exact Hsusp|]. split; [exact Hres|].
  split; [apply suspend_pass_shape|].
  split; [intros Hno; now apply suspend_pass_refused|].
  split; [exists s; split; assumption|].
  split; [|split].
  - intros doc w' st' Hdoc Hget.
    assert (Hd : doc = kept ++ [Store.settings_item s]).
    { destruct Hp as [Hp|Hp]; rewrite Hp in Hdoc; [contradiction|].
      destruct Hdoc as [<-|[]]. reflexivity. }
    destruct (kept_reads_back w st h now grace s Hread) as [Hback Hread'].
    fold db marked kept in Hback, Hread'.
    assert (Hdb' : fst (Store.loadServerDatabase w' st') = kept).
    { rewrite loadServerDatabase_value, Hget, Hd. exact Hback. }
    split; [exact Hdb'|].
    assert (Hr : forallb readable (fst (Store.loadServerDatabase w' st')) = true)
      by (rewrite Hdb'; exact Hread').
    destruct (tick_run w' st' Hr) as (_ & Hs' & _).
    rewrite Hs', Hdb'. reflexivity.
  - intros srv now' Hauto. unfold due, locked. rewrite Hauto.
    cbn [is_admin is_auto negb]. destruct (panel_data srv); [|reflexivity].
    now rewrite andb_false_r.
  - intros srv pd e now0 grace0 i w0 st0 Hpd He Hlt Hsb ok.
    assert (Hpast : past (pd_expires_at pd) now0 = true).
    { rewrite He. simpl. now apply Z.ltb_lt. }
    split; [|split].
    + unfold due, locked. rewrite Hsb, Hpd. cbn [is_admin is_auto negb].
      rewrite Hpast. reflexivity.
    + apply grows_issued. unfold sweep_entry.
      rewrite Hsb, Hpd. cbn [is_admin is_auto negb]. rewrite Hpast.
      reflexivity.
    + unfold sweep_entry. rewrite Hsb, Hpd. cbn [is_admin is_auto negb].
      rewrite Hpast. unfold bind, ask, ret; simpl. fold ok.
      destruct ok; eexists; reflexivity.
Qed.

(** The instance of C5 at the entry of [bob], expired since the epoch and
    not suspended, eight days later, with every collaborator up: the tick
    sends one suspend request, for the server 7. *)
Lemma sweeper_suspends_once_witness :
  suspends (issued Sweeper.tick
              (Samples.healthy (8 * JS.DAY) [Samples.entry_of_bob None 0] [])
              Samples.fresh)
  = [Some 7].
Proof.
  exact (proj1 (sweeper_suspends_once
                  (Samples.healthy (8 * JS.DAY) [Samples.entry_of_bob None 0] [])
                  Samples.fresh eq_refl)).
Defined.

(** The scenario of the specification: eight days past the expiry, with a
    grace of seven days, one tick suspends the entry ([suspend_by] becomes
    ['auto']) and queues it for deletion; the tick then deletes it and
    writes the document once. *)
Lemma eight_days_late_is_suspended_and_queued :
  fst (Sweeper.sweep_entry (8 * JS.DAY) 7 0 (Samples.entry_of_bob None 0)
         (Samples.healthy (8 * JS.DAY) [] []) Samples.fresh)
  = Return (Samples.entry_of_bob (Some auto) 0, true,
            Some {| Sweeper.index := 0; Sweeper.q_serverId := Some 7;
                    Sweeper.q_username := Some "bob" |})
  /\ fst (Sweeper.tick
            (Samples.healthy (8 * JS.DAY) [Samples.entry_of_bob None 0] [])
            Samples.fresh) = Return []
  /\ List.length
       (puts (issued Sweeper.tick
                (Samples.healthy (8 * JS.DAY) [Samples.entry_of_bob None 0] [])
                Samples.fresh)) = 1%nat.
Proof. repeat split; vm_compute; reflexivity. Qed.

(** C5, as it is stated, fails when the write of the tick does not reach
    the store, and for an entry under the administrator's lock.  The entry
    of [bob] expired a day ago and carries no [suspend_by]; the control
    plane accepts every request and the store refuses every write.  The tick
    suspends the server 7 and marks the entry in memory; its write is
    refused, which it does not notice; the next tick reads the entry as it
    was and suspends the server 7 again.  And a tick sends no suspend
    request for the expired entry when its [suspend_by] is ['admin'], which
    is other than ['auto']. *)
Lemma suspended_again_after_a_refused_write :
  let w := Samples.refusing JS.DAY [Samples.entry_of_bob None 0] in
  let after := snd (Sweeper.tick w Samples.fresh) in
  suspends (issued Sweeper.tick w Samples.fresh) = [Some 7]
  /\ fst (Sweeper.tick w Samples.fresh)
     = Return [Samples.entry_of_bob (Some auto) 0]
  /\ Renewal.write_refused w (log after)
  /\ suspends (issued Sweeper.tick w after) = [Some 7]
  /\ suspends (issued Sweeper.tick
                 (Samples.healthy JS.DAY [Samples.entry_of_bob (Some admin) 0] [])
                 Samples.fresh) = [].
Proof.
  cbv zeta. split; [vm_compute; reflexivity|].
  split; [vm_compute; reflexivity|]. split.
  - exists [GithubGet; SuspendServer (Some 7); GithubGet; GithubSha].
    eexists. eexists. exists []. split; [vm_compute; reflexivity|reflexivity].
  - split; vm_compute; reflexivity.
Qed.

End SweeperFacts.

(** ** Renewal workflow *)

Module RenewalFacts.
Import Renewal ProcFacts.

Lemma newExpire_max : forall cur now d,
  newExpire cur now d = Z.max cur now + d * JS.DAY.
Proof.
  intros cur now d. unfold newExpire.
  destruct (Z.ltb_spec cur now); f_equal; lia.
Qed.

Lemma addDays_positive : forall o d,
  o_days o = Some d -> 0 < d < 10 ^ 21 -> addDays_of o = d.
Proof.
  intros o d Hd Hpos. unfold addDays_of, JS.parseInt_or. rewrite Hd.
  cbn [option_map]. rewrite JSFacts.parseInt_small by lia.
  destruct d; simpl; auto; lia.
Qed.

Lemma infer_productId_total : forall server pd pn,
  product_name server = Some pn ->
  exists pid, infer_productId server pd = Return pid.
Proof.
  intros server pd pn Hpn. unfold infer_productId. rewrite Hpn.
  destruct (_ || _); [eexists; reflexivity|].
  destruct (JS.includes "Unlimited" pn); eexists; reflexivity.
Qed.

Lemma find_server_nth : forall sid l i0 i p pd,
  find_server sid i0 l = Some (i, p, pd) ->
  (i0 <= i)%nat /\ nth_error l (i - i0) = Some p /\ panel_data p = Some pd
  /\ JS.loose_eq (pd_server_id pd) sid = true.
Proof.
  intros sid l. induction l as [|x l IH]; intros i0 i p pd H; simpl in H.
  - discriminate.
  - assert (Hnext : find_server sid (S i0) l = Some (i, p, pd) ->
              (i0 <= i)%nat /\ nth_error (x :: l) (i - i0) = Some p
              /\ panel_data p = Some pd
              /\ JS.loose_eq (pd_server_id pd) sid = true).
    { intros H'. destruct (IH _ _ _ _ H') as (Hle & Hn & Hrest).
      split; [lia|]. split; [|exact Hrest].
      replace (i - i0)%nat with (S (i - S i0)) by lia. exact Hn. }
    destruct (panel_data x) as [pdx|] eqn:Ex; [|auto].
    destruct (JS.loose_eq (pd_server_id pdx) sid) eqn:El; [|auto].
    injection H as <- <- <-. rewrite Nat.sub_diag. simpl. auto.
Qed.

Lemma set_nth_nth : forall A (l : list A) i x y,
  nth_error l i = Some y -> nth_error (JS.set_nth i x l) i = Some x.
Proof.
  induction l as [|a l IH]; intros [|i] x y H; simpl in *; try discriminate; eauto.
Qed.

(** The renewal of a found entry.  When it throws it has neither written nor
    unsuspended.  When it returns, the unsuspend is its last request and the
    first of its kind, it follows an attempt to write, and what is written
    is the list with the renewed entry in place. *)
Lemma renew_found_run : forall db i server pd o w st,
  exists l,
    grows st (snd (renew_found db i server pd o w st)) l
    /\ match fst (renew_found db i server pd o w st) with
       | (Throw _, _) => puts l = [] /\ unsuspends l = []
       | (Return res, o') =>
           o_server_id o' = o_server_id o
           /\ exists pre,
                l = pre ++ [UnsuspendServer (o_server_id o)]
                /\ unsuspends pre = [] /\ In GithubSha pre
       end.
Proof.
  intros db i server pd o w st.
  destruct (renew_found db i server pd o w st) as [[res o'] stF] eqn:E.
  cbn [fst snd]. unfold renew_found in E.
  destruct (infer_productId server pd) as [e|pid].
  { unfold ret in E. injection E as <- <- <-.
    exists []. split; [apply grows_refl | split; reflexivity]. }
  unfold bind at 1 in E.
  destruct (loadSettings_run w st) as (l1 & Hg1 & Hp1 & Hu1 & _).
  destruct (Store.loadSettings w st) as [cur st1]. cbn [fst snd] in *.
  unfold bind at 1 in E. unfold the_config at 1 in E.
  destruct (match PRICES cur with Some m => Some m | None => cfg_PRICES (config w) end)
    as [pm|].
  2:{ unfold ret in E. injection E as <- <- <-.
      exists l1. split; [exact Hg1 | split; assumption]. }
  unfold bind at 1 in E. unfold Date_now at 1 in E.
  destruct (renew_entry _ _ server pd) as [server'|] eqn:Er.
  2:{ unfold ret in E. injection E as <- <- <-.
      exists l1. split; [exact Hg1 | split; assumption]. }
  destruct (pd_expires_at pd) as [cur0|].
  2:{ unfold ret in E. injection E as <- <- <-.
      exists l1. split; [exact Hg1 | split; assumption]. }
  unfold bind at 1 in E.
  destruct (saveServerDatabase_run (JS.set_nth i server' db) w st1)
    as (l2 & Hg2 & _ & _ & Hsha & Hu2 & _).
  destruct (Store.saveServerDatabase (JS.set_nth i server' db) w st1) as [[] st2].
  cbn [fst snd] in *.
  unfold bind, ask, ret in E. cbn [fst snd log] in E. injection E as <- <- <-.
  exists ((l1 ++ l2) ++ [UnsuspendServer (o_server_id o)]). split.
  - unfold grows in *; simpl. rewrite Hg2, Hg1, <- !app_assoc. reflexivity.
  - split; [reflexivity|]. exists (l1 ++ l2). split; [reflexivity|]. split.
    + rewrite unsuspends_app, Hu1, Hu2. reflexivity.
    + apply in_or_app. now right.
Qed.

(** [renewPanel], at any depth: the same, whichever way the entry is found. *)
Lemma renewPanel_run : forall fuel o w st,
  exists l,
    grows st (snd (renewPanel fuel o w st)) l
    /\ match fst (renewPanel fuel o w st) with
       | Some (Return res, o') =>
           exists pre,
             l = pre ++ [UnsuspendServer (o_server_id o')]
             /\ unsuspends pre = [] /\ In GithubSha pre
       | _ => puts l = [] /\ unsuspends l = []
       end.
Proof.
  induction fuel as [|fuel IH]; intros o w st.
  - exists []. split; [apply grows_refl | split; reflexivity].
  - destruct (renewPanel (S fuel) o w st) as [res stF] eqn:E.
    cbn [fst snd]. cbn [renewPanel] in E. unfold bind at 1 in E.
    pose proof (loadServerDatabase_run w st) as Hg0.
    destruct (Store.loadServerDatabase w st) as [db st1]. cbn [fst snd] in *.
    destruct (find_server (o_server_id o) 0 db) as [[[i server] pd]|].
    + unfold bind at 1 in E.
      destruct (renew_found_run db i server pd o w st1) as (l & Hg & Hres).
      destruct (renew_found db i server pd o w st1) as [[r o'] st2].
      cbn [fst snd] in *. unfold ret in E. injection E as <- <-.
      exists ([GithubGet] ++ l). split; [eapply grows_trans; eauto|].
      destruct r as [e|r].
      * destruct Hres as [Hp Hu]. rewrite puts_app, unsuspends_app, Hp, Hu.
        split; reflexivity.
      * destruct Hres as (Hsid & pre & -> & Hu & Hsha).
        exists ([GithubGet] ++ pre). rewrite Hsid, <- app_assoc.
        split; [reflexivity|]. split.
        -- rewrite unsuspends_app, Hu. reflexivity.
        -- apply in_or_app. now right.
    + assert (Hquiet : forall r, (r, st1) = (res, stF) ->
                match r with
                | Some (Return _, _) => False
                | _ => True
                end ->
                exists l, grows st stF l
                  /\ match res with
                     | Some (Return res0, o') =>
                         exists pre,
                           l = pre ++ [UnsuspendServer (o_server_id o')]
                           /\ unsuspends pre = [] /\ In GithubSha pre
                     | _ => puts l = [] /\ unsuspends l = []
                     end).
      { intros r Hr Hshape. injection Hr as <- <-.
        exists [GithubGet]. split; [exact Hg0|].
        destruct r as [[[e|r] o']|]; try contradiction; split; reflexivity. }
      destruct (JS.truthy_str (o_username o)); [|apply (Hquiet _ E); exact I].
      destruct (find (has_username (o_username o)) db) as [p|];
        [|apply (Hquiet _ E); exact I].
      destruct (panel_data p) as [pd'|]; [|apply (Hquiet _ E); exact I].
      destruct (IH (with_server_id o (pd_server_id pd')) w st1) as (l & Hg & Hres).
      rewrite E in Hg, Hres. cbn [fst snd] in *.
      exists ([GithubGet] ++ l). split; [eapply grows_trans; eauto|].
      destruct res as [[[e|r] o']|].
      * destruct Hres as [Hp Hu]. rewrite puts_app, unsuspends_app, Hp, Hu.
        split; reflexivity.
      * destruct Hres as (pre & -> & Hu & Hsha).
        exists ([GithubGet] ++ pre). rewrite <- app_assoc.
        split; [reflexivity|]. split.
        -- rewrite unsuspends_app, Hu. reflexivity.
        -- apply in_or_app. now right.
      * destruct Hres as [Hp Hu]. rewrite puts_app, unsuspends_app, Hp, Hu.
        split; reflexivity.
Qed.

(** The same, on the requests the workflow has issued. *)
Lemma unsuspend_follows_the_write_attempt_aux :
  forall (fuel : nat) (o : Order) (w : World) (st : State),
    match fst (Renewal.renewPanel fuel o w st) with
    | Some (Return res, o') =>
        exists pre,
          issued (Renewal.renewPanel fuel o) w st
            = pre ++ [UnsuspendServer (o_server_id o')]
          /\ unsuspends pre = [] /\ In GithubSha pre
    | _ =>
        puts (issued (Renewal.renewPanel fuel o) w st) = []
        /\ unsuspends (issued (Renewal.renewPanel fuel o) w st) = []
    end.
Proof.
  intros fuel o w st.
  destruct (renewPanel_run fuel o w st) as (l & Hg & Hres).
  rewrite (grows_issued _ _ _ _ _ Hg). exact Hres.
Qed.

(** C7, as the code has it: the unsuspend does not depend on the outcome of
    the write.  A renewal that returns has issued exactly one unsuspend
    request, as its last request, after it has attempted the write (it has
    read the [sha] that precedes the PUT), in every world -- also in one
    whose store refuses the write or does not answer.  A renewal that throws
    has neither written nor unsuspended. *)
Theorem unsuspend_follows_the_write_attempt :
  forall (fuel : nat) (o : Order) (w : World) (st : State),
    match fst (Renewal.renewPanel fuel o w st) with
    | Some (Return res, o') =>
        exists pre,
          issued (Renewal.renewPanel fuel o) w st
            = pre ++ [UnsuspendServer (o_server_id o')]
          /\ unsuspends pre = [] /\ In GithubSha pre
    | _ =>
        puts (issued (Renewal.renewPanel fuel o) w st) = []
        /\ unsuspends (issued (Renewal.renewPanel fuel o) w st) = []
    end.
Proof.
  intros fuel o w st.
  destruct (renewPanel_run fuel o w st) as (l & Hg & Hres).
  rewrite (grows_issued _ _ _ _ _ Hg). exact Hres.
Qed.

(** C7, as it is stated, fails: the store refuses the write of the renewed
    list, and the unsuspend request for the server 7 is sent all the same. *)
Lemma unsuspend_after_refused_write :
  Renewal.write_refused
    (Samples.refusing (100 * JS.DAY) [Samples.entry_of_bob (Some auto) 0])
    (issued (Renewal.renewPanel 1 (Samples.renewal_of_bob 30))
       (Samples.refusing (100 * JS.DAY) [Samples.entry_of_bob (Some auto) 0])
       Samples.fresh)
  /\ unsuspends
       (issued (Renewal.renewPanel 1 (Samples.renewal_of_bob 30))
          (Samples.refusing (100 * JS.DAY) [Samples.entry_of_bob (Some auto) 0])
          Samples.fresh)
     = [Some 7].
Proof.
  split; [|vm_compute; reflexivity].
  exists [GithubGet; GithubGet; GithubGet; GithubSha]. do 2 eexists.
  exists [UnsuspendServer (Some 7)].
  split; vm_compute; reflexivity.
Qed.

Lemma nth_error_app_some : forall A (l k : list A) i x,
  nth_error l i = Some x -> nth_error (l ++ k) i = Some x.
Proof.
  induction l as [|a l IH]; intros k [|i] x H; simpl in *; try discriminate; auto.
Qed.

(** The renewal of a found entry that has an expiry and a product name, in a
    shop whose configuration has a price table, for [d > 0] days that lead
    to an expiry in the range of [Date]: it returns, and what it returns and
    writes is fixed by [cur], [now] and [d]. *)
Lemma renew_found_ok : forall db i server pd o w st pn cur d,
  pd_expires_at pd = Some cur ->
  product_name server = Some pn ->
  cfg_PRICES (config w) <> None ->
  o_days o = Some d -> 0 < d < 10 ^ 21 ->
  let now := clock w (log (snd (Store.loadSettings w st))) in
  Z.abs (newExpire cur now d) <= JS.MAX_TIME ->
  exists res o' server' l s,
    fst (renew_found db i server pd o w st) = (Return res, o')
    /\ pd_new_expiry res = Some (newExpire cur now d)
    /\ renew_entry now d server pd = Some server'
    /\ grows st (snd (renew_found db i server pd o w st)) l
    /\ (puts l = [] \/
        puts l = [JS.set_nth i server' db ++ [Store.settings_item s]])
    /\ ((forall h, github_sha w h <> None) ->
        puts l = [JS.set_nth i server' db ++ [Store.settings_item s]]).
Proof.
  intros db i server pd o w st pn cur d Hcur Hpn Hcfg Hd Hpos now Hrange.
  destruct (infer_productId_total server pd pn Hpn) as [pid Hpid].
  destruct (renew_found db i server pd o w st) as [[r o'] stF] eqn:E.
  cbn [fst snd]. unfold renew_found in E. rewrite Hpid in E.
  unfold bind at 1 in E.
  destruct (loadSettings_run w st) as (l1 & Hg1 & Hp1 & _).
  subst now.
  destruct (Store.loadSettings w st) as [cs st1]. cbn [fst snd] in *.
  unfold bind at 1 in E. unfold the_config at 1 in E.
  destruct (match PRICES cs with Some m => Some m | None => cfg_PRICES (config w) end)
    as [pm|] eqn:Epm.
  2:{ destruct (PRICES cs); [discriminate | contradiction]. }
  unfold bind at 1 in E. unfold Date_now at 1 in E.
  assert (Hadd : addDays_of (with_basePrice o (renewal_basePrice pid pm)) = d).
  { apply addDays_positive; auto. }
  rewrite Hadd in E.
  unfold renew_entry in E |- *. rewrite Hcur in E |- *.
  rewrite (JSFacts.toISOString_valid _ Hrange) in E |- *.
  unfold bind at 1 in E.
  match type of E with
  | context [Store.saveServerDatabase ?data w st1] =>
      destruct (saveServerDatabase_run data w st1)
        as (l2 & Hg2 & Hp2 & Hp2' & _);
      destruct (Store.saveServerDatabase data w st1) as [[] st2]
  end.
  cbn [fst snd] in *.
  unfold bind, ask, ret in E. cbn [fst snd log] in E. injection E as <- <- <-.
  do 3 eexists.
  exists ((l1 ++ l2) ++
          [UnsuspendServer
             (o_server_id (with_basePrice o (renewal_basePrice pid pm)))]).
  exists (fst (Store.loadSettings w st1)).
  split; [reflexivity|]. split; [reflexivity|]. split; [reflexivity|]. split.
  - unfold grows in *; simpl. rewrite Hg2, Hg1, <- !app_assoc. reflexivity.
  - rewrite !puts_app, Hp1. simpl. rewrite app_nil_r. split.
    + destruct Hp2 as [->| ->]; [left | right]; reflexivity.
    + intros Hsha. rewrite (Hp2' Hsha). reflexivity.
Qed.

(** The same renewal, for days that lead out of the range of [Date]: the
    [RangeError] of [toISOString] is thrown before anything is written. *)
Lemma renew_found_out_of_range : forall db i server pd o w st pn cur d,
  pd_expires_at pd = Some cur ->
  product_name server = Some pn ->
  cfg_PRICES (config w) <> None ->
  o_days o = Some d -> 0 < d < 10 ^ 21 ->
  let now := clock w (log (snd (Store.loadSettings w st))) in
  JS.MAX_TIME < Z.abs (newExpire cur now d) ->
  exists msg o', fst (renew_found db i server pd o w st) = (Throw msg, o').
Proof.
  intros db i server pd o w st pn cur d Hcur Hpn Hcfg Hd Hpos now Hrange.
  destruct (infer_productId_total server pd pn Hpn) as [pid Hpid].
  unfold renew_found. rewrite Hpid. unfold bind at 1.
  subst now.
  destruct (Store.loadSettings w st) as [cs st1]. cbn [fst snd] in *.
  unfold bind at 1. unfold the_config at 1.
  destruct (match PRICES cs with Some m => Some m | None => cfg_PRICES (config w) end)
    as [pm|] eqn:Epm.
  2:{ destruct (PRICES cs); [discriminate | contradiction]. }
  unfold bind at 1. unfold Date_now at 1.
  assert (Hadd : addDays_of (with_basePrice o (renewal_basePrice pid pm)) = d).
  { apply addDays_positive; auto. }
  rewrite Hadd. unfold renew_entry. rewrite Hcur.
  rewrite (proj2 (JSFacts.toISOString_none _) Hrange).
  unfold ret. cbn [fst]. eauto.
Qed.

(** The renewal of a subscription that the invocation finds by the id of its
    server. *)
Lemma renewal_direct :
  forall (w : World) (st : State) (fuel : nat) (o : Order) (i : nat)
         (server : Item) (pd : PanelData) (pn : string) (cur d : Z),
    find_server (o_server_id o) 0 (fst (Store.loadServerDatabase w st))
      = Some (i, server, pd) ->
    pd_expires_at pd = Some cur ->
    product_name server = Some pn ->
    cfg_PRICES (config w) <> None ->
    o_days o = Some d ->
    0 < d < 10 ^ 21 ->
    let now :=
      clock w (log (snd (Store.loadSettings w
                           (snd (Store.loadServerDatabase w st))))) in
    let db := fst (Store.loadServerDatabase w st) in
    let run := renewPanel (S fuel) o in
    (Z.abs (Z.max cur now + d * JS.DAY) <= JS.MAX_TIME ->
     exists res o' server' s,
       fst (run w st) = Some (Return res, o')
       /\ pd_new_expiry res = Some (Z.max cur now + d * JS.DAY)
       /\ renew_entry now d server pd = Some server'
       /\ (puts (issued run w st) = [] \/
           puts (issued run w st)
           = [JS.set_nth i server' db ++ [Store.settings_item s]])
       /\ ((forall h, github_sha w h <> None) ->
           puts (issued run w st)
           = [JS.set_nth i server' db ++ [Store.settings_item s]]))
    /\ (JS.MAX_TIME < Z.abs (Z.max cur now + d * JS.DAY) ->
        exists msg o', fst (run w st) = Some (Throw msg, o')).
Proof.
  intros w st fuel o i server pd pn cur d Hfind Hcur Hpn Hcfg Hd Hpos now db run.
  subst run. destruct (renewPanel (S fuel) o w st) as [r stF] eqn:E.
  unfold issued. rewrite E. cbn [fst snd].
  cbn [renewPanel] in E. unfold bind at 1 in E.
  pose proof (loadServerDatabase_run w st) as Hg0.
  subst now db.
  destruct (Store.loadServerDatabase w st) as [db st1]. cbn [fst snd] in *.
  rewrite Hfind in E. unfold bind at 1 in E.
  rewrite <- newExpire_max. split.
  - intros Hrange.
    destruct (renew_found_ok db i server pd o w st1 pn cur d
                Hcur Hpn Hcfg Hd Hpos Hrange)
      as (res & o' & server' & l & s & Hres & Hnew & Hentry & Hg & Hp & Hp').
    destruct (renew_found db i server pd o w st1) as [r1 st2].
    cbn [fst snd] in *. subst r1. unfold ret in E. injection E as <- <-.
    exists res, o', server', s.
    split; [reflexivity|]. split; [exact Hnew|]. split; [exact Hentry|].
    rewrite (grows_trans _ _ _ _ _ Hg0 Hg), skipn_app_exact.
    change (puts ([GithubGet] ++ l)) with (puts l). split; assumption.
  - intros Hrange.
    destruct (renew_found_out_of_range db i server pd o w st1 pn cur d
                Hcur Hpn Hcfg Hd Hpos Hrange) as (msg & o' & Hres).
    destruct (renew_found db i server pd o w st1) as [r1 st2].
    cbn [fst snd] in *. subst r1. unfold ret in E. injection E as <- <-.
    eauto.
Qed.

(** An invocation that finds no entry by the id of the order, but one by its
    user name, hands over to a second invocation: it returns, or throws,
    what that one does, and sends the same requests after its own read. *)
Lemma renewPanel_by_username : forall fuel o w st p pd',
  find_server (o_server_id o) 0 (fst (Store.loadServerDatabase w st)) = None ->
  JS.truthy_str (o_username o) = true ->
  find (has_username (o_username o)) (fst (Store.loadServerDatabase w st))
    = Some p ->
  panel_data p = Some pd' ->
  fst (renewPanel (S fuel) o w st)
  = fst (renewPanel fuel (with_server_id o (pd_server_id pd')) w
           (snd (Store.loadServerDatabase w st)))
  /\ issued (renewPanel (S fuel) o) w st
     = GithubGet
       :: issued (renewPanel fuel (with_server_id o (pd_server_id pd')))
            w (snd (Store.loadServerDatabase w st)).
Proof.
  intros fuel o w st p pd' Hnone Hname Hp Hpd.
  destruct (renewPanel (S fuel) o w st) as [r stF] eqn:E.
  unfold issued at 1. rewrite E. cbn [fst snd].
  cbn [renewPanel] in E. unfold bind at 1 in E.
  pose proof (loadServerDatabase_run w st) as Hg0.
  destruct (Store.loadServerDatabase w st) as [db st1]. cbn [fst snd] in *.
  rewrite Hnone, Hname, Hp, Hpd in E.
  destruct (renewPanel_run fuel (with_server_id o (pd_server_id pd')) w st1)
    as (l & Hg & _).
  rewrite (grows_issued _ _ _ _ _ Hg).
  rewrite E in Hg. cbn [fst snd] in Hg. rewrite E. cbn [fst].
  split; [reflexivity|].
  rewrite (grows_trans _ _ _ _ _ Hg0 Hg), skipn_app_exact. reflexivity.
Qed.

(** C3, as the code has it: the renewal, for [0 < d < 1e21] days, of a
    subscription of the store -- found by the id of its server, or by the
    user name of the order and then, in the second invocation, by that id.
    Whenever the new expiry [max(current_expires_at, now) + d] days is an
    instant a [Date] can hold, the renewal returns with it, where [now] is
    [Date.now()] as the invocation that renews reads it, after it has loaded
    the settings.  The new expiry is not before the old one nor before now;
    an entry that expired ten days ago, renewed for fifteen days, expires
    fifteen days from now.  The renewed entry has the new expiry and no
    [suspend_by]; the workflow writes at most one document, the database
    with the renewed entry at the subscription's place, and it writes it
    whenever the store answers.  Days that lead beyond the range of [Date]
    (some hundred million) renew nothing: the workflow throws, and has
    neither written nor unsuspended. *)
Theorem renewal_extends_from_the_later_of_expiry_and_now :
  forall (w : World) (st st0 : State) (fuel : nat) (o o0 : Order) (i : nat)
         (server : Item) (pd : PanelData) (pn : string) (cur d : Z),
    ((o0 = o /\ st0 = st)
     \/ (exists p pd',
           Renewal.find_server (o_server_id o) 0
             (fst (Store.loadServerDatabase w st)) = None
           /\ JS.truthy_str (o_username o) = true
           /\ find (Renewal.has_username (o_username o))
                (fst (Store.loadServerDatabase w st)) = Some p
           /\ panel_data p = Some pd'
           /\ o0 = Renewal.with_server_id o (pd_server_id pd')
           /\ st0 = snd (Store.loadServerDatabase w st))) ->
    Renewal.find_server (o_server_id o0) 0 (fst (Store.loadServerDatabase w st0))
      = Some (i, server, pd) ->
    pd_expires_at pd = Some cur ->
    product_name server = Some pn ->
    cfg_PRICES (config w) <> None ->
    o_days o = Some d ->
    0 < d < 10 ^ 21 ->
    let now :=
      clock w (log (snd (Store.loadSettings w
                           (snd (Store.loadServerDatabase w st0))))) in
    let new_expiry := Z.max cur now + d * JS.DAY in
    let db := fst (Store.loadServerDatabase w st0) in
    let run := Renewal.renewPanel (S (S fuel)) o in
    (Z.abs new_expiry <= JS.MAX_TIME ->
     exists res o' server' pd' s,
       fst (run w st) = Some (Return res, o')
       /\ pd_new_expiry res = Some new_expiry
       /\ Z.max cur now <= new_expiry
       /\ (cur + 10 * JS.DAY = now -> d = 15 -> new_expiry = now + 15 * JS.DAY)
       /\ suspend_by server' = None
       /\ id server' = id server
       /\ panel_data server' = Some pd'
       /\ pd_expires_at pd' = Some new_expiry
       /\ pd_server_id pd' = pd_server_id pd
       /\ nth_error (JS.set_nth i server' db) i = Some server'
       /\ (puts (issued run w st) = [] \/
           puts (issued run w st)
           = [JS.set_nth i server' db ++ [Store.settings_item s]])
       /\ ((forall h, github_sha w h <> None) ->
           puts (issued run w st)
           = [JS.set_nth i server' db ++ [Store.settings_item s]]))
    /\ (JS.MAX_TIME < Z.abs new_expiry ->
        (exists msg o', fst (run w st) = Some (Throw msg, o'))
        /\ puts (issued run w st) = []
        /\ unsuspends (issued run w st) = []).
Proof.
  intros w st st0 fuel o o0 i server pd pn cur d Hhow Hfind Hcur Hpn Hcfg Hd Hpos
         now new_expiry db run.
  assert (Hd0 : o_days o0 = Some d).
  { destruct Hhow as [[-> _]|(p & pd' & _ & _ & _ & _ & -> & _)]; exact Hd. }
  assert (Hcore :
    (Z.abs new_expiry <= JS.MAX_TIME ->
     exists res o' server' s,
       fst (run w st) = Some (Return res, o')
       /\ pd_new_expiry res = Some new_expiry
       /\ renew_entry now d server pd = Some server'
       /\ (puts (issued run w st) = [] \/
           puts (issued run w st)
           = [JS.set_nth i server' db ++ [Store.settings_item s]])
       /\ ((forall h, github_sha w h <> None) ->
           puts (issued run w st)
           = [JS.set_nth i server' db ++ [Store.settings_item s]]))
    /\ (JS.MAX_TIME < Z.abs new_expiry ->
        exists msg o', fst (run w st) = Some (Throw msg, o'))).
  { subst run. destruct Hhow as [[-> ->]|(p & pd' & Hnone & Hname & Hp & Hpd & -> & ->)].
    - exact (renewal_direct w st (S fuel) o i server pd pn cur d
               Hfind Hcur Hpn Hcfg Hd Hpos).
    - destruct (renewPanel_by_username (S fuel) o w st p pd' Hnone Hname Hp Hpd)
        as [Hrun Hreq].
      rewrite Hrun, Hreq.
      change (puts (GithubGet :: ?l)) with (puts l).
      exact (renewal_direct w (snd (Store.loadServerDatabase w st)) fuel
               (with_server_id o (pd_server_id pd')) i server pd pn cur d
               Hfind Hcur Hpn Hcfg Hd0 Hpos). }
  destruct Hcore as [Hin Hout]. split.
  - intros Hrange.
    destruct (Hin Hrange) as (res & o' & server' & s & Hrun & Hnew & Hentry & Hp & Hp').
    unfold renew_entry in Hentry. rewrite Hcur in Hentry.
    fold new_expiry in Hentry. rewrite newExpire_max in Hentry.
    fold new_expiry in Hentry.
    rewrite (JSFacts.toISOString_valid _ Hrange) in Hentry.
    injection Hentry as <-.
    match type of Hp' with
    | context [JS.set_nth i ?srv db] =>
        exists res, o', srv, (with_expires_at pd new_expiry), s
    end.
    split; [exact Hrun|]. split; [exact Hnew|].
    assert (HDAY : JS.DAY = 86400000) by reflexivity.
    split; [subst new_expiry; rewrite HDAY; lia|].
    split; [subst new_expiry; rewrite HDAY; lia|].
    split; [reflexivity|]. split; [reflexivity|]. split; [reflexivity|].
    split; [reflexivity|]. split; [reflexivity|].
    split; [|split; [exact Hp | exact Hp']].
    destruct (find_server_nth _ _ _ _ _ _ Hfind) as (_ & Hn & _).
    rewrite Nat.sub_0_r in Hn. eapply set_nth_nth; eauto.
  - intros Hrange. destruct (Hout Hrange) as (msg & o' & Hrun).
    split; [eauto|].
    pose proof (unsuspend_follows_the_write_attempt_aux (S (S fuel)) o w st) as Haux.
    fold run in Haux. rewrite Hrun in Haux. exact Haux.
Qed.

(** The instance of C3 at the scenario of the specification: the entry of
    [bob] expired on day 90; an order that names [bob] renews it for fifteen
    days on day 100, and it expires on day 115. *)
Lemma renewal_extends_from_the_later_of_expiry_and_now_witness :
  exists res o',
    fst (Renewal.renewPanel 2 (Samples.renewal_by_name 15)
           (Samples.healthy (100 * JS.DAY)
              [Samples.entry_of_bob (Some auto) (90 * JS.DAY)] [])
           Samples.fresh)
    = Some (Return res, o')
    /\ pd_new_expiry res = Some (115 * JS.DAY).
Proof.
  destruct (renewal_extends_from_the_later_of_expiry_and_now
              (Samples.healthy (100 * JS.DAY)
                 [Samples.entry_of_bob (Some auto) (90 * JS.DAY)] [])
              Samples.fresh
              (snd (Store.loadServerDatabase
                      (Samples.healthy (100 * JS.DAY)
                         [Samples.entry_of_bob (Some auto) (90 * JS.DAY)] [])
                      Samples.fresh))
              0 (Samples.renewal_by_name 15)
              (Renewal.with_server_id (Samples.renewal_by_name 15) (Some 7))
              0
              (Samples.entry_of_bob (Some auto) (90 * JS.DAY))
              (Renewal.with_expires_at Samples.panel_of_bob (90 * JS.DAY))
              "Panel 1GB RAM" (90 * JS.DAY) 15) as [Hin _].
  - right. exists (Samples.entry_of_bob (Some auto) (90 * JS.DAY)),
             (Renewal.with_expires_at Samples.panel_of_bob (90 * JS.DAY)).
    repeat split; reflexivity.
  - reflexivity.
  - reflexivity.
  - reflexivity.
  - discriminate.
  - reflexivity.
  - vm_compute. split; reflexivity.
  - destruct Hin as (res & o' & _ & _ & _ & Hrun & Hnew & _).
    + vm_compute. discriminate.
    + exists res, o'. split; [exact Hrun | exact Hnew].
Defined.

(** C3, as it is stated for every [d > 0], fails for days that a [Date]
    cannot follow.  The entry of [bob] expired ten days ago and the sweeper
    has suspended it.  Renewed for 200 000 000 days, whose new expiry is
    beyond the range of [Date], the renewal throws: nothing is written, so
    the entry keeps its expiry and its [suspend_by], and no unsuspend request
    is sent.  Renewed for 1e21 days, which [parseInt] reads as 1, the renewal
    returns with an expiry of one day from now. *)
Lemma renewal_beyond_the_range_of_Date :
  let w := Samples.healthy (100 * JS.DAY)
             [Samples.entry_of_bob (Some auto) (90 * JS.DAY)] [] in
  let far := Renewal.renewPanel 2 (Samples.renewal_of_bob 200000000) in
  let huge := Renewal.renewPanel 2 (Samples.renewal_of_bob (10 ^ 21)) in
  JS.MAX_TIME < Z.max (90 * JS.DAY) (100 * JS.DAY) + 200000000 * JS.DAY
  /\ fst (far w Samples.fresh)
     = Some (Throw "Gagal memperpanjang server: Invalid time value",
             Samples.renewal_of_bob 200000000)
  /\ puts (issued far w Samples.fresh) = []
  /\ unsuspends (issued far w Samples.fresh) = []
  /\ (exists res o',
        fst (huge w Samples.fresh) = Some (Return res, o')
        /\ pd_new_expiry res = Some (100 * JS.DAY + 1 * JS.DAY)
        /\ pd_new_expiry res
           <> Some (Z.max (90 * JS.DAY) (100 * JS.DAY) + 10 ^ 21 * JS.DAY)).
Proof.
  cbv zeta. split; [vm_compute; reflexivity|].
  split; [vm_compute; reflexivity|].
  split; [vm_compute; reflexivity|].
  split; [vm_compute; reflexivity|].
  eexists. eexists. split; [vm_compute; reflexivity|].
  split; [vm_compute; reflexivity|]. vm_compute. discriminate.
Qed.

End RenewalFacts.

(** ** Deprovisioning *)

Module DeprovisionFacts.
Import Deprovision ProcFacts.

Lemma store_only_no_cleanup : forall l,
  store_only l -> existsb is_cleanup l = false.
Proof.
  induction 1 as [|c l Hc _ IH]; [reflexivity|].
  destruct c; try discriminate Hc; simpl; auto.
Qed.

(** The owner's lookup deletes nothing and cleans up nothing. *)
Lemma lookup_owner_run : forall serverId w st,
  exists l, grows st (snd (lookup_owner serverId w st)) l
            /\ deletions l = [] /\ existsb is_cleanup l = false
            /\ ~ In GithubSha l.
Proof.
  intros serverId w st. unfold lookup_owner, bind, ask, ret; simpl.
  destruct (get_server w (log st ++ [GetServer serverId])) as [u|].
  - exists [GetServer serverId]. repeat split. intros [H|[]]. discriminate.
  - exists [GetServer serverId; GithubGet]. split; [|repeat split].
    + unfold grows; simpl. now rewrite <- app_assoc.
    + intros [H|[H|[]]]; discriminate.
Qed.

(** The owner's cleanup runs only after a remote deletion that succeeded or
    found the server absent; it deletes no server and writes nothing. *)
Lemma cleanup_owner_run : forall serverId ownerId apiSuccess w st,
  exists l, grows st (snd (cleanup_owner serverId ownerId apiSuccess w st)) l
            /\ deletions l = [] /\ ~ In GithubSha l
            /\ (apiSuccess = false -> l = []).
Proof.
  intros serverId ownerId apiSuccess w st. unfold cleanup_owner.
  assert (Hnone : forall msg : string,
            exists l, grows st (snd (ret msg w st)) l
                      /\ deletions l = [] /\ ~ In GithubSha l
                      /\ (apiSuccess = false -> l = [])).
  { intros msg. exists []. split; [apply grows_refl|]. repeat split. intros []. }
  destruct ownerId as [uid|]; [|apply Hnone].
  destruct (JS.truthy_num (Some uid)); [|apply Hnone].
  destruct apiSuccess; [|apply Hnone]. cbn [andb].
  unfold bind, ask, ret; simpl.
  destruct (get_user w (log st ++ [GetUser uid])) as [ua|]; simpl.
  - destruct (root_admin ua); simpl.
    + exists [GetUser uid]. repeat split; try discriminate.
      intros [H|[]]. discriminate.
    + destruct (_ =? 0)%nat; simpl.
      * exists [GetUser uid; DeleteUser uid]. split; [|repeat split].
        -- unfold grows; simpl. now rewrite <- app_assoc.
        -- intros [H|[H|[]]]; discriminate.
        -- discriminate.
      * exists [GetUser uid]. repeat split; try discriminate.
        intros [H|[]]. discriminate.
  - exists [GetUser uid]. repeat split; try discriminate.
    intros [H|[]]. discriminate.
Qed.

(** The local removal: it reports [true] exactly when it has attempted a
    write, that of the list without the record. *)
Lemma delete_local_run : forall serverId w st,
  exists l, grows st (snd (delete_local serverId w st)) l
            /\ deletions l = [] /\ existsb is_cleanup l = false
            /\ (fst (delete_local serverId w st) = true <-> In GithubSha l).
Proof.
  intros serverId w st.
  destruct (delete_local serverId w st) as [r stF] eqn:E. cbn [fst snd].
  unfold delete_local in E. unfold bind at 1 in E.
  pose proof (loadServerDatabase_run w st) as Hg0.
  destruct (Store.loadServerDatabase w st) as [db st1]. cbn [fst snd] in *.
  destruct (JS.findIndex (tracks_loose serverId) db) as [i|].
  - unfold bind in E.
    destruct (saveServerDatabase_run (JS.splice1 i db) w st1)
      as (l & Hg & _ & _ & Hsha & _ & Hf).
    destruct (Store.saveServerDatabase (JS.splice1 i db) w st1) as [[] st2].
    cbn [fst snd] in *. unfold ret in E. injection E as <- <-.
    exists ([GithubGet] ++ l). split; [eapply grows_trans; eauto|].
    assert (HF : store_only ([GithubGet] ++ l))
      by (apply Forall_app; split; auto; repeat constructor).
    destruct (store_only_quiet _ HF) as (_ & _ & Hd).
    split; [exact Hd|]. split; [exact (store_only_no_cleanup _ HF)|].
    split; [intros _; apply in_or_app; now right | reflexivity].
  - unfold ret in E. injection E as <- <-. exists [GithubGet].
    split; [exact Hg0|]. repeat split; try discriminate.
    intros [H|[]]. discriminate.
Qed.

(** The shape of a run of the handler: the owner's lookup, the deletion of
    the server, the owner's cleanup, the local removal. *)
Lemma admin_delete_panel_run : forall sid w st,
  exists l1 l2 l3,
    grows st (snd (admin_delete_panel sid w st))
      (l1 ++ [DeleteServer (Some sid)] ++ l2 ++ l3)
    /\ (deletions l1 = [] /\ existsb is_cleanup l1 = false /\ ~ In GithubSha l1)
    /\ (deletions l2 = [] /\ ~ In GithubSha l2
        /\ (remote_gone (delete_server w ((log st ++ l1) ++ [DeleteServer (Some sid)]))
              = false -> l2 = []))
    /\ (deletions l3 = [] /\ existsb is_cleanup l3 = false
        /\ (local_db_deleted (fst (admin_delete_panel sid w st)) = true
            <-> In GithubSha l3))
    /\ success (fst (admin_delete_panel sid w st)) = true.
Proof.
  intros sid w st.
  destruct (admin_delete_panel sid w st) as [r stF] eqn:E. cbn [fst snd].
  unfold admin_delete_panel in E. unfold bind at 1 in E.
  destruct (lookup_owner_run (Some sid) w st) as (l1 & Hg1 & H1).
  destruct (lookup_owner (Some sid) w st) as [ownerId st1]. cbn [fst snd] in *.
  unfold bind at 1 in E. unfold ask at 1 in E. cbn [fst snd log] in E.
  set (st2 := {| panelsStorage := panelsStorage st1;
                 settingsCache := settingsCache st1;
                 settingsLastFetch := settingsLastFetch st1;
                 log := log st1 ++ [DeleteServer (Some sid)] |}) in E.
  assert (Hg2 : grows st1 st2 [DeleteServer (Some sid)]) by reflexivity.
  assert (Hgone : remote_gone (delete_server w ((log st ++ l1) ++ [DeleteServer (Some sid)]))
                  = fst (api_outcome (delete_server w (log st1 ++ [DeleteServer (Some sid)])))).
  { unfold remote_gone. unfold grows in Hg1. now rewrite Hg1. }
  destruct (api_outcome (delete_server w (log st1 ++ [DeleteServer (Some sid)])))
    as [apiSuccess apiMessage]. cbn [fst] in Hgone.
  unfold bind at 1 in E.
  destruct (cleanup_owner_run (Some sid) ownerId apiSuccess w st2)
    as (l2 & Hg3 & Hd2 & Hs2 & He2).
  destruct (cleanup_owner (Some sid) ownerId apiSuccess w st2) as [msg st3].
  cbn [fst snd] in *.
  unfold bind at 1 in E.
  destruct (delete_local_run (Some sid) w st3) as (l3 & Hg4 & Hd3 & Hc3 & Hl3).
  destruct (delete_local (Some sid) w st3) as [localDeleted st4].
  cbn [fst snd] in *.
  unfold bind, forget_tracked_order, get_state, set_orders, ret in E.
  cbn [fst snd] in E. injection E as <- <-. cbn [log success local_db_deleted].
  exists l1, l2, l3.
  split.
  { unfold grows in *. cbn [log] in *.
    rewrite Hg4, Hg3, Hg2, Hg1, <- !app_assoc. reflexivity. }
  split; [exact H1|]. split.
  { split; [exact Hd2|]. split; [exact Hs2|]. intros H. apply He2. congruence. }
  split; [|reflexivity].
  split; [exact Hd3|]. split; [exact Hc3 | exact Hl3].
Qed.

Lemma findIndex_nth : forall A (p : A -> bool) l i,
  JS.findIndex p l = Some i -> exists x, nth_error l i = Some x /\ p x = true.
Proof.
  intros A p l. induction l as [|a l IH]; intros i H; simpl in H; [discriminate|].
  destruct (p a) eqn:Ea.
  - injection H as <-. exists a. auto.
  - destruct (JS.findIndex p l) as [k|]; [|discriminate].
    injection H as <-. simpl. apply IH. reflexivity.
Qed.

(** The owner's lookup writes nothing. *)
Lemma lookup_owner_puts : forall serverId w st l,
  grows st (snd (lookup_owner serverId w st)) l -> puts l = [].
Proof.
  intros serverId w st l Hg.
  assert (H : exists l', grows st (snd (lookup_owner serverId w st)) l'
                         /\ puts l' = []).
  { unfold lookup_owner, bind, ask, ret; simpl.
    destruct (get_server w (log st ++ [GetServer serverId])) as [u|].
    - exists [GetServer serverId]. split; reflexivity.
    - exists [GetServer serverId; GithubGet]. split; [|reflexivity].
      unfold grows; simpl. now rewrite <- app_assoc. }
  destruct H as (l' & Hg' & Hp). now rewrite (grows_unique _ _ _ _ Hg Hg').
Qed.

(** The owner's cleanup sends nothing but its own two kinds of request. *)
Lemma cleanup_owner_only : forall serverId ownerId apiSuccess w st l,
  grows st (snd (cleanup_owner serverId ownerId apiSuccess w st)) l ->
  Forall (fun c => is_cleanup c = true) l.
Proof.
  intros serverId ownerId apiSuccess w st l Hg.
  assert (H : exists l', grows st (snd (cleanup_owner serverId ownerId apiSuccess w st)) l'
                         /\ Forall (fun c => is_cleanup c = true) l').
  { unfold cleanup_owner.
    assert (Hnone : forall msg : string,
              exists l', grows st (snd (ret msg w st)) l'
                         /\ Forall (fun c => is_cleanup c = true) l').
    { intros msg. exists []. split; [apply grows_refl | constructor]. }
    destruct ownerId as [uid|]; [|apply Hnone].
    destruct (JS.truthy_num (Some uid)); [|apply Hnone].
    destruct apiSuccess; [|apply Hnone]. cbn [andb].
    unfold bind, ask, ret; simpl.
    destruct (get_user w (log st ++ [GetUser uid])) as [ua|]; simpl.
    - destruct (root_admin ua); simpl.
      + exists [GetUser uid]. split; [reflexivity | repeat constructor].
      + destruct (_ =? 0)%nat; simpl.
        * exists [GetUser uid; DeleteUser uid]. split; [|repeat constructor].
          unfold grows; simpl. now rewrite <- app_assoc.
        * exists [GetUser uid]. split; [reflexivity | repeat constructor].
    - exists [GetUser uid]. split; [reflexivity | repeat constructor]. }
  destruct H as (l' & Hg' & Hp). now rewrite (grows_unique _ _ _ _ Hg Hg').
Qed.

Lemma only_cleanup_quiet : forall l,
  Forall (fun c => is_cleanup c = true) l -> deletions l = [] /\ puts l = [].
Proof.
  induction 1 as [|c l Hc _ [IH1 IH2]]; [split; reflexivity|].
  destruct c; try discriminate Hc; simpl; auto.
Qed.

(** The local removal reads the database and, when an entry tracks the
    server, attempts one write: that of the database without the first such
    entry. *)
Lemma delete_local_shape : forall serverId w st,
  let db := match github_get w (log st ++ [GithubGet]) with
            | Some (Entries items) =>
                filter (fun it => negb (Store.is_settings it)) items
            | _ => []
            end in
  exists after s,
    grows st (snd (delete_local serverId w st)) (GithubGet :: after)
    /\ store_only after
    /\ match JS.findIndex (tracks_loose serverId) db with
       | Some idx =>
           fst (delete_local serverId w st) = true
           /\ In GithubSha after
           /\ (puts after = [] \/
               puts after = [JS.splice1 idx db ++ [Store.settings_item s]])
           /\ ((forall h, github_sha w h <> None) ->
               puts after = [JS.splice1 idx db ++ [Store.settings_item s]])
       | None => fst (delete_local serverId w st) = false /\ after = []
       end.
Proof.
  intros serverId w st. rewrite <- loadServerDatabase_value. cbv zeta.
  destruct (delete_local serverId w st) as [r stF] eqn:E. cbn [fst snd].
  unfold delete_local in E. unfold bind at 1 in E.
  pose proof (loadServerDatabase_run w st) as Hg0.
  destruct (Store.loadServerDatabase w st) as [db st1]. cbn [fst snd] in *.
  destruct (JS.findIndex (tracks_loose serverId) db) as [i|].
  - unfold bind in E.
    destruct (saveServerDatabase_run (JS.splice1 i db) w st1)
      as (l & Hg & Hp & Hp' & Hsha & _ & Hf).
    destruct (Store.saveServerDatabase (JS.splice1 i db) w st1) as [[] st2].
    cbn [fst snd] in *. unfold ret in E. injection E as <- <-.
    exists l, (fst (Store.loadSettings w st1)).
    split; [exact (grows_trans _ _ _ _ _ Hg0 Hg)|]. split; [exact Hf|].
    split; [reflexivity|]. split; [exact Hsha|]. split; assumption.
  - unfold ret in E. injection E as <- <-.
    exists [], (fst (Store.loadSettings w st1)).
    split; [exact Hg0|]. split; [constructor|]. split; reflexivity.
Qed.

(** C8, as the code has it, for the handler of the administrator's
    deletion.  The requests of a run are the owner's lookup, one request to
    delete the server -- whatever the lookup has answered --, the owner's
    cleanup, a read of the database and the local removal.  The answer is
    [success: true] in every run.  [api_message] reports the remote outcome:
    the deletion, the server not found, or the failure with the message of
    the error.  [local_db_deleted] is true exactly when an entry of the
    database that was read tracks the server; the handler then attempts one
    write, of that database without the first such entry, and otherwise
    sends nothing after the read.  The owner's cleanup is attempted only
    after a remote deletion that succeeded or found the server absent, and
    its outcome does not enter the reported success. *)
Theorem deletion_is_attempted_and_success_unconditional :
  forall (sid : Z) (w : World) (st : State),
    let run := Deprovision.admin_delete_panel sid in
    let r := fst (run w st) in
    exists before cleanup after,
      let reply :=
        delete_server w ((log st ++ before) ++ [DeleteServer (Some sid)]) in
      let db :=
        match github_get w
                ((log st ++ before ++ DeleteServer (Some sid) :: cleanup)
                 ++ [GithubGet]) with
        | Some (Entries items) =>
            filter (fun it => negb (Store.is_settings it)) items
        | _ => []
        end in
      issued run w st
      = before ++ DeleteServer (Some sid) :: cleanup ++ GithubGet :: after
      /\ deletions (issued run w st) = [Some sid]
      /\ (existsb Deprovision.is_cleanup before = false /\ puts before = [])
      /\ Forall (fun c => Deprovision.is_cleanup c = true) cleanup
      /\ (Deprovision.remote_gone reply = false -> cleanup = [])
      /\ store_only after
      /\ Deprovision.success r = true
      /\ (reply = Deleted 204 ->
          Deprovision.api_message r = "Server berhasil dihapus dari Pterodactyl")
      /\ (forall c, reply = Deleted c -> c <> 204 ->
          Deprovision.api_message r = EmptyString)
      /\ (forall m, reply = DeleteFailed (Some 404) m ->
          Deprovision.api_message r
          = "Server tidak ditemukan di Pterodactyl (mungkin sudah dihapus)")
      /\ (forall c m, reply = DeleteFailed c m -> c <> Some 404 ->
          Deprovision.api_message r
          = ("Gagal menghapus dari Pterodactyl: " ++ m)%string)
      /\ match JS.findIndex (Deprovision.tracks_loose (Some sid)) db with
         | Some idx =>
             Deprovision.local_db_deleted r = true
             /\ (exists record,
                   nth_error db idx = Some record
                   /\ Deprovision.tracks_loose (Some sid) record = true)
             /\ In GithubSha after
             /\ exists s,
                  (puts after = [] \/
                   puts after = [JS.splice1 idx db ++ [Store.settings_item s]])
                  /\ ((forall h, github_sha w h <> None) ->
                      puts after
                      = [JS.splice1 idx db ++ [Store.settings_item s]])
         | None => Deprovision.local_db_deleted r = false /\ after = []
         end.
Proof.
  intros sid w st run r. subst run r.
  destruct (admin_delete_panel sid w st) as [r stF] eqn:E.
  unfold issued. rewrite E. cbn [fst snd].
  unfold admin_delete_panel in E. unfold bind at 1 in E.
  destruct (lookup_owner_run (Some sid) w st) as (l1 & Hg1 & Hd1 & Hc1 & _).
  pose proof (lookup_owner_puts (Some sid) w st l1 Hg1) as Hp1.
  destruct (lookup_owner (Some sid) w st) as [ownerId st1]. cbn [fst snd] in *.
  unfold bind at 1 in E. unfold ask at 1 in E. cbn [fst snd log] in E.
  set (st2 := {| panelsStorage := panelsStorage st1;
                 settingsCache := settingsCache st1;
                 settingsLastFetch := settingsLastFetch st1;
                 log := log st1 ++ [DeleteServer (Some sid)] |}) in E.
  assert (Hg2 : grows st1 st2 [DeleteServer (Some sid)]) by reflexivity.
  assert (Hreply : delete_server w (log st1 ++ [DeleteServer (Some sid)])
                   = delete_server w ((log st ++ l1) ++ [DeleteServer (Some sid)])).
  { unfold grows in Hg1. now rewrite Hg1. }
  rewrite Hreply in E.
  set (reply := delete_server w ((log st ++ l1) ++ [DeleteServer (Some sid)])) in *.
  destruct (api_outcome reply) as [apiSuccess apiMessage] eqn:Eout.
  unfold bind at 1 in E.
  destruct (cleanup_owner_run (Some sid) ownerId apiSuccess w st2)
    as (l2 & Hg3 & Hd2 & _ & He2).
  pose proof (cleanup_owner_only (Some sid) ownerId apiSuccess w st2 l2 Hg3) as Hc2.
  destruct (cleanup_owner (Some sid) ownerId apiSuccess w st2) as [msg st3].
  cbn [fst snd] in *.
  unfold bind at 1 in E.
  destruct (delete_local_shape (Some sid) w st3) as (after & s & Hg4 & Hso & Hloc).
  assert (Hlog3 : log st3 = log st ++ l1 ++ DeleteServer (Some sid) :: l2).
  { unfold grows in Hg1, Hg3. unfold st2 in Hg3. cbn [log] in Hg3.
    rewrite Hg3, Hg1, <- !app_assoc. reflexivity. }
  rewrite Hlog3 in Hloc.
  destruct (delete_local (Some sid) w st3) as [localDeleted st4].
  cbn [fst snd] in *.
  unfold bind, forget_tracked_order, get_state, set_orders, ret in E.
  cbn [fst snd] in E. injection E as <- <-.
  cbn [log success local_db_deleted api_message].
  exists l1, l2, after. cbv zeta. fold reply.
  assert (Hall : log st4 = log st ++ l1 ++ DeleteServer (Some sid) :: l2
                                  ++ GithubGet :: after).
  { unfold grows in Hg4. rewrite Hg4, Hlog3, <- !app_assoc. reflexivity. }
  rewrite Hall, skipn_app_exact.
  destruct (only_cleanup_quiet _ Hc2) as [Hdel2 Hput2].
  destruct (store_only_quiet _ Hso) as (_ & _ & Hdel3).
  split; [reflexivity|]. split.
  { rewrite deletions_app, Hd1. cbn [app deletions flat_map].
    change (deletions (l2 ++ GithubGet :: after) = []) || idtac.
    unfold deletions in *. rewrite flat_map_app, Hdel2. simpl. now rewrite Hdel3. }
  split; [split; assumption|]. split; [exact Hc2|]. split.
  { intros Hgone. apply He2. unfold remote_gone in Hgone. rewrite Eout in Hgone.
    exact Hgone. }
  split; [exact Hso|]. split; [reflexivity|].
  split.
  { intros Hr. rewrite Hr in Eout. simpl in Eout. now injection Eout as _ <-. }
  split.
  { intros c Hr Hc. rewrite Hr in Eout. cbn [api_outcome] in Eout.
    destruct (Z.eqb_spec c 204); [contradiction|]. now injection Eout as _ <-. }
  split.
  { intros m Hr. rewrite Hr in Eout. simpl in Eout. now injection Eout as _ <-. }
  split.
  { intros c m Hr Hc. rewrite Hr in Eout.
    destruct c as [z|]; [|simpl in Eout; now injection Eout as _ <-].
    destruct (Z.eq_dec z 404) as [->|Hz]; [congruence|].
    assert (Hout : api_outcome (DeleteFailed (Some z) m)
                   = (false, ("Gagal menghapus dari Pterodactyl: " ++ m)%string)).
    { destruct z as [|q|q]; try reflexivity.
      do 9 (destruct q as [q|q|]; try reflexivity). congruence. }
    rewrite Hout in Eout. now injection Eout as _ <-. }
  destruct (JS.findIndex (tracks_loose (Some sid)) _) as [idx|] eqn:Eidx.
  - destruct Hloc as (Hr & Hsha & Hp & Hp').
    split; [exact Hr|]. split; [exact (findIndex_nth _ _ _ _ Eidx)|].
    split; [exact Hsha|]. exists s. split; assumption.
  - exact Hloc.
Qed.

(** C8, as it is stated, fails on both workflows.  With the control plane
    down and no local record, the handler answers [success: true] although
    the remote deletion failed and nothing was removed locally; and
    [deleteExpiredPanel], whose lookup of the owner is rejected, returns
    [true] without having asked for the deletion of the server. *)
Lemma success_without_deletion :
  Deprovision.success
    (fst (Deprovision.admin_delete_panel 7 (Samples.offline 0) Samples.fresh))
  = true
  /\ Deprovision.local_db_deleted
       (fst (Deprovision.admin_delete_panel 7 (Samples.offline 0) Samples.fresh))
     = false
  /\ Deprovision.remote_gone
       (delete_server (Samples.offline 0)
          [GetServer (Some 7); GithubGet; DeleteServer (Some 7)])
     = false
  /\ issued (Deprovision.deleteExpiredPanel (Some 7) (Some "bob"))
       (Samples.offline 0) Samples.fresh
     = [GetServer (Some 7)]
  /\ fst (Deprovision.deleteExpiredPanel (Some 7) (Some "bob")
            (Samples.offline 0) Samples.fresh)
     = true.
Proof. repeat split; vm_compute; reflexivity. Qed.

End DeprovisionFacts.

(** ** Payment checks and the order cache *)

Module PaymentFacts.
Import Orders ProcFacts.

(** Once an order has its panel, [check-payment] only polls the gateway: it
    starts no workflow, leaves the cache as it is, and answers with the
    stored panel whenever the gateway answers. *)
Lemma check_payment_keeps_panel : forall fuel order_id o pd w st,
  order_id <> EmptyString ->
  lookup order_id (panelsStorage st) = Some o ->
  o_panel_data o = Some pd ->
  issued (check_payment fuel order_id) w st
    = [TransactionDetail (o_amount o) order_id]
  /\ panelsStorage (snd (check_payment fuel order_id w st)) = panelsStorage st
  /\ forall tx,
       transaction_detail w (log st ++ [TransactionDetail (o_amount o) order_id])
         = Some tx ->
       fst (check_payment fuel order_id w st)
         = Some (Checked tx (Some pd) (o_status o)).
Proof.
  intros fuel oid o pd w st Hne Hl Hpd.
  assert (Ht : JS.truthy_str (Some oid) = true) by (destruct oid; [congruence | reflexivity]).
  unfold issued, check_payment. rewrite Ht. cbn [negb].
  unfold bind, get_state, ask, ret; cbn [fst snd log]. rewrite Hl.
  cbn [fst snd log].
  destruct (transaction_detail w _) as [tx|] eqn:Etx; rewrite ?Hpd;
    cbn [fst snd log panelsStorage]; rewrite skipn_app_exact;
    repeat split; intros; congruence.
Qed.

(** The same for [manual-check], except for the answer: it carries the
    stored panel only when the gateway reports the payment as completed. *)
Lemma manual_check_keeps_panel : forall fuel order_id o pd w st,
  order_id <> EmptyString ->
  lookup order_id (panelsStorage st) = Some o ->
  o_panel_data o = Some pd ->
  issued (manual_check fuel order_id) w st
    = [TransactionDetail (o_amount o) order_id]
  /\ panelsStorage (snd (manual_check fuel order_id w st)) = panelsStorage st
  /\ forall tx,
       transaction_detail w (log st ++ [TransactionDetail (o_amount o) order_id])
         = Some tx ->
       fst (manual_check fuel order_id w st)
         = Some (Checked tx (if tx_completed tx then Some pd else None)
                   (o_status o)).
Proof.
  intros fuel oid o pd w st Hne Hl Hpd.
  assert (Ht : JS.truthy_str (Some oid) = true) by (destruct oid; [congruence | reflexivity]).
  unfold issued, manual_check. rewrite Ht. cbn [negb].
  unfold bind, get_state, ask, ret; cbn [fst snd log]. rewrite Hl.
  cbn [fst snd log].
  destruct (transaction_detail w _) as [tx|] eqn:Etx;
    [destruct (tx_completed tx) eqn:Ec|]; rewrite ?Hpd;
    cbn [fst snd log panelsStorage]; rewrite skipn_app_exact;
    repeat split; intros tx' Htx'; try congruence.
  - injection Htx' as <-. rewrite Ec. reflexivity.
  - injection Htx' as <-. rewrite Ec. reflexivity.
Qed.

(** Neither check starts a workflow for a payment that the gateway does not
    report as completed. *)
Lemma unpaid_order_is_not_provisioned : forall fuel order_id o w st tx,
  order_id <> EmptyString ->
  lookup order_id (panelsStorage st) = Some o ->
  transaction_detail w (log st ++ [TransactionDetail (o_amount o) order_id])
    = Some tx ->
  tx_completed tx = false ->
  issued (check_payment fuel order_id) w st
    = [TransactionDetail (o_amount o) order_id]
  /\ issued (manual_check fuel order_id) w st
     = [TransactionDetail (o_amount o) order_id].
Proof.
  intros fuel oid o w st tx Hne Hl Htx Hc.
  assert (Ht : JS.truthy_str (Some oid) = true) by (destruct oid; [congruence | reflexivity]).
  unfold issued, check_payment, manual_check. rewrite Ht. cbn [negb].
  unfold bind, get_state, ask, ret; cbn [fst snd log]. rewrite Hl.
  cbn [fst snd log]. rewrite Htx, Hc.
  destruct (o_panel_data o); cbn [fst snd log]; rewrite skipn_app_exact; auto.
Qed.

(** C6, at the failing input.  The administrator has created the panel of a
    pending order by hand ([force-create-panel]), so that the order has its
    [panel_data]; the gateway still reports the payment as pending.
    [check-payment] answers with the stored panel; [manual-check] answers
    [panel_data: null], although the order has a panel. *)
Theorem manual_check_withholds_the_stored_panel :
  exists pd tx,
    option_map o_panel_data
      (Orders.lookup "INV-3"
         (panelsStorage
            (snd (Orders.force_create_panel Samples.force_body_of_bob
                    (Samples.unpaid 1000)
                    (Samples.with_orders
                       [("INV-3", Samples.pending_order_of_bob)])))))
    = Some (Some pd)
    /\ fst (Orders.check_payment 0 "INV-3" (Samples.unpaid 1000)
              (snd (Orders.force_create_panel Samples.force_body_of_bob
                      (Samples.unpaid 1000)
                      (Samples.with_orders
                         [("INV-3", Samples.pending_order_of_bob)]))))
       = Some (Orders.Checked tx (Some pd) (Some "completed"))
    /\ fst (Orders.manual_check 0 "INV-3" (Samples.unpaid 1000)
              (snd (Orders.force_create_panel Samples.force_body_of_bob
                      (Samples.unpaid 1000)
                      (Samples.with_orders
                         [("INV-3", Samples.pending_order_of_bob)]))))
       = Some (Orders.Checked tx None (Some "completed")).
Proof. do 2 eexists. repeat split; vm_compute; reflexivity. Qed.

End PaymentFacts.

(** ** Request throttle *)

Module ThrottleFacts.
Import Throttle.

Lemma filter_length_mono : forall A (p q : A -> bool) l,
  (forall x, In x l -> p x = true -> q x = true) ->
  (List.length (filter p l) <= List.length (filter q l))%nat.
Proof.
  intros A p q l. induction l as [|x l IH]; intros H; simpl; [lia|].
  assert (IH' := IH (fun y Hy => H y (or_intror Hy))).
  destruct (p x) eqn:Ep.
  - rewrite (H x (or_introl eq_refl) Ep). simpl. lia.
  - destruct (q x); simpl; lia.
Qed.

Lemma filter_length_all : forall A (p : A -> bool) l,
  (List.length (filter p l) <= List.length l)%nat.
Proof.
  intros A p l. induction l as [|x l IH]; simpl; [lia|].
  destruct (p x); simpl; lia.
Qed.

Lemma filter_filter_weaker : forall A (p q : A -> bool) l,
  (forall x, p x = true -> q x = true) ->
  filter p (filter q l) = filter p l.
Proof.
  intros A p q l H. induction l as [|x l IH]; simpl; auto.
  destruct (q x) eqn:Eq; simpl.
  - rewrite IH. reflexivity.
  - destruct (p x) eqn:Ep; auto. rewrite (H x Ep) in Eq. discriminate.
Qed.

Lemma assign_same : forall ip v m, assign ip v m ip = v.
Proof. intros. unfold assign. now rewrite String.eqb_refl. Qed.

Lemma assign_other : forall c ip v m,
  String.eqb c ip = false -> assign c v m ip = m ip.
Proof.
  intros c ip v m H. unfold assign. rewrite String.eqb_sym, H. reflexivity.
Qed.

(** The three outcomes of the middleware. *)
Lemma middleware_cases : forall ip now s,
  let recent := filter (recent_at now) (ipRequests s ip) in
  (has ip (blockedIPs s) = true /\ middleware ip now s = (Denied, s))
  \/ (has ip (blockedIPs s) = false
      /\ (REQUEST_LIMIT <= List.length recent)%nat
      /\ middleware ip now s
         = (TooMany,
            {| ipRequests := assign ip recent (ipRequests s);
               blockedIPs := add ip (blockedIPs s);
               timers := timers s ++ [(ip, now + BLOCK_DURATION)] |}))
  \/ (has ip (blockedIPs s) = false
      /\ (List.length recent < REQUEST_LIMIT)%nat
      /\ middleware ip now s
         = (Passed,
            {| ipRequests := assign ip (recent ++ [now]) (ipRequests s);
               blockedIPs := blockedIPs s;
               timers := timers s |})).
Proof.
  intros ip now s recent. unfold middleware. fold (recent_at now). fold recent.
  destruct (has ip (blockedIPs s)); [left; auto|right].
  destruct (Nat.leb_spec REQUEST_LIMIT (List.length recent)); [left|right]; auto.
Qed.

Lemma step_bound : forall e s,
  (forall k, (List.length (ipRequests s k) <= REQUEST_LIMIT)%nat) ->
  forall k, (List.length (ipRequests (step s e) k) <= REQUEST_LIMIT)%nat.
Proof.
  intros [c now|v] s H k; simpl; [|apply H].
  destruct (middleware_cases c now s) as [[_ ->]|[(_ & Hn & ->)|(_ & Hn & ->)]];
    simpl; [apply H| |]; unfold assign; destruct (String.eqb k c); try apply H.
  - etransitivity; [apply filter_length_all|apply H].
  - rewrite length_app. simpl. lia.
Qed.

(** X1: whatever the requests and the timers, the middleware never holds
    more than [REQUEST_LIMIT] = 15 timestamps for one address. *)
Theorem stored_timestamps_stay_under_the_limit :
  forall (evs : list Event) (ip : string),
    (List.length (ipRequests (run evs start) ip) <= REQUEST_LIMIT)%nat.
Proof.
  intros evs. unfold run.
  assert (H : forall s,
    (forall k, (List.length (ipRequests s k) <= REQUEST_LIMIT)%nat) ->
    forall k, (List.length (ipRequests (fold_left step evs s) k)
               <= REQUEST_LIMIT)%nat).
  { induction evs as [|e evs IH]; intros s Hs; simpl; auto.
    apply IH. apply step_bound. exact Hs. }
  apply H. intros k. simpl. unfold REQUEST_LIMIT. lia.
Qed.

(** The admitted requests of the last minute are the stored ones. *)
Lemma admitted_window : forall evs s hist clk ip,
  chronological clk evs ->
  (forall now, clk <= now ->
     filter (recent_at now) hist = filter (recent_at now) (ipRequests s ip)) ->
  (forall T, (List.length (filter (within T) hist) <= REQUEST_LIMIT)%nat) ->
  forall T,
    (List.length (filter (within T) (hist ++ admitted ip evs s))
     <= REQUEST_LIMIT)%nat.
Proof.
  induction evs as [|e evs IH]; intros s hist clk ip Hchr Hsame Hbound T.
  - simpl. rewrite app_nil_r. apply Hbound.
  - destruct Hchr as [Hclk Hchr]. cbn [admitted]. rewrite app_assoc.
    apply (IH (step s e) _ (time_of e) ip Hchr); clear IH T.
    + (* the stored timestamps still are the admitted ones *)
      intros now Hnow. destruct e as [c now'|v]; cbn [time_of step] in *.
      2:{ rewrite app_nil_r. simpl. apply Hsame. lia. }
      destruct (String.eqb c ip) eqn:Ec.
      * apply String.eqb_eq in Ec. subst c.
        assert (Hweak : forall x, recent_at now x = true -> recent_at now' x = true).
        { intros x. unfold recent_at. rewrite !Z.ltb_lt. lia. }
        destruct (middleware_cases ip now' s)
          as [[_ ->]|[(_ & _ & ->)|(_ & _ & ->)]]; cbn [fst snd ipRequests].
        -- rewrite app_nil_r. apply Hsame. lia.
        -- rewrite app_nil_r, assign_same.
           rewrite (filter_filter_weaker _ _ _ _ Hweak). apply Hsame. lia.
        -- rewrite assign_same, !filter_app.
           rewrite (filter_filter_weaker _ _ _ _ Hweak). f_equal. apply Hsame. lia.
      * rewrite app_nil_r.
        destruct (middleware_cases c now' s)
          as [[_ ->]|[(_ & _ & ->)|(_ & _ & ->)]]; cbn [fst snd ipRequests];
          rewrite ?(assign_other _ _ _ _ Ec); apply Hsame; lia.
    + (* and no window holds more than the limit *)
      intros T. destruct e as [c now'|v]; cbn [time_of step] in *.
      2:{ rewrite app_nil_r. apply Hbound. }
      destruct (String.eqb c ip) eqn:Ec; [|rewrite app_nil_r; apply Hbound].
      apply String.eqb_eq in Ec. subst c.
      destruct (middleware_cases ip now' s)
        as [[_ ->]|[(_ & _ & ->)|(_ & Hlt & ->)]]; cbn [fst];
        try (rewrite app_nil_r; apply Hbound).
      rewrite filter_app, length_app. cbn [filter].
      destruct (within T now') eqn:Ew; [|simpl; rewrite Nat.add_0_r; apply Hbound].
      simpl. unfold within in Ew. apply andb_prop in Ew. destruct Ew as [Ew1 Ew2].
      apply Z.ltb_lt in Ew1. apply Z.leb_le in Ew2.
      assert (Hle : (List.length (filter (within T) hist)
                     <= List.length (filter (recent_at now') hist))%nat).
      { apply filter_length_mono. intros x _. unfold within, recent_at.
        intros Hx. apply andb_prop in Hx. destruct Hx as [Hx _].
        apply Z.ltb_lt in Hx. apply Z.ltb_lt. lia. }
      rewrite (Hsame now' Hclk) in Hle. lia.
Qed.

(** X2: the rate limit.  When the clock does not go back, the middleware
    lets through at most [REQUEST_LIMIT] = 15 requests of one address in any
    window of [TIME_WINDOW] = 60 s, whatever the other addresses do and
    whenever the blocks end. *)
Theorem at_most_15_requests_pass_in_a_minute :
  forall (evs : list Event) (ip : string) (t0 T : Z),
    chronological t0 evs ->
    (List.length (filter (within T) (admitted ip evs start)) <= REQUEST_LIMIT)%nat.
Proof.
  intros evs ip t0 T Hchr.
  apply (admitted_window evs start [] t0 ip Hchr).
  - intros now _. reflexivity.
  - intros T'. simpl. lia.
Qed.

Lemma at_most_15_requests_pass_in_a_minute_witness :
  chronological 0 (repeat (Request "10.0.0.1" 5) 20)
  /\ admitted "10.0.0.1" (repeat (Request "10.0.0.1" 5) 20) start = repeat 5 15
  /\ (List.length (filter (within 5)
        (admitted "10.0.0.1" (repeat (Request "10.0.0.1" 5) 20) start))
      <= REQUEST_LIMIT)%nat.
Proof.
  split; [simpl; lia|]. split; [vm_compute; reflexivity|].
  apply (at_most_15_requests_pass_in_a_minute _ _ 0). simpl. lia.
Defined.

Lemma has_app : forall ip a b, has ip (a ++ b) = has ip a || has ip b.
Proof. intros. unfold has. apply existsb_app. Qed.

Lemma has_add_same : forall ip b, has ip (add ip b) = true.
Proof.
  intros ip b. unfold add. destruct (has ip b) eqn:E; auto.
  rewrite has_app. simpl. rewrite String.eqb_refl. apply orb_true_r.
Qed.

Lemma has_add_other : forall c ip b,
  String.eqb c ip = false -> has ip (add c b) = has ip b.
Proof.
  intros c ip b H. unfold add. destruct (has c b); auto.
  rewrite has_app. simpl. rewrite String.eqb_sym, H. now rewrite !orb_false_r.
Qed.

Lemma has_add_more : forall c ip b, has ip b = true -> has ip (add c b) = true.
Proof.
  intros c ip b H. unfold add. destruct (has c b); auto.
  rewrite has_app, H. reflexivity.
Qed.

Lemma has_delete : forall k ip b,
  has ip (delete k b) = has ip b && negb (String.eqb k ip).
Proof.
  intros k ip b. unfold has, delete. induction b as [|x b IH]; simpl; auto.
  destruct (String.eqb k x) eqn:Ek; simpl.
  - rewrite IH. apply String.eqb_eq in Ek. subst x.
    rewrite (String.eqb_sym ip k).
    destruct (String.eqb k ip); simpl; auto. now rewrite !andb_false_r.
  - rewrite IH. destruct (String.eqb ip x) eqn:Ei; simpl; auto.
    apply String.eqb_eq in Ei. subst x. now rewrite Ek.
Qed.

(** An address stays blocked through the timers phase unless one of its own
    callbacks is due. *)
Lemma has_after_timers : forall v ip tm b,
  has ip (fold_left (fun b t => if snd t <=? v then delete (fst t) b else b) tm b)
  = has ip b
    && negb (existsb (fun t => String.eqb (fst t) ip && (snd t <=? v)) tm).
Proof.
  intros v ip tm. induction tm as [|[k due] tm IH]; intros b; simpl.
  - now rewrite andb_true_r.
  - rewrite IH. destruct (due <=? v); simpl.
    + rewrite has_delete. rewrite andb_true_r.
      destruct (String.eqb k ip); simpl; auto.
      now rewrite andb_false_r. now rewrite andb_true_r.
    + now rewrite andb_false_r.
Qed.

Lemma NoDup_snoc : forall A (l : list A) x,
  NoDup l -> ~ In x l -> NoDup (l ++ [x]).
Proof.
  intros A l x Hl Hx. induction Hl as [|y l Hy Hl IH]; simpl.
  - constructor; [intros []|constructor].
  - constructor.
    + intros Hin. apply in_app_or in Hin. destruct Hin as [Hin|[->|[]]].
      * contradiction.
      * apply Hx. now left.
    + apply IH. intros Hin. apply Hx. now right.
Qed.

Lemma NoDup_keys_filter : forall (p : string * Z -> bool) l,
  NoDup (map fst l) -> NoDup (map fst (filter p l)).
Proof.
  intros p l. induction l as [|x l IH]; simpl; intros H; [constructor|].
  inversion H as [|? ? Hx Hl]; subst.
  destruct (p x); simpl; auto. constructor; auto.
  intros Hin. apply Hx. apply in_map_iff in Hin.
  destruct Hin as (y & Hy & Hin). apply filter_In in Hin.
  apply in_map_iff. exists y. tauto.
Qed.

Lemma NoDup_keys_unique : forall (l : list (string * Z)) k a b,
  NoDup (map fst l) -> In (k, a) l -> In (k, b) l -> a = b.
Proof.
  induction l as [|[k' c] l IH]; simpl; intros k a b H Ha Hb; [contradiction|].
  inversion H as [|? ? Hx Hl]; subst.
  destruct Ha as [Ha|Ha], Hb as [Hb|Hb].
  - congruence.
  - injection Ha as -> ->. exfalso. apply Hx.
    apply in_map_iff. exists (k, b). auto.
  - injection Hb as -> ->. exfalso. apply Hx.
    apply in_map_iff. exists (k, a). auto.
  - eapply IH; eauto.
Qed.

Lemma timers_ok_start : timers_ok start.
Proof. split; [intros ? ? []|constructor]. Qed.

Lemma timers_ok_step : forall e s, timers_ok s -> timers_ok (step s e).
Proof.
  intros [c now|v] s [HJ HN]; cbn [step].
  - destruct (middleware_cases c now s)
      as [[_ ->]|[(Hfree & _ & ->)|(_ & _ & ->)]]; cbn [snd];
      try (split; assumption).
    split; cbn [timers blockedIPs].
    + intros ip due Hin. apply in_app_or in Hin. destruct Hin as [Hin|[Hin|[]]].
      * apply has_add_more. eapply HJ; eauto.
      * injection Hin as <- _. apply has_add_same.
    + rewrite map_app. simpl. apply NoDup_snoc; auto.
      intros Hin. apply in_map_iff in Hin. destruct Hin as ([k due] & Hk & Hin).
      simpl in Hk. subst k. rewrite (HJ _ _ Hin) in Hfree. discriminate.
  - split; cbn [run_timers timers blockedIPs].
    + intros ip due Hin. apply filter_In in Hin. destruct Hin as [Hin Hlate].
      rewrite has_after_timers, (HJ _ _ Hin). simpl.
      apply negb_true_iff. apply not_true_is_false. intros Hex.
      apply existsb_exists in Hex. destruct Hex as ([k d] & Hin' & Hd).
      simpl in Hd. apply andb_prop in Hd. destruct Hd as [Hk Hd].
      apply String.eqb_eq in Hk. subst k.
      rewrite (NoDup_keys_unique _ _ _ _ HN Hin Hin') in Hlate.
      simpl in Hlate. rewrite Hd in Hlate. discriminate.
    + apply NoDup_keys_filter. exact HN.
Qed.

Lemma timers_ok_run : forall evs s, timers_ok s -> timers_ok (run evs s).
Proof.
  unfold run. induction evs as [|e evs IH]; intros s H; simpl; auto.
  apply IH. apply timers_ok_step. exact H.
Qed.

(** A blocked address whose callbacks all are due at [bound] or later stays
    blocked as long as the timers phase runs before [bound]. *)
Lemma blocked_until : forall evs s ip bound,
  has ip (blockedIPs s) = true ->
  (forall due, In (ip, due) (timers s) -> bound <= due) ->
  timers_before bound evs ->
  has ip (blockedIPs (run evs s)) = true.
Proof.
  unfold run. induction evs as [|e evs IH]; intros s ip bound Hb Hd Hev; simpl; auto.
  apply (IH _ _ bound).
  - destruct e as [c now|v]; cbn [step].
    + destruct (middleware_cases c now s)
        as [[_ ->]|[(_ & _ & ->)|(_ & _ & ->)]]; cbn [snd blockedIPs]; auto.
      apply has_add_more. exact Hb.
    + cbn [run_timers blockedIPs]. rewrite has_after_timers, Hb. simpl.
      apply negb_true_iff. apply not_true_is_false. intros Hex.
      apply existsb_exists in Hex. destruct Hex as ([k d] & Hin & Hk).
      simpl in Hk. apply andb_prop in Hk. destruct Hk as [Hk Hdue].
      apply String.eqb_eq in Hk. subst k. apply Z.leb_le in Hdue.
      specialize (Hd _ Hin). specialize (Hev v (or_introl eq_refl)). lia.
  - intros due Hin. destruct e as [c now|v]; cbn [step] in Hin.
    + destruct (middleware_cases c now s)
        as [[_ Hm]|[(Hfree & _ & Hm)|(_ & _ & Hm)]]; rewrite Hm in Hin;
        cbn [snd timers] in Hin; auto.
      apply in_app_or in Hin. destruct Hin as [Hin|[Hin|[]]]; auto.
      injection Hin as -> _. rewrite Hb in Hfree. discriminate.
    + cbn [run_timers timers] in Hin. apply filter_In in Hin. apply Hd. tauto.
  - intros v Hv. apply Hev. now right.
Qed.

(** X3: a block lasts ten minutes.  Once a request of [ip] at [t] has been
    answered 429, every request of [ip] is answered 403, whatever its
    instant and whatever the other addresses do, as long as the timers phase
    has not run at [t + BLOCK_DURATION] or later. *)
Theorem a_block_lasts_ten_minutes :
  forall (evs0 evs : list Event) (ip : string) (t u : Z),
    fst (middleware ip t (run evs0 start)) = TooMany ->
    timers_before (t + BLOCK_DURATION) evs ->
    fst (middleware ip u (run evs (snd (middleware ip t (run evs0 start)))))
    = Denied.
Proof.
  intros evs0 evs ip t u Hmany Hev.
  destruct (timers_ok_run evs0 start timers_ok_start) as [HJ _].
  set (s0 := run evs0 start) in *.
  assert (Hb : has ip (blockedIPs (run evs (snd (middleware ip t s0)))) = true).
  { destruct (middleware_cases ip t s0)
      as [[_ Hm]|[(Hfree & _ & Hm)|(_ & _ & Hm)]]; rewrite Hm in Hmany;
      try discriminate Hmany.
    rewrite Hm. cbn [snd].
    apply (blocked_until _ _ _ (t + BLOCK_DURATION)); cbn [blockedIPs timers]; auto.
    - apply has_add_same.
    - intros due Hin. apply in_app_or in Hin. destruct Hin as [Hin|[Hin|[]]].
      + rewrite (HJ _ _ Hin) in Hfree. discriminate.
      + injection Hin as <-. lia. }
  destruct (middleware_cases ip u (run evs (snd (middleware ip t s0))))
    as [[_ ->]|[(Hfree & _)|(Hfree & _)]]; auto;
    rewrite Hb in Hfree; discriminate.
Qed.

Lemma a_block_lasts_ten_minutes_witness :
  fst (middleware "10.0.0.1" 5 (run (repeat (Request "10.0.0.1" 5) 15) start))
  = TooMany
  /\ timers_before (5 + BLOCK_DURATION)
       [Request "10.0.0.2" 6; Timers 600004; Request "10.0.0.1" 7]
  /\ fst (middleware "10.0.0.1" 600004
            (run [Request "10.0.0.2" 6; Timers 600004; Request "10.0.0.1" 7]
               (snd (middleware "10.0.0.1" 5
                       (run (repeat (Request "10.0.0.1" 5) 15) start)))))
     = Denied.
Proof.
  assert (H1 : fst (middleware "10.0.0.1" 5
                      (run (repeat (Request "10.0.0.1" 5) 15) start)) = TooMany)
    by (vm_compute; reflexivity).
  assert (H2 : timers_before (5 + BLOCK_DURATION)
                 [Request "10.0.0.2" 6; Timers 600004; Request "10.0.0.1" 7]).
  { intros v [H|[H|[H|[]]]]; try discriminate H. injection H as <-.
    unfold BLOCK_DURATION. lia. }
  split; [exact H1|]. split; [exact H2|].
  apply (a_block_lasts_ten_minutes _ _ _ _ _ H1 H2).
Defined.

Lemma existsb_filter : forall A (p q : A -> bool) l,
  existsb (fun x => q x && p x) l = existsb p (filter q l).
Proof.
  intros A p q l. induction l as [|x l IH]; simpl; auto.
  rewrite IH. destruct (q x); reflexivity.
Qed.

Lemma filter_comm : forall A (p q : A -> bool) l,
  filter p (filter q l) = filter q (filter p l).
Proof.
  intros A p q l. induction l as [|x l IH]; simpl; auto.
  destruct (q x) eqn:Eq, (p x) eqn:Ep; simpl; rewrite ?Eq, ?Ep, IH; reflexivity.
Qed.

(** A request of another address leaves what is held about [ip] as it is. *)
Lemma view_step_other : forall c now ip s,
  String.eqb c ip = false -> view ip (step s (Request c now)) = view ip s.
Proof.
  intros c now ip s Hc. cbn [step].
  destruct (middleware_cases c now s)
    as [[_ ->]|[(_ & _ & ->)|(_ & _ & ->)]]; cbn [snd]; auto;
    unfold view; cbn [ipRequests blockedIPs timers];
    rewrite (assign_other _ _ _ _ Hc); auto.
  rewrite (has_add_other _ _ _ Hc), filter_app. simpl. rewrite Hc.
  now rewrite app_nil_r.
Qed.

(** An event that concerns [ip] acts on what is held about [ip] alone. *)
Lemma view_step_same : forall e ip s s',
  concerns ip e = true -> view ip s = view ip s' ->
  view ip (step s e) = view ip (step s' e).
Proof.
  intros [c now|v] ip s s' Hc Hv; unfold view in Hv; injection Hv as Hr Hb Ht.
  - simpl in Hc. apply String.eqb_eq in Hc. subst c. cbn [step].
    unfold middleware. rewrite <- Hb, <- Hr.
    destruct (has ip (blockedIPs s)) eqn:Eb.
    + unfold view. cbn [snd]. rewrite Eb, <- Hb, Hr, Ht. reflexivity.
    + destruct (_ <=? _)%nat; unfold view; cbn [snd ipRequests blockedIPs timers];
        rewrite !assign_same, ?has_add_same, ?filter_app, ?Ht, ?Eb, <- ?Hb;
        reflexivity.
  - cbn [step]. unfold run_timers, view. cbn [ipRequests blockedIPs timers].
    rewrite !has_after_timers, Hr, Hb.
    rewrite !(existsb_filter _ (fun t => snd t <=? v)
                (fun t => String.eqb (fst t) ip)), Ht.
    rewrite (filter_comm _ (fun t => String.eqb (fst t) ip)
               (fun t => negb (snd t <=? v)) (timers s)).
    rewrite (filter_comm _ (fun t => String.eqb (fst t) ip)
               (fun t => negb (snd t <=? v)) (timers s')).
    now rewrite Ht.
Qed.

Lemma view_run : forall evs ip s s',
  view ip s = view ip s' ->
  view ip (run evs s) = view ip (run (filter (concerns ip) evs) s').
Proof.
  unfold run. induction evs as [|e evs IH]; intros ip s s' Hv; simpl; auto.
  destruct (concerns ip e) eqn:Ec; simpl.
  - apply IH. apply view_step_same; auto.
  - apply IH. destruct e as [c now|v]; [|discriminate Ec].
    rewrite view_step_other; auto.
Qed.

(** X4: the addresses do not interfere.  The verdict on a request of [ip]
    is the one the middleware would give if the requests of all other
    addresses had never arrived. *)
Theorem verdict_ignores_the_other_addresses :
  forall (evs : list Event) (ip : string) (now : Z),
    fst (middleware ip now (run evs start))
    = fst (middleware ip now (run (filter (concerns ip) evs) start)).
Proof.
  intros evs ip now.
  pose proof (view_run evs ip start start eq_refl) as Hv.
  unfold view in Hv. injection Hv as Hr Hb _.
  unfold middleware. rewrite <- Hb, <- Hr.
  destruct (has ip _); auto. destruct (_ <=? _)%nat; reflexivity.
Qed.

End ThrottleFacts.

(** ** Administrator's access *)

Module AccessFacts.
Import Access.

Lemma prefix_app : forall n h,
  String.prefix n h = true <-> exists post, h = (n ++ post)%string.
Proof.
  induction n as [|a n IH]; intros h; simpl.
  - split; [intros _; exists h; reflexivity|intros _; destruct h; reflexivity].
  - destruct h as [|b h].
    + split; [discriminate|intros [post H]; discriminate H].
    + simpl. destruct (ascii_dec a b) as [->|Hne].
      * rewrite IH. split; intros [post H]; exists post; [now rewrite H|].
        now injection H.
      * split; [discriminate|]. intros [post H]. injection H as H _. congruence.
Qed.

(** [includes] is the occurrence of the needle somewhere in the string. *)
Lemma includes_app : forall n h,
  JS.includes n h = true
  <-> exists pre post, h = (pre ++ n ++ post)%string.
Proof.
  intros n.
  assert (Heq : forall h, JS.includes n h
                          = if String.prefix n h then true
                            else match h with
                                 | EmptyString => false
                                 | String _ rest => JS.includes n rest
                                 end)
    by (intros [|? ?]; reflexivity).
  induction h as [|b h IH]; rewrite Heq.
  - destruct (String.prefix n "") eqn:Ep.
    + split; auto. intros _. apply prefix_app in Ep. destruct Ep as [post H].
      exists EmptyString, post. exact H.
    + split; [discriminate|]. intros (pre & post & H).
      destruct pre; simpl in H; [|discriminate H].
      assert (Hp : String.prefix n "" = true) by (apply prefix_app; eauto).
      congruence.
  - destruct (String.prefix n (String b h)) eqn:Ep.
    + split; auto. intros _. apply prefix_app in Ep. destruct Ep as [post H].
      exists EmptyString, post. exact H.
    + rewrite IH. split; intros (pre & post & H).
      * exists (String b pre), post. simpl. now rewrite H.
      * destruct pre as [|c pre]; simpl in H.
        -- assert (Hp : String.prefix n (String b h) = true)
             by (apply prefix_app; eauto).
           congruence.
        -- injection H as _ H. eauto.
Qed.

(** X5: [adminAuth] lets a request through exactly when its [Cookie] header
    contains the text [admin_token=] followed by the configured password,
    anywhere in the header and whatever follows it. *)
Theorem adminAuth_accepts_the_headers_that_contain_the_token :
  forall (ADMIN_PASSWORD : string) (cookie : option string),
    adminAuth ADMIN_PASSWORD cookie = true
    <-> exists pre post,
          cookie = Some (pre ++ "admin_token=" ++ ADMIN_PASSWORD ++ post)%string.
Proof.
  intros pw [c|]; simpl.
  2:{ split; [discriminate|]. intros (? & ? & H). discriminate H. }
  assert (Hinc := includes_app ("admin_token=" ++ pw) c). simpl in Hinc.
  split.
  - intros H. apply andb_prop in H. destruct H as [_ H].
    apply Hinc in H. destruct H as (pre & post & ->). eauto.
  - intros (pre & post & H). injection H as ->.
    apply andb_true_intro. split.
    + destruct pre; reflexivity.
    + apply Hinc. eauto.
Qed.

End AccessFacts.

(** ** The settings document and the store *)

Module SettingsFacts.
Import SettingsOps ProcFacts.

(** What [put_settings] leaves of the document: the subscriptions as they
    were, and a settings entry that carries the new settings. *)
Lemma put_settings_keeps : forall s d,
  filter (fun it => negb (is_settings it)) (put_settings s d)
  = filter (fun it => negb (is_settings it)) d.
Proof.
  intros s d. induction d as [|item d IH]; simpl; auto.
  destruct (is_settings item) eqn:E; simpl.
  - unfold is_settings in *. simpl. rewrite E. reflexivity.
  - rewrite E. simpl. now rewrite IH.
Qed.

Lemma put_settings_found : forall s d,
  exists it, find is_settings (put_settings s d) = Some it /\ settings it = Some s.
Proof.
  intros s d. induction d as [|item d IH]; simpl.
  - eexists. split; reflexivity.
  - destruct (is_settings item) eqn:E; simpl.
    + unfold is_settings in *. simpl. rewrite E. eexists. split; reflexivity.
    + rewrite E. exact IH.
Qed.

(** [saveSettings]: the requests it sends, what it returns, and the cache
    it leaves, by the document it reads. *)
Lemma saveSettings_run : forall s w st,
  exists l,
    grows st (snd (saveSettings s w st)) l
    /\ panelsStorage (snd (saveSettings s w st)) = panelsStorage st
    /\ store_only l
    /\ match fst (fetchData w st) with
       | Entries items =>
           fst (saveSettings s w st) = true
           /\ settingsCache (snd (saveSettings s w st)) = Some s
           /\ settingsLastFetch (snd (saveSettings s w st))
              = clock w (log (snd (saveSettings s w st)))
           /\ In GithubSha l
           /\ (puts l = [] \/ puts l = [put_settings s items])
           /\ (github_sha w (log st ++ [GithubGet; GithubSha]) <> None ->
               puts l = [put_settings s items])
       | NotArray =>
           fst (saveSettings s w st) = false
           /\ l = [GithubGet]
           /\ settingsCache (snd (saveSettings s w st)) = settingsCache st
           /\ settingsLastFetch (snd (saveSettings s w st))
              = settingsLastFetch st
       end.
Proof.
  intros s w st.
  cbv beta iota zeta delta [saveSettings bind fetchData updateData ask ret
    Date_now set_settings_cache].
  cbn [fst snd log].
  destruct (match github_get w (log st ++ [GithubGet]) with
            | Some d => d
            | None => Entries []
            end) as [items|].
  - cbn [fst snd log]. rewrite <- app_assoc. cbn [app].
    destruct (github_sha w (log st ++ [GithubGet; GithubSha])) as [sha|] eqn:Esha;
      cbn [fst snd log settingsCache settingsLastFetch panelsStorage].
    + exists [GithubGet; GithubSha; GithubPut (put_settings s items) sha].
      split; [unfold grows; rewrite <- ?app_assoc; reflexivity|].
      split; [reflexivity|]. split; [repeat constructor|].
      do 3 (split; [reflexivity|]). split; [right; left; reflexivity|].
      split; [right; reflexivity|reflexivity].
    + exists [GithubGet; GithubSha].
      split; [unfold grows; rewrite <- ?app_assoc; reflexivity|].
      split; [reflexivity|]. split; [repeat constructor|].
      do 3 (split; [reflexivity|]). split; [right; left; reflexivity|].
      split; [left; reflexivity|intros H; now elim H].
  - exists [GithubGet]. cbn [fst snd log].
    split; [reflexivity|]. split; [reflexivity|]. split; [repeat constructor|].
    repeat split; reflexivity.
Qed.

(** A cache younger than a minute is what [loadSettings] and the price
    validation answer from, without a request. *)
Lemma cache_serves : forall s w st body,
  settingsCache st = Some s ->
  clock w (log st) - settingsLastFetch st < 60000 ->
  loadSettings w st = (s, st)
  /\ Price.validatePrice body w st = (Price.check_price s (config w) body, st).
Proof.
  intros s w st body Hc Ht.
  assert (Hload : loadSettings w st = (s, st)).
  { unfold loadSettings, bind, Date_now, get_state, the_config, ret.
    rewrite Hc. apply Z.ltb_lt in Ht. now rewrite Ht. }
  split; [exact Hload|].
  unfold Price.validatePrice, bind. rewrite Hload. reflexivity.
Qed.

(** X6: what [saveSettings] saves is served from the cache for a minute, and
    it fails on a document that is no array.  For a store whose document is
    an array of objects or no array at all, [saveSettings] returns [false]
    exactly when the store serves a document that is no array; it has then
    sent its read and nothing else, and the cache is as it was.  In every
    other world, also when the document can be neither read nor written, it
    returns [true] and leaves the new settings in the cache, stamped with
    the time of the clock; from then on, in any state that holds this cache
    and at any reading of the clock less than 60000 ms past the stamp,
    [loadSettings] and [validatePrice] answer from the new settings without
    a request to the store.  The handler of [POST /admin/api/save-settings]
    answers with what [saveSettings] returns for the settings it builds, in
    which a price table of the body is the price table. *)
Theorem saved_settings_are_served_from_the_cache :
  forall (s : Settings) (w : World) (st : State) (body : Price.Body)
         (sbody : SettingsBody),
    let saved := snd (saveSettings s w st) in
    (fst (saveSettings s w st) = false
     <-> github_get w (log st ++ [GithubGet]) = Some NotArray)
    /\ (fst (saveSettings s w st) = false ->
        issued (saveSettings s) w st = [GithubGet]
        /\ settingsCache saved = settingsCache st
        /\ settingsLastFetch saved = settingsLastFetch st)
    /\ (fst (saveSettings s w st) = true ->
        settingsCache saved = Some s
        /\ settingsLastFetch saved = clock w (log saved)
        /\ In GithubSha (issued (saveSettings s) w st)
        /\ forall w' st',
             settingsCache st' = Some s ->
             settingsLastFetch st' = settingsLastFetch saved ->
             clock w' (log st') - settingsLastFetch saved < 60000 ->
             loadSettings w' st' = (s, st')
             /\ Price.validatePrice body w' st'
                = (Price.check_price s (config w') body, st'))
    /\ fst (save_settings sbody w st)
       = fst (saveSettings
                (new_settings sbody (fst (loadSettings w st)) (config w))
                w (snd (loadSettings w st)))
    /\ forall p, sb_prices sbody = Some p ->
         PRICES (new_settings sbody (fst (loadSettings w st)) (config w))
         = Some p.
Proof.
  intros s w st body sbody saved. subst saved.
  destruct (saveSettings_run s w st) as (l & Hg & _ & _ & Hcase).
  rewrite (grows_issued _ _ _ _ _ Hg).
  destruct (fetchData_run w st) as [_ Hfetch]. rewrite Hfetch in Hcase.
  split; [|split; [|split; [|split]]].
  - destruct (github_get w (log st ++ [GithubGet])) as [[items|]|].
    + destruct Hcase as (Hr & _). rewrite Hr. split; discriminate.
    + destruct Hcase as (Hr & _). rewrite Hr. split; reflexivity.
    + destruct Hcase as (Hr & _). rewrite Hr. split; discriminate.
  - intros Hf.
    destruct (github_get w (log st ++ [GithubGet])) as [[items|]|].
    + destruct Hcase as (Hr & _). rewrite Hr in Hf. discriminate.
    + destruct Hcase as (_ & -> & Hc & Ht). auto.
    + destruct Hcase as (Hr & _). rewrite Hr in Hf. discriminate.
  - intros Hf.
    assert (H : settingsCache (snd (saveSettings s w st)) = Some s
                /\ settingsLastFetch (snd (saveSettings s w st))
                   = clock w (log (snd (saveSettings s w st)))
                /\ In GithubSha l).
    { destruct (github_get w (log st ++ [GithubGet])) as [[items|]|].
      - destruct Hcase as (_ & Hc & Ht & Hs & _). auto.
      - destruct Hcase as (Hr & _). rewrite Hr in Hf. discriminate.
      - destruct Hcase as (_ & Hc & Ht & Hs & _). auto. }
    destruct H as (Hc & Ht & Hs).
    split; [exact Hc|]. split; [exact Ht|]. split; [exact Hs|].
    intros w' st' Hc' Ht' Hlt. apply cache_serves; [exact Hc'|].
    now rewrite Ht'.
  - unfold save_settings, bind, the_config.
    destruct (loadSettings w st) as [cur st1]. reflexivity.
  - intros p Hp. unfold new_settings. cbn [PRICES]. now rewrite Hp.
Qed.

(** The instances of X6 at a stored file that is no array, where
    [saveSettings] fails after its read, and at a store that cannot be read,
    where it succeeds: 59999 ms later, with every collaborator down, the
    settings it was given are still served. *)
Lemma saved_settings_are_served_from_the_cache_witness :
  fst (saveSettings MoreSamples.closed_shop (MoreSamples.garbled 5) Samples.fresh)
  = false
  /\ issued (saveSettings MoreSamples.closed_shop) (MoreSamples.garbled 5)
       Samples.fresh = [GithubGet]
  /\ loadSettings (Samples.offline 60004)
       (MoreSamples.caching MoreSamples.closed_shop 5)
     = (MoreSamples.closed_shop, MoreSamples.caching MoreSamples.closed_shop 5).
Proof.
  pose proof (saved_settings_are_served_from_the_cache MoreSamples.closed_shop
                (MoreSamples.garbled 5) Samples.fresh
                {| Price.product_id := None; Price.days := None;
                   Price.amount := None |}
                {| sb_logo := None; sb_banner := None; sb_announcement := None;
                   sb_announcementActive := false; sb_maintenanceMode := false;
                   sb_prices := None |}) as Hbad.
  pose proof (saved_settings_are_served_from_the_cache MoreSamples.closed_shop
                (MoreSamples.unreadable 5) Samples.fresh
                {| Price.product_id := None; Price.days := None;
                   Price.amount := None |}
                {| sb_logo := None; sb_banner := None; sb_announcement := None;
                   sb_announcementActive := false; sb_maintenanceMode := false;
                   sb_prices := None |}) as Hgood.
  cbv zeta in Hbad, Hgood.
  destruct Hbad as (Hiff & Hfalse & _).
  destruct Hgood as (_ & _ & Htrue & _).
  assert (Hf : fst (saveSettings MoreSamples.closed_shop (MoreSamples.garbled 5)
                      Samples.fresh) = false)
    by (apply (proj2 Hiff); reflexivity).
  split; [exact Hf|]. split; [exact (proj1 (Hfalse Hf))|].
  destruct (Htrue eq_refl) as (_ & _ & _ & Hserve).
  apply (Hserve (Samples.offline 60004)
           (MoreSamples.caching MoreSamples.closed_shop 5)).
  - reflexivity.
  - reflexivity.
  - vm_compute. reflexivity.
Defined.

(** X7: [saveSettings] keeps the subscriptions.  A document it writes holds
    the entries of the database as [loadServerDatabase] reads them, in their
    order, and its settings entry carries the new settings. *)
Theorem saveSettings_keeps_the_subscriptions :
  forall (s : Settings) (w : World) (st : State) (doc : list Item),
    In doc (puts (issued (saveSettings s) w st)) ->
    filter (fun it => negb (is_settings it)) doc = fst (loadServerDatabase w st)
    /\ exists it, find is_settings doc = Some it /\ settings it = Some s.
Proof.
  intros s w st doc Hin.
  destruct (saveSettings_run s w st) as (l & Hg & _ & _ & Hcase).
  rewrite (grows_issued _ _ _ _ _ Hg) in Hin.
  rewrite loadServerDatabase_value.
  destruct (fetchData_run w st) as [_ Hfetch]. rewrite Hfetch in Hcase.
  destruct (github_get w (log st ++ [GithubGet])) as [[items|]|].
  - destruct Hcase as (_ & _ & _ & _ & Hp & _).
    destruct Hp as [Hp|Hp]; rewrite Hp in Hin; [contradiction|].
    destruct Hin as [<-|[]]. split.
    + apply put_settings_keeps.
    + apply put_settings_found.
  - destruct Hcase as (_ & -> & _). contradiction.
  - destruct Hcase as (_ & _ & _ & _ & Hp & _).
    destruct Hp as [Hp|Hp]; rewrite Hp in Hin; [contradiction|].
    destruct Hin as [<-|[]]. split.
    + apply put_settings_keeps.
    + apply put_settings_found.
Qed.

Lemma saveSettings_keeps_the_subscriptions_witness :
  In [Samples.entry_of_bob None 0; settings_item MoreSamples.closed_shop]
     (puts (issued (saveSettings MoreSamples.closed_shop)
              (Samples.online 5 [Samples.entry_of_bob None 0] []) Samples.fresh))
  /\ filter (fun it => negb (is_settings it))
       [Samples.entry_of_bob None 0; settings_item MoreSamples.closed_shop]
     = [Samples.entry_of_bob None 0].
Proof.
  assert (H : In [Samples.entry_of_bob None 0; settings_item MoreSamples.closed_shop]
                (puts (issued (saveSettings MoreSamples.closed_shop)
                         (Samples.online 5 [Samples.entry_of_bob None 0] [])
                         Samples.fresh)))
    by (vm_compute; left; reflexivity).
  split; [exact H|].
  exact (proj1 (saveSettings_keeps_the_subscriptions _ _ _ _ H)).
Defined.

(** X8: a failed read, then a write.  [fetchData] turns a read that fails
    into the empty document, so when the read of [saveSettings] fails and
    the store then accepts the write, the document written holds the
    settings entry and nothing else: every subscription is dropped from the
    store. *)
Theorem a_failed_read_makes_saveSettings_erase_the_subscriptions :
  forall (s : Settings) (w : World) (st : State),
    github_get w (log st ++ [GithubGet]) = None ->
    github_sha w (log st ++ [GithubGet; GithubSha]) <> None ->
    puts (issued (saveSettings s) w st) = [[settings_item s]].
Proof.
  intros s w st Hget Hsha.
  destruct (saveSettings_run s w st) as (l & Hg & _ & _ & Hcase).
  rewrite (grows_issued _ _ _ _ _ Hg).
  destruct (fetchData_run w st) as [_ Hfetch]. rewrite Hfetch, Hget in Hcase.
  destruct Hcase as (_ & _ & _ & _ & _ & Hp). exact (Hp Hsha).
Qed.

Lemma a_failed_read_makes_saveSettings_erase_the_subscriptions_witness :
  puts (issued (saveSettings MoreSamples.closed_shop) (MoreSamples.unreadable 5)
          Samples.fresh)
  = [[settings_item MoreSamples.closed_shop]].
Proof.
  apply a_failed_read_makes_saveSettings_erase_the_subscriptions.
  - reflexivity.
  - discriminate.
Defined.

(** No entry of [data] is the settings entry. *)
Lemma filter_no_settings : forall data,
  forallb (fun it => negb (is_settings it)) data = true ->
  filter (fun it => negb (is_settings it)) data = data.
Proof.
  induction data as [|x data IH]; simpl; auto.
  intros H. apply andb_prop in H. destruct H as [Hx H].
  rewrite Hx, IH; auto.
Qed.

Lemma find_settings_last : forall data cur,
  forallb (fun it => negb (is_settings it)) data = true ->
  find is_settings (data ++ [settings_item cur]) = Some (settings_item cur).
Proof.
  induction data as [|x data IH]; simpl; intros cur H; auto.
  apply andb_prop in H. destruct H as [Hx H].
  apply negb_true_iff in Hx. rewrite Hx. auto.
Qed.

(** X9: what [saveServerDatabase] writes reads back.  For entries none of
    which is named ['_SETTINGS_'], a document written by
    [saveServerDatabase] gives, once the store serves it, the same entries to
    [loadServerDatabase] and, to a [loadSettings] without a cache, the
    settings the save has appended. *)
Theorem a_saved_database_reads_back :
  forall (data doc : list Item) (w w' : World) (st st' : State),
    forallb (fun it => negb (is_settings it)) data = true ->
    In doc (puts (issued (saveServerDatabase data) w st)) ->
    github_get w' (log st' ++ [GithubGet]) = Some (Entries doc) ->
    settingsCache st' = None ->
    fst (loadServerDatabase w' st') = data
    /\ fst (loadSettings w' st') = fst (loadSettings w st).
Proof.
  intros data doc w w' st st' Hdata Hin Hget Hcache.
  destruct (saveServerDatabase_run data w st) as (l & Hg & Hp & _).
  rewrite (grows_issued _ _ _ _ _ Hg) in Hin.
  set (cur := fst (loadSettings w st)) in *.
  destruct Hp as [Hp|Hp]; rewrite Hp in Hin; [contradiction|].
  destruct Hin as [<-|[]]. split.
  - cbv beta iota zeta delta [loadServerDatabase fetchData bind ask ret].
    cbn [fst]. rewrite Hget, filter_app, filter_no_settings by exact Hdata.
    simpl. apply app_nil_r.
  - cbv beta iota zeta delta [loadSettings read_settings bind Date_now
      get_state the_config fetchData ask ret].
    rewrite Hcache. cbn [fst snd log]. rewrite Hget.
    rewrite (find_settings_last _ _ Hdata). reflexivity.
Qed.

Lemma a_saved_database_reads_back_witness :
  fst (loadServerDatabase
         (Samples.online 9
            [Samples.entry_of_bob None 0;
             settings_item (default_settings Samples.shop_config)] [])
         Samples.fresh)
  = [Samples.entry_of_bob None 0].
Proof.
  refine (proj1 (a_saved_database_reads_back
                   [Samples.entry_of_bob None 0]
                   [Samples.entry_of_bob None 0;
                    settings_item (default_settings Samples.shop_config)]
                   (Samples.online 5 [] []) _ Samples.fresh Samples.fresh
                   _ _ _ _)).
  - reflexivity.
  - vm_compute. left. reflexivity.
  - reflexivity.
  - reflexivity.
Defined.

End SettingsFacts.

(** ** The administrator's operations *)

Module AdminFacts.
Import AdminOps ProcFacts.

Lemma truthy_nonzero : forall sid, sid <> 0 -> JS.truthy_num (Some sid) = true.
Proof. intros [|p|p] H; simpl; congruence. Qed.

Lemma nth_error_snoc_some : forall A (l k : list A) i x,
  nth_error l i = Some x -> nth_error (l ++ k) i = Some x.
Proof.
  intros A l k i x H. rewrite nth_error_app1; auto.
  apply nth_error_Some. congruence.
Qed.

(** The entry [find_server] finds is the entry at the index it returns. *)
Lemma find_server_at : forall sid db idx srv pd,
  Renewal.find_server sid O db = Some (idx, srv, pd) ->
  nth_error db idx = Some srv /\ panel_data srv = Some pd.
Proof.
  intros sid db idx srv pd H.
  destruct (RenewalFacts.find_server_nth _ _ _ _ _ _ H) as (_ & Hn & Hpd & _).
  rewrite Nat.sub_0_r in Hn. auto.
Qed.

(** The run of [addtime] on a server that an entry tracks, when the new
    expiry is an instant a [Date] holds. *)
Lemma addtime_run : forall sid d w st idx srv pd cur,
  sid <> 0 ->
  Renewal.find_server (Some sid) O (fst (loadServerDatabase w st))
  = Some (idx, srv, pd) ->
  pd_expires_at pd = Some cur ->
  Z.abs (Renewal.newExpire cur (clock w (log st ++ [GithubGet])) d)
  <= JS.MAX_TIME ->
  exists l2 srv',
    Renewal.renew_entry (clock w (log st ++ [GithubGet])) d srv pd = Some srv'
    /\ grows st (snd (addtime (Some sid) (Some d) w st))
         ([GithubGet] ++ l2 ++ [UnsuspendServer (Some sid)])
    /\ fst (addtime (Some sid) (Some d) w st)
       = TimeChanged
           (Renewal.newExpire cur (clock w (log st ++ [GithubGet])) d)
    /\ (puts l2 = []
        \/ exists s,
             puts l2 = [JS.set_nth idx srv' (fst (loadServerDatabase w st))
                        ++ [settings_item s]])
    /\ In GithubSha l2 /\ unsuspends l2 = [].
Proof.
  intros sid d w st idx srv pd cur Hsid Hfind Hcur Hrange.
  destruct (addtime (Some sid) (Some d) w st) as [r stF] eqn:E.
  unfold addtime in E. rewrite (truthy_nonzero _ Hsid) in E. cbn [negb] in E.
  unfold bind at 1 in E.
  pose proof (loadServerDatabase_run w st) as Hg0.
  destruct (loadServerDatabase w st) as [db st1]. cbn [fst snd] in *.
  rewrite Hfind in E. unfold bind at 1 in E. unfold Date_now at 1 in E.
  assert (Hnow : log st1 = log st ++ [GithubGet]) by exact Hg0.
  rewrite Hnow in E.
  destruct (Renewal.renew_entry (clock w (log st ++ [GithubGet])) d srv pd)
    as [srv'|] eqn:Er.
  2:{ unfold Renewal.renew_entry in Er. rewrite Hcur in Er.
      rewrite (JSFacts.toISOString_valid _ Hrange) in Er. discriminate. }
  rewrite Hcur in E. unfold bind at 1 in E.
  destruct (saveServerDatabase_run (JS.set_nth idx srv' db) w st1)
    as (l2 & Hg2 & Hp2 & _ & Hsha & Hu2 & _).
  destruct (saveServerDatabase (JS.set_nth idx srv' db) w st1) as [[] st2].
  cbn [fst snd] in *.
  unfold bind, ask, ret in E. cbn [fst snd log] in E. injection E as <- <-.
  exists l2, srv'. split; [reflexivity|]. split.
  { unfold grows in *; simpl. rewrite Hg2, Hg0, <- !app_assoc. reflexivity. }
  split; [reflexivity|]. split; [|split; assumption].
  destruct Hp2 as [Hp2|Hp2]; [left|right; eexists]; exact Hp2.
Qed.

(** The run of [addtime] when the new expiry is out of the range of [Date]:
    the [RangeError] of [toISOString] ends it after the read. *)
Lemma addtime_out_of_range : forall sid d w st idx srv pd cur,
  sid <> 0 ->
  Renewal.find_server (Some sid) O (fst (loadServerDatabase w st))
  = Some (idx, srv, pd) ->
  pd_expires_at pd = Some cur ->
  JS.MAX_TIME
  < Z.abs (Renewal.newExpire cur (clock w (log st ++ [GithubGet])) d) ->
  fst (addtime (Some sid) (Some d) w st) = TimeFailed
  /\ issued (addtime (Some sid) (Some d)) w st = [GithubGet].
Proof.
  intros sid d w st idx srv pd cur Hsid Hfind Hcur Hrange.
  unfold issued.
  destruct (addtime (Some sid) (Some d) w st) as [r stF] eqn:E.
  unfold addtime in E. rewrite (truthy_nonzero _ Hsid) in E. cbn [negb] in E.
  unfold bind at 1 in E.
  pose proof (loadServerDatabase_run w st) as Hg0.
  destruct (loadServerDatabase w st) as [db st1]. cbn [fst snd] in *.
  rewrite Hfind in E. unfold bind at 1 in E. unfold Date_now at 1 in E.
  assert (Hnow : log st1 = log st ++ [GithubGet]) by exact Hg0.
  rewrite Hnow in E.
  unfold Renewal.renew_entry in E. rewrite Hcur in E.
  apply JSFacts.toISOString_none in Hrange. rewrite Hrange in E.
  unfold ret in E. injection E as <- <-.
  split; [reflexivity|]. rewrite Hnow. apply skipn_app_exact.
Qed.

(** X10: [addtime] for any number of days, also zero or a negative one.
    For a server that an entry tracks, the new expiry is the later of the
    stored expiry and the current instant, plus the days.  When that is an
    instant a [Date] holds (at most 8.64e15 ms from the epoch), the answer
    carries it; a document the handler writes is the database with that
    entry in place, its [suspend_by] removed and its [days] increased; and
    exactly one unsuspend request is sent, for the server, as the last
    request and after the attempt to write.  When it is not, the handler
    answers with the status 500 after its read: nothing is written and no
    unsuspend request is sent. *)
Theorem addtime_moves_the_expiry_and_unsuspends :
  forall (sid d : Z) (w : World) (st : State) (idx : nat) (srv : Item)
         (pd : PanelData) (cur : Z),
    sid <> 0 ->
    Renewal.find_server (Some sid) O (fst (loadServerDatabase w st))
    = Some (idx, srv, pd) ->
    pd_expires_at pd = Some cur ->
    let now := clock w (log st ++ [GithubGet]) in
    let e := Z.max cur now + d * JS.DAY in
    let run := addtime (Some sid) (Some d) in
    (Z.abs e <= JS.MAX_TIME ->
     fst (run w st) = TimeChanged e
     /\ (exists pre, issued run w st = pre ++ [UnsuspendServer (Some sid)]
                     /\ unsuspends pre = [] /\ In GithubSha pre)
     /\ forall doc, In doc (puts (issued run w st)) ->
          exists srv' pd',
            nth_error doc idx = Some srv'
            /\ suspend_by srv' = None
            /\ days srv' = Some (JS.add (JS.parseInt_or (days srv) 0) d)
            /\ panel_data srv' = Some pd'
            /\ pd_expires_at pd' = Some e
            /\ pd_server_id pd' = pd_server_id pd)
    /\ (JS.MAX_TIME < Z.abs e ->
        fst (run w st) = TimeFailed /\ issued run w st = [GithubGet]).
Proof.
  intros sid d w st idx srv pd cur Hsid Hfind Hcur now e run. subst run e.
  rewrite <- RenewalFacts.newExpire_max. split; intros Hrange.
  2:{ exact (addtime_out_of_range sid d w st idx srv pd cur Hsid Hfind Hcur Hrange). }
  destruct (addtime_run sid d w st idx srv pd cur Hsid Hfind Hcur Hrange)
    as (l2 & srv' & Her & Hg & Hret & Hp & Hsha & Hu).
  fold now in Her, Hret, Hrange.
  rewrite (grows_issued _ _ _ _ _ Hg), Hret.
  split; [reflexivity|]. split.
  - exists ([GithubGet] ++ l2). rewrite <- app_assoc.
    split; [reflexivity|]. split.
    + rewrite unsuspends_app, Hu. reflexivity.
    + apply in_or_app. now right.
  - intros doc Hin. rewrite !puts_app in Hin. simpl in Hin.
    rewrite app_nil_r in Hin.
    destruct Hp as [Hp|[s Hp]]; rewrite Hp in Hin; [contradiction|].
    destruct Hin as [<-|[]].
    unfold Renewal.renew_entry in Her. rewrite Hcur in Her.
    rewrite (JSFacts.toISOString_valid _ Hrange) in Her.
    injection Her as <-.
    destruct (find_server_at _ _ _ _ _ Hfind) as [Hn _].
    eexists. eexists. split.
    + apply nth_error_snoc_some. eapply RenewalFacts.set_nth_nth; eauto.
    + cbn. repeat split; reflexivity.
Qed.

Lemma addtime_moves_the_expiry_and_unsuspends_witness :
  fst (addtime (Some 7) (Some (-3))
         (Samples.healthy (100 * JS.DAY)
            [Samples.entry_of_bob (Some auto) (120 * JS.DAY)] [])
         Samples.fresh)
  = TimeChanged (Z.max (120 * JS.DAY) (100 * JS.DAY) + -3 * JS.DAY).
Proof.
  refine (proj1 (proj1 (addtime_moves_the_expiry_and_unsuspends 7 (-3)
                   (Samples.healthy (100 * JS.DAY)
                      [Samples.entry_of_bob (Some auto) (120 * JS.DAY)] [])
                   Samples.fresh 0
                   (Samples.entry_of_bob (Some auto) (120 * JS.DAY))
                   (Renewal.with_expires_at Samples.panel_of_bob (120 * JS.DAY))
                   (120 * JS.DAY) _ _ _) _)).
  - discriminate.
  - reflexivity.
  - reflexivity.
  - vm_compute. discriminate.
Defined.

(** The run of [deltime] on a server that an entry tracks, when the new
    expiry is an instant a [Date] holds. *)
Lemma deltime_run : forall sid d w st idx srv pd cur,
  sid <> 0 ->
  Renewal.find_server (Some sid) O (fst (loadServerDatabase w st))
  = Some (idx, srv, pd) ->
  pd_expires_at pd = Some cur ->
  Z.abs (cur - d * JS.DAY) <= JS.MAX_TIME ->
  exists l2 srv',
    reduce_entry d srv pd = Some srv'
    /\ grows st (snd (deltime (Some sid) (Some d) w st)) ([GithubGet] ++ l2)
    /\ fst (deltime (Some sid) (Some d) w st) = TimeChanged (cur - d * JS.DAY)
    /\ (puts l2 = []
        \/ exists s,
             puts l2 = [JS.set_nth idx srv' (fst (loadServerDatabase w st))
                        ++ [settings_item s]])
    /\ store_only l2.
Proof.
  intros sid d w st idx srv pd cur Hsid Hfind Hcur Hrange.
  destruct (deltime (Some sid) (Some d) w st) as [r stF] eqn:E.
  unfold deltime in E. rewrite (truthy_nonzero _ Hsid) in E. cbn [negb] in E.
  unfold bind at 1 in E.
  pose proof (loadServerDatabase_run w st) as Hg0.
  destruct (loadServerDatabase w st) as [db st1]. cbn [fst snd] in *.
  rewrite Hfind in E.
  destruct (reduce_entry d srv pd) as [srv'|] eqn:Er.
  2:{ unfold reduce_entry in Er. rewrite Hcur in Er.
      rewrite (JSFacts.toISOString_valid _ Hrange) in Er. discriminate. }
  rewrite Hcur in E. unfold bind at 1 in E.
  destruct (saveServerDatabase_run (JS.set_nth idx srv' db) w st1)
    as (l2 & Hg2 & Hp2 & _ & _ & _ & Hs2).
  destruct (saveServerDatabase (JS.set_nth idx srv' db) w st1) as [[] st2].
  cbn [fst snd] in *. unfold ret in E. injection E as <- <-.
  exists l2, srv'. split; [reflexivity|]. split.
  { eapply grows_trans; eauto. }
  split; [reflexivity|]. split; [|assumption].
  destruct Hp2 as [Hp2|Hp2]; [left|right; eexists]; exact Hp2.
Qed.

Lemma deltime_out_of_range : forall sid d w st idx srv pd cur,
  sid <> 0 ->
  Renewal.find_server (Some sid) O (fst (loadServerDatabase w st))
  = Some (idx, srv, pd) ->
  pd_expires_at pd = Some cur ->
  JS.MAX_TIME < Z.abs (cur - d * JS.DAY) ->
  fst (deltime (Some sid) (Some d) w st) = TimeFailed
  /\ issued (deltime (Some sid) (Some d)) w st = [GithubGet].
Proof.
  intros sid d w st idx srv pd cur Hsid Hfind Hcur Hrange.
  unfold issued.
  destruct (deltime (Some sid) (Some d) w st) as [r stF] eqn:E.
  unfold deltime in E. rewrite (truthy_nonzero _ Hsid) in E. cbn [negb] in E.
  unfold bind at 1 in E.
  pose proof (loadServerDatabase_run w st) as Hg0.
  destruct (loadServerDatabase w st) as [db st1]. cbn [fst snd] in *.
  rewrite Hfind in E.
  unfold reduce_entry in E. rewrite Hcur in E.
  apply JSFacts.toISOString_none in Hrange. rewrite Hrange in E.
  unfold ret in E. injection E as <- <-.
  split; [reflexivity|].
  assert (Hnow : log st1 = log st ++ [GithubGet]) by exact Hg0.
  rewrite Hnow. apply skipn_app_exact.
Qed.

(** X11: [deltime] moves the expiry back and does nothing else.  For a
    server that an entry tracks, the new expiry is the stored expiry less
    the days, also when that is in the past.  When that is an instant a
    [Date] holds (at most 8.64e15 ms from the epoch), the answer carries it;
    the handler sends requests to the document store only, so the server is
    neither suspended nor unsuspended; and in a document it writes the entry
    keeps its [suspend_by] and its [days] are reduced, but not below 0.
    When it is not, the handler answers with the status 500 after its read,
    and nothing is written. *)
Theorem deltime_moves_the_expiry_back_and_nothing_else :
  forall (sid d : Z) (w : World) (st : State) (idx : nat) (srv : Item)
         (pd : PanelData) (cur : Z),
    sid <> 0 ->
    Renewal.find_server (Some sid) O (fst (loadServerDatabase w st))
    = Some (idx, srv, pd) ->
    pd_expires_at pd = Some cur ->
    let e := cur - d * JS.DAY in
    let run := deltime (Some sid) (Some d) in
    (Z.abs e <= JS.MAX_TIME ->
     fst (run w st) = TimeChanged e
     /\ store_only (issued run w st)
     /\ forall doc, In doc (puts (issued run w st)) ->
          exists srv' pd',
            nth_error doc idx = Some srv'
            /\ suspend_by srv' = suspend_by srv
            /\ days srv'
               = Some (Z.max 0 (JS.sub (JS.parseInt_or (days srv) 0) d))
            /\ panel_data srv' = Some pd'
            /\ pd_expires_at pd' = Some e
            /\ pd_server_id pd' = pd_server_id pd)
    /\ (JS.MAX_TIME < Z.abs e ->
        fst (run w st) = TimeFailed /\ issued run w st = [GithubGet]).
Proof.
  intros sid d w st idx srv pd cur Hsid Hfind Hcur e run. subst run e.
  split; intros Hrange.
  2:{ exact (deltime_out_of_range sid d w st idx srv pd cur Hsid Hfind Hcur Hrange). }
  destruct (deltime_run sid d w st idx srv pd cur Hsid Hfind Hcur Hrange)
    as (l2 & srv' & Her & Hg & Hret & Hp & Hs).
  rewrite (grows_issued _ _ _ _ _ Hg), Hret.
  split; [reflexivity|]. split.
  - apply Forall_app. split; [repeat constructor|exact Hs].
  - intros doc Hin. rewrite puts_app in Hin. simpl in Hin.
    destruct Hp as [Hp|[s Hp]]; rewrite Hp in Hin; [contradiction|].
    destruct Hin as [<-|[]].
    unfold reduce_entry in Her. rewrite Hcur in Her.
    rewrite (JSFacts.toISOString_valid _ Hrange) in Her.
    injection Her as <-.
    destruct (find_server_at _ _ _ _ _ Hfind) as [Hn _].
    eexists. eexists. split.
    + apply nth_error_snoc_some. eapply RenewalFacts.set_nth_nth; eauto.
    + cbn [suspend_by days panel_data pd_expires_at pd_server_id
           Renewal.with_expires_at].
      repeat split; try reflexivity. f_equal.
      destruct (Z.gtb_spec (JS.sub (JS.parseInt_or (days srv) 0) d) 0); lia.
Qed.

Lemma deltime_moves_the_expiry_back_and_nothing_else_witness :
  fst (deltime (Some 7) (Some 40)
         (Samples.healthy (100 * JS.DAY)
            [Samples.entry_of_bob (Some auto) (120 * JS.DAY)] [])
         Samples.fresh)
  = TimeChanged (120 * JS.DAY - 40 * JS.DAY).
Proof.
  refine (proj1 (proj1 (deltime_moves_the_expiry_back_and_nothing_else 7 40
                   (Samples.healthy (100 * JS.DAY)
                      [Samples.entry_of_bob (Some auto) (120 * JS.DAY)] [])
                   Samples.fresh 0
                   (Samples.entry_of_bob (Some auto) (120 * JS.DAY))
                   (Renewal.with_expires_at Samples.panel_of_bob (120 * JS.DAY))
                   (120 * JS.DAY) _ _ _) _)).
  - discriminate.
  - reflexivity.
  - reflexivity.
  - vm_compute. discriminate.
Defined.

(** X12: [addtime] and then [deltime] of the same days, within the range of
    [Date] and of the exact integers.  When the later of the original expiry
    and the instant of the [addtime] is an instant a [Date] holds, and so is
    the expiry [addtime] computes, and the cumulative [days] stay within
    2^53 in magnitude before and after the addition, then the entry that
    [addtime] writes, reduced by [deltime], has the later of the original
    expiry and the instant of the [addtime]: the original expiry comes back
    exactly when it was not in the past.  Its [suspend_by] stays removed,
    and its [days] are the original ones, or 0 when those were negative. *)
Theorem deltime_undoes_addtime_for_a_running_subscription :
  forall (now d cur : Z) (srv : Item) (pd : PanelData),
    pd_expires_at pd = Some cur ->
    Z.abs (Z.max cur now) <= JS.MAX_TIME ->
    Z.abs (Z.max cur now + d * JS.DAY) <= JS.MAX_TIME ->
    Z.abs (JS.parseInt_or (days srv) 0) <= 2 ^ 53 ->
    Z.abs (JS.parseInt_or (days srv) 0 + d) <= 2 ^ 53 ->
    exists srv1 pd1 srv2 pd2,
      Renewal.renew_entry now d srv pd = Some srv1
      /\ panel_data srv1 = Some pd1
      /\ reduce_entry d srv1 pd1 = Some srv2
      /\ panel_data srv2 = Some pd2
      /\ pd_expires_at pd2 = Some (Z.max cur now)
      /\ (pd_expires_at pd2 = Some cur <-> now <= cur)
      /\ days srv2 = Some (Z.max 0 (JS.parseInt_or (days srv) 0))
      /\ suspend_by srv2 = None.
Proof.
  intros now d cur srv pd Hcur Hback Hrange Hn Hnd.
  set (n := JS.parseInt_or (days srv) 0) in *.
  assert (Hback' : Z.abs (Z.max cur now + d * JS.DAY - d * JS.DAY)
                   <= JS.MAX_TIME)
    by (replace (Z.max cur now + d * JS.DAY - d * JS.DAY) with (Z.max cur now)
          by lia; exact Hback).
  assert (Hpow : 2 ^ 53 < 10 ^ 21) by reflexivity.
  assert (Hdays : JS.parseInt_or (Some (JS.add n d)) 0 = n + d).
  { rewrite (JSFacts.add_small _ _ Hnd).
    rewrite JSFacts.parseInt_or_small
      by (intros x Hx; injection Hx as <-; lia).
    unfold JS.num_or. destruct (n + d) eqn:E; reflexivity. }
  unfold Renewal.renew_entry. rewrite Hcur, RenewalFacts.newExpire_max.
  rewrite (JSFacts.toISOString_valid _ Hrange).
  eexists. eexists. eexists. eexists.
  split; [reflexivity|]. split; [reflexivity|].
  unfold reduce_entry.
  cbn [panel_data pd_expires_at Renewal.with_expires_at days].
  fold n. rewrite (JSFacts.toISOString_valid _ Hback'), Hdays.
  split; [reflexivity|]. split; [reflexivity|].
  cbn [panel_data pd_expires_at Renewal.with_expires_at days suspend_by].
  replace (Z.max cur now + d * JS.DAY - d * JS.DAY) with (Z.max cur now)
    by lia.
  split; [reflexivity|]. split.
  - split; intros H; [injection H as H|f_equal]; lia.
  - split; [|reflexivity]. f_equal.
    rewrite JSFacts.sub_small
      by (replace (n + d - d) with n by lia; exact Hn).
    destruct (Z.gtb_spec (n + d - d) 0); lia.
Qed.

Lemma deltime_undoes_addtime_for_a_running_subscription_witness :
  exists srv1 pd1 srv2 pd2,
    Renewal.renew_entry 50 30 (Samples.entry_of_bob (Some auto) 80)
      (Renewal.with_expires_at Samples.panel_of_bob 80) = Some srv1
    /\ panel_data srv1 = Some pd1
    /\ reduce_entry 30 srv1 pd1 = Some srv2
    /\ panel_data srv2 = Some pd2
    /\ pd_expires_at pd2 = Some (Z.max 80 50)
    /\ (pd_expires_at pd2 = Some 80 <-> 50 <= 80)
    /\ days srv2
       = Some (Z.max 0 (JS.parseInt_or
                          (days (Samples.entry_of_bob (Some auto) 80)) 0))
    /\ suspend_by srv2 = None.
Proof.
  apply (deltime_undoes_addtime_for_a_running_subscription 50 30 80
           (Samples.entry_of_bob (Some auto) 80)
           (Renewal.with_expires_at Samples.panel_of_bob 80)).
  - reflexivity.
  - vm_compute. discriminate.
  - vm_compute. discriminate.
  - vm_compute. discriminate.
  - vm_compute. discriminate.
Defined.

(** The run of [suspend] and of [unsuspend]: the request to the control
    plane comes first; when it is refused nothing follows, and when it is
    accepted the store alone is addressed, to write the database with the
    entry of the server marked. *)
Lemma suspend_run : forall sid w st,
  sid <> 0 ->
  let st1 := snd (ask (SuspendServer (Some sid)) suspend_server w st) in
  let db := fst (loadServerDatabase w st1) in
  exists rest,
    grows st (snd (suspend (Some sid) w st)) (SuspendServer (Some sid) :: rest)
    /\ if suspend_server w (log st ++ [SuspendServer (Some sid)]) then
         fst (suspend (Some sid) w st) = LockDone
         /\ store_only rest
         /\ forall doc, In doc (puts rest) ->
              exists idx srv pd s,
                Renewal.find_server (Some sid) O db = Some (idx, srv, pd)
                /\ doc = JS.set_nth idx (Sweeper.with_suspend_by srv (Some admin)) db
                         ++ [settings_item s]
       else fst (suspend (Some sid) w st) = LockFailed /\ rest = [].
Proof.
  intros sid w st Hsid st1 db.
  destruct (suspend (Some sid) w st) as [r stF] eqn:E.
  unfold suspend in E. rewrite (truthy_nonzero _ Hsid) in E. cbn [negb] in E.
  unfold bind at 1 in E. unfold ask at 1 in E. fold st1 in E.
  assert (Hg1 : grows st st1 [SuspendServer (Some sid)]) by reflexivity.
  change ({| panelsStorage := panelsStorage st; settingsCache := settingsCache st;
             settingsLastFetch := settingsLastFetch st;
             log := log st ++ [SuspendServer (Some sid)] |}) with st1 in E.
  destruct (suspend_server w (log st ++ [SuspendServer (Some sid)])).
  2:{ unfold ret in E. injection E as <- <-. exists []. cbn [fst snd]. auto. }
  unfold bind at 1 in E.
  pose proof (loadServerDatabase_run w st1) as Hg0. fold db in E.
  destruct (loadServerDatabase w st1) as [db0 st2] eqn:Edb.
  cbn [fst snd] in *. subst db.
  destruct (Renewal.find_server (Some sid) 0 db0) as [[[idx srv] pd]|] eqn:Ef.
  - unfold bind at 1 in E.
    destruct (saveServerDatabase_run
                (JS.set_nth idx (Sweeper.with_suspend_by srv (Some admin)) db0)
                w st2) as (l2 & Hg2 & Hp2 & _ & _ & _ & Hs2).
    destruct (saveServerDatabase _ w st2) as [[] st3]. cbn [fst snd] in *.
    unfold ret in E. injection E as <- <-.
    exists ([GithubGet] ++ l2). split.
    { change (SuspendServer (Some sid) :: [GithubGet] ++ l2)
        with ([SuspendServer (Some sid)] ++ [GithubGet] ++ l2).
      eapply grows_trans; eauto. eapply grows_trans; eauto. }
    split; [reflexivity|]. split.
    + apply Forall_app. split; [repeat constructor|exact Hs2].
    + intros doc Hin. rewrite puts_app in Hin. simpl in Hin.
      destruct Hp2 as [Hp2|Hp2]; rewrite Hp2 in Hin; [contradiction|].
      destruct Hin as [<-|[]]. do 4 eexists. split; reflexivity.
  - unfold ret in E. injection E as <- <-. exists [GithubGet]. split.
    { change [SuspendServer (Some sid); GithubGet]
        with ([SuspendServer (Some sid)] ++ [GithubGet]).
      eapply grows_trans; eauto. }
    split; [reflexivity|]. split; [repeat constructor|]. intros doc [].
Qed.

Lemma unsuspend_run : forall sid w st,
  sid <> 0 ->
  let st1 := snd (ask (UnsuspendServer (Some sid)) unsuspend_server w st) in
  let db := fst (loadServerDatabase w st1) in
  exists rest,
    grows st (snd (unsuspend (Some sid) w st)) (UnsuspendServer (Some sid) :: rest)
    /\ if unsuspend_server w (log st ++ [UnsuspendServer (Some sid)]) then
         fst (unsuspend (Some sid) w st) = LockDone
         /\ store_only rest
         /\ forall doc, In doc (puts rest) ->
              exists idx srv pd s,
                Renewal.find_server (Some sid) O db = Some (idx, srv, pd)
                /\ doc = JS.set_nth idx (Sweeper.with_suspend_by srv None) db
                         ++ [settings_item s]
       else fst (unsuspend (Some sid) w st) = LockFailed /\ rest = [].
Proof.
  intros sid w st Hsid st1 db.
  destruct (unsuspend (Some sid) w st) as [r stF] eqn:E.
  unfold unsuspend in E. rewrite (truthy_nonzero _ Hsid) in E. cbn [negb] in E.
  unfold bind at 1 in E. unfold ask at 1 in E. fold st1 in E.
  assert (Hg1 : grows st st1 [UnsuspendServer (Some sid)]) by reflexivity.
  change ({| panelsStorage := panelsStorage st; settingsCache := settingsCache st;
             settingsLastFetch := settingsLastFetch st;
             log := log st ++ [UnsuspendServer (Some sid)] |}) with st1 in E.
  destruct (unsuspend_server w (log st ++ [UnsuspendServer (Some sid)])).
  2:{ unfold ret in E. injection E as <- <-. exists []. cbn [fst snd]. auto. }
  unfold bind at 1 in E.
  pose proof (loadServerDatabase_run w st1) as Hg0. fold db in E.
  destruct (loadServerDatabase w st1) as [db0 st2] eqn:Edb.
  cbn [fst snd] in *. subst db.
  destruct (Renewal.find_server (Some sid) 0 db0) as [[[idx srv] pd]|] eqn:Ef.
  - unfold bind at 1 in E.
    destruct (saveServerDatabase_run
                (JS.set_nth idx (Sweeper.with_suspend_by srv None) db0)
                w st2) as (l2 & Hg2 & Hp2 & _ & _ & _ & Hs2).
    destruct (saveServerDatabase _ w st2) as [[] st3]. cbn [fst snd] in *.
    unfold ret in E. injection E as <- <-.
    exists ([GithubGet] ++ l2). split.
    { change (UnsuspendServer (Some sid) :: [GithubGet] ++ l2)
        with ([UnsuspendServer (Some sid)] ++ [GithubGet] ++ l2).
      eapply grows_trans; eauto. eapply grows_trans; eauto. }
    split; [reflexivity|]. split.
    + apply Forall_app. split; [repeat constructor|exact Hs2].
    + intros doc Hin. rewrite puts_app in Hin. simpl in Hin.
      destruct Hp2 as [Hp2|Hp2]; rewrite Hp2 in Hin; [contradiction|].
      destruct Hin as [<-|[]]. do 4 eexists. split; reflexivity.
  - unfold ret in E. injection E as <- <-. exists [GithubGet]. split.
    { change [UnsuspendServer (Some sid); GithubGet]
        with ([UnsuspendServer (Some sid)] ++ [GithubGet]).
      eapply grows_trans; eauto. }
    split; [reflexivity|]. split; [repeat constructor|]. intros doc [].
Qed.

(** X13: the administrator's suspension reaches the control plane first.
    The handler sends the suspend request before anything else.  When the
    control plane refuses it, the answer is the status 500 and nothing has
    been read or written.  When it accepts, the answer is a success, only
    the document store is addressed, and a document that is written is the
    database with [suspend_by = 'admin'] on the entry that tracks the
    server. *)
Theorem admin_suspension_marks_the_entry_after_the_control_plane :
  forall (sid : Z) (w : World) (st : State),
    sid <> 0 ->
    let st1 := snd (ask (SuspendServer (Some sid)) suspend_server w st) in
    let db := fst (loadServerDatabase w st1) in
    exists rest,
      issued (suspend (Some sid)) w st = SuspendServer (Some sid) :: rest
      /\ if suspend_server w (log st ++ [SuspendServer (Some sid)]) then
           fst (suspend (Some sid) w st) = LockDone
           /\ store_only rest
           /\ forall doc, In doc (puts rest) ->
                exists idx srv pd s,
                  Renewal.find_server (Some sid) O db = Some (idx, srv, pd)
                  /\ doc = JS.set_nth idx
                             (Sweeper.with_suspend_by srv (Some admin)) db
                           ++ [settings_item s]
         else fst (suspend (Some sid) w st) = LockFailed /\ rest = [].
Proof.
  intros sid w st Hsid st1 db.
  destruct (suspend_run sid w st Hsid) as (rest & Hg & H).
  exists rest. split; [apply grows_issued; exact Hg|exact H].
Qed.

Lemma admin_suspension_marks_the_entry_after_the_control_plane_witness :
  exists rest,
    issued (suspend (Some 7))
      (Samples.healthy 5 [Samples.entry_of_bob None 0] []) Samples.fresh
    = SuspendServer (Some 7) :: rest
    /\ puts rest
       = [[Samples.entry_of_bob (Some admin) 0;
           settings_item (default_settings Samples.shop_config)]].
Proof.
  destruct (admin_suspension_marks_the_entry_after_the_control_plane 7
              (Samples.healthy 5 [Samples.entry_of_bob None 0] [])
              Samples.fresh) as (rest & Hi & _).
  - discriminate.
  - exists rest. split; [exact Hi|].
    vm_compute in Hi. injection Hi as <-. reflexivity.
Defined.

(** X14: the sweeper undoes the administrator's unsuspend of an expired
    subscription.  After the control plane has accepted the unsuspend, a
    document that the handler writes holds the entry of the server without
    [suspend_by]; if the entry is past its expiry, the sweeper's next
    iteration on that entry sends a suspend request for the server
    again. *)
Theorem unsuspending_an_expired_subscription_does_not_last :
  forall (sid : Z) (w : World) (st : State) (idx : nat) (srv : Item)
         (pd : PanelData) (e : Z),
    sid <> 0 ->
    unsuspend_server w (log st ++ [UnsuspendServer (Some sid)]) = true ->
    Renewal.find_server (Some sid) O
      (fst (loadServerDatabase w
              (snd (ask (UnsuspendServer (Some sid)) unsuspend_server w st))))
    = Some (idx, srv, pd) ->
    pd_expires_at pd = Some e ->
    (forall doc, In doc (puts (issued (unsuspend (Some sid)) w st)) ->
       nth_error doc idx = Some (Sweeper.with_suspend_by srv None))
    /\ forall now grace i w' st',
         e < now ->
         suspends (issued (Sweeper.sweep_entry now grace i
                             (Sweeper.with_suspend_by srv None)) w' st')
         = [pd_server_id pd].
Proof.
  intros sid w st idx srv pd e Hsid Hok Hfind He. split.
  - destruct (unsuspend_run sid w st Hsid) as (rest & Hg & H).
    rewrite Hok in H. destruct H as (_ & _ & Hdoc).
    rewrite (grows_issued _ _ _ _ _ Hg). intros doc Hin.
    change (UnsuspendServer (Some sid) :: rest)
      with ([UnsuspendServer (Some sid)] ++ rest) in Hin.
    rewrite puts_app in Hin. simpl in Hin.
    destruct (Hdoc doc Hin) as (idx' & srv' & pd' & s & Hf & ->).
    rewrite Hfind in Hf. injection Hf as <- <- <-.
    destruct (find_server_at _ _ _ _ _ Hfind) as [Hn _].
    apply nth_error_snoc_some. eapply RenewalFacts.set_nth_nth; eauto.
  - intros now grace i w' st' Hlt.
    destruct (find_server_at _ _ _ _ _ Hfind) as [_ Hpd].
    destruct (SweeperFacts.sweep_entry_suspends now grace i
                (Sweeper.with_suspend_by srv None) w' st') as (l & Hg & Hs).
    rewrite (grows_issued _ _ _ _ _ Hg), Hs.
    unfold Sweeper.due, Sweeper.locked.
    cbn [Sweeper.with_suspend_by suspend_by panel_data is_admin is_auto negb].
    rewrite Hpd, He. simpl. apply Z.ltb_lt in Hlt. rewrite Hlt. reflexivity.
Qed.

Lemma unsuspending_an_expired_subscription_does_not_last_witness :
  suspends (issued (Sweeper.sweep_entry 9 7 0
                      (Sweeper.with_suspend_by
                         (Samples.entry_of_bob (Some admin) 0) None))
              (Samples.offline 9) Samples.fresh)
  = [Some 7].
Proof.
  refine (proj2 (unsuspending_an_expired_subscription_does_not_last 7
                   (Samples.healthy 5 [Samples.entry_of_bob (Some admin) 0] [])
                   Samples.fresh 0 (Samples.entry_of_bob (Some admin) 0)
                   (Renewal.with_expires_at Samples.panel_of_bob 0) 0
                   _ _ _ _) 9 7 0%nat (Samples.offline 9) Samples.fresh _).
  - discriminate.
  - reflexivity.
  - reflexivity.
  - reflexivity.
  - lia.
Defined.

Lemma filter_length_full : forall A (p : A -> bool) l,
  List.length (filter p l) = List.length l <-> forallb p l = true.
Proof.
  intros A p l. induction l as [|x l IH]; simpl; [tauto|].
  pose proof (ThrottleFacts.filter_length_all A p l) as Hle.
  destruct (p x); simpl.
  - rewrite <- IH. split; intros H; lia.
  - split; [intros H; lia|discriminate].
Qed.

(** What [loadServerDatabase] returns holds no settings entry. *)
Lemma loadServerDatabase_no_settings : forall w st p,
  In p (fst (loadServerDatabase w st)) -> is_settings p = false.
Proof.
  intros w st p Hin. unfold loadServerDatabase, bind, ret in Hin.
  destruct (fetchData w st) as [[items|] st1]; cbn [fst] in Hin;
    [|contradiction].
  apply filter_In in Hin. destruct Hin as [_ H]. now apply negb_true_iff.
Qed.

Lemma delete_database_panel_run : forall panelId w st,
  let db := fst (loadServerDatabase w st) in
  exists l2,
    grows st (snd (delete_database_panel panelId w st)) ([GithubGet] ++ l2)
    /\ store_only l2
    /\ if forallb (other_id panelId) db then
         fst (delete_database_panel panelId w st) = PanelNotFound /\ l2 = []
       else
         fst (delete_database_panel panelId w st) = PanelDeleted
         /\ (puts l2 = []
             \/ exists s,
                  puts l2 = [filter (other_id panelId) db ++ [settings_item s]]).
Proof.
  intros panelId w st db.
  destruct (delete_database_panel panelId w st) as [r stF] eqn:E.
  unfold delete_database_panel in E. unfold bind at 1 in E.
  pose proof (loadServerDatabase_run w st) as Hg0. subst db.
  destruct (loadServerDatabase w st) as [db st1]. cbn [fst snd] in *.
  pose proof (filter_length_full _ (other_id panelId) db) as Hfull.
  destruct (Nat.eqb_spec (List.length (filter (other_id panelId) db))
              (List.length db)) as [Hlen|Hlen].
  - rewrite (proj1 Hfull Hlen). unfold ret in E. injection E as <- <-.
    exists []. split; [exact Hg0|]. split; [constructor|auto].
  - destruct (forallb (other_id panelId) db) eqn:Eall.
    { elim Hlen. now apply Hfull. }
    unfold bind at 1 in E.
    destruct (saveServerDatabase_run (filter (other_id panelId) db) w st1)
      as (l2 & Hg2 & Hp2 & _ & _ & _ & Hs2).
    destruct (saveServerDatabase _ w st1) as [[] st2]. cbn [fst snd] in *.
    unfold ret in E. injection E as <- <-.
    exists l2. split; [eapply grows_trans; eauto|]. split; [exact Hs2|].
    split; [reflexivity|].
    destruct Hp2 as [Hp2|Hp2]; [left|right; eexists]; exact Hp2.
Qed.

(** X15: the deletion of a database entry by its [id].  The handler
    addresses the document store only: the server of the entry is left
    running on the control plane.  It answers 404 exactly when no entry of
    the database has the [id], and then writes nothing; this is the case of
    the [id] ['_SETTINGS_'], so the settings entry cannot be deleted.
    Otherwise a document that it writes has no entry with the [id] and
    reads back as the database without the entries that had it. *)
Theorem database_entry_deletion_is_local_and_spares_the_settings :
  forall (panelId : string) (w : World) (st : State),
    let db := fst (loadServerDatabase w st) in
    let run := delete_database_panel panelId in
    store_only (issued run w st)
    /\ (fst (run w st) = PanelNotFound <-> forall p, In p db -> id p <> panelId)
    /\ (fst (run w st) = PanelNotFound -> puts (issued run w st) = [])
    /\ (panelId = SETTINGS_ID -> fst (run w st) = PanelNotFound)
    /\ forall doc, In doc (puts (issued run w st)) ->
         (forall p, In p doc -> id p <> panelId)
         /\ filter (fun it => negb (is_settings it)) doc
            = filter (other_id panelId) db.
Proof.
  intros panelId w st db run. subst run.
  destruct (delete_database_panel_run panelId w st) as (l2 & Hg & Hs & H).
  fold db in H. rewrite (grows_issued _ _ _ _ _ Hg).
  assert (Hall : forallb (other_id panelId) db = true
                 <-> forall p, In p db -> id p <> panelId).
  { rewrite forallb_forall. unfold other_id.
    split; intros Hp p Hin; specialize (Hp p Hin).
    - apply negb_true_iff in Hp. now apply String.eqb_neq.
    - apply negb_true_iff. now apply String.eqb_neq. }
  assert (Hnf : fst (delete_database_panel panelId w st) = PanelNotFound
                <-> forallb (other_id panelId) db = true).
  { destruct (forallb (other_id panelId) db).
    - destruct H as [-> _]. tauto.
    - destruct H as [-> _]. split; discriminate. }
  split; [apply Forall_app; split; [repeat constructor|exact Hs]|].
  split; [rewrite Hnf; exact Hall|].
  split.
  { intros Hr. apply Hnf in Hr. rewrite Hr in H. destruct H as [_ ->].
    reflexivity. }
  split.
  { intros ->. apply Hnf, Hall. intros p Hin Hid.
    pose proof (loadServerDatabase_no_settings w st p Hin) as Hp.
    unfold is_settings in Hp. rewrite Hid, String.eqb_refl in Hp. discriminate. }
  intros doc Hin. rewrite puts_app in Hin. simpl in Hin.
  destruct (forallb (other_id panelId) db) eqn:Eall.
  { destruct H as [_ ->]. contradiction. }
  destruct H as [_ [Hp|[s Hp]]]; rewrite Hp in Hin; [contradiction|].
  destruct Hin as [<-|[]].
  assert (Hne : panelId <> SETTINGS_ID).
  { intros ->. assert (Ht : false = true); [|discriminate Ht].
    apply (proj2 Hall). intros p Hin Hid.
    pose proof (loadServerDatabase_no_settings w st p Hin) as Hp'.
    unfold is_settings in Hp'. rewrite Hid, String.eqb_refl in Hp'.
    discriminate. }
  split.
  - intros p Hin. apply in_app_or in Hin. destruct Hin as [Hin|[<-|[]]].
    + apply filter_In in Hin. destruct Hin as [_ Hin]. unfold other_id in Hin.
      apply negb_true_iff in Hin. now apply String.eqb_neq.
    + simpl. congruence.
  - rewrite filter_app. simpl.
    rewrite SettingsFacts.filter_no_settings; [apply app_nil_r|].
    apply forallb_forall. intros p Hin. apply filter_In in Hin.
    destruct Hin as [Hin _].
    rewrite (loadServerDatabase_no_settings w st p Hin). reflexivity.
Qed.

End AdminFacts.

(** ** Provisioning *)

Module ProvisionFacts.
Import Orders ProcFacts.

(** The run of [createRealPterodactylPanel]: it sends an initial part of the
    four requests of a provisioning, all of them when it returns, and leaves
    the process state as it was. *)
Lemma createReal_run : forall o w st,
  exists l more u e n p uid cmd r d c,
    grows st (snd (createRealPterodactylPanel o w st)) l
    /\ panelsStorage (snd (createRealPterodactylPanel o w st)) = panelsStorage st
    /\ settingsCache (snd (createRealPterodactylPanel o w st)) = settingsCache st
    /\ settingsLastFetch (snd (createRealPterodactylPanel o w st))
       = settingsLastFetch st
    /\ l ++ more = Notions.provisioning_requests u e n p uid cmd r d c
    /\ ((exists pd, fst (createRealPterodactylPanel o w st) = Return pd) ->
        more = []).
Proof.
  intros o w st.
  destruct (createRealPterodactylPanel o w st) as [res stF] eqn:E.
  cbv beta iota zeta delta [createRealPterodactylPanel bind ask ret Date_now
    the_config] in E.
  cbn [fst snd]. unfold Notions.provisioning_requests.
  destruct (o_username o) as [username|].
  2:{ injection E as <- <-. exists [].
      exists [FindUser ""; CreateUser "" "" "" ""; GetEgg; CreateServer "" 0 "" None None None].
      exists "", "", "", "", 0, "", None, None, None.
      split; [apply grows_refl|]. repeat split; try reflexivity.
      intros [pd H]. discriminate H. }
  destruct (o_product_name o) as [product_name|].
  2:{ injection E as <- <-. exists [].
      exists [FindUser ""; CreateUser "" "" "" ""; GetEgg; CreateServer "" 0 "" None None None].
      exists "", "", "", "", 0, "", None, None, None.
      split; [apply grows_refl|]. repeat split; try reflexivity.
      intros [pd H]. discriminate H. }
  set (ram := option_map (fun s => fst (fst s)) (spec_of product_name)) in *.
  set (disknya := option_map (fun s => snd (fst s)) (spec_of product_name)) in *.
  set (cpu := option_map (fun s => snd s) (spec_of product_name)) in *.
  cbn [fst snd log] in E.
  set (password := if JS.truthy_str (o_password o)
                   then match o_password o with
                        | Some p => p
                        | None => generated_password w (log st)
                        end
                   else generated_password w (log st)) in *.
  set (email := (username ++ "@gmail.com")%string) in *.
  set (name := (capitalize username ++ " Server")%string) in *.
  destruct (find_user w (log st ++ [FindUser username])) as [[|existing ?]|].
  2,3: (injection E as <- <-; exists [FindUser username];
        exists [CreateUser username email name password; GetEgg;
                CreateServer name 0 "" ram disknya cpu];
        exists username, email, name, password, 0, "", ram, disknya, cpu;
        split; [reflexivity|]; repeat split; try reflexivity;
        intros [pd H]; discriminate H).
  cbn [fst snd log] in E.
  destruct (create_user w _) as [e1|e1|user].
  1,2: (injection E as <- <-;
        exists [FindUser username; CreateUser username email name password];
        exists [GetEgg; CreateServer name 0 "" ram disknya cpu];
        exists username, email, name, password, 0, "", ram, disknya, cpu;
        split; [unfold grows; cbn [log]; rewrite <- ?app_assoc; reflexivity|];
        repeat split; try reflexivity;
        intros [pd H]; discriminate H).
  cbn [fst snd log] in E.
  destruct (get_egg w _) as [e2|e2|startup].
  1,2: (injection E as <- <-;
        exists [FindUser username; CreateUser username email name password; GetEgg];
        exists [CreateServer name (ru_id user) "" ram disknya cpu];
        exists username, email, name, password, (ru_id user), "", ram, disknya, cpu;
        split; [unfold grows; cbn [log]; rewrite <- ?app_assoc; reflexivity|];
        repeat split; try reflexivity;
        intros [pd H]; discriminate H).
  cbn [fst snd log] in E.
  set (startupCmd := if JS.truthy_str startup
                     then match startup with
                          | Some c => c
                          | None => "npm start"
                          end
                     else "npm start") in *.
  destruct (create_server w _) as [e3|e3|server];
    [| |destruct (JS.toISOString _)];
    injection E as <- <-;
    exists [FindUser username; CreateUser username email name password; GetEgg;
            CreateServer name (ru_id user) startupCmd ram disknya cpu];
    exists [];
    exists username, email, name, password, (ru_id user), startupCmd, ram,
      disknya, cpu;
    (split; [unfold grows; cbn [log]; rewrite <- ?app_assoc; reflexivity|]);
    repeat split; reflexivity.
Qed.

(** The requests of a provisioning go to the control plane, and none of
    them removes anything. *)
Lemma provisioning_requests_quiet : forall l more u e n p uid cmd r d c x,
  l ++ more = Notions.provisioning_requests u e n p uid cmd r d c ->
  In x l -> Notions.is_removal x = false /\ is_github x = false.
Proof.
  intros l more u e n p uid cmd r d c x H Hin.
  assert (Hx : In x (Notions.provisioning_requests u e n p uid cmd r d c)).
  { rewrite <- H. apply in_or_app. now left. }
  destruct Hx as [<-|[<-|[<-|[<-|[]]]]]; split; reflexivity.
Qed.

Lemma quiet_puts : forall l,
  (forall x, In x l -> is_github x = false) -> puts l = [].
Proof.
  induction l as [|c l IH]; intros H; simpl; auto.
  rewrite IH by (intros x Hx; apply H; now right).
  specialize (H c (or_introl eq_refl)). destruct c; try discriminate H; reflexivity.
Qed.

(** A provisioning that has its user name and product begins with the
    lookup of the user name. *)
Lemma createReal_first : forall o w st u pn,
  o_username o = Some u -> o_product_name o = Some pn ->
  exists rest,
    issued (createRealPterodactylPanel o) w st = FindUser u :: rest.
Proof.
  intros o w st u pn Hu Hpn.
  destruct (createRealPterodactylPanel o w st) as [res stF] eqn:E.
  assert (Hi : forall l, grows st stF l ->
                 issued (createRealPterodactylPanel o) w st = l).
  { intros l Hg. apply grows_issued. now rewrite E. }
  cbv beta iota zeta delta [createRealPterodactylPanel bind ask ret Date_now
    the_config] in E.
  rewrite Hu, Hpn in E. cbn [fst snd log] in E.
  destruct (find_user w (log st ++ [FindUser u])) as [[|existing ?]|].
  2,3: (injection E as <- <-; eexists; apply Hi; reflexivity).
  cbn [fst snd log] in E.
  destruct (create_user w _) as [e1|e1|user].
  1,2: (injection E as <- <-; eexists; apply Hi; unfold grows; cbn [log];
        rewrite <- ?app_assoc; reflexivity).
  cbn [fst snd log] in E.
  destruct (get_egg w _) as [e2|e2|startup].
  1,2: (injection E as <- <-; eexists; apply Hi; unfold grows; cbn [log];
        rewrite <- ?app_assoc; reflexivity).
  cbn [fst snd log] in E.
  destruct (create_server w _) as [e3|e3|server];
    [| |destruct (JS.toISOString _)];
    injection E as <- <-; eexists; apply Hi; unfold grows; cbn [log];
    rewrite <- ?app_assoc; reflexivity.
Qed.

(** X16: a provisioning sends its requests in order and rolls nothing
    back.  The requests of [createRealPterodactylPanel] are an initial part
    of the sequence: look the user name up, create the user, read the egg,
    create the server.  All four have been sent when it returns.  None of
    its requests removes anything from the control plane, and none goes to
    the document store: a user created before a failure stays. *)
Theorem provisioning_sends_its_requests_in_order_and_rolls_nothing_back :
  forall (o : Order) (w : World) (st : State),
    exists more u e n p uid cmd r d c,
      issued (createRealPterodactylPanel o) w st ++ more
      = Notions.provisioning_requests u e n p uid cmd r d c
      /\ ((exists pd, fst (createRealPterodactylPanel o w st) = Return pd) ->
          more = [])
      /\ forall x, In x (issued (createRealPterodactylPanel o) w st) ->
           Notions.is_removal x = false /\ is_github x = false.
Proof.
  intros o w st.
  destruct (createReal_run o w st)
    as (l & more & u & e & n & p & uid & cmd & r & d & c & Hg & _ & _ & _ & Hl & Hr).
  rewrite (grows_issued _ _ _ _ _ Hg).
  exists more, u, e, n, p, uid, cmd, r, d, c.
  split; [exact Hl|]. split; [exact Hr|].
  intros x. eapply provisioning_requests_quiet; eauto.
Qed.

Lemma lookup_store_same : forall k v os,
  lookup k os <> None -> lookup k (store k v os) = Some v.
Proof.
  intros k v os. induction os as [|[k' o'] os IH]; simpl; intros H.
  - now elim H.
  - destruct (String.eqb k' k) eqn:Ek; simpl; rewrite Ek; auto.
Qed.

Lemma lookup_store_other : forall k k' v os,
  k' <> k -> lookup k' (store k v os) = lookup k' os.
Proof.
  intros k k' v os Hne. induction os as [|[k0 o0] os IH]; simpl; auto.
  destruct (String.eqb k0 k) eqn:Ek; simpl.
  - apply String.eqb_eq in Ek. subst k0.
    destruct (String.eqb k k') eqn:Ek'; auto.
    apply String.eqb_eq in Ek'. congruence.
  - destruct (String.eqb k0 k'); auto.
Qed.

Lemma lookup_app : forall k a b,
  lookup k (a ++ b) = match lookup k a with
                      | Some o => Some o
                      | None => lookup k b
                      end.
Proof.
  intros k a b. induction a as [|[k0 o0] a IH]; simpl; auto.
  destruct (String.eqb k0 k); auto.
Qed.

(** [panelsStorage[k] = v] and then [panelsStorage[k']]. *)
Lemma lookup_assign_same : forall k v os,
  lookup k (AdminOps.assign k v os) = Some v.
Proof.
  intros k v os. unfold AdminOps.assign.
  destruct (lookup k os) eqn:E.
  - apply lookup_store_same. congruence.
  - rewrite lookup_app, E. simpl. now rewrite String.eqb_refl.
Qed.

Lemma lookup_assign_other : forall k k' v os,
  k' <> k -> lookup k' (AdminOps.assign k v os) = lookup k' os.
Proof.
  intros k k' v os Hne. unfold AdminOps.assign.
  destruct (lookup k os) eqn:E.
  - now apply lookup_store_other.
  - rewrite lookup_app. destruct (lookup k' os); auto. simpl.
    destruct (String.eqb k k') eqn:Ek; auto.
    apply String.eqb_eq in Ek. congruence.
Qed.

(** What a provisioning that returns has stamped on the panel. *)
Lemma createReal_returns : forall o w st pd,
  fst (createRealPterodactylPanel o w st) = Return pd ->
  let now := clock w (log (snd (createRealPterodactylPanel o w st))) in
  let e := now + match o_days o with Some d => d | None => 30 end * JS.DAY in
  pd_created_at pd = Some now
  /\ pd_expires_at pd = Some e
  /\ Z.abs e <= JS.MAX_TIME.
Proof.
  intros o w st pd.
  destruct (createRealPterodactylPanel o w st) as [res stF] eqn:E.
  cbn [fst snd]. intros ->.
  cbv beta iota zeta delta [createRealPterodactylPanel bind ask ret Date_now
    the_config] in E.
  destruct (o_username _); [|discriminate E].
  destruct (o_product_name _); [|discriminate E].
  cbn [fst snd log] in E.
  destruct (find_user w _) as [[|? ?]|]; try discriminate E.
  cbn [fst snd log] in E.
  destruct (create_user w _); try discriminate E. cbn [fst snd log] in E.
  destruct (get_egg w _); try discriminate E. cbn [fst snd log] in E.
  destruct (create_server w _); try discriminate E.
  cbn [fst snd log] in E.
  destruct (JS.toISOString _) as [e|] eqn:Et; [|discriminate E].
  injection E as <- <-. cbn [pd_created_at pd_expires_at log].
  apply JSFacts.toISOString_some in Et. destruct Et as [-> Hr].
  auto.
Qed.

(** X17: the administrator's panel creation is recorded after the
    provisioning only.  When the handler answers with a failure, it has
    sent no request to the document store and the order cache is as it was.
    When it answers with the panel, the provisioning has returned it; the
    requests that follow are a read of the document store and the attempt
    to write; a document that is written is the database of that read
    followed by one new entry and the settings, and there is one when the
    store answers.  The new entry is named [ADMIN-] and the instant of the
    request, tracks the created server and expires the given days (30 when
    none are given) after the creation, an instant that a [Date] holds; the
    cache holds the same object under that name. *)
Theorem admin_panel_creation_records_after_provisioning :
  forall (body : AdminOps.PanelBody) (w : World) (st : State),
    let run := AdminOps.create_panel body in
    match fst (run w st) with
    | AdminOps.PanelFailed _ =>
        (forall x, In x (issued run w st) -> is_github x = false)
        /\ panelsStorage (snd (run w st)) = panelsStorage st
    | AdminOps.PanelCreated pd =>
        let password :=
          if JS.truthy_str (AdminOps.cp_password body)
          then AdminOps.cp_password body
          else Some (generated_password w (log st)) in
        let provision :=
          createRealPterodactylPanel (AdminOps.panel_request body password) in
        let st1 := snd (provision w st) in
        let db := fst (loadServerDatabase w st1) in
        let now := clock w (log st1) in
        let e := now + JS.num_or (AdminOps.cp_days body) 30 * JS.DAY in
        let entry :=
          AdminOps.new_server_data
            ("ADMIN-" ++ JS.Z_to_string (clock w (log st)))%string
            body password pd now e in
        fst (provision w st) = Return pd
        /\ Z.abs e <= JS.MAX_TIME
        /\ id entry = ("ADMIN-" ++ JS.Z_to_string (clock w (log st)))%string
        /\ panel_data entry = Some (Renewal.with_expires_at pd e)
        /\ pd_created_at pd = Some now
        /\ suspend_by entry = None
        /\ (forall x, In x (issued provision w st) -> is_github x = false)
        /\ (exists rest,
              issued run w st = issued provision w st ++ GithubGet :: rest
              /\ store_only rest /\ In GithubSha rest)
        /\ (exists s,
              (puts (issued run w st) = [] \/
               puts (issued run w st) = [(db ++ [entry]) ++ [settings_item s]])
              /\ ((forall h, github_sha w h <> None) ->
                  puts (issued run w st)
                  = [(db ++ [entry]) ++ [settings_item s]]))
        /\ lookup (id entry) (panelsStorage (snd (run w st)))
           = Some (AdminOps.cached_server_data entry)
    end.
Proof.
  intros body w st run. subst run.
  assert (Hi : forall stF l, snd (AdminOps.create_panel body w st) = stF ->
                 grows st stF l -> issued (AdminOps.create_panel body) w st = l).
  { intros stF l <- Hg. now apply grows_issued. }
  destruct (AdminOps.create_panel body w st) as [r stF] eqn:E.
  cbn [fst snd] in *. specialize (Hi stF).
  unfold AdminOps.create_panel in E.
  destruct (negb (JS.truthy_str (AdminOps.cp_username body))
            || negb (JS.truthy_str (AdminOps.cp_product body))).
  { unfold ret in E. injection E as <- <-.
    rewrite (Hi [] eq_refl (grows_refl st)). split; [intros x []|reflexivity]. }
  unfold bind at 1 in E. unfold Date_now at 1 in E.
  unfold bind at 1 in E.
  set (generatedPassword :=
         if JS.truthy_str (AdminOps.cp_password body)
         then AdminOps.cp_password body
         else Some (generated_password w (log st))) in *.
  unfold bind at 1 in E.
  destruct (createReal_run (AdminOps.panel_request body generatedPassword) w st)
    as (l & more & u & e & n & p & uid & cmd & r0 & d & c
        & Hg & Hps & _ & _ & Hl & Hr).
  pose proof (createReal_returns (AdminOps.panel_request body generatedPassword)
                w st) as Hret.
  pose proof (grows_issued _ _ _ _ _ Hg) as Hil.
  destruct (createRealPterodactylPanel
              (AdminOps.panel_request body generatedPassword) w st)
    as [[msg|panelData] st1] eqn:Ecr; cbn [fst snd] in *.
  { unfold ret in E. injection E as <- <-.
    rewrite (Hi l eq_refl Hg). split; [|exact Hps].
    intros x Hx. eapply provisioning_requests_quiet; eauto. }
  specialize (Hret panelData eq_refl). cbv zeta in Hret.
  destruct Hret as (Hcreated & _ & _).
  unfold bind at 1 in E. unfold Date_now at 1 in E.
  destruct (JS.toISOString
              (clock w (log st1) + JS.num_or (AdminOps.cp_days body) 30 * JS.DAY))
    as [e0|] eqn:Et.
  2:{ unfold ret in E. injection E as <- <-.
      rewrite (Hi l eq_refl Hg). split; [|exact Hps].
      intros x Hx. eapply provisioning_requests_quiet; eauto. }
  apply JSFacts.toISOString_some in Et. destruct Et as [-> Hrange].
  unfold bind at 1 in E.
  pose proof (loadServerDatabase_run w st1) as Hg1.
  destruct (loadServerDatabase w st1) as [db st2]. cbn [fst snd] in *.
  unfold bind at 1 in E.
  set (entry := AdminOps.new_server_data
                  ("ADMIN-" ++ JS.Z_to_string (clock w (log st)))
                  body generatedPassword panelData (clock w (log st1))
                  (clock w (log st1)
                   + JS.num_or (AdminOps.cp_days body) 30 * JS.DAY)) in *.
  destruct (saveServerDatabase_run (db ++ [entry]) w st2)
    as (l2 & Hg2 & Hp2 & Hp2' & Hsha & _ & Hs2).
  destruct (saveServerDatabase (db ++ [entry]) w st2) as [[] st3].
  cbn [fst snd] in *.
  unfold bind, get_state, set_orders, ret in E. injection E as <- <-.
  assert (Hgrow : grows st
                    {| panelsStorage :=
                         AdminOps.assign
                           ("ADMIN-" ++ JS.Z_to_string (clock w (log st)))
                           (AdminOps.cached_server_data entry)
                           (panelsStorage st3);
                       settingsCache := settingsCache st3;
                       settingsLastFetch := settingsLastFetch st3;
                       log := log st3 |} (l ++ [GithubGet] ++ l2)).
  { unfold grows in *. cbn [log]. rewrite Hg2, Hg1, Hg, <- !app_assoc.
    reflexivity. }
  rewrite (Hi _ eq_refl Hgrow), Hil.
  assert (Hquiet : forall x, In x l -> is_github x = false)
    by (intros x Hx; eapply provisioning_requests_quiet; eauto).
  assert (Hputs : puts (l ++ [GithubGet] ++ l2) = puts l2).
  { rewrite !puts_app, (quiet_puts l Hquiet). reflexivity. }
  split; [reflexivity|]. split; [exact Hrange|].
  split; [reflexivity|]. split; [reflexivity|].
  split; [exact Hcreated|]. split; [reflexivity|].
  split; [exact Hquiet|]. split.
  { exists l2. split; [reflexivity|]. split; assumption. }
  split.
  { exists (fst (loadSettings w st2)). rewrite Hputs. split; assumption. }
  cbn [panelsStorage]. apply lookup_assign_same.
Qed.

End ProvisionFacts.

(** ** The storefront *)

Module ShopFacts.
Import Shop Orders ProcFacts.

(** [loadSettings] leaves the order cache as it is. *)
Lemma loadSettings_keeps_orders : forall w st,
  panelsStorage (snd (loadSettings w st)) = panelsStorage st.
Proof.
  intros w st.
  assert (Hread : forall now c st0,
            panelsStorage (snd (read_settings now c w st0)) = panelsStorage st0).
  { intros now c st0.
    cbv beta iota zeta delta [read_settings bind fetchData ask ret
      set_settings_cache].
    cbn [fst snd].
    destruct (github_get w _) as [[items|]|]; try reflexivity;
      destruct (find is_settings _) as [[? ? ? ? ? ? ? ? ? [s'|]]|];
      reflexivity. }
  cbv beta iota zeta delta [loadSettings bind Date_now get_state the_config].
  destruct (settingsCache st) as [s|].
  - destruct (_ <? _); [reflexivity|]. apply Hread.
  - apply Hread.
Qed.

Lemma lookup_remove_same : forall k os,
  k <> "__proto__" -> lookup k (remove k os) = None.
Proof.
  intros k os Hk. unfold remove.
  destruct (String.eqb_spec k "__proto__") as [->|_]; [now elim Hk|].
  induction os as [|[k0 o0] os IH]; simpl; auto.
  destruct (String.eqb k0 k) eqn:Ek; simpl; auto. now rewrite Ek.
Qed.

Lemma lookup_remove_other : forall k k' os,
  k' <> k -> lookup k' (remove k os) = lookup k' os.
Proof.
  intros k k' os Hne. unfold remove.
  destruct (String.eqb k "__proto__"); [reflexivity|].
  induction os as [|[k0 o0] os IH]; simpl; auto.
  destruct (String.eqb k0 k) eqn:Ek; simpl.
  - apply String.eqb_eq in Ek. subst k0.
    destruct (String.eqb k k') eqn:Ek'; auto.
    apply String.eqb_eq in Ek'. congruence.
  - now rewrite IH.
Qed.

(** X18: what [create-qris] records, for an order id other than
    ['__proto__'] (an assignment to that name replaces the prototype of the
    cache instead of recording an order).  The amount of the order is
    computed by the server from the product and the days: it is what
    [validatePrice] has derived from the settings it loads, never a number
    of the client.  When the handler answers with a payment, the cache holds
    under the order's id a pending order with that amount and without a
    panel, whatever it held under the id before, and every other order is as
    it was.  When it answers anything else, the cache is as it was. *)
Theorem create_qris_records_a_pending_order_at_the_server_price :
  forall (gateway : CreateGateway) (body : QrisBody) (w : World) (st : State)
         (order_id : string),
    q_order_id body = Some order_id ->
    order_id <> "__proto__" ->
    let run := create_qris gateway body in
    match fst (run w st) with
    | QrisCreated payment id' amount =>
        id' = order_id
        /\ (exists priced,
              Price.check_price (fst (loadSettings w st)) (config w)
                (price_body body) = Price.Next priced
              /\ amount = amount_of priced)
        /\ (exists o,
              lookup order_id (panelsStorage (snd (run w st))) = Some o
              /\ o_status o = Some "pending"
              /\ o_panel_data o = None
              /\ o_amount o = amount
              /\ o_payment_data o = payment)
        /\ forall k, k <> order_id ->
             lookup k (panelsStorage (snd (run w st)))
             = lookup k (panelsStorage st)
    | _ => panelsStorage (snd (run w st)) = panelsStorage st
    end.
Proof.
  intros gateway body w st order_id Hid _ run. subst run.
  destruct (create_qris gateway body w st) as [r stF] eqn:E. cbn [fst snd].
  unfold create_qris in E. unfold bind at 1 in E.
  unfold Price.validatePrice in E. unfold bind at 1 in E.
  pose proof (loadSettings_keeps_orders w st) as Hos.
  destruct (loadSettings w st) as [settings st1]. cbn [fst snd] in *.
  unfold bind, the_config, ret in E.
  destruct (Price.check_price settings (config w) (price_body body))
    as [? ? ? ? ?|priced] eqn:Ep.
  { injection E as <- <-. exact Hos. }
  unfold create_qris_handler in E. rewrite Hid in E.
  destruct (_ || _).
  { injection E as <- <-. exact Hos. }
  cbv beta iota zeta delta [bind get_state Date_now set_orders ret] in E.
  destruct (gateway (log st1) order_id (amount_of priced)) as [payment|].
  2:{ injection E as <- <-. exact Hos. }
  injection E as <- <-. cbn [panelsStorage].
  split; [reflexivity|]. split; [eauto|]. split.
  - eexists. split; [apply ProvisionFacts.lookup_assign_same|].
    repeat split; reflexivity.
  - intros k Hk. rewrite ProvisionFacts.lookup_assign_other by exact Hk.
    now rewrite Hos.
Qed.

Lemma create_qris_records_a_pending_order_at_the_server_price_witness :
  exists o,
    lookup "INV-1"
      (panelsStorage
         (snd (create_qris (fun _ _ _ => Some (Some "00020101"))
                 {| q_order_id := Some "INV-1"; q_username := Some "bob";
                    q_product_name := Some "Panel 1GB RAM"; q_days := Some 30;
                    q_product_id := Some "panel-1gb"; q_type := None;
                    q_amount := Some 3000 |}
                 (Samples.online 5 [] [])
                 (Samples.with_orders [("INV-1", Samples.order_of_bob)]))))
    = Some o
    /\ o_status o = Some "pending" /\ o_panel_data o = None
    /\ o_amount o = Some 3000.
Proof.
  pose proof (create_qris_records_a_pending_order_at_the_server_price
                (fun _ _ _ => Some (Some "00020101"))
                {| q_order_id := Some "INV-1"; q_username := Some "bob";
                   q_product_name := Some "Panel 1GB RAM"; q_days := Some 30;
                   q_product_id := Some "panel-1gb"; q_type := None;
                   q_amount := Some 3000 |}
                (Samples.online 5 [] [])
                (Samples.with_orders [("INV-1", Samples.order_of_bob)])
                "INV-1" eq_refl ltac:(discriminate)) as H.
  cbv zeta in H.
  destruct (fst (create_qris _ _ _ _)) as [| |payment id' amount|] eqn:E;
    try (vm_compute in E; discriminate E).
  destruct H as (_ & _ & (o & Ho & Hs & Hp & Ha & _) & _).
  exists o. repeat split; auto.
  rewrite Ha. vm_compute in E. now injection E as _ _ <-.
Defined.

(** X19: a cancelled order is gone, for an order id that is no property
    name of [Object.prototype] and a cache whose prototype no order has
    replaced (none was recorded under ['__proto__']); the cache finds an
    inherited member under any other name, whatever has been cancelled.
    After [cancel-payment] of such an order id, the order endpoint answers
    404 for it and a payment check answers 404 without a request to the
    gateway, also for an order that was completed and had a panel; every
    other order is as it was, and no request has been sent: the panel of a
    cancelled order stays on the control plane. *)
Theorem a_cancelled_order_is_forgotten :
  forall (order_id : string) (w : World) (st : State),
    order_id <> EmptyString ->
    JS.inherited order_id = false ->
    lookup "__proto__" (panelsStorage st) = None ->
    let st' := snd (cancel_payment (Some order_id) w st) in
    fst (cancel_payment (Some order_id) w st) = Cancelled order_id
    /\ log st' = log st
    /\ fst (get_order order_id w st') = OrderMissing
    /\ (forall fuel,
          fst (check_payment fuel order_id w st') = Some OrderNotFound
          /\ issued (check_payment fuel order_id) w st' = [])
    /\ forall k, k <> order_id ->
         lookup k (panelsStorage st') = lookup k (panelsStorage st).
Proof.
  intros order_id w st Hne Hown _ st'.
  assert (Hproto : order_id <> "__proto__")
    by (intros ->; discriminate Hown).
  assert (Ht : JS.truthy_str (Some order_id) = true)
    by (destruct order_id; [congruence|reflexivity]).
  assert (Hst : (panelsStorage st' = remove order_id (panelsStorage st)
                 \/ (panelsStorage st' = panelsStorage st
                     /\ lookup order_id (panelsStorage st) = None))
                /\ log st' = log st
                /\ fst (cancel_payment (Some order_id) w st) = Cancelled order_id).
  { subst st'. unfold cancel_payment. rewrite Ht. cbn [negb].
    cbv beta iota zeta delta [bind get_state set_orders ret].
    destruct (lookup order_id (panelsStorage st)) eqn:El; cbn [fst snd];
      repeat split; auto. }
  destruct Hst as (Hos & Hlog & Hret).
  assert (Hgone : lookup order_id (panelsStorage st') = None).
  { destruct Hos as [->|[-> ?]]; auto. now apply lookup_remove_same. }
  split; [exact Hret|]. split; [exact Hlog|]. split.
  { unfold get_order, bind, get_state, ret. cbn [fst]. now rewrite Hgone. }
  split.
  - intros fuel.
    assert (Hrun : check_payment fuel order_id w st' = (Some OrderNotFound, st')).
    { unfold check_payment. rewrite Ht. cbn [negb].
      unfold bind, get_state, ret. now rewrite Hgone. }
    rewrite Hrun. split; [reflexivity|].
    apply grows_issued. rewrite Hrun. apply grows_refl.
  - intros k Hk. destruct Hos as [->|[-> ?]]; auto.
    now apply lookup_remove_other.
Qed.

Lemma a_cancelled_order_is_forgotten_witness :
  fst (get_order "INV-1" (Samples.offline 5)
         (snd (cancel_payment (Some "INV-1") (Samples.offline 5)
                 (Samples.with_orders [("INV-1", Samples.order_of_bob)]))))
  = OrderMissing.
Proof.
  refine (proj1 (proj2 (proj2 (a_cancelled_order_is_forgotten "INV-1"
                                 (Samples.offline 5)
                                 (Samples.with_orders
                                    [("INV-1", Samples.order_of_bob)])
                                 _ _ _)))).
  - discriminate.
  - reflexivity.
  - reflexivity.
Defined.

(** The two chains that infer the product of a stored entry give the same
    [productId]. *)
Lemma quote_product_infer : forall server pd pid dn,
  quote_product server pd = Return (pid, dn) ->
  Renewal.infer_productId server pd = Return pid.
Proof.
  intros server pd pid dn. unfold quote_product, Renewal.infer_productId.
  destruct (_ || _).
  - intros H. injection H as <- _. reflexivity.
  - destruct (product_name server) as [pn|]; [|discriminate].
    destruct (JS.includes "Unlimited" pn).
    + intros H. injection H as <- _. reflexivity.
    + repeat (destruct (_ || _); [intros H; injection H as <- _; reflexivity|]).
      intros H. injection H as <- _. reflexivity.
Qed.




(** A provisioning that returns has built the [specs] of the product
    name. *)
Lemma createReal_specs : forall o w st pd pn,
  fst (createRealPterodactylPanel o w st) = Return pd ->
  o_product_name o = Some pn ->
  pd_specs pd = Some (Notions.provisioned_specs pn).
Proof.
  intros o w st pd pn H Hpn.
  cbv beta iota zeta delta [createRealPterodactylPanel bind ask ret Date_now
    the_config] in H.
  rewrite Hpn in H. unfold Notions.provisioned_specs.
  destruct (o_username o); [|discriminate H].
  cbn [fst snd log] in H.
  destruct (find_user w _) as [[|? ?]|]; try discriminate H.
  cbn [fst snd log] in H.
  destruct (create_user w _); try discriminate H. cbn [fst snd log] in H.
  destruct (get_egg w _); try discriminate H. cbn [fst snd log] in H.
  destruct (create_server w _); try discriminate H.
  cbn [fst snd log] in H.
  destruct (JS.toISOString _); [|discriminate H].
  injection H as <-. reflexivity.
Qed.

(** X21: the tier of a panel survives the way from the order to the
    renewal quote.  For a panel provisioned from a product name that does
    not contain the text [Unlimited] and is no property name of
    [Object.prototype] (for such a name the provisioning reads its limits
    from the inherited member, and they are no numbers), the chains of the
    quote and of [renewPanel] infer, from the stored specs, a product whose
    display name stands for the very resources the panel was provisioned
    with. *)
Theorem the_quoted_tier_is_the_provisioned_tier :
  forall (o : Order) (w : World) (st : State) (pd : PanelData) (pn : string)
         (server : Item),
    fst (createRealPterodactylPanel o w st) = Return pd ->
    o_product_name o = Some pn ->
    product_name server = Some pn ->
    JS.includes "Unlimited" pn = false ->
    JS.inherited pn = false ->
    exists pid dn r,
      quote_product server pd = Return (pid, dn)
      /\ Renewal.infer_productId server pd = Return pid
      /\ spec_of pn = Some r
      /\ spec_of dn = Some r.
Proof.
  intros o w st pd pn server Hret Hpn Hname Hun Hown.
  pose proof (createReal_specs _ _ _ _ _ Hret Hpn) as Hspecs.
  assert (H : exists pid dn r,
            quote_product server pd = Return (pid, dn)
            /\ spec_of pn = Some r
            /\ spec_of dn = Some r).
  { unfold quote_product. rewrite Hspecs, Hname, Hun.
    unfold Notions.provisioned_specs, spec_of. rewrite Hown.
    repeat match goal with
           | |- context [JS.includes ?lit pn] =>
               lazymatch lit with
               | "Unlimited" => fail
               | _ => destruct (JS.includes lit pn);
                      [do 3 eexists; repeat split; vm_compute; reflexivity|]
               end
           end.
    do 3 eexists. repeat split; vm_compute; reflexivity. }
  destruct H as (pid & dn & r & Hq & Hs & Hs'). exists pid, dn, r.
  split; [exact Hq|]. split; [eapply quote_product_infer; eauto|].
  split; assumption.
Qed.

Lemma the_quoted_tier_is_the_provisioned_tier_witness :
  exists pid dn,
    quote_product (Samples.entry_of_bob None 0)
      {| pd_username := Some "bob"; pd_password := Some "a1b2c3d4";
         pd_email := Some "bob@gmail.com"; pd_panel_url := None;
         pd_server_id := Some 7; pd_server_name := Some "Bob Server";
         pd_owner_id := None; pd_owner_email := None;
         pd_created_at := Some 5; pd_expires_at := Some (5 + 30 * JS.DAY);
         pd_has_expires_at := true; pd_days := Some 30;
         pd_specs := Some (Notions.provisioned_specs "Panel 1GB RAM");
         pd_raw_data := Some "user, server";
         pd_new_expiry := None; pd_added_days := None; pd_total_days := None;
         pd_product_id := None |}
    = Return (pid, dn)
    /\ spec_of dn = spec_of "Panel 1GB RAM".
Proof.
  destruct (the_quoted_tier_is_the_provisioned_tier
              Samples.pending_order_of_bob (Samples.healthy 5 [] [])
              Samples.fresh
              {| pd_username := Some "bob"; pd_password := Some "a1b2c3d4";
                 pd_email := Some "bob@gmail.com"; pd_panel_url := None;
                 pd_server_id := Some 7; pd_server_name := Some "Bob Server";
                 pd_owner_id := None; pd_owner_email := None;
                 pd_created_at := Some 5; pd_expires_at := Some (5 + 30 * JS.DAY);
                 pd_has_expires_at := true; pd_days := Some 30;
                 pd_specs := Some (Notions.provisioned_specs "Panel 1GB RAM");
                 pd_raw_data := Some "user, server";
                 pd_new_expiry := None; pd_added_days := None;
                 pd_total_days := None; pd_product_id := None |}
              "Panel 1GB RAM" (Samples.entry_of_bob None 0))
    as (pid & dn & r & Hq & _ & Hs & Hs').
  - vm_compute. reflexivity.
  - reflexivity.
  - reflexivity.
  - vm_compute. reflexivity.
  - vm_compute. reflexivity.
  - exists pid, dn. split; [exact Hq|]. now rewrite Hs, Hs'.
Defined.

(** X22: the user name check and the provisioning agree on taken names.
    A name that fails the format rule is answered without a request.  For a
    name that passes it the check sends the lookup that a provisioning of
    that name sends first: when the check finds the name taken, or fails,
    the provisioning stops after the lookup and throws; when the check
    finds it free, the provisioning goes on to create the user.  The
    provisioning itself does not apply the format rule. *)
Theorem the_user_name_check_agrees_with_the_provisioning :
  forall (username pn : string) (o : Order) (w : World) (st : State),
    o_username o = Some username ->
    o_product_name o = Some pn ->
    (valid_username username = false ->
       check_username username w st = (UsernameInvalid, st))
    /\ (valid_username username = true ->
          issued (check_username username) w st = [FindUser username]
          /\ match fst (check_username username w st) with
             | UsernameChecked true =>
                 exists e n p rest,
                   issued (createRealPterodactylPanel o) w st
                   = FindUser username :: CreateUser username e n p :: rest
             | UsernameChecked false | UsernameFailed =>
                 issued (createRealPterodactylPanel o) w st = [FindUser username]
                 /\ exists msg, fst (createRealPterodactylPanel o w st) = Throw msg
             | UsernameInvalid => False
             end).
Proof.
  intros username pn o w st Hu Hpn. split.
  { intros Hv. unfold check_username. rewrite Hv. reflexivity. }
  intros Hv. unfold check_username. rewrite Hv. cbn [negb].
  split; [apply grows_issued; unfold bind, ask;
          destruct (find_user w _); reflexivity|].
  destruct (createRealPterodactylPanel o w st) as [res stF] eqn:E.
  assert (Hi : forall l, grows st stF l ->
                 issued (createRealPterodactylPanel o) w st = l).
  { intros l Hg. apply grows_issued. now rewrite E. }
  cbv beta iota zeta delta [createRealPterodactylPanel bind ask ret Date_now
    the_config] in E.
  rewrite Hu, Hpn in E. cbn [fst snd log] in E.
  unfold bind, ask, ret. cbn [fst snd log].
  destruct (find_user w (log st ++ [FindUser username])) as [[|existing ?]|];
    cbn [fst List.length Nat.eqb].
  - cbn [fst snd log] in E.
    destruct (create_user w _) as [e1|e1|user].
    1,2: (injection E as <- <-; do 4 eexists; apply Hi; unfold grows; cbn [log];
          rewrite <- ?app_assoc; reflexivity).
    cbn [fst snd log] in E.
    destruct (get_egg w _) as [e2|e2|startup].
    1,2: (injection E as <- <-; do 4 eexists; apply Hi; unfold grows; cbn [log];
          rewrite <- ?app_assoc; reflexivity).
    cbn [fst snd log] in E.
    destruct (create_server w _) as [e3|e3|server];
      [| |destruct (JS.toISOString _)];
      injection E as <- <-; do 4 eexists; apply Hi; unfold grows; cbn [log];
      rewrite <- ?app_assoc; reflexivity.
  - injection E as <- <-. split; [apply Hi; reflexivity|eauto].
  - injection E as <- <-. split; [apply Hi; reflexivity|eauto].
Qed.

Lemma the_user_name_check_agrees_with_the_provisioning_witness :
  check_username "Bob" (Samples.healthy 5 [] []) Samples.fresh
  = (UsernameInvalid, Samples.fresh)
  /\ exists e n p rest,
       issued (createRealPterodactylPanel Samples.pending_order_of_bob)
         (Samples.healthy 5 [] []) Samples.fresh
       = FindUser "bob" :: CreateUser "bob" e n p :: rest.
Proof.
  split.
  - refine (proj1 (the_user_name_check_agrees_with_the_provisioning
                     "Bob" "Panel 1GB RAM"
                     (Renewal.with_server_id
                        (AdminOps.panel_request
                           {| AdminOps.cp_username := Some "Bob";
                              AdminOps.cp_product := Some "Panel 1GB RAM";
                              AdminOps.cp_days := None;
                              AdminOps.cp_password := None |} None) None)
                     (Samples.healthy 5 [] []) Samples.fresh eq_refl eq_refl) _).
    reflexivity.
  - destruct (proj2 (the_user_name_check_agrees_with_the_provisioning
                       "bob" "Panel 1GB RAM" Samples.pending_order_of_bob
                       (Samples.healthy 5 [] []) Samples.fresh eq_refl eq_refl)
                eq_refl) as [_ H].
    exact H.
Defined.

End ShopFacts.

(** ** The sweeper's ticks *)

Module TickFacts.
Import Sweeper ProcFacts SweeperFacts.

(** The first loop on entries none of which is due: no request, no change,
    nothing queued. *)
Lemma sweep_loop_not_due : forall now grace todo i w st,
  forallb (Notions.not_due now) todo = true ->
  sweep_loop now grace i todo w st = (Return (todo, false, []), st).
Proof.
  intros now grace todo. induction todo as [|srv rest IH]; intros i w st H.
  - reflexivity.
  - simpl in H. apply andb_prop in H. destruct H as [Hs Hr].
    cbn [sweep_loop]. unfold bind at 1.
    assert (He : sweep_entry now grace i srv w st = (Return (srv, false, None), st)).
    { unfold Notions.not_due in Hs. destruct (locked srv) eqn:El.
      - now apply sweep_entry_locked.
      - cbn [orb] in Hs. unfold sweep_entry. unfold locked in El. rewrite El.
        destruct (panel_data srv) as [pd|]; [|discriminate Hs].
        apply negb_true_iff in Hs. rewrite Hs. reflexivity. }
    rewrite He. unfold bind at 1. rewrite (IH (S i) w st Hr). reflexivity.
Qed.

(** X23: the sweeper writes at most once per tick, and not at all when
    nothing is due.  Whatever the tick suspends and deletes, it sends at
    most one write to the document store.  When every entry is under the
    administrator's lock or not past its expiry, the tick sends the read of
    the database and nothing else, and leaves the database as it read it. *)
Theorem a_tick_writes_at_most_once_and_only_for_a_change :
  forall (w : World) (st : State),
    (List.length (puts (issued tick w st)) <= 1)%nat
    /\ (forallb (Notions.not_due (clock w (log st ++ [GithubGet])))
          (fst (loadServerDatabase w st)) = true ->
        issued tick w st = [GithubGet]
        /\ fst (tick w st) = Return (fst (loadServerDatabase w st))).
Proof.
  intros w st.
  destruct (tick w st) as [res stF] eqn:E.
  unfold issued. rewrite E. cbn [fst snd].
  unfold tick in E. unfold bind at 1 in E.
  pose proof (loadServerDatabase_run w st) as Hg0.
  destruct (loadServerDatabase w st) as [db st1]. cbn [fst snd] in *.
  unfold bind at 1 in E. unfold Date_now at 1 in E.
  unfold bind at 1 in E. unfold the_config at 1 in E.
  unfold bind at 1 in E.
  assert (Hlog : log st1 = log st ++ [GithubGet]) by exact Hg0.
  split.
  - destruct (sweep_loop_run (clock w (log st1))
                (AUTO_DELETE_AFTER_DAYS (config w)) db O w st1)
      as [(l1 & Hg1 & Hp1 & _) Hret].
    destruct (sweep_loop (clock w (log st1)) (AUTO_DELETE_AFTER_DAYS (config w))
                O db w st1) as [[e|[[db1 ch] queue]] st2]; cbn [fst snd] in *.
    + unfold ret in E. injection E as <- <-.
      rewrite (grows_trans _ _ _ _ _ Hg0 Hg1), skipn_app_exact, puts_app, Hp1.
      simpl. lia.
    + destruct (Hret db1 ch queue eq_refl) as (HF & Hasc & Hq).
      unfold bind at 1 in E.
      assert (Hdesc : descending (map index (rev queue))).
      { rewrite map_rev. now apply ascending_rev. }
      assert (Hq1 : forall q, In q (rev queue) ->
                forall x, nth_error db1 (index q) = Some x -> locked x = false).
      { intros q Hin x Hx. apply in_rev in Hin.
        destruct (Hq q Hin) as (_ & s & Hs & Hls).
        rewrite Nat.sub_0_r in Hs.
        destruct (lock_kept_nth _ _ HF _ _ _ Hs Hx) as [Hk _]. congruence. }
      destruct (delete_pass_run (rev queue) db1 ch w st2 Hdesc Hq1)
        as (_ & l2 & Hg2 & Hp2).
      destruct (delete_pass (rev queue) db1 ch w st2) as [[db2 ch2] st3].
      cbn [fst snd] in *. unfold bind at 1 in E.
      destruct ch2.
      * destruct (saveServerDatabase_run db2 w st3) as (l3 & Hg3 & Hp3 & _).
        destruct (saveServerDatabase db2 w st3) as [[] st4].
        cbn [fst snd] in *. unfold ret in E. injection E as <- <-.
        rewrite (grows_trans _ _ _ _ _
                   (grows_trans _ _ _ _ _ (grows_trans _ _ _ _ _ Hg0 Hg1) Hg2) Hg3).
        rewrite skipn_app_exact, !puts_app, Hp1, Hp2. simpl.
        destruct Hp3 as [-> | ->]; simpl; lia.
      * unfold ret in E. injection E as <- <-.
        rewrite (grows_trans _ _ _ _ _ (grows_trans _ _ _ _ _ Hg0 Hg1) Hg2).
        rewrite skipn_app_exact, !puts_app, Hp1, Hp2. simpl. lia.
  - intros Hquiet. rewrite <- Hlog in Hquiet.
    rewrite (sweep_loop_not_due _ _ _ _ _ _ Hquiet) in E.
    cbn [rev delete_pass] in E. unfold bind, ret in E. cbn [fst snd] in E.
    injection E as <- <-. split; [|reflexivity].
    rewrite Hlog. apply skipn_app_exact.
Qed.

Lemma a_tick_writes_at_most_once_and_only_for_a_change_witness :
  issued tick
    (Samples.healthy 5
       [Samples.entry_of_bob (Some admin) 0; Samples.entry_of_bob None 9] [])
    Samples.fresh
  = [GithubGet].
Proof.
  refine (proj1 (proj2 (a_tick_writes_at_most_once_and_only_for_a_change
                          (Samples.healthy 5
                             [Samples.entry_of_bob (Some admin) 0;
                              Samples.entry_of_bob None 9] [])
                          Samples.fresh) _)).
  reflexivity.
Defined.

(** X24: the grace of the automatic deletion, in instants.  With a grace of
    at least one day, the sweeper queues an entry that is not under the
    administrator's lock for deletion exactly when the grace has fully
    elapsed since the expiry: [expires_at + grace] days is not after the
    current instant.  What it queues is the position of the entry and its
    server, whether or not the entry has been suspended. *)
Theorem deletion_is_queued_once_the_grace_has_elapsed :
  forall (now grace : Z) (i : nat) (srv : Item) (pd : PanelData) (e : Z)
         (w : World) (st : State),
    locked srv = false ->
    panel_data srv = Some pd ->
    pd_expires_at pd = Some e ->
    0 < grace ->
    exists srv' changed queued,
      fst (sweep_entry now grace i srv w st) = Return (srv', changed, queued)
      /\ (queued <> None <-> e + grace * JS.DAY <= now)
      /\ forall q, queued = Some q ->
           index q = i /\ q_serverId q = pd_server_id pd.
Proof.
  intros now grace i srv pd e w st Hl Hpd He Hgrace.
  unfold sweep_entry. unfold locked in Hl. rewrite Hl, Hpd, He.
  unfold bind, ret. cbn [fst snd].
  assert (Hq : past (Some e) now && beyond_grace (Some e) now grace = true
               <-> e + grace * JS.DAY <= now).
  { unfold past, beyond_grace, JS.floor_div.
    assert (HD : 0 < JS.DAY) by reflexivity.
    rewrite andb_true_iff, Z.ltb_lt, Z.geb_le. split.
    - intros [_ H].
      pose proof (Z.mul_div_le (now - e) JS.DAY HD). nia.
    - intros H. split; [nia|].
      apply Z.div_le_lower_bound; [exact HD|nia]. }
  match goal with
  | |- context [let (a, st') := ?c w st in _] =>
      destruct (c w st) as [[srv1 ch1] st1]
  end.
  cbn [fst snd]. do 3 eexists. split; [reflexivity|].
  destruct (past (Some e) now && beyond_grace (Some e) now grace).
  - split.
    + split; [intros _; now apply Hq|discriminate].
    + intros q Hq'. injection Hq' as <-. split; reflexivity.
  - split.
    + split; [intros H; now elim H|].
      intros H. apply Hq in H. discriminate H.
    + intros q Hq'. discriminate Hq'.
Qed.

Lemma deletion_is_queued_once_the_grace_has_elapsed_witness :
  exists srv' changed queued,
    fst (sweep_entry (7 * JS.DAY) 7 0 (Samples.entry_of_bob (Some auto) 0)
           (Samples.offline 0) Samples.fresh)
    = Return (srv', changed, queued)
    /\ (queued <> None <-> 0 + 7 * JS.DAY <= 7 * JS.DAY).
Proof.
  destruct (deletion_is_queued_once_the_grace_has_elapsed
              (7 * JS.DAY) 7 0%nat (Samples.entry_of_bob (Some auto) 0)
              (Renewal.with_expires_at Samples.panel_of_bob 0) 0
              (Samples.offline 0) Samples.fresh)
    as (srv' & changed & queued & H1 & H2 & _).
  - reflexivity.
  - reflexivity.
  - reflexivity.
  - lia.
  - exists srv', changed, queued. split; assumption.
Defined.

End TickFacts.

(** ** Payment checks: what gets recorded *)

Module RecordFacts.
Import Orders ProcFacts.

Lemma saveServerDatabase_keeps_orders : forall data w st,
  panelsStorage (snd (saveServerDatabase data w st)) = panelsStorage st.
Proof.
  intros data w st. unfold saveServerDatabase, bind.
  pose proof (ShopFacts.loadSettings_keeps_orders w st) as H.
  destruct (loadSettings w st) as [cur st1]. cbn [fst snd] in *.
  cbv beta iota zeta delta [updateData bind ask ret].
  destruct (github_sha w _); cbn [fst snd panelsStorage]; exact H.
Qed.

(** [check-payment] on a paid order for a new panel that has none yet. *)
Lemma check_payment_new_run : forall fuel order_id o w st tx,
  order_id <> EmptyString ->
  lookup order_id (panelsStorage st) = Some o ->
  o_panel_data o = None ->
  JS.str_is (o_type o) "renewal" = false ->
  transaction_detail w (log st ++ [TransactionDetail (o_amount o) order_id])
  = Some tx ->
  tx_completed tx = true ->
  let st1 := snd (ask (TransactionDetail (o_amount o) order_id)
                    transaction_detail w st) in
  exists lc,
    grows st1 (snd (createRealPterodactylPanel o w st1)) lc
    /\ (forall x, In x lc -> is_github x = false)
    /\ match fst (createRealPterodactylPanel o w st1) with
       | Return pd =>
           let db :=
             fst (loadServerDatabase w
                    (snd (createRealPterodactylPanel o w st1))) in
           let doc s :=
             (db ++ [order_entry order_id
                       (completed o pd (clock w (log st1 ++ lc)) tx) pd])
             ++ [settings_item s] in
           exists l2,
             grows st (snd (check_payment fuel order_id w st))
               ([TransactionDetail (o_amount o) order_id] ++ lc
                ++ [GithubGet] ++ l2)
             /\ fst (check_payment fuel order_id w st)
                = Some (Checked tx (Some pd) (Some "completed"))
             /\ lookup order_id (panelsStorage (snd (check_payment fuel order_id w st)))
                = Some (completed o pd (clock w (log st1 ++ lc)) tx)
             /\ store_only l2
             /\ exists s,
                  (puts l2 = [] \/ puts l2 = [doc s])
                  /\ ((forall h, github_sha w h <> None) -> puts l2 = [doc s])
       | Throw msg =>
           grows st (snd (check_payment fuel order_id w st))
             ([TransactionDetail (o_amount o) order_id] ++ lc)
           /\ fst (check_payment fuel order_id w st)
              = Some (ProvisionFailed tx msg)
           /\ lookup order_id (panelsStorage (snd (check_payment fuel order_id w st)))
              = Some (failed o msg (clock w (log st1 ++ lc)) tx)
       end.
Proof.
  intros fuel oid o w st tx Hne Hl Hpd Hty Htx Hc st1.
  assert (Ht : JS.truthy_str (Some oid) = true)
    by (destruct oid; [congruence|reflexivity]).
  destruct (check_payment fuel oid w st) as [r stF] eqn:E.
  unfold check_payment in E. rewrite Ht in E. cbn [negb] in E.
  unfold bind at 1 in E. unfold get_state at 1 in E. rewrite Hl in E.
  unfold bind at 1 in E.
  assert (Hask : ask (TransactionDetail (o_amount o) oid) transaction_detail w st
                 = (Some tx, st1)).
  { subst st1. unfold ask. cbn [snd]. now rewrite Htx. }
  rewrite Hask in E. rewrite Hpd, Hc in E.
  unfold bind at 1 in E. unfold provision in E. rewrite Hty in E.
  unfold bind at 1 in E.
  assert (Hg1 : grows st st1 [TransactionDetail (o_amount o) oid]) by reflexivity.
  assert (Hos1 : panelsStorage st1 = panelsStorage st) by reflexivity.
  destruct (ProvisionFacts.createReal_run o w st1)
    as (lc & more & u & e & n & p & uid & cmd & r0 & d & c
        & Hgc & Hps & _ & _ & Hlc & _).
  exists lc. split; [exact Hgc|]. split.
  { intros x Hx. eapply ProvisionFacts.provisioning_requests_quiet; eauto. }
  destruct (createRealPterodactylPanel o w st1) as [[msg|pd] st2].
  - cbn [fst snd] in *. unfold ret at 1 in E.
    unfold bind at 1 in E. unfold Date_now at 1 in E.
    unfold bind, write_back, get_state, set_orders, ret in E.
    injection E as <- <-. cbn [fst snd log panelsStorage].
    assert (Hlog : log st2 = log st1 ++ lc) by exact Hgc. rewrite Hlog.
    split; [|split; [reflexivity|]].
    + unfold grows in *. cbn [log]. rewrite Hg1, <- !app_assoc. reflexivity.
    + apply ProvisionFacts.lookup_store_same. rewrite Hps, Hos1. congruence.
  - cbn [fst snd] in *. unfold ret at 1 in E.
    unfold bind at 1 in E. unfold Date_now at 1 in E.
    assert (Hlog : log st2 = log st1 ++ lc) by exact Hgc. rewrite Hlog in E.
    set (o2 := completed o pd (clock w (log st1 ++ lc)) tx) in *.
    unfold bind at 1 in E.
    unfold write_back at 1 in E. unfold bind at 1 in E.
    unfold get_state at 1 in E. unfold set_orders at 1 in E.
    set (st3 := {| panelsStorage := store oid o2 (panelsStorage st2);
                   settingsCache := settingsCache st2;
                   settingsLastFetch := settingsLastFetch st2;
                   log := log st2 |}) in *.
    unfold bind at 1 in E. unfold record_result in E.
    unfold bind at 1 in E.
    pose proof (loadServerDatabase_run w st3) as Hg3.
    assert (Hos3 : panelsStorage (snd (loadServerDatabase w st3))
                   = panelsStorage st3) by reflexivity.
    assert (Hdb : fst (loadServerDatabase w st3)
                  = fst (loadServerDatabase w st2))
      by (rewrite !loadServerDatabase_value; reflexivity).
    rewrite <- Hdb.
    destruct (loadServerDatabase w st3) as [db st4]. cbn [fst snd] in *.
    assert (Hty2 : JS.str_is (o_type o2) "renewal" = false) by exact Hty.
    rewrite Hty2 in E.
    destruct (saveServerDatabase_run (db ++ [order_entry oid o2 pd]) w st4)
      as (l2 & Hg4 & Hp4 & Hp4' & _ & _ & Hso4).
    pose proof (saveServerDatabase_keeps_orders
                  (db ++ [order_entry oid o2 pd]) w st4) as Hos4.
    destruct (saveServerDatabase (db ++ [order_entry oid o2 pd]) w st4)
      as [[] st5]. cbn [fst snd] in *.
    unfold ret in E. injection E as <- <-.
    exists l2. split; [|split; [reflexivity|split; [|split]]].
    + unfold grows in *. change (log st3) with (log st2) in Hg3.
      rewrite Hg4, Hg3, Hlog, Hg1, <- !app_assoc. reflexivity.
    + rewrite Hos4, Hos3. cbn [panelsStorage].
      apply ProvisionFacts.lookup_store_same. rewrite Hps, Hos1. congruence.
    + exact Hso4.
    + exists (fst (loadSettings w st4)). split; assumption.
Qed.

(** X25: a paid order for a new panel is recorded once.  When the gateway
    reports the payment of an order without a panel as completed and the
    provisioning returns, [check-payment] answers with the panel and keeps
    it in the cache under the order, completed.  After the provisioning it
    reads the database and attempts one write, of the database it has read
    followed by one entry, named [ORDER-] and the order id, that tracks the
    new panel, and by the settings; the write is made when the store
    answers, and no other is.  A check of the same order that starts after
    this one has finished only polls the gateway: it provisions nothing. *)
Theorem a_paid_new_order_is_recorded_once :
  forall (fuel : nat) (order_id : string) (o : Order) (w : World) (st : State)
         (tx : option Transaction) (pd : PanelData),
    order_id <> EmptyString ->
    lookup order_id (panelsStorage st) = Some o ->
    o_panel_data o = None ->
    JS.str_is (o_type o) "renewal" = false ->
    transaction_detail w (log st ++ [TransactionDetail (o_amount o) order_id])
    = Some tx ->
    tx_completed tx = true ->
    let st1 := snd (ask (TransactionDetail (o_amount o) order_id)
                      transaction_detail w st) in
    fst (createRealPterodactylPanel o w st1) = Return pd ->
    let db := fst (loadServerDatabase w
                     (snd (createRealPterodactylPanel o w st1))) in
    let run := check_payment fuel order_id in
    fst (run w st) = Some (Checked tx (Some pd) (Some "completed"))
    /\ (exists o' s,
          let entry := order_entry order_id o' pd in
          lookup order_id (panelsStorage (snd (run w st))) = Some o'
          /\ o_panel_data o' = Some pd /\ o_status o' = Some "completed"
          /\ id entry = ("ORDER-" ++ order_id)%string
          /\ panel_data entry = Some pd
          /\ days entry = Some (JS.parseInt_or (o_days o) 30)
          /\ suspend_by entry = None
          /\ (puts (issued run w st) = [] \/
              puts (issued run w st) = [(db ++ [entry]) ++ [settings_item s]])
          /\ ((forall h, github_sha w h <> None) ->
              puts (issued run w st) = [(db ++ [entry]) ++ [settings_item s]]))
    /\ (exists rest,
          issued run w st
          = TransactionDetail (o_amount o) order_id
            :: issued (createRealPterodactylPanel o) w st1
               ++ GithubGet :: rest
          /\ store_only rest)
    /\ forall fuel' w',
         issued (check_payment fuel' order_id) w' (snd (run w st))
         = [TransactionDetail (o_amount o) order_id].
Proof.
  intros fuel oid o w st tx pd Hne Hl Hpd Hty Htx Hc st1 Hret db run.
  subst run db.
  destruct (check_payment_new_run fuel oid o w st tx Hne Hl Hpd Hty Htx Hc)
    as (lc & Hgc & Hquiet & H).
  fold st1 in Hgc, H. rewrite Hret in H. cbv zeta in H.
  destruct H as (l2 & Hg & Hr & Hlook & Hso & s & Hp & Hp').
  rewrite (grows_issued _ _ _ _ _ Hg), (grows_issued _ _ _ _ _ Hgc).
  assert (Hputs : puts ([TransactionDetail (o_amount o) oid] ++ lc
                        ++ [GithubGet] ++ l2) = puts l2).
  { rewrite !puts_app, (ProvisionFacts.quiet_puts lc Hquiet). reflexivity. }
  rewrite Hputs.
  split; [exact Hr|]. split.
  { eexists. exists s. cbv zeta. split; [exact Hlook|].
    do 6 (split; [reflexivity|]). split; [exact Hp|exact Hp']. }
  split.
  { exists l2. split; [reflexivity|exact Hso]. }
  intros fuel' w'.
  destruct (PaymentFacts.check_payment_keeps_panel fuel' oid _ pd w' _
              Hne Hlook eq_refl) as [Hi _].
  exact Hi.
Qed.

Lemma a_paid_new_order_is_recorded_once_witness :
  exists pd,
    fst (check_payment 1 "INV-3" (Samples.healthy 5 [] [])
           (Samples.with_orders [("INV-3", Samples.pending_order_of_bob)]))
    = Some (Checked (Some {| tx_status := Some "completed"; tx_raw := "" |})
              (Some pd) (Some "completed")).
Proof.
  eexists.
  refine (proj1 (a_paid_new_order_is_recorded_once 1 "INV-3"
                   Samples.pending_order_of_bob (Samples.healthy 5 [] [])
                   (Samples.with_orders [("INV-3", Samples.pending_order_of_bob)])
                   (Some {| tx_status := Some "completed"; tx_raw := "" |})
                   _ _ _ _ _ _ _ _)).
  - discriminate.
  - reflexivity.
  - reflexivity.
  - reflexivity.
  - reflexivity.
  - reflexivity.
  - vm_compute. reflexivity.
Defined.

(** X26: a provisioning that fails leaves the order completed, without a
    panel, and open to a retry.  When the gateway reports the payment as
    completed and the provisioning throws, [check-payment] answers with the
    error, writes nothing to the document store, and leaves the order in the
    cache with the status ['completed'], no panel and the error message,
    which is what the order endpoint then shows.  The next check that finds
    the payment completed starts the provisioning again: its second request
    is the lookup of the user name. *)
Theorem a_failed_provisioning_is_retried_by_the_next_check :
  forall (fuel : nat) (order_id u pn : string) (o : Order) (w : World)
         (st : State) (tx : option Transaction) (msg : string),
    order_id <> EmptyString ->
    lookup order_id (panelsStorage st) = Some o ->
    o_panel_data o = None ->
    JS.str_is (o_type o) "renewal" = false ->
    o_username o = Some u ->
    o_product_name o = Some pn ->
    transaction_detail w (log st ++ [TransactionDetail (o_amount o) order_id])
    = Some tx ->
    tx_completed tx = true ->
    fst (createRealPterodactylPanel o w
           (snd (ask (TransactionDetail (o_amount o) order_id)
                   transaction_detail w st))) = Throw msg ->
    let run := check_payment fuel order_id in
    let st' := snd (run w st) in
    fst (run w st) = Some (ProvisionFailed tx msg)
    /\ (forall x, In x (issued run w st) -> is_github x = false)
    /\ (exists o',
          lookup order_id (panelsStorage st') = Some o'
          /\ o_status o' = Some "completed"
          /\ o_panel_data o' = None
          /\ o_panel_error o' = Some msg
          /\ fst (get_order order_id w st') = OrderFound (order_view o'))
    /\ forall fuel' w' tx',
         transaction_detail w'
           (log st' ++ [TransactionDetail (o_amount o) order_id]) = Some tx' ->
         tx_completed tx' = true ->
         exists rest,
           issued (check_payment fuel' order_id) w' st'
           = TransactionDetail (o_amount o) order_id :: FindUser u :: rest.
Proof.
  intros fuel oid u pn o w st tx msg Hne Hl Hpd Hty Hu Hpn Htx Hc Hret run st'.
  subst run.
  destruct (check_payment_new_run fuel oid o w st tx Hne Hl Hpd Hty Htx Hc)
    as (lc & Hgc & Hquiet & H).
  rewrite Hret in H. destruct H as (Hg & Hr & Hlook). fold st' in Hg, Hlook.
  rewrite (grows_issued _ _ _ _ _ Hg).
  split; [exact Hr|]. split.
  { intros x Hx. apply in_app_or in Hx. destruct Hx as [[<-|[]]|Hx]; auto. }
  split.
  { eexists. split; [exact Hlook|]. repeat split; try reflexivity; auto.
    unfold get_order, bind, get_state, ret. cbn [fst]. now rewrite Hlook. }
  intros fuel' w' tx' Htx' Hc'.
  set (o' := failed o msg
               (clock w (log (snd (ask (TransactionDetail (o_amount o) oid)
                                     transaction_detail w st)) ++ lc)) tx) in *.
  destruct (check_payment_new_run fuel' oid o' w' st' tx' Hne Hlook Hpd Hty Htx' Hc')
    as (lc' & Hgc' & _ & H').
  set (st1' := snd (ask (TransactionDetail (o_amount o') oid)
                      transaction_detail w' st')) in *.
  assert (Hfirst : exists rest, lc' = FindUser u :: rest).
  { destruct (ProvisionFacts.createReal_first o' w' st1' u pn Hu Hpn)
      as [rest Hrest].
    exists rest. rewrite <- Hrest. symmetry. apply grows_issued. exact Hgc'. }
  destruct Hfirst as [rest ->].
  destruct (fst (createRealPterodactylPanel o' w' st1')).
  - destruct H' as (Hg' & _). eexists.
    rewrite (grows_issued _ _ _ _ _ Hg'). reflexivity.
  - destruct H' as (l2 & Hg' & _). eexists.
    rewrite (grows_issued _ _ _ _ _ Hg'). reflexivity.
Qed.

Lemma a_failed_provisioning_is_retried_by_the_next_check_witness :
  fst (check_payment 1 "INV-3" (MoreSamples.taken 5)
         (Samples.with_orders [("INV-3", Samples.pending_order_of_bob)]))
  = Some (ProvisionFailed
            (Some {| tx_status := Some "completed"; tx_raw := "" |})
            "Username bob sudah terdaftar.").
Proof.
  refine (proj1 (a_failed_provisioning_is_retried_by_the_next_check 1 "INV-3"
                   "bob" "Panel 1GB RAM"
                   Samples.pending_order_of_bob (MoreSamples.taken 5)
                   (Samples.with_orders [("INV-3", Samples.pending_order_of_bob)])
                   (Some {| tx_status := Some "completed"; tx_raw := "" |})
                   "Username bob sudah terdaftar."
                   _ _ _ _ _ _ _ _ _)).
  - discriminate.
  - reflexivity.
  - reflexivity.
  - reflexivity.
  - reflexivity.
  - reflexivity.
  - reflexivity.
  - reflexivity.
  - vm_compute. reflexivity.
Defined.

(** The requests of [force-create-panel] are those of its provisioning. *)
Lemma force_create_panel_quiet : forall body w st x,
  In x (issued (force_create_panel body) w st) -> is_github x = false.
Proof.
  intros body w st x.
  destruct (force_create_panel body w st) as [r stF] eqn:E.
  assert (Hi : forall l, grows st stF l ->
                 issued (force_create_panel body) w st = l).
  { intros l Hg. apply grows_issued. now rewrite E. }
  unfold force_create_panel in E.
  destruct (_ || _).
  { unfold ret in E. injection E as <- <-.
    rewrite (Hi [] (grows_refl st)). intros []. }
  unfold bind at 1 in E. unfold get_state at 1 in E.
  unfold bind at 1 in E.
  match type of E with
  | context [createRealPterodactylPanel ?o] =>
      destruct (ProvisionFacts.createReal_run o w st)
        as (lc & more & u & e & n & p & uid & cmd & r0 & d & c
            & Hgc & _ & _ & _ & Hlc & _);
      unfold bind at 1 in E;
      destruct (createRealPterodactylPanel o w st) as [[msg|pd] st2]
  end; cbn [fst snd] in *.
  - unfold ret in E. injection E as <- <-. rewrite (Hi lc Hgc).
    intros Hx. eapply ProvisionFacts.provisioning_requests_quiet; eauto.
  - unfold bind at 1 in E. unfold Date_now at 1 in E.
    unfold bind at 1 in E. unfold get_state at 1 in E.
    assert (Hlog : forall os rsp,
              (let (_, st') := set_orders os w st2 in ret rsp w st')
              = (r, stF) -> log stF = log st2).
    { intros os rsp H. unfold set_orders, ret in H. injection H as _ <-.
      reflexivity. }
    assert (Hg : grows st stF lc).
    { unfold grows in *. rewrite <- Hgc.
      destruct (lookup (f_order_id body) (panelsStorage st));
        unfold bind in E; eapply Hlog; exact E. }
    rewrite (Hi lc Hg).
    intros Hx. eapply ProvisionFacts.provisioning_requests_quiet; eauto.
Qed.

(** The requests of [manual-check] on an order that is no renewal: the poll
    of the gateway, and those of a provisioning. *)
Lemma manual_check_quiet : forall fuel order_id o w st x,
  lookup order_id (panelsStorage st) = Some o ->
  JS.str_is (o_type o) "renewal" = false ->
  In x (issued (manual_check fuel order_id) w st) -> is_github x = false.
Proof.
  intros fuel oid o w st x Hl Hty.
  destruct (manual_check fuel oid w st) as [r stF] eqn:E.
  assert (Hi : forall l, grows st stF l ->
                 issued (manual_check fuel oid) w st = l).
  { intros l Hg. apply grows_issued. now rewrite E. }
  unfold manual_check in E.
  destruct (negb (JS.truthy_str (Some oid))).
  { unfold ret in E. injection E as <- <-.
    rewrite (Hi [] (grows_refl st)). intros []. }
  unfold bind at 1 in E. unfold get_state at 1 in E. rewrite Hl in E.
  unfold bind at 1 in E. unfold ask at 1 in E.
  set (st1 := {| panelsStorage := panelsStorage st;
                 settingsCache := settingsCache st;
                 settingsLastFetch := settingsLastFetch st;
                 log := log st ++ [TransactionDetail (o_amount o) oid] |}) in *.
  assert (Hg1 : grows st st1 [TransactionDetail (o_amount o) oid]) by reflexivity.
  assert (Hone : forall rsp, (ret rsp w st1 : _ * State) = (r, stF) ->
            In x (issued (manual_check fuel oid) w st) -> is_github x = false).
  { intros rsp H. unfold ret in H. injection H as _ <-. rewrite (Hi _ Hg1).
    intros [<-|[]]. reflexivity. }
  destruct (transaction_detail w _) as [tx|]; [|eapply Hone; exact E].
  destruct (tx_completed tx); [|eapply Hone; exact E].
  destruct (o_panel_data o); [eapply Hone; exact E|].
  unfold bind at 1 in E. unfold provision in E. rewrite Hty in E.
  unfold bind at 1 in E.
  destruct (ProvisionFacts.createReal_run o w st1)
    as (lc & more & u & e & n & p & uid & cmd & r0 & d & c
        & Hgc & _ & _ & _ & Hlc & _).
  destruct (createRealPterodactylPanel o w st1) as [[msg|pd] st2];
    cbn [fst snd] in *; unfold ret at 1 in E;
    unfold bind, Date_now, write_back, get_state, set_orders, ret in E;
    injection E as <- <-;
    (rewrite (Hi ([TransactionDetail (o_amount o) oid] ++ lc))
       by (unfold grows in *; cbn [log]; rewrite Hgc, Hg1, <- app_assoc;
           reflexivity));
    intros Hx; apply in_app_or in Hx; destruct Hx as [[<-|[]]|Hx];
    try reflexivity;
    eapply ProvisionFacts.provisioning_requests_quiet; eauto.
Qed.

(** X27: the panels of [force-create-panel] and of [manual-check] are not
    persisted.  [force-create-panel], and [manual-check] on an order that is
    no renewal, send no request to the document store, whatever they
    provision: the new panel is held by the order cache of the process
    alone. *)
Theorem forced_and_manually_checked_panels_are_not_persisted :
  forall (w : World) (st : State) (x : Call),
    (forall body,
       In x (issued (force_create_panel body) w st) -> is_github x = false)
    /\ (forall fuel order_id o,
          lookup order_id (panelsStorage st) = Some o ->
          JS.str_is (o_type o) "renewal" = false ->
          In x (issued (manual_check fuel order_id) w st) ->
          is_github x = false).
Proof.
  intros w st x. split.
  - intros body. apply force_create_panel_quiet.
  - intros fuel oid o. apply manual_check_quiet.
Qed.

Lemma forced_and_manually_checked_panels_are_not_persisted_witness :
  In (FindUser "bob")
     (issued (manual_check 1 "INV-3") (Samples.healthy 5 [] [])
        (Samples.with_orders [("INV-3", Samples.pending_order_of_bob)]))
  /\ is_github (FindUser "bob") = false.
Proof.
  assert (H : In (FindUser "bob")
                (issued (manual_check 1 "INV-3") (Samples.healthy 5 [] [])
                   (Samples.with_orders
                      [("INV-3", Samples.pending_order_of_bob)])))
    by (vm_compute; right; left; reflexivity).
  split; [exact H|].
  exact (proj2 (forced_and_manually_checked_panels_are_not_persisted
                  (Samples.healthy 5 [] [])
                  (Samples.with_orders [("INV-3", Samples.pending_order_of_bob)])
                  (FindUser "bob"))
           1%nat "INV-3" Samples.pending_order_of_bob eq_refl eq_refl H).
Defined.

End RecordFacts.

(** ** The owner's account *)

Module OwnerFacts.
Import Deprovision ProcFacts DeprovisionFacts.

(** The request that deletes a user, in a log without cleanup requests. *)
Lemma no_cleanup_no_delete : forall l uid,
  existsb is_cleanup l = false -> ~ In (DeleteUser uid) l.
Proof.
  intros l uid H Hin.
  assert (Ht : existsb is_cleanup l = true).
  { apply existsb_exists. exists (DeleteUser uid). split; auto. }
  congruence.
Qed.

(** The cleanup of the administrator's deletion: when it deletes the user,
    the server's deletion has succeeded and the control plane has just
    answered that the user is no administrator and owns no other server. *)
Lemma cleanup_owner_deletes : forall serverId ownerId apiSuccess w st uid,
  In (DeleteUser uid) (issued (cleanup_owner serverId ownerId apiSuccess) w st) ->
  apiSuccess = true
  /\ issued (cleanup_owner serverId ownerId apiSuccess) w st
     = [GetUser uid; DeleteUser uid]
  /\ exists ua,
       get_user w (log st ++ [GetUser uid]) = Some ua
       /\ root_admin ua = false
       /\ remainingServers serverId ua = [].
Proof.
  intros serverId ownerId apiSuccess w st uid.
  destruct (cleanup_owner serverId ownerId apiSuccess w st) as [r stF] eqn:E.
  assert (Hi : forall l, grows st stF l ->
                 issued (cleanup_owner serverId ownerId apiSuccess) w st = l).
  { intros l Hg. apply grows_issued. now rewrite E. }
  unfold cleanup_owner in E.
  assert (Hnone : forall msg : string, ret msg w st = (r, stF) ->
            In (DeleteUser uid)
               (issued (cleanup_owner serverId ownerId apiSuccess) w st) -> False).
  { intros msg H. unfold ret in H. injection H as _ <-.
    rewrite (Hi [] (grows_refl st)). intros []. }
  destruct ownerId as [uid0|]; [|intros H; elim (Hnone _ E H)].
  destruct (JS.truthy_num (Some uid0)); [|intros H; elim (Hnone _ E H)].
  destruct apiSuccess; [|intros H; elim (Hnone _ E H)]. cbn [andb] in E.
  unfold bind, ask, ret in E. cbn [fst snd log] in E.
  destruct (get_user w (log st ++ [GetUser uid0])) as [ua|] eqn:Eua.
  2:{ injection E as _ <-. rewrite (Hi [GetUser uid0] eq_refl).
      intros [H|[]]. discriminate H. }
  destruct (root_admin ua) eqn:Era.
  { injection E as _ <-. rewrite (Hi [GetUser uid0] eq_refl).
    intros [H|[]]. discriminate H. }
  destruct (List.length (remainingServers serverId ua) =? 0)%nat eqn:Elen.
  2:{ injection E as _ <-. rewrite (Hi [GetUser uid0] eq_refl).
      intros [H|[]]. discriminate H. }
  cbn [fst snd log] in E. injection E as _ <-.
  assert (Hl : issued (cleanup_owner serverId (Some uid0) true) w st
               = [GetUser uid0; DeleteUser uid0]).
  { apply Hi. unfold grows. cbn [log]. now rewrite <- app_assoc. }
  rewrite Hl. intros [H|[H|[]]]; [discriminate H|]. injection H as ->.
  split; [reflexivity|]. split; [reflexivity|].
  exists ua. split; [exact Eua|]. split; [exact Era|].
  apply Nat.eqb_eq in Elen. now apply length_zero_iff_nil.
Qed.

(** The same for [deleteExpiredPanel]. *)
Lemma deleteExpiredPanel_deletes : forall sid u w st uid,
  In (DeleteUser uid) (issued (deleteExpiredPanel sid u) w st) ->
  issued (deleteExpiredPanel sid u) w st
  = [GetServer sid; DeleteServer sid; GetUser uid; DeleteUser uid]
  /\ exists ua,
       get_user w (log st ++ [GetServer sid; DeleteServer sid; GetUser uid])
       = Some ua
       /\ root_admin ua = false
       /\ remainingServers sid ua = [].
Proof.
  intros sid u w st uid.
  destruct (deleteExpiredPanel sid u w st) as [r stF] eqn:E.
  assert (Hi : forall l, grows st stF l ->
                 issued (deleteExpiredPanel sid u) w st = l).
  { intros l Hg. apply grows_issued. now rewrite E. }
  cbv beta iota zeta delta [deleteExpiredPanel forget_tracked_order bind ask
    ret get_state set_orders] in E.
  cbn [fst snd log] in E.
  destruct (get_server w (log st ++ [GetServer sid])) as [[uid0|]|].
  2,3: (injection E as _ <-; rewrite (Hi [GetServer sid] eq_refl);
        intros [H|[]]; discriminate H).
  destruct (JS.truthy_num (Some uid0)).
  2:{ injection E as _ <-. rewrite (Hi [GetServer sid] eq_refl).
      intros [H|[]]. discriminate H. }
  cbn [fst snd log] in E. rewrite <- !app_assoc in E. cbn [app] in E.
  destruct (get_user w (log st ++ [GetServer sid; DeleteServer sid; GetUser uid0]))
    as [ua|] eqn:Eua.
  2:{ injection E as _ <-.
      rewrite (Hi [GetServer sid; DeleteServer sid; GetUser uid0] eq_refl).
      intros [H|[H|[H|[]]]]; discriminate H. }
  destruct (root_admin ua) eqn:Era; cbn [negb andb] in E.
  { injection E as _ <-.
    rewrite (Hi [GetServer sid; DeleteServer sid; GetUser uid0] eq_refl).
    intros [H|[H|[H|[]]]]; discriminate H. }
  destruct (List.length (remainingServers sid ua) =? 0)%nat eqn:Elen.
  2:{ injection E as _ <-.
      rewrite (Hi [GetServer sid; DeleteServer sid; GetUser uid0] eq_refl).
      intros [H|[H|[H|[]]]]; discriminate H. }
  cbn [fst snd log] in E. rewrite <- ?app_assoc in E. cbn [app] in E.
  injection E as _ <-.
  assert (Hl : issued (deleteExpiredPanel sid u) w st
               = [GetServer sid; DeleteServer sid; GetUser uid0; DeleteUser uid0])
    by (apply Hi; reflexivity).
  rewrite Hl. intros [H|[H|[H|[H|[]]]]]; try discriminate H.
  injection H as ->. split; [reflexivity|].
  exists ua. split; [exact Eua|]. split; [exact Era|].
  apply Nat.eqb_eq in Elen. now apply length_zero_iff_nil.
Qed.

(** X28: a user is deleted only when nothing is left to them.  On both
    deletion workflows -- [deleteExpiredPanel] of the sweeper and the
    administrator's deletion -- a request to delete a user is sent only
    right after the control plane has answered, to the request about that
    very user, that the user is no administrator and owns no server besides
    the one being deleted; and the request to delete the server has been
    sent before. *)
Theorem a_user_is_deleted_only_when_nothing_is_left_to_them :
  forall (w : World) (st : State) (uid : Z),
    (forall sid u,
       In (DeleteUser uid) (issued (deleteExpiredPanel sid u) w st) ->
       exists pre post ua,
         issued (deleteExpiredPanel sid u) w st
         = pre ++ GetUser uid :: DeleteUser uid :: post
         /\ In (DeleteServer sid) pre
         /\ get_user w (log st ++ pre ++ [GetUser uid]) = Some ua
         /\ root_admin ua = false
         /\ remainingServers sid ua = [])
    /\ (forall sid,
          In (DeleteUser uid) (issued (admin_delete_panel sid) w st) ->
          exists pre post ua,
            issued (admin_delete_panel sid) w st
            = pre ++ GetUser uid :: DeleteUser uid :: post
            /\ In (DeleteServer (Some sid)) pre
            /\ get_user w (log st ++ pre ++ [GetUser uid]) = Some ua
            /\ root_admin ua = false
            /\ remainingServers (Some sid) ua = []).
Proof.
  intros w st uid. split.
  - intros sid u Hin.
    destruct (deleteExpiredPanel_deletes sid u w st uid Hin)
      as (Hl & ua & Hua & Hra & Hrem).
    exists [GetServer sid; DeleteServer sid], [], ua.
    split; [exact Hl|]. split; [right; now left|]. auto.
  - intros sid.
    destruct (admin_delete_panel sid w st) as [r stF] eqn:E.
    assert (Hi : forall l, grows st stF l ->
                   issued (admin_delete_panel sid) w st = l).
    { intros l Hg. apply grows_issued. now rewrite E. }
    unfold admin_delete_panel in E. unfold bind at 1 in E.
    destruct (lookup_owner_run (Some sid) w st) as (l1 & Hg1 & _ & Hc1 & _).
    destruct (lookup_owner (Some sid) w st) as [ownerId st1]. cbn [fst snd] in *.
    unfold bind at 1 in E. unfold ask at 1 in E. cbn [fst snd log] in E.
    set (st2 := {| panelsStorage := panelsStorage st1;
                   settingsCache := settingsCache st1;
                   settingsLastFetch := settingsLastFetch st1;
                   log := log st1 ++ [DeleteServer (Some sid)] |}) in E.
    assert (Hg2 : grows st1 st2 [DeleteServer (Some sid)]) by reflexivity.
    destruct (api_outcome (delete_server w (log st1 ++ [DeleteServer (Some sid)])))
      as [apiSuccess apiMessage].
    unfold bind at 1 in E.
    pose proof (cleanup_owner_deletes (Some sid) ownerId apiSuccess w st2 uid)
      as Hclean.
    assert (Hg3 : grows st2 (snd (cleanup_owner (Some sid) ownerId apiSuccess w st2))
                    (issued (cleanup_owner (Some sid) ownerId apiSuccess) w st2)).
    { destruct (cleanup_owner_run (Some sid) ownerId apiSuccess w st2)
        as (l & Hg & _). now rewrite (grows_issued _ _ _ _ _ Hg). }
    set (l2 := issued (cleanup_owner (Some sid) ownerId apiSuccess) w st2) in *.
    destruct (cleanup_owner (Some sid) ownerId apiSuccess w st2) as [msg st3].
    cbn [fst snd] in *. unfold bind at 1 in E.
    destruct (delete_local_run (Some sid) w st3) as (l3 & Hg4 & _ & Hc3 & _).
    destruct (delete_local (Some sid) w st3) as [localDeleted st4].
    cbn [fst snd] in *.
    unfold bind, forget_tracked_order, get_state, set_orders, ret in E.
    cbn [fst snd] in E. injection E as _ <-.
    assert (Hg : grows st
                   {| panelsStorage := forget_order (Some sid) (panelsStorage st4);
                      settingsCache := settingsCache st4;
                      settingsLastFetch := settingsLastFetch st4;
                      log := log st4 |}
                   ((l1 ++ [DeleteServer (Some sid)]) ++ l2 ++ l3)).
    { unfold grows in *. cbn [log] in *.
      rewrite Hg4, Hg3, Hg2, Hg1, <- !app_assoc. reflexivity. }
    rewrite (Hi _ Hg). intros Hin.
    assert (Hin2 : In (DeleteUser uid) l2).
    { apply in_app_or in Hin. destruct Hin as [Hin|Hin].
      - apply in_app_or in Hin. destruct Hin as [Hin|[Hin|[]]].
        + elim (no_cleanup_no_delete _ _ Hc1 Hin).
        + discriminate Hin.
      - apply in_app_or in Hin. destruct Hin as [Hin|Hin]; auto.
        elim (no_cleanup_no_delete _ _ Hc3 Hin). }
    destruct (Hclean Hin2) as (_ & Hl2 & ua & Hua & Hra & Hrem).
    exists (l1 ++ [DeleteServer (Some sid)]), l3, ua.
    split; [rewrite Hl2; reflexivity|]. split.
    { apply in_or_app. right. now left. }
    split; [|auto].
    rewrite <- Hua. f_equal. unfold grows in Hg1, Hg2. cbn [log] in Hg2.
    rewrite Hg2, Hg1, <- !app_assoc. reflexivity.
Qed.

Lemma a_user_is_deleted_only_when_nothing_is_left_to_them_witness :
  exists pre post ua,
    issued (deleteExpiredPanel (Some 7) (Some "bob"))
      (Samples.healthy 5 [] []) Samples.fresh
    = pre ++ GetUser 12 :: DeleteUser 12 :: post
    /\ root_admin ua = false
    /\ remainingServers (Some 7) ua = [].
Proof.
  destruct (proj1 (a_user_is_deleted_only_when_nothing_is_left_to_them
                     (Samples.healthy 5 [] []) Samples.fresh 12)
              (Some 7) (Some "bob"))
    as (pre & post & ua & H1 & _ & _ & H2 & H3).
  - vm_compute. do 3 right. left. reflexivity.
  - exists pre, post, ua. auto.
Defined.

End OwnerFacts.

(** ** Edge cases of the reconciler and of the price chain *)

Module EdgeFacts.
Import ProcFacts.



Lemma basePrice_outside : forall pid pm,
  ~ In pid Notions.catalogue -> Price.basePrice_of (Some pid) pm = 0.
Proof.
  intros pid pm H. unfold Price.basePrice_of, JS.str_is.
  repeat match goal with
         | |- context [String.eqb pid ?lit] =>
             destruct (String.eqb_spec pid lit) as [->|_];
             [exfalso; apply H; unfold Notions.catalogue; simpl; tauto|]
         end.
  reflexivity.
Qed.

Lemma zero_price : forall d,
  JS.Math_ceil (JS.of_Z d) <> None -> Price.calculatedPrice 0 d = Some 0.
Proof.
  intros d H. unfold Price.calculatedPrice.
  change (Price.pricePerDay 0) with (S754_zero false).
  unfold JS.fmul. destruct (JS.of_Z d); try reflexivity; now elim H.
Qed.

(** X30: a product outside the catalogue is priced 0.  For a product id
    that is none of the eight ids of the price chain, and days that are a
    finite number, [validatePrice] computes the price 0: it refuses a
    request only when it names an amount other than 0, reporting
    [parseInt] of it as received, and lets a request without an amount
    through with the calculated price 0, from which [create-qris] takes the
    amount 0. *)
Theorem a_product_outside_the_catalogue_is_priced_zero :
  forall (st : Settings) (c : Config) (pm : PriceMap) (body : Price.Body)
         (pid : string),
    match PRICES st with Some m => Some m | None => cfg_PRICES c end = Some pm ->
    Price.product_id body = Some pid ->
    pid <> EmptyString ->
    ~ In pid Notions.catalogue ->
    JS.Math_ceil (JS.of_Z (JS.num_or (Price.days body) 30)) <> None ->
    let priced := Some (Some 0, 0, Price.pricePerDay 0) in
    Price.check_price st c body
    = match Price.amount body with
      | Some a =>
          if a =? 0 then Price.Next priced
          else Price.Invalid (Some 0) (JS.parseInt a) 0
                 (JS.num_or (Price.days body) 30) (Price.pricePerDay 0)
      | None => Price.Next priced
      end
    /\ Shop.amount_of priced = Some 0.
Proof.
  intros st c pm body pid Hpm Hpid Hne Hout Hfin priced. subst priced.
  split; [|reflexivity].
  unfold Price.check_price. rewrite Hpm, Hpid.
  assert (Ht : JS.truthy_str (Some pid) = true)
    by (destruct pid; [congruence|reflexivity]).
  rewrite Ht, (basePrice_outside _ pm Hout), (zero_price _ Hfin).
  destruct (Price.amount body) as [a|]; [|reflexivity].
  cbn [Price.opt_Z_eqb].
  destruct (Z.eqb_spec a 0) as [->|Hnz]; [reflexivity|].
  assert (Hta : JS.truthy_num (Some a) = true)
    by (destruct a; [now elim Hnz| |]; reflexivity).
  rewrite Hta.
  destruct (Z.eqb_spec (JS.parseInt a) 0) as [H0|_]; [|reflexivity].
  exfalso. apply Hnz. now apply JSFacts.parseInt_zero.
Qed.

Lemma a_product_outside_the_catalogue_is_priced_zero_witness :
  Price.check_price (Price.settings_with Price.no_prices) Price.empty_config
    {| Price.product_id := Some "panel-9gb"; Price.days := Some 30;
       Price.amount := None |}
  = Price.Next (Some (Some 0, 0, Price.pricePerDay 0)).
Proof.
  refine (proj1 (a_product_outside_the_catalogue_is_priced_zero
                   (Price.settings_with Price.no_prices) Price.empty_config
                   Price.no_prices
                   {| Price.product_id := Some "panel-9gb";
                      Price.days := Some 30; Price.amount := None |}
                   "panel-9gb" eq_refl eq_refl _ _ _)).
  - discriminate.
  - unfold Notions.catalogue. simpl.
    intros [H|[H|[H|[H|[H|[H|[H|[H|[]]]]]]]]]; discriminate H.
  - vm_compute. discriminate.
Defined.

End EdgeFacts.
